(** * WaCa storage bot: the inventory ledger of [bot.py]

    A shallow embedding of the ledger part of [bot.py]: key normalisation,
    the SQLite tables of [LagerDB] as lists of rows, the FIFO take loops of
    [fbh_take] and [kl_take_herb], the drying update, the pantry, the
    spoilage classification and the recipe command [kl_herstellen].

    Conventions of the embedding.
    - Python [int] is [Z]; [//] on a positive divisor is [Z.div].
    - A table is the list of its rows in rowid order.  [INSERT] appends,
      [UPDATE] maps over the rows in place, [DELETE] filters.
    - [ORDER BY added_at ASC] is a stable sort of the scanned rows: rows
      with equal timestamps stay in rowid order.
    - [now_ts()] is an argument of every operation that reads the clock;
      one command reads one clock value.
    - The Discord side of a command (guild and member checks, storage
      lookup by name, role check) is left out: a command starts from the
      resolved [storage_id], and its reply is a value of a result type. *)

From stdpp Require Import gmap strings.
From Stdlib Require Import ZArith String Ascii List Bool Lia.
From Stdlib Require Import Sorting.Sorted Sorting.Permutation.
From Stdlib Require Import DecimalString.
Import ListNotations.

Local Open Scope string_scope.
Local Open Scope Z_scope.
Local Open Scope list_scope.

(** ** Python text operations

    [norm_key] is built from three methods of Python's [str].  They work on
    Unicode text; the source does not define them, so the development takes
    them as an interface and every general theorem holds for any
    implementation of it. *)

Class PyText := {
  py_strip : string -> string;        (* s.strip()  *)
  py_split : string -> list string;   (* s.split()  *)
  py_lower : string -> string;        (* s.lower()  *)
}.

(** *** An implementation for Basic Latin and Latin-1

    Strings are UTF-8 byte strings.  The functions below agree with Python
    on text whose code points are below U+0100; a code point above that is
    kept as it is and is never white space. *)

Definition byte_in (lo hi : N) (c : ascii) : bool :=
  ((lo <=? N_of_ascii c) && (N_of_ascii c <=? hi))%N.

Definition byte_is (n : N) (c : ascii) : bool := (N_of_ascii c =? n)%N.

Definition byte_add (n : N) (c : ascii) : ascii := ascii_of_N (N_of_ascii c + n).

(** White space of one byte: TAB..CR, FS..US and the space. *)
Definition is_ascii_space (c : ascii) : bool :=
  byte_in 9 13 c || byte_in 28 32 c.

(** Second byte of U+0085 (NEL) and U+00A0 (NBSP) after the lead byte C2. *)
Definition is_c2_space (d : ascii) : bool := byte_is 133 d || byte_is 160 d.

Definition is_lead_c2 (c : ascii) : bool := byte_is 194 c.
Definition is_lead_c3 (c : ascii) : bool := byte_is 195 c.

Fixpoint all_space (s : string) : bool :=
  match s with
  | EmptyString => true
  | String c rest =>
      if is_ascii_space c then all_space rest
      else if is_lead_c2 c then
        match rest with
        | String d rest' => is_c2_space d && all_space rest'
        | EmptyString => false
        end
      else false
  end.

Fixpoint latin1_lstrip (s : string) : string :=
  match s with
  | EmptyString => EmptyString
  | String c rest =>
      if is_ascii_space c then latin1_lstrip rest
      else if is_lead_c2 c then
        match rest with
        | String d rest' => if is_c2_space d then latin1_lstrip rest' else s
        | EmptyString => s
        end
      else s
  end.

Fixpoint latin1_rstrip (s : string) : string :=
  match s with
  | EmptyString => EmptyString
  | String c rest => if all_space s then EmptyString else String c (latin1_rstrip rest)
  end.

Definition latin1_strip (s : string) : string := latin1_rstrip (latin1_lstrip s).

Definition flush (cur : string) : list string :=
  match cur with EmptyString => [] | _ => [cur] end.

Fixpoint latin1_split_from (cur s : string) : list string :=
  match s with
  | EmptyString => flush cur
  | String c rest =>
      if is_ascii_space c then flush cur ++ latin1_split_from EmptyString rest
      else if is_lead_c2 c then
        match rest with
        | String d rest' =>
            if is_c2_space d then flush cur ++ latin1_split_from EmptyString rest'
            else latin1_split_from (String.append cur (String c (String d EmptyString))) rest'
        | EmptyString => flush (String.append cur (String c EmptyString))
        end
      else latin1_split_from (String.append cur (String c EmptyString)) rest
  end.

Definition latin1_split (s : string) : list string := latin1_split_from EmptyString s.

Definition ascii_lower (c : ascii) : ascii :=
  if byte_in 65 90 c then byte_add 32 c else c.

(** U+00C0..U+00DE without U+00D7 are the upper-case letters of Latin-1;
    in UTF-8 they are C3 80..C3 9E and their lower case is 32 further. *)
Definition is_c3_upper (d : ascii) : bool :=
  byte_in 128 158 d && negb (byte_is 151 d).

Fixpoint latin1_lower (s : string) : string :=
  match s with
  | EmptyString => EmptyString
  | String c rest =>
      if is_lead_c3 c then
        match rest with
        | String d rest' =>
            String c (String (if is_c3_upper d then byte_add 32 d else d)
                             (latin1_lower rest'))
        | EmptyString => s
        end
      else String (ascii_lower c) (latin1_lower rest)
  end.

Definition latin1_text : PyText :=
  {| py_strip := latin1_strip; py_split := latin1_split; py_lower := latin1_lower |}.

(** Unicode case folding on the same range.  It differs from lower-casing
    at U+00DF (sharp s, folded to "ss") and at U+00B5 (micro sign, folded to
    U+03BC).  The source never calls it; it is here because the
    specification describes key normalisation with it. *)
Fixpoint latin1_casefold (s : string) : string :=
  match s with
  | EmptyString => EmptyString
  | String c rest =>
      if is_lead_c3 c then
        match rest with
        | String d rest' =>
            if byte_is 159 d then String "s" (String "s" (latin1_casefold rest'))
            else String c (String (if is_c3_upper d then byte_add 32 d else d)
                                  (latin1_casefold rest'))
        | EmptyString => s
        end
      else if is_lead_c2 c then
        match rest with
        | String d rest' =>
            if byte_is 181 d
            then String (ascii_of_N 206) (String (ascii_of_N 188) (latin1_casefold rest'))
            else String c (String d (latin1_casefold rest'))
        | EmptyString => s
        end
      else String (ascii_lower c) (latin1_casefold rest)
  end.

(** Normalisation as the specification words it: case-fold, then drop
    leading and trailing white space and collapse every inner run. *)
Definition spec_norm_latin1 (s : string) : string :=
  String.concat " " (latin1_split (latin1_strip (latin1_casefold s))).

(** ** Constants and key normalisation *)

Definition DEFAULT_FBH_SMELL_DAYS : Z := 7.
Definition DEFAULT_FBH_RUIN_DAYS : Z := 14.

Definition SAISON_TIMES : gmap string (Z * Z) :=
  <["Blattgrüne" := (2, 5)]>
  (<["Blattleere" := (7, 10)]>
  (<["Blattfall" := (4, 7)]>
  (<["Blattfrische" := (4, 7)]> ∅))).

Section Normalisation.
Context `{PyText}.

Definition norm_key (s : string) : string :=
  py_lower (String.concat " " (py_split (py_strip s))).

(** [{norm_key(x): x for x in xs}]: a later entry replaces an earlier one. *)
Definition allowed_map_of (xs : list string) : gmap string string :=
  fold_left (fun m x => <[norm_key x := x]> m) xs ∅.

Definition is_allowed (name : string) (allowed_map : gmap string string) : bool :=
  bool_decide (is_Some (allowed_map !! norm_key name)).

Definition canonical (name : string) (allowed_map : gmap string string) : string :=
  default (py_strip name) (allowed_map !! norm_key name).
End Normalisation.

(** ** Configuration

    [config.json] is not part of the sources; its three entries are the
    fields of a record.  A recipe is a JSON object, read by Python into a
    dictionary that iterates in the order of the file. *)

Record Config := {
  allowed_fbh_prey : list string;
  allowed_kl_herbs : list string;
  kl_rezepte : gmap string (list (string * Z));
}.

Definition nonempty (s : string) : bool :=
  match s with EmptyString => false | _ => true end.

Section Configuration.
Context `{PyText}.

(** [[x.strip() for x in CONFIG.get(..., []) if x.strip()]] *)
Definition stripped_entries (xs : list string) : list string :=
  List.filter nonempty (map py_strip xs).

Definition ALLOWED_FBH_PREY (cfg : Config) : list string := stripped_entries (allowed_fbh_prey cfg).
Definition ALLOWED_KL_HERBS (cfg : Config) : list string := stripped_entries (allowed_kl_herbs cfg).
Definition KL_RECIPES (cfg : Config) : gmap string (list (string * Z)) := kl_rezepte cfg.
Definition ALLOWED_FBH_SET (cfg : Config) : gmap string string := allowed_map_of (ALLOWED_FBH_PREY cfg).
Definition ALLOWED_KL_SET (cfg : Config) : gmap string string := allowed_map_of (ALLOWED_KL_HERBS cfg).
End Configuration.

(** ** Tables *)

Record Settings := {
  saison : string;
  fbh_saison_verderb : bool;
  kl_trocknen : bool;
}.

(** The column defaults of [guild_settings]. *)
Definition default_settings : Settings :=
  {| saison := "Blattfrische"; fbh_saison_verderb := false; kl_trocknen := false |}.

Record Batch := {
  batch_id : Z;
  batch_storage_id : Z;
  batch_item_key : string;
  batch_item_display : string;
  batch_qty : Z;
  batch_added_at : Z;
  batch_added_by : Z;
}.

(** The two values the code writes into the [state] column. *)
Inductive LotState := frisch | getrocknet.

Record Lot := {
  lot_id : Z;
  lot_storage_id : Z;
  lot_herb_key : string;
  lot_herb_display : string;
  lot_qty : Z;
  lot_state : LotState;
  lot_added_at : Z;
  lot_added_by : Z;
}.

Record PantryRow := {
  pantry_storage_id : Z;
  pantry_item_key : string;
  pantry_item_display : string;
  pantry_qty : Z;
  pantry_updated_at : Z;
  pantry_updated_by : Z;
}.

(** The database.  The two [_seq] fields are the AUTOINCREMENT counters:
    the largest id handed out so far. *)
Record DB := {
  guild_settings : gmap Z Settings;
  fbh_batches : list Batch;
  fbh_batches_seq : Z;
  kl_herb_lots : list Lot;
  kl_herb_lots_seq : Z;
  kl_pantry : list PantryRow;
}.

Definition empty_db : DB :=
  {| guild_settings := ∅; fbh_batches := []; fbh_batches_seq := 0;
     kl_herb_lots := []; kl_herb_lots_seq := 0; kl_pantry := [] |}.

Definition with_settings (m : gmap Z Settings) (db : DB) : DB :=
  {| guild_settings := m; fbh_batches := fbh_batches db;
     fbh_batches_seq := fbh_batches_seq db; kl_herb_lots := kl_herb_lots db;
     kl_herb_lots_seq := kl_herb_lots_seq db; kl_pantry := kl_pantry db |}.

Definition with_batches (t : list Batch) (db : DB) : DB :=
  {| guild_settings := guild_settings db; fbh_batches := t;
     fbh_batches_seq := fbh_batches_seq db; kl_herb_lots := kl_herb_lots db;
     kl_herb_lots_seq := kl_herb_lots_seq db; kl_pantry := kl_pantry db |}.

Definition with_lots (t : list Lot) (db : DB) : DB :=
  {| guild_settings := guild_settings db; fbh_batches := fbh_batches db;
     fbh_batches_seq := fbh_batches_seq db; kl_herb_lots := t;
     kl_herb_lots_seq := kl_herb_lots_seq db; kl_pantry := kl_pantry db |}.

Definition with_pantry (t : list PantryRow) (db : DB) : DB :=
  {| guild_settings := guild_settings db; fbh_batches := fbh_batches db;
     fbh_batches_seq := fbh_batches_seq db; kl_herb_lots := kl_herb_lots db;
     kl_herb_lots_seq := kl_herb_lots_seq db; kl_pantry := t |}.

Definition set_batch_qty (q : Z) (b : Batch) : Batch :=
  {| batch_id := batch_id b; batch_storage_id := batch_storage_id b;
     batch_item_key := batch_item_key b; batch_item_display := batch_item_display b;
     batch_qty := q; batch_added_at := batch_added_at b; batch_added_by := batch_added_by b |}.

Definition set_lot_qty (q : Z) (l : Lot) : Lot :=
  {| lot_id := lot_id l; lot_storage_id := lot_storage_id l;
     lot_herb_key := lot_herb_key l; lot_herb_display := lot_herb_display l;
     lot_qty := q; lot_state := lot_state l;
     lot_added_at := lot_added_at l; lot_added_by := lot_added_by l |}.

Definition set_lot_state (st : LotState) (l : Lot) : Lot :=
  {| lot_id := lot_id l; lot_storage_id := lot_storage_id l;
     lot_herb_key := lot_herb_key l; lot_herb_display := lot_herb_display l;
     lot_qty := lot_qty l; lot_state := st;
     lot_added_at := lot_added_at l; lot_added_by := lot_added_by l |}.

Definition lot_state_eqb (a b : LotState) : bool :=
  match a, b with
  | frisch, frisch | getrocknet, getrocknet => true
  | _, _ => false
  end.

(** ** SQL building blocks *)

Section Ordering.
Context {A : Type} (le : A -> A -> bool).

Fixpoint insert_by (x : A) (l : list A) : list A :=
  match l with
  | [] => [x]
  | y :: l' => if le x y then x :: l else y :: insert_by x l'
  end.

(** Stable insertion sort: an element goes in front of the first later
    row that is not smaller. *)
Definition order_by (l : list A) : list A := fold_right insert_by [] l.
End Ordering.

(** [COLLATE NOCASE] folds the 26 ASCII capitals and compares bytes. *)
Fixpoint ascii_fold (s : string) : string :=
  match s with
  | EmptyString => EmptyString
  | String c rest => String (ascii_lower c) (ascii_fold rest)
  end.

Definition nocase_le (a b : string) : bool := String.leb (ascii_fold a) (ascii_fold b).

(** The keys of the groups of [GROUP BY], each once, in order of first
    appearance. *)
Fixpoint group_keys (ks : list string) : list string :=
  match ks with
  | [] => []
  | k :: ks' => k :: List.filter (fun k' => negb (String.eqb k' k)) (group_keys ks')
  end.

Definition sum_Z (l : list Z) : Z := fold_right Z.add 0 l.

(** ** The take loop

    [fbh_take] and [kl_take_herb] run the same loop over the selected
    [(id, qty)] pairs, on two tables.  It is written once, over any row
    type with an id and a quantity. *)

Section TakeLoop.
Context {R : Type} (row_id : R -> Z) (row_qty : R -> Z) (set_qty : Z -> R -> R).

(** [DELETE FROM t WHERE id=?] *)
Definition delete_by_id (i : Z) (t : list R) : list R :=
  List.filter (fun r => negb (row_id r =? i)) t.

(** [UPDATE t SET qty=? WHERE id=?] *)
Definition update_qty_by_id (q i : Z) (t : list R) : list R :=
  map (fun r => if row_id r =? i then set_qty q r else r) t.

(** The loop threads [to_remove], [removed] and the table. *)
Fixpoint take_loop (rows : list (Z * Z)) (to_remove removed : Z) (t : list R)
  : Z * Z * list R :=
  match rows with
  | [] => (to_remove, removed, t)
  | (rid, rqty) :: rest =>
      if to_remove <=? 0 then (to_remove, removed, t)
      else
        let take := Z.min rqty to_remove in
        let new_qty := rqty - take in
        let t' := if new_qty <=? 0 then delete_by_id rid t
                  else update_qty_by_id new_qty rid t in
        take_loop rest (to_remove - take) (removed + take) t'
  end.

(** [SELECT id, qty] of the chosen rows. *)
Definition id_qty (rows : list R) : list (Z * Z) :=
  map (fun r => (row_id r, row_qty r)) rows.
End TakeLoop.

(** *** The loop in the words of the specification

    Going through the quantities oldest first, each row contributes the
    smaller of what is still asked for and what it holds. *)
Fixpoint fifo_contrib (qtys : list Z) (request : Z) : list Z :=
  match qtys with
  | [] => []
  | q :: rest => Z.min request q :: fifo_contrib rest (request - Z.min request q)
  end.

Fixpoint lookup_id (i : Z) (plan : list (Z * Z)) : option Z :=
  match plan with
  | [] => None
  | (j, c) :: rest => if j =? i then Some c else lookup_id i rest
  end.

Section ApplyPlan.
Context {R : Type} (row_id : R -> Z) (row_qty : R -> Z) (set_qty : Z -> R -> R).

(** A row with a contribution is deleted when it is drained and keeps its
    place with a smaller quantity otherwise; a row without one stays. *)
Definition apply_contrib (plan : list (Z * Z)) (t : list R) : list R :=
  flat_map (fun r =>
    match lookup_id (row_id r) plan with
    | None => [r]
    | Some c => if row_qty r - c <=? 0 then [] else [set_qty (row_qty r - c) r]
    end) t.
End ApplyPlan.

(** ** LagerDB *)

Inductive FbhStatus := status_frisch | status_mueffelt | status_verdorben.

(** One entry of the list [missing] of [kl_herstellen]; the source formats
    it as "<name> (nicht erlaubt ...)" or "<name>: fehlt <need - have>
    (braucht <need>, hat <have>)". *)
Inductive Missing :=
  | nicht_erlaubt (herb_name : string)
  | fehlt (herb_name : string) (shortfall need have : Z).

(** The replies of [kl_herstellen] after the storage is resolved. *)
Inductive HerstellenReply :=
  | menge_muss_positiv_sein
  | rezept_nicht_gefunden
  | nicht_genug_zutaten (missing : list Missing)
  | unerwarteter_fehler
  | hergestellt (rezept : string) (menge : Z).

(** The replies of the FBH branch of [inventar_anzeigen]. *)
Inductive InventarReply :=
  | lager_ist_leer
  | fbh_inventar (saison : string) (enabled : bool) (status : FbhStatus)
                 (totals : list (string * Z)).

Section Ledger.
Context `{PyText}.

(** *** settings *)

(** [INSERT OR IGNORE INTO guild_settings (guild_id) VALUES (?)] *)
Definition ensure_settings (guild_id : Z) (db : DB) : DB :=
  match guild_settings db !! guild_id with
  | Some _ => db
  | None => with_settings (<[guild_id := default_settings]> (guild_settings db)) db
  end.

Definition get_settings (guild_id : Z) (db : DB) : Settings * DB :=
  let db' := ensure_settings guild_id db in
  (default default_settings (guild_settings db' !! guild_id), db').

Definition set_saison (guild_id : Z) (s : string) (db : DB) : DB :=
  let db' := ensure_settings guild_id db in
  with_settings
    (alter (fun r => {| saison := s; fbh_saison_verderb := fbh_saison_verderb r;
                        kl_trocknen := kl_trocknen r |}) guild_id (guild_settings db')) db'.

Definition set_fbh_saison_verderb (guild_id : Z) (active : bool) (db : DB) : DB :=
  let db' := ensure_settings guild_id db in
  with_settings
    (alter (fun r => {| saison := saison r; fbh_saison_verderb := active;
                        kl_trocknen := kl_trocknen r |}) guild_id (guild_settings db')) db'.

Definition set_kl_trocknen (guild_id : Z) (active : bool) (db : DB) : DB :=
  let db' := ensure_settings guild_id db in
  with_settings
    (alter (fun r => {| saison := saison r; fbh_saison_verderb := fbh_saison_verderb r;
                        kl_trocknen := active |}) guild_id (guild_settings db')) db'.

(** *** FBH *)

Definition batch_in (storage_id : Z) (b : Batch) : bool :=
  batch_storage_id b =? storage_id.

Definition batch_matches (storage_id : Z) (k : string) (b : Batch) : bool :=
  (batch_storage_id b =? storage_id) && String.eqb (batch_item_key b) k.

Definition oldest_batch_first (a b : Batch) : bool := batch_added_at a <=? batch_added_at b.

Definition fbh_add (storage_id : Z) (item_display : string) (qty user_id now : Z) (db : DB) : DB :=
  let k := norm_key item_display in
  let new_id := fbh_batches_seq db + 1 in
  {| guild_settings := guild_settings db;
     fbh_batches := fbh_batches db ++
       [ {| batch_id := new_id; batch_storage_id := storage_id; batch_item_key := k;
            batch_item_display := py_strip item_display; batch_qty := qty;
            batch_added_at := now; batch_added_by := user_id |} ];
     fbh_batches_seq := new_id;
     kl_herb_lots := kl_herb_lots db; kl_herb_lots_seq := kl_herb_lots_seq db;
     kl_pantry := kl_pantry db |}.

(** The groups of [SELECT item_display, SUM(qty) ... GROUP BY item_key] with
    their key.  SQLite takes the bare column [item_display] from some row of
    the group; the model takes the first. *)
Definition fbh_total_groups (storage_id : Z) (db : DB) : list (string * (string * Z)) :=
  let rows := List.filter (batch_in storage_id) (fbh_batches db) in
  map (fun k =>
         let g := List.filter (fun b => String.eqb (batch_item_key b) k) rows in
         (k, (match g with b :: _ => batch_item_display b | [] => EmptyString end,
              sum_Z (map batch_qty g))))
      (group_keys (map batch_item_key rows)).

Definition fbh_total (storage_id : Z) (db : DB) : list (string * Z) :=
  let rows := order_by (fun a b => nocase_le (fst a) (fst b))
                       (map snd (fbh_total_groups storage_id db)) in
  List.filter (fun r => 0 <? snd r) rows.

(** [SELECT id, qty ... WHERE storage_id=? AND item_key=? ORDER BY added_at ASC] *)
Definition fbh_select (storage_id : Z) (k : string) (t : list Batch) : list Batch :=
  order_by oldest_batch_first (List.filter (batch_matches storage_id k) t).

Definition fbh_take (storage_id : Z) (item_display : string) (qty : Z) (db : DB) : Z * DB :=
  let k := norm_key item_display in
  let batches := id_qty batch_id batch_qty (fbh_select storage_id k (fbh_batches db)) in
  let '(_, removed, t) := take_loop batch_id set_batch_qty batches qty 0 (fbh_batches db) in
  (removed, with_batches t db).

Definition fbh_batches_for_status (storage_id : Z) (db : DB) : list (string * Z * Z) :=
  map (fun b => (batch_item_display b, batch_qty b, batch_added_at b))
      (order_by oldest_batch_first (List.filter (batch_in storage_id) (fbh_batches db))).

(** *** KL drying *)

Definition kl_mark_dried_older_than (storage_id cutoff_ts : Z) (db : DB) : DB :=
  with_lots
    (map (fun l =>
            if (lot_storage_id l =? storage_id) && lot_state_eqb (lot_state l) frisch
               && (lot_added_at l <=? cutoff_ts)
            then set_lot_state getrocknet l else l)
         (kl_herb_lots db)) db.

(** *** KL herbs *)

Definition lot_matches (storage_id : Z) (k : string) (l : Lot) : bool :=
  (lot_storage_id l =? storage_id) && String.eqb (lot_herb_key l) k.

Definition lot_matches_state (storage_id : Z) (k : string) (st : LotState) (l : Lot) : bool :=
  lot_matches storage_id k l && lot_state_eqb (lot_state l) st.

Definition oldest_lot_first (a b : Lot) : bool := lot_added_at a <=? lot_added_at b.

Definition kl_add_herb (storage_id : Z) (herb_display : string) (qty user_id now : Z) (db : DB) : DB :=
  let k := norm_key herb_display in
  let new_id := kl_herb_lots_seq db + 1 in
  {| guild_settings := guild_settings db;
     fbh_batches := fbh_batches db; fbh_batches_seq := fbh_batches_seq db;
     kl_herb_lots := kl_herb_lots db ++
       [ {| lot_id := new_id; lot_storage_id := storage_id; lot_herb_key := k;
            lot_herb_display := py_strip herb_display; lot_qty := qty;
            lot_state := frisch; lot_added_at := now; lot_added_by := user_id |} ];
     kl_herb_lots_seq := new_id;
     kl_pantry := kl_pantry db |}.

(** [SELECT SUM(qty) ... WHERE storage_id=? AND herb_key=?]; the argument is
    a key already, it is not normalised again. *)
Definition kl_total_available (storage_id : Z) (herb_key : string) (db : DB) : Z :=
  sum_Z (map lot_qty (List.filter (lot_matches storage_id herb_key) (kl_herb_lots db))).

Definition kl_select (storage_id : Z) (k : string) (st : LotState) (t : list Lot) : list Lot :=
  order_by oldest_lot_first (List.filter (lot_matches_state storage_id k st) t).

(** [for state in ["frisch", "getrocknet"]: ...]: each state is selected
    from the table as the earlier states left it. *)
Fixpoint kl_take_states (states : list LotState) (storage_id : Z) (k : string)
    (to_remove removed : Z) (t : list Lot) : Z * list Lot :=
  match states with
  | [] => (removed, t)
  | st :: rest =>
      if to_remove <=? 0 then (removed, t)
      else
        let lots := id_qty lot_id lot_qty (kl_select storage_id k st t) in
        let '(to_remove', removed', t') :=
          take_loop lot_id set_lot_qty lots to_remove removed t in
        kl_take_states rest storage_id k to_remove' removed' t'
  end.

Definition kl_take_herb (storage_id : Z) (herb_display : string) (qty : Z) (db : DB) : Z * DB :=
  let k := norm_key herb_display in
  let '(removed, t) := kl_take_states [frisch; getrocknet] storage_id k qty 0 (kl_herb_lots db) in
  (removed, with_lots t db).

(** *** KL pantry *)

Definition pantry_matches (storage_id : Z) (k : string) (r : PantryRow) : bool :=
  (pantry_storage_id r =? storage_id) && String.eqb (pantry_item_key r) k.

Definition pantry_add (storage_id : Z) (item_display : string) (qty user_id now : Z) (db : DB) : DB :=
  let k := norm_key item_display in
  match List.find (pantry_matches storage_id k) (kl_pantry db) with
  | Some row =>
      let new_qty := pantry_qty row + qty in
      with_pantry
        (map (fun r =>
                if pantry_matches storage_id k r
                then {| pantry_storage_id := pantry_storage_id r;
                        pantry_item_key := pantry_item_key r;
                        pantry_item_display := pantry_item_display r;
                        pantry_qty := new_qty; pantry_updated_at := now;
                        pantry_updated_by := user_id |}
                else r) (kl_pantry db)) db
  | None =>
      with_pantry
        (kl_pantry db ++
           [ {| pantry_storage_id := storage_id; pantry_item_key := k;
                pantry_item_display := py_strip item_display; pantry_qty := qty;
                pantry_updated_at := now; pantry_updated_by := user_id |} ]) db
  end.

Definition pantry_take (storage_id : Z) (item_display : string) (qty : Z) (db : DB) : Z * DB :=
  let k := norm_key item_display in
  match List.find (pantry_matches storage_id k) (kl_pantry db) with
  | None => (0, db)
  | Some row =>
      let have := pantry_qty row in
      let take := Z.min have qty in
      let new_qty := have - take in
      if new_qty <=? 0
      then (take, with_pantry
                    (List.filter (fun r => negb (pantry_matches storage_id k r)) (kl_pantry db)) db)
      else (take, with_pantry
                    (map (fun r =>
                            if pantry_matches storage_id k r
                            then {| pantry_storage_id := pantry_storage_id r;
                                    pantry_item_key := pantry_item_key r;
                                    pantry_item_display := pantry_item_display r;
                                    pantry_qty := new_qty;
                                    pantry_updated_at := pantry_updated_at r;
                                    pantry_updated_by := pantry_updated_by r |}
                            else r) (kl_pantry db)) db)
  end.

Definition pantry_list (storage_id : Z) (db : DB) : list (string * Z) :=
  let rows := order_by (fun a b => nocase_le (pantry_item_display a) (pantry_item_display b))
                (List.filter (fun r => pantry_storage_id r =? storage_id) (kl_pantry db)) in
  List.filter (fun r => 0 <? snd r) (map (fun r => (pantry_item_display r, pantry_qty r)) rows).

(** *** Helpers of the commands *)

Definition kl_apply_drying_if_enabled (guild_id storage_id now : Z) (db : DB) : DB :=
  let '(settings, db1) := get_settings guild_id db in
  if negb (kl_trocknen settings) then db1
  else
    let cutoff := now - 7 * 24 * 60 * 60 in
    kl_mark_dried_older_than storage_id cutoff db1.

(** The pair [(smell_days, ruin_days)] chosen by the first [if] of
    [fbh_status_for_age_days]. *)
Definition spoil_days (saison : string) (saison_enabled : bool) : Z * Z :=
  if saison_enabled
  then default (DEFAULT_FBH_SMELL_DAYS, DEFAULT_FBH_RUIN_DAYS) (SAISON_TIMES !! saison)
  else (DEFAULT_FBH_SMELL_DAYS, DEFAULT_FBH_RUIN_DAYS).

Definition fbh_status_for_age_days (age_days : Z) (saison : string) (saison_enabled : bool)
  : FbhStatus :=
  let '(smell_days, ruin_days) := spoil_days saison saison_enabled in
  if ruin_days <=? age_days then status_verdorben
  else if smell_days <=? age_days then status_mueffelt
  else status_frisch.

(** *** inventar_anzeigen, branch [typ == TYPE_FBH] *)

Definition age_days_at (now added_at : Z) : Z := (now - added_at) / (24 * 60 * 60).

(** The loop over the batches, threading [ruined_any] and [smelly_any]. *)
Fixpoint status_flags (now : Z) (saison : string) (enabled : bool)
    (batches : list (string * Z * Z)) (ruined_any smelly_any : bool) : bool * bool :=
  match batches with
  | [] => (ruined_any, smelly_any)
  | (_, _, added_at) :: rest =>
      match fbh_status_for_age_days (age_days_at now added_at) saison enabled with
      | status_verdorben => status_flags now saison enabled rest true smelly_any
      | status_mueffelt => status_flags now saison enabled rest ruined_any true
      | status_frisch => status_flags now saison enabled rest ruined_any smelly_any
      end
  end.

Definition inventar_anzeigen_FBH (guild_id storage_id now : Z) (db : DB) : InventarReply * DB :=
  let '(settings, db1) := get_settings guild_id db in
  let totals := fbh_total storage_id db1 in
  match totals with
  | [] => (lager_ist_leer, db1)
  | _ :: _ =>
      let batches := fbh_batches_for_status storage_id db1 in
      let saison := saison settings in
      let enabled := fbh_saison_verderb settings in
      let '(ruined_any, smelly_any) := status_flags now saison enabled batches false false in
      let status := if ruined_any then status_verdorben
                    else if smelly_any then status_mueffelt
                    else status_frisch in
      (fbh_inventar saison enabled status totals, db1)
  end.

(** *** kl_herstellen *)

Section Recipes.
Variable cfg : Config.

(** The first loop: it only reads. *)
Fixpoint check_availability (storage_id menge : Z) (recipe : list (string * Z)) (db : DB)
  : list Missing :=
  match recipe with
  | [] => []
  | (herb_name, base_qty) :: rest =>
      if negb (is_allowed herb_name (ALLOWED_KL_SET cfg))
      then nicht_erlaubt herb_name :: check_availability storage_id menge rest db
      else
        let herb_key := norm_key herb_name in
        let need := base_qty * menge in
        let have := kl_total_available storage_id herb_key db in
        if have <? need
        then fehlt herb_name (need - have) need have
               :: check_availability storage_id menge rest db
        else check_availability storage_id menge rest db
  end.

(** The second loop; [false] is the early [return] after a short take. *)
Fixpoint subtract_ingredients (storage_id menge : Z) (recipe : list (string * Z)) (db : DB)
  : bool * DB :=
  match recipe with
  | [] => (true, db)
  | (herb_name, base_qty) :: rest =>
      let herb_canon := canonical herb_name (ALLOWED_KL_SET cfg) in
      let need := base_qty * menge in
      let '(removed, db') := kl_take_herb storage_id herb_canon need db in
      if negb (removed =? need) then (false, db')
      else subtract_ingredients storage_id menge rest db'
  end.

Definition kl_herstellen (guild_id storage_id : Z) (rezept : string) (menge user_id now : Z)
    (db : DB) : HerstellenReply * DB :=
  if menge <=? 0 then (menge_muss_positiv_sein, db)
  else
    match KL_RECIPES cfg !! rezept with
    | None => (rezept_nicht_gefunden, db)
    | Some recipe =>
        let db1 := kl_apply_drying_if_enabled guild_id storage_id now db in
        match check_availability storage_id menge recipe db1 with
        | (_ :: _) as missing => (nicht_genug_zutaten missing, db1)
        | [] =>
            let '(ok, db2) := subtract_ingredients storage_id menge recipe db1 in
            if ok
            then (hergestellt rezept menge, pantry_add storage_id rezept menge user_id now db2)
            else (unerwarteter_fehler, db2)
        end
    end.
End Recipes.
End Ledger.


(** ** Sequences of ledger operations *)

Inductive LedgerOp :=
  | op_fbh_add (storage_id : Z) (item_display : string) (qty user_id now : Z)
  | op_fbh_take (storage_id : Z) (item_display : string) (qty : Z)
  | op_kl_add_herb (storage_id : Z) (herb_display : string) (qty user_id now : Z)
  | op_kl_take_herb (storage_id : Z) (herb_display : string) (qty : Z)
  | op_kl_mark_dried (storage_id cutoff_ts : Z)
  | op_pantry_add (storage_id : Z) (item_display : string) (qty user_id now : Z)
  | op_pantry_take (storage_id : Z) (item_display : string) (qty : Z).

(** The callers add and produce positive quantities only. *)
Definition op_qty_ok (o : LedgerOp) : Prop :=
  match o with
  | op_fbh_add _ _ qty _ _ | op_kl_add_herb _ _ qty _ _ | op_pantry_add _ _ qty _ _ => 0 < qty
  | _ => True
  end.

Section Runs.
Context `{PyText}.

Definition run_op (o : LedgerOp) (db : DB) : DB :=
  match o with
  | op_fbh_add sid name qty user now => fbh_add sid name qty user now db
  | op_fbh_take sid name qty => snd (fbh_take sid name qty db)
  | op_kl_add_herb sid name qty user now => kl_add_herb sid name qty user now db
  | op_kl_take_herb sid name qty => snd (kl_take_herb sid name qty db)
  | op_kl_mark_dried sid cutoff => kl_mark_dried_older_than sid cutoff db
  | op_pantry_add sid name qty user now => pantry_add sid name qty user now db
  | op_pantry_take sid name qty => snd (pantry_take sid name qty db)
  end.

Definition run_ops (ops : list LedgerOp) (db : DB) : DB :=
  fold_left (fun d o => run_op o d) ops db.
End Runs.

(** ** Invariants of the tables *)

(** Every row holds a positive quantity. *)
Definition db_positive (db : DB) : Prop :=
  Forall (fun b => 0 < batch_qty b) (fbh_batches db) /\
  Forall (fun l => 0 < lot_qty l) (kl_herb_lots db) /\
  Forall (fun r => 0 < pantry_qty r) (kl_pantry db).

(** What the schema enforces: ids are unique and come from the counter,
    and [(storage_id, item_key)] is the key of the pantry. *)
Definition db_keys_ok (db : DB) : Prop :=
  NoDup (map batch_id (fbh_batches db)) /\
  Forall (fun b => batch_id b <= fbh_batches_seq db) (fbh_batches db) /\
  NoDup (map lot_id (kl_herb_lots db)) /\
  Forall (fun l => lot_id l <= kl_herb_lots_seq db) (kl_herb_lots db) /\
  NoDup (map (fun r => (pantry_storage_id r, pantry_item_key r)) (kl_pantry db)).

(** The stock of a key: the sum over its rows. *)
Definition fbh_stock (storage_id : Z) (k : string) (db : DB) : Z :=
  sum_Z (map batch_qty (List.filter (batch_matches storage_id k) (fbh_batches db))).

Definition pantry_stock (storage_id : Z) (k : string) (db : DB) : Z :=
  sum_Z (map pantry_qty (List.filter (pantry_matches storage_id k) (kl_pantry db))).

(** The name under which a key is reported: the display name stored with
    the first row of the key, as in the groups of [fbh_total] and
    [kl_totals_by_state]. *)
Definition fbh_display (storage_id : Z) (k : string) (db : DB) : string :=
  match List.filter (batch_matches storage_id k) (fbh_batches db) with
  | b :: _ => batch_item_display b
  | [] => EmptyString
  end.

Definition kl_display (storage_id : Z) (k : string) (st : LotState) (db : DB) : string :=
  match List.filter (lot_matches_state storage_id k st) (kl_herb_lots db) with
  | l :: _ => lot_herb_display l
  | [] => EmptyString
  end.

(** The rows of a take in the words of the specification: the batches of
    the key, oldest first, each with its contribution. *)
Definition fbh_plan (storage_id : Z) (k : string) (qty : Z) (db : DB) : list (Z * Z) :=
  combine (map batch_id (fbh_select storage_id k (fbh_batches db)))
          (fifo_contrib (map batch_qty (fbh_select storage_id k (fbh_batches db))) qty).

(** For lots the order is: fresh lots oldest first, then dried lots oldest
    first. *)
Definition kl_selection (storage_id : Z) (k : string) (t : list Lot) : list Lot :=
  kl_select storage_id k frisch t ++ kl_select storage_id k getrocknet t.

Definition kl_plan (storage_id : Z) (k : string) (qty : Z) (db : DB) : list (Z * Z) :=
  combine (map lot_id (kl_selection storage_id k (kl_herb_lots db)))
          (fifo_contrib (map lot_qty (kl_selection storage_id k (kl_herb_lots db))) qty).

(** Every column of a lot but its state. *)
Definition lot_columns (l : Lot) : Z * Z * string * string * Z * Z * Z :=
  (lot_id l, lot_storage_id l, lot_herb_key l, lot_herb_display l, lot_qty l,
   lot_added_at l, lot_added_by l).

(** ** Example data *)

Definition example_fifo_db : DB :=
  @fbh_add latin1_text 1 "Maus (allgemein)" 5 42 200
    (@fbh_add latin1_text 1 "Maus (allgemein)" 3 42 100 empty_db).

(** A pile with one batch that is 20 days old and one that is 3 days old
    at [example_now]. *)
Definition example_now : Z := 30 * 86400.

Definition example_pile_db : DB :=
  @fbh_add latin1_text 1 "Maus (allgemein)" 2 42 (27 * 86400 - 100)
    (@fbh_add latin1_text 1 "Fisch (allgemein)" 1 42 (10 * 86400 - 5) empty_db).

(** A herb storage with a dried lot of 5 Basil, a fresh lot of 4 Basil and
    a fresh lot of 10 Thyme. *)
Definition example_herb_db : DB :=
  @kl_add_herb latin1_text 1 "Thyme" 10 42 900100
    (@kl_add_herb latin1_text 1 "Basil" 4 42 900000
       (kl_mark_dried_older_than 1 200
          (@kl_add_herb latin1_text 1 "Basil" 5 42 100 empty_db))).

(** A tenant with drying switched on and one fresh lot added at time 100. *)
Definition example_drying_db : DB :=
  set_kl_trocknen 9 true (@kl_add_herb latin1_text 1 "Basil" 5 42 100 empty_db).

(** A short history of a ledger: batches are added and drained, herbs are
    added, dried and taken, a pantry entry is produced and used up. *)
Definition example_ops : list LedgerOp :=
  [ op_fbh_add 1 "Maus (allgemein)" 3 42 10;
    op_fbh_add 1 "maus  (Allgemein)" 5 42 20;
    op_fbh_take 1 "Maus (allgemein)" 6;
    op_kl_add_herb 2 "Basil" 4 42 30;
    op_kl_mark_dried 2 40;
    op_kl_add_herb 2 "Basil" 2 42 50;
    op_kl_take_herb 2 "basil" 5;
    op_pantry_add 2 "Mix" 2 42 60;
    op_pantry_take 2 "mix" 2;
    op_fbh_take 1 "Maus (allgemein)" 9 ].

(** The recipe example of the specification: "Mix" needs 2 Basil and
    1 Thyme; the storage holds 5 Basil and 10 Thyme.  "Doppel" names Basil
    twice in two spellings, "Minus" has a negative quantity. *)
Definition example_cfg : Config :=
  {| allowed_fbh_prey := ["Maus (allgemein)"];
     allowed_kl_herbs := ["Basil"; "Thyme"];
     kl_rezepte :=
       <["Mix" := [("Basil", 2); ("Thyme", 1)]]>
       (<["Doppel" := [("Basil", 2); ("basil", 2)]]>
       (<["Minus" := [("Basil", -1)]]> ∅)) |}.

Definition example_recipe_db : DB :=
  @kl_add_herb latin1_text 1 "Thyme" 10 42 110
    (@kl_add_herb latin1_text 1 "Basil" 5 42 100 empty_db).

(** A storage with 3 Basil only. *)
Definition example_short_db : DB :=
  @kl_add_herb latin1_text 1 "Basil" 3 42 100 empty_db.

(** ** The rest of LagerDB and the commands around it *)

Definition TYPE_FBH : string := "FBH".
Definition TYPE_KL : string := "KL".

(** [ALIASES_FBH]: a dictionary literal, so a later entry would replace an
    earlier one with the same key. *)
Definition ALIASES_FBH : gmap string string :=
  fold_left (fun m kv => <[fst kv := snd kv]> m)
    [ ("maus", "Maus (allgemein)"); ("mäuse", "Maus (allgemein)");
      ("mouse", "Maus (allgemein)");
      ("vogel", "Vogel (allgemein)"); ("vögel", "Vogel (allgemein)");
      ("bird", "Vogel (allgemein)");
      ("raubvogel", "Raubvogel (allgemein)"); ("raubvögel", "Raubvogel (allgemein)");
      ("greifvogel", "Raubvogel (allgemein)"); ("greifvögel", "Raubvogel (allgemein)");
      ("fisch", "Fisch (allgemein)"); ("fish", "Fisch (allgemein)");
      ("wasservogel", "Wasservogel (allgemein)"); ("wasservögel", "Wasservogel (allgemein)");
      ("gans", "Gans (allgemein)"); ("gänse", "Gans (allgemein)");
      ("ratte", "Ratte (allgemein)"); ("ratten", "Ratte (allgemein)");
      ("kaninchen", "Kaninchen (allgemein)"); ("rabbit", "Kaninchen (allgemein)");
      ("hase", "Hase (allgemein)"); ("hasen", "Hase (allgemein)");
      ("schlange", "Schlange (allgemein)"); ("schlangen", "Schlange (allgemein)") ]
    ∅.

(** *** The table [storages] *)

Record Storage := {
  st_id : Z;
  st_guild_id : Z;
  st_type : string;
  st_name : string;
  st_owner_role_id : Z;
  st_created_at : Z;
}.

(** The table and its AUTOINCREMENT counter. *)
Record StorageTable := {
  storages : list Storage;
  storages_seq : Z;
}.

Definition empty_storages : StorageTable := {| storages := []; storages_seq := 0 |}.

(** [INSERT] either gives the new row id or fails on
    [UNIQUE (guild_id, type, name)] with sqlite3.IntegrityError. *)
Inductive CreateResult := created (new_id : Z) | integrity_error.

Definition storage_is (guild_id : Z) (type_ name : string) (s : Storage) : bool :=
  (st_guild_id s =? guild_id) && String.eqb (st_type s) type_ && String.eqb (st_name s) name.

(** [ORDER BY type, name COLLATE NOCASE] *)
Definition type_then_name_le (a b : Storage) : bool :=
  if String.eqb (st_type a) (st_type b) then nocase_le (st_name a) (st_name b)
  else String.leb (st_type a) (st_type b).

(** [a in b] on Python strings. *)
Fixpoint is_substring (a b : string) : bool :=
  String.prefix a b ||
  match b with
  | EmptyString => false
  | String _ b' => is_substring a b'
  end.

(** The order of the index of [UNIQUE (guild_id, type, name)] within a
    tenant: type, then name, both compared byte by byte. *)
Definition index_le (a b : Storage) : bool :=
  if String.eqb (st_type a) (st_type b) then String.leb (st_name a) (st_name b)
  else String.leb (st_type a) (st_type b).

(** [GROUP BY] on any key: each key once, in order of first appearance. *)
Fixpoint distinct_first {A : Type} (eqb : A -> A -> bool) (l : list A) : list A :=
  match l with
  | [] => []
  | x :: l' => x :: List.filter (fun y => negb (eqb y x)) (distinct_first eqb l')
  end.

Definition key_state_eqb (a b : string * LotState) : bool :=
  String.eqb (fst a) (fst b) && lot_state_eqb (snd a) (snd b).

(** The loop of [kl_totals_by_state] over the fetched rows. *)
Fixpoint fresh_and_dried (rows : list (string * LotState * Z))
  : list (string * Z) * list (string * Z) :=
  match rows with
  | [] => ([], [])
  | (herb_display, state, total) :: rest =>
      let '(fresh, dried) := fresh_and_dried rest in
      if total <=? 0 then (fresh, dried)
      else match state with
           | frisch => ((herb_display, total) :: fresh, dried)
           | getrocknet => (fresh, (herb_display, total) :: dried)
           end
  end.

(** The groups of [GROUP BY herb_key, state] with their key; the bare
    column [herb_display] is taken from the first row of the group. *)
Definition kl_state_groups (storage_id : Z) (db : DB)
  : list (string * LotState * (string * Z)) :=
  let rows := List.filter (fun l => lot_storage_id l =? storage_id) (kl_herb_lots db) in
  map (fun ks =>
         let g := List.filter
                    (fun l => key_state_eqb (lot_herb_key l, lot_state l) ks) rows in
         (ks, (match g with l :: _ => lot_herb_display l | [] => EmptyString end,
               sum_Z (map lot_qty g))))
      (distinct_first key_state_eqb (map (fun l => (lot_herb_key l, lot_state l)) rows)).

Definition kl_totals_by_state (storage_id : Z) (db : DB)
  : list (string * Z) * list (string * Z) :=
  fresh_and_dried
    (order_by (fun a b => nocase_le (fst (fst a)) (fst (fst b)))
       (map (fun g => (fst (snd g), snd (fst g), snd (snd g)))
          (kl_state_groups storage_id db))).

(** The sum over the lots of a key in one state. *)
Definition kl_state_total (storage_id : Z) (k : string) (st : LotState) (db : DB) : Z :=
  sum_Z (map lot_qty (List.filter (lot_matches_state storage_id k st) (kl_herb_lots db))).

(** *** The text of the KL inventory

    A Python [str] is kept as its UTF-8 encoding.  [len] counts code
    points, that is the bytes that are not continuation bytes, and
    [text[:n]] keeps the first [n] code points. *)

Definition is_continuation (c : ascii) : bool := byte_in 128 191 c.

Fixpoint py_len (s : string) : Z :=
  match s with
  | EmptyString => 0
  | String c s' => (if is_continuation c then 0 else 1) + py_len s'
  end.

(** [text[:n]] *)
Fixpoint py_prefix (n : nat) (s : string) : string :=
  match s with
  | EmptyString => EmptyString
  | String c s' =>
      if is_continuation c then String c (py_prefix n s')
      else match n with
           | O => EmptyString
           | S n' => String c (py_prefix n' s')
           end
  end.

(** [str(a)] for an [int]. *)
Definition py_str_int (a : Z) : string := NilZero.string_of_int (Z.to_int a).

Definition newline : string := String (ascii_of_N 10) EmptyString.

(** One block of the message: the title, then a line for each entry, or
    the title with the remark that the block is empty. *)
Definition kl_block (title : string) (items : list (string * Z)) : list string :=
  match items with
  | [] => [String.append newline (String.append title " (leer)")]
  | _ :: _ =>
      String.append newline title
      :: map (fun e => String.append "• "
                         (String.append (fst e)
                            (String.append ": " (py_str_int (snd e))))) items
  end.

(** ["\n".join(msg)] *)
Definition kl_inventar_text (lager : string) (fresh dried pantry : list (string * Z))
  : string :=
  String.concat newline
    ([String.append "🌿 **KL Inventar: " (String.append lager "**")]
     ++ kl_block "**Frisch:**" fresh
     ++ kl_block "**Getrocknet:**" dried
     ++ kl_block "**Vorräte (Sets/Mixes):**" pantry).

(** [if len(text) > 1800: text = text[:1800] + ...] *)
Definition cut_1800 (text : string) : string :=
  if 1800 <? py_len text
  then String.append (py_prefix 1800 text) (String.append newline "… (zu lang)")
  else text.

(** *** Members and access *)

Record Role := { role_id : Z; role_name : string }.

(** What the code reads of a [discord.Member]. *)
Record Member := {
  member_id : Z;
  member_roles : list Role;
  perm_manage_guild : bool;
  perm_administrator : bool;
}.

(** What the code reads of a [discord.Interaction]: the guild, if any, and
    the user when it is a [discord.Member]. *)
Record Interaction := {
  interaction_guild : option Z;
  interaction_member : option Member;
}.

Definition member_has_role_id (member : Member) (rid : Z) : bool :=
  existsb (fun r => role_id r =? rid) (member_roles member).

(** The replies of the commands, without the decoration of the text.  The
    one text that the code cuts, the inventory of a KL storage, is kept as
    text. *)
Inductive Reply :=
  | nur_auf_server
  | menge_nicht_positiv
  | lager_nicht_gefunden
  | keine_berechtigung
  | nur_mod_admin
  | name_nicht_erlaubt
  | typ_ungueltig
  | lager_existiert_schon
  | lager_erstellt (typ name : string)
  | saison_ungueltig
  | saison_gesetzt (saison : string)
  | schalter_gesetzt (aktiv : bool)
  | hinzugefuegt (name : string) (menge : Z) (lager : string)
  | entnommen (name : string) (removed : Z) (lager : string)
  | vorraete_leer
  | vorraete (items : list (string * Z))
  | herstellen (r : HerstellenReply)
  | inventar_fbh (r : InventarReply)
  | inventar_kl (text : string).

Definition status_rank (s : FbhStatus) : Z :=
  match s with status_frisch => 0 | status_mueffelt => 1 | status_verdorben => 2 end.

Section Bot.
Context `{PyText}.

Definition apply_aliases_fbh (name : string) : string :=
  default (py_strip name) (ALIASES_FBH !! norm_key name).

(** *** storages *)

Definition storage_create (guild_id : Z) (type_ name : string) (owner_role_id now : Z)
    (t : StorageTable) : CreateResult * StorageTable :=
  if existsb (storage_is guild_id type_ (py_strip name)) (storages t)
  then (integrity_error, t)
  else
    let new_id := storages_seq t + 1 in
    (created new_id,
     {| storages := storages t ++
          [ {| st_id := new_id; st_guild_id := guild_id; st_type := type_;
               st_name := py_strip name; st_owner_role_id := owner_role_id;
               st_created_at := now |} ];
        storages_seq := new_id |}).

(** The rows of a tenant come out of the index of
    [UNIQUE (guild_id, type, name)], that is in binary order of type and
    name, and are then sorted; rows that [ORDER BY] does not tell apart keep
    the order of the index. *)
Definition storage_list (guild_id : Z) (t : StorageTable) : list (string * string) :=
  map (fun s => (st_type s, st_name s))
      (order_by type_then_name_le
         (order_by index_le
            (List.filter (fun s => st_guild_id s =? guild_id) (storages t)))).

Definition storage_get (guild_id : Z) (type_ name : string) (t : StorageTable)
  : option (Z * Z) :=
  match List.find (storage_is guild_id type_ (py_strip name)) (storages t) with
  | Some s => Some (st_id s, st_owner_role_id s)
  | None => None
  end.

Definition storage_names_for_type (guild_id : Z) (type_ : string) (t : StorageTable)
  : list string :=
  map st_name
      (order_by (fun a b => nocase_le (st_name a) (st_name b))
         (order_by index_le
            (List.filter (fun s => (st_guild_id s =? guild_id) && String.eqb (st_type s) type_)
               (storages t)))).

(** *** Permissions *)

Definition is_mod_or_admin (member : Member) : bool :=
  if existsb (fun r => String.eqb (py_lower (role_name r)) "mod"
                       || String.eqb (py_lower (role_name r)) "admin")
             (member_roles member)
  then true
  else perm_manage_guild member || perm_administrator member.

(** [true] stands for the plain return, [false] for PermissionError. *)
Definition assert_storage_access (member : Member) (owner_role_id : Z) : bool :=
  if member_has_role_id member owner_role_id then true
  else if is_mod_or_admin member then true
  else false.

(** *** Autocomplete *)

Definition ac_hits (names : list string) (current : string) : list string :=
  let cur := py_lower current in
  firstn 25 (List.filter (fun n => is_substring cur (py_lower n)) names).

Section Commands.
Variable cfg : Config.
Variable st : StorageTable.

Definition ac_lager_fbh (i : Interaction) (current : string) : list string :=
  match interaction_guild i with
  | None => []
  | Some guild => ac_hits (storage_names_for_type guild TYPE_FBH st) current
  end.

Definition ac_lager_kl (i : Interaction) (current : string) : list string :=
  match interaction_guild i with
  | None => []
  | Some guild => ac_hits (storage_names_for_type guild TYPE_KL st) current
  end.

Definition ac_fbh_beute (current : string) : list string :=
  ac_hits (ALLOWED_FBH_PREY cfg) current.

Definition ac_kl_kraut (current : string) : list string :=
  ac_hits (ALLOWED_KL_HERBS cfg) current.

(** *** Season and toggles *)

Definition saison_setzen (i : Interaction) (s : string) (db : DB) : Reply * DB :=
  match interaction_guild i, interaction_member i with
  | Some guild, Some member =>
      if negb (is_mod_or_admin member) then (nur_mod_admin, db)
      else
        let s := py_strip s in
        match SAISON_TIMES !! s with
        | None => (saison_ungueltig, db)
        | Some _ => (saison_gesetzt s, set_saison guild s db)
        end
  | _, _ => (nur_auf_server, db)
  end.

Definition fbh_saison_verderb_command (i : Interaction) (aktiv : bool) (db : DB) : Reply * DB :=
  match interaction_guild i, interaction_member i with
  | Some guild, Some member =>
      if negb (is_mod_or_admin member) then (nur_mod_admin, db)
      else (schalter_gesetzt aktiv, set_fbh_saison_verderb guild aktiv db)
  | _, _ => (nur_auf_server, db)
  end.

Definition kl_trocknen_command (i : Interaction) (aktiv : bool) (db : DB) : Reply * DB :=
  match interaction_guild i, interaction_member i with
  | Some guild, Some member =>
      if negb (is_mod_or_admin member) then (nur_mod_admin, db)
      else (schalter_gesetzt aktiv, set_kl_trocknen guild aktiv db)
  | _, _ => (nur_auf_server, db)
  end.

(** *** Creating and listing storages

    [str.upper] is taken as a parameter, like the operations of [PyText]. *)

Definition lager_erstellen (py_upper : string -> string) (i : Interaction)
    (typ name : string) (rolle now : Z) : Reply * StorageTable :=
  match interaction_guild i, interaction_member i with
  | Some guild, Some member =>
      if negb (is_mod_or_admin member) then (nur_mod_admin, st)
      else
        let typ := py_upper (py_strip typ) in
        if negb (String.eqb typ TYPE_FBH || String.eqb typ TYPE_KL) then (typ_ungueltig, st)
        else
          match storage_create guild typ name rolle now st with
          | (integrity_error, st') => (lager_existiert_schon, st')
          | (created _, st') => (lager_erstellt typ name, st')
          end
  | _, _ => (nur_auf_server, st)
  end.

(** *** The inventory

    The branch for FBH is [inventar_anzeigen_FBH] above.  The branch for KL
    runs the drying step, reads the totals per state and the pantry, builds
    the message from them and cuts it when it is longer than 1800
    characters. *)

Definition inventar_anzeigen (py_upper : string -> string) (i : Interaction)
    (typ lager : string) (now : Z) (db : DB) : Reply * DB :=
  match interaction_guild i, interaction_member i with
  | Some guild, Some member =>
      let typ := py_upper (py_strip typ) in
      if negb (String.eqb typ TYPE_FBH || String.eqb typ TYPE_KL) then (typ_ungueltig, db)
      else
        match storage_get guild typ lager st with
        | None => (lager_nicht_gefunden, db)
        | Some (storage_id, owner_role_id) =>
            if negb (assert_storage_access member owner_role_id) then (keine_berechtigung, db)
            else if String.eqb typ TYPE_FBH
            then
              let '(r, db') := inventar_anzeigen_FBH guild storage_id now db in
              (inventar_fbh r, db')
            else
              let db1 := kl_apply_drying_if_enabled guild storage_id now db in
              let '(fresh, dried) := kl_totals_by_state storage_id db1 in
              let pantry := pantry_list storage_id db1 in
              (inventar_kl (cut_1800 (kl_inventar_text lager fresh dried pantry)), db1)
        end
  | _, _ => (nur_auf_server, db)
  end.

(** *** FBH commands *)

Definition fbh_hinzufuegen (i : Interaction) (lager beute : string) (menge now : Z) (db : DB)
  : Reply * DB :=
  match interaction_guild i, interaction_member i with
  | Some guild, Some member =>
      if menge <=? 0 then (menge_nicht_positiv, db)
      else
        match storage_get guild TYPE_FBH lager st with
        | None => (lager_nicht_gefunden, db)
        | Some (storage_id, owner_role_id) =>
            if negb (assert_storage_access member owner_role_id) then (keine_berechtigung, db)
            else
              let beute := apply_aliases_fbh beute in
              if negb (is_allowed beute (ALLOWED_FBH_SET cfg)) then (name_nicht_erlaubt, db)
              else
                let beute := canonical beute (ALLOWED_FBH_SET cfg) in
                (hinzugefuegt beute menge lager,
                 fbh_add storage_id beute menge (member_id member) now db)
        end
  | _, _ => (nur_auf_server, db)
  end.

Definition fbh_entnehmen (i : Interaction) (lager beute : string) (menge : Z) (db : DB)
  : Reply * DB :=
  match interaction_guild i, interaction_member i with
  | Some guild, Some member =>
      if menge <=? 0 then (menge_nicht_positiv, db)
      else
        match storage_get guild TYPE_FBH lager st with
        | None => (lager_nicht_gefunden, db)
        | Some (storage_id, owner_role_id) =>
            if negb (assert_storage_access member owner_role_id) then (keine_berechtigung, db)
            else
              let beute := apply_aliases_fbh beute in
              if negb (is_allowed beute (ALLOWED_FBH_SET cfg)) then (name_nicht_erlaubt, db)
              else
                let beute := canonical beute (ALLOWED_FBH_SET cfg) in
                let '(removed, db') := fbh_take storage_id beute menge db in
                (entnommen beute removed lager, db')
        end
  | _, _ => (nur_auf_server, db)
  end.

(** *** KL commands *)

Definition kl_hinzufuegen (i : Interaction) (lager kraut : string) (menge now : Z) (db : DB)
  : Reply * DB :=
  match interaction_guild i, interaction_member i with
  | Some guild, Some member =>
      if menge <=? 0 then (menge_nicht_positiv, db)
      else
        match storage_get guild TYPE_KL lager st with
        | None => (lager_nicht_gefunden, db)
        | Some (storage_id, owner_role_id) =>
            if negb (assert_storage_access member owner_role_id) then (keine_berechtigung, db)
            else if negb (is_allowed kraut (ALLOWED_KL_SET cfg)) then (name_nicht_erlaubt, db)
            else
              let kraut := canonical kraut (ALLOWED_KL_SET cfg) in
              let db1 := kl_apply_drying_if_enabled guild storage_id now db in
              (hinzugefuegt kraut menge lager,
               kl_add_herb storage_id kraut menge (member_id member) now db1)
        end
  | _, _ => (nur_auf_server, db)
  end.

Definition kl_entnehmen (i : Interaction) (lager kraut : string) (menge now : Z) (db : DB)
  : Reply * DB :=
  match interaction_guild i, interaction_member i with
  | Some guild, Some member =>
      if menge <=? 0 then (menge_nicht_positiv, db)
      else
        match storage_get guild TYPE_KL lager st with
        | None => (lager_nicht_gefunden, db)
        | Some (storage_id, owner_role_id) =>
            if negb (assert_storage_access member owner_role_id) then (keine_berechtigung, db)
            else if negb (is_allowed kraut (ALLOWED_KL_SET cfg)) then (name_nicht_erlaubt, db)
            else
              let kraut := canonical kraut (ALLOWED_KL_SET cfg) in
              let db1 := kl_apply_drying_if_enabled guild storage_id now db in
              let '(removed, db') := kl_take_herb storage_id kraut menge db1 in
              (entnommen kraut removed lager, db')
        end
  | _, _ => (nur_auf_server, db)
  end.

Definition kl_vorraete (i : Interaction) (lager : string) (db : DB) : Reply :=
  match interaction_guild i, interaction_member i with
  | Some guild, Some member =>
      match storage_get guild TYPE_KL lager st with
      | None => lager_nicht_gefunden
      | Some (storage_id, owner_role_id) =>
          if negb (assert_storage_access member owner_role_id) then keine_berechtigung
          else
            match pantry_list storage_id db with
            | [] => vorraete_leer
            | (_ :: _) as items => vorraete items
            end
      end
  | _, _ => nur_auf_server
  end.

(** The whole command [kl_herstellen]; the part after the access check is
    [kl_herstellen] above, which repeats the two tests on [menge] and
    [rezept] with the same outcome. *)
Definition kl_herstellen_command (i : Interaction) (lager rezept : string) (menge now : Z)
    (db : DB) : Reply * DB :=
  match interaction_guild i, interaction_member i with
  | Some guild, Some member =>
      if menge <=? 0 then (menge_nicht_positiv, db)
      else
        match storage_get guild TYPE_KL lager st with
        | None => (lager_nicht_gefunden, db)
        | Some (storage_id, owner_role_id) =>
            if negb (assert_storage_access member owner_role_id) then (keine_berechtigung, db)
            else
              let '(r, db') :=
                kl_herstellen cfg guild storage_id rezept menge (member_id member) now db in
              (herstellen r, db')
        end
  | _, _ => (nur_auf_server, db)
  end.
End Commands.
End Bot.

(** The status line of the FBH inventory as a function of the batches. *)
Definition pile_status (now : Z) (saison : string) (enabled : bool)
    (batches : list (string * Z * Z)) : FbhStatus :=
  let '(ruined_any, smelly_any) := status_flags now saison enabled batches false false in
  if ruined_any then status_verdorben
  else if smelly_any then status_mueffelt
  else status_frisch.

(** What the schema enforces on [storages]: the triple of tenant, type and
    name is unique, and ids are unique and come from the counter. *)
Definition storages_ok (t : StorageTable) : Prop :=
  NoDup (map (fun s => (st_guild_id s, st_type s, st_name s)) (storages t)) /\
  NoDup (map st_id (storages t)) /\
  Forall (fun s => st_id s <= storages_seq t) (storages t).

(** Two storages of tenant 9. *)
Definition example_storages : StorageTable :=
  snd (@storage_create latin1_text 9 "KL" "Kräuterlager" 77 5
         (snd (@storage_create latin1_text 9 "FBH" " Frischbeute " 55 1 empty_storages))).

(** ** Sessions

    The commands that can write, as values, and a run of requests one after
    another on the two stores of the bot: the table of storages and the
    ledger.  A request carries the interaction (who asks, on which server),
    the reading of the clock and the command with its arguments. *)

Inductive Command :=
  | cmd_lager_erstellen (typ name : string) (rolle : Z)
  | cmd_saison_setzen (s : string)
  | cmd_fbh_saison_verderb (aktiv : bool)
  | cmd_kl_trocknen (aktiv : bool)
  | cmd_inventar_anzeigen (typ lager : string)
  | cmd_fbh_hinzufuegen (lager beute : string) (menge : Z)
  | cmd_fbh_entnehmen (lager beute : string) (menge : Z)
  | cmd_kl_hinzufuegen (lager kraut : string) (menge : Z)
  | cmd_kl_entnehmen (lager kraut : string) (menge : Z)
  | cmd_kl_herstellen (lager rezept : string) (menge : Z).

Record Request := {
  req_interaction : Interaction;
  req_now : Z;
  req_command : Command;
}.

(** The replies that end a command before it does anything. *)
Definition refused (r : Reply) : bool :=
  match r with
  | nur_auf_server | menge_nicht_positiv | lager_nicht_gefunden | keine_berechtigung
  | nur_mod_admin | name_nicht_erlaubt | typ_ungueltig | lager_existiert_schon
  | saison_ungueltig => true
  | _ => false
  end.

(** A command on one store leaves the other as it is. *)
Definition on_ledger (st : StorageTable) (p : Reply * DB) : Reply * (StorageTable * DB) :=
  (fst p, (st, snd p)).

Definition on_storages (db : DB) (p : Reply * StorageTable) : Reply * (StorageTable * DB) :=
  (fst p, (snd p, db)).

Section Sessions.
Context `{PyText}.
Variable py_upper : string -> string.
Variable cfg : Config.

Definition run_command (rq : Request) (s : StorageTable * DB) : Reply * (StorageTable * DB) :=
  let i := req_interaction rq in
  let now := req_now rq in
  match req_command rq with
  | cmd_lager_erstellen typ name rolle =>
      on_storages (snd s) (lager_erstellen (fst s) py_upper i typ name rolle now)
  | cmd_saison_setzen x => on_ledger (fst s) (saison_setzen i x (snd s))
  | cmd_fbh_saison_verderb aktiv =>
      on_ledger (fst s) (fbh_saison_verderb_command i aktiv (snd s))
  | cmd_kl_trocknen aktiv => on_ledger (fst s) (kl_trocknen_command i aktiv (snd s))
  | cmd_inventar_anzeigen typ lager =>
      on_ledger (fst s) (inventar_anzeigen (fst s) py_upper i typ lager now (snd s))
  | cmd_fbh_hinzufuegen lager beute menge =>
      on_ledger (fst s) (fbh_hinzufuegen cfg (fst s) i lager beute menge now (snd s))
  | cmd_fbh_entnehmen lager beute menge =>
      on_ledger (fst s) (fbh_entnehmen cfg (fst s) i lager beute menge (snd s))
  | cmd_kl_hinzufuegen lager kraut menge =>
      on_ledger (fst s) (kl_hinzufuegen cfg (fst s) i lager kraut menge now (snd s))
  | cmd_kl_entnehmen lager kraut menge =>
      on_ledger (fst s) (kl_entnehmen cfg (fst s) i lager kraut menge now (snd s))
  | cmd_kl_herstellen lager rezept menge =>
      on_ledger (fst s) (kl_herstellen_command cfg (fst s) i lager rezept menge now (snd s))
  end.

Definition run_session (rqs : list Request) (s : StorageTable * DB) : StorageTable * DB :=
  fold_left (fun s rq => snd (run_command rq s)) rqs s.

(** A batch names an allowed prey in its canonical spelling and lies in a
    storage of type FBH; likewise a lot with the herbs and a storage of type
    KL; a pantry row names a recipe and lies in a storage of type KL. *)
Definition batch_ok (st : StorageTable) (b : Batch) : Prop :=
  (exists c, In c (ALLOWED_FBH_PREY cfg) /\ batch_item_key b = norm_key c
             /\ batch_item_display b = py_strip c)
  /\ (exists s, In s (storages st) /\ st_id s = batch_storage_id b /\ st_type s = TYPE_FBH).

Definition lot_ok (st : StorageTable) (l : Lot) : Prop :=
  (exists c, In c (ALLOWED_KL_HERBS cfg) /\ lot_herb_key l = norm_key c
             /\ lot_herb_display l = py_strip c)
  /\ (exists s, In s (storages st) /\ st_id s = lot_storage_id l /\ st_type s = TYPE_KL).

Definition pantry_ok (st : StorageTable) (r : PantryRow) : Prop :=
  (exists rezept, is_Some (KL_RECIPES cfg !! rezept) /\ pantry_item_key r = norm_key rezept
                  /\ pantry_item_display r = py_strip rezept)
  /\ (exists s, In s (storages st) /\ st_id s = pantry_storage_id r /\ st_type s = TYPE_KL).

(** Every stored season is a season of the table. *)
Definition settings_ok (db : DB) : Prop :=
  forall g s, guild_settings db !! g = Some s -> is_Some (SAISON_TIMES !! saison s).

Definition db_ok (st : StorageTable) (db : DB) : Prop :=
  db_positive db /\ db_keys_ok db /\ settings_ok db
  /\ Forall (batch_ok st) (fbh_batches db)
  /\ Forall (lot_ok st) (kl_herb_lots db)
  /\ Forall (pantry_ok st) (kl_pantry db).

Definition state_ok (s : StorageTable * DB) : Prop :=
  storages_ok (fst s)
  /\ Forall (fun x => st_type x = TYPE_FBH \/ st_type x = TYPE_KL) (storages (fst s))
  /\ db_ok (fst s) (snd s).
End Sessions.

(** Some storage with this id belongs to the tenant. *)
Definition storage_of (guild_id : Z) (st : StorageTable) (storage_id : Z) : bool :=
  existsb (fun x => (st_id x =? storage_id) && (st_guild_id x =? guild_id)) (storages st).

(** The rows of the storages selected by [keep], and the settings of every
    tenant but [guild_id], are the same in [db'] as in [db]. *)
Definition untouched_outside (keep : Z -> bool) (guild_id : Z) (db db' : DB) : Prop :=
  List.filter (fun b => keep (batch_storage_id b)) (fbh_batches db')
  = List.filter (fun b => keep (batch_storage_id b)) (fbh_batches db)
  /\ List.filter (fun l => keep (lot_storage_id l)) (kl_herb_lots db')
     = List.filter (fun l => keep (lot_storage_id l)) (kl_herb_lots db)
  /\ List.filter (fun r => keep (pantry_storage_id r)) (kl_pantry db')
     = List.filter (fun r => keep (pantry_storage_id r)) (kl_pantry db)
  /\ (forall g, g <> guild_id -> guild_settings db' !! g = guild_settings db !! g).

(** [str.upper] on text in Basic Latin. *)
Fixpoint ascii_upper (s : string) : string :=
  match s with
  | EmptyString => EmptyString
  | String c s' =>
      String (if byte_in 97 122 c then ascii_of_N (N_of_ascii c - 32) else c) (ascii_upper s')
  end.

(** A mod creates two storages; a member with the owner role adds prey and
    herbs, takes some, and makes a recipe; a stranger and a direct message
    are turned away. *)
Definition example_mod : Member :=
  {| member_id := 1; member_roles := [ {| role_id := 10; role_name := "Mod" |} ];
     perm_manage_guild := false; perm_administrator := false |}.

Definition example_hunter : Member :=
  {| member_id := 2; member_roles := [ {| role_id := 55; role_name := "Jagd" |} ];
     perm_manage_guild := false; perm_administrator := false |}.

Definition example_stranger : Member :=
  {| member_id := 3; member_roles := []; perm_manage_guild := false;
     perm_administrator := false |}.

Definition example_session : list Request :=
  let by_ m := {| interaction_guild := Some 9; interaction_member := Some m |} in
  [ {| req_interaction := by_ example_mod; req_now := 10;
       req_command := cmd_lager_erstellen "fbh" "Frischbeute" 55 |};
    {| req_interaction := by_ example_mod; req_now := 11;
       req_command := cmd_lager_erstellen "KL" "Kräuter" 55 |};
    {| req_interaction := by_ example_mod; req_now := 12;
       req_command := cmd_saison_setzen " Blattfall " |};
    {| req_interaction := by_ example_mod; req_now := 13;
       req_command := cmd_kl_trocknen true |};
    {| req_interaction := by_ example_hunter; req_now := 20;
       req_command := cmd_fbh_hinzufuegen "Frischbeute" "maus  (Allgemein)" 3 |};
    {| req_interaction := by_ example_stranger; req_now := 21;
       req_command := cmd_fbh_entnehmen "Frischbeute" "Maus (allgemein)" 1 |};
    {| req_interaction := by_ example_hunter; req_now := 22;
       req_command := cmd_fbh_entnehmen "Frischbeute" "Maus (allgemein)" 2 |};
    {| req_interaction := by_ example_hunter; req_now := 30;
       req_command := cmd_kl_hinzufuegen "Kräuter" "basil" 5 |};
    {| req_interaction := by_ example_hunter; req_now := 31;
       req_command := cmd_kl_hinzufuegen "Kräuter" "Thyme" 2 |};
    {| req_interaction := by_ example_hunter; req_now := 40;
       req_command := cmd_kl_herstellen "Kräuter" "Mix" 2 |};
    {| req_interaction := by_ example_hunter; req_now := 41;
       req_command := cmd_kl_entnehmen "Kräuter" "Basil" 9 |};
    {| req_interaction := by_ example_hunter; req_now := 42;
       req_command := cmd_inventar_anzeigen "kl" "Kräuter" |};
    {| req_interaction := {| interaction_guild := None; interaction_member := None |};
       req_now := 50; req_command := cmd_fbh_hinzufuegen "Frischbeute" "Maus (allgemein)" 1 |} ].

(** ** Tactics for closed goals *)

Ltac concrete_NoDup :=
  vm_compute;
  repeat (apply NoDup_cons; [simpl; intuition (discriminate || congruence)|]);
  apply NoDup_nil.

(** Case analysis on every test a command makes. *)
Ltac split_cases :=
  repeat match goal with
         | |- context [match ?x with _ => _ end] => destruct x eqn:?
         end.

(** * Properties *)

(** ** Lists, sums and orderings *)

Lemma sum_Z_app (l1 l2 : list Z) : sum_Z (l1 ++ l2) = sum_Z l1 + sum_Z l2.
Proof. induction l1 as [|x l1 IH]; simpl; lia. Qed.

Lemma sum_Z_perm (l1 l2 : list Z) : Permutation l1 l2 -> sum_Z l1 = sum_Z l2.
Proof. induction 1; simpl; lia. Qed.

Lemma sum_Z_nonneg (l : list Z) : Forall (fun q => 0 < q) l -> 0 <= sum_Z l.
Proof. induction 1; simpl; lia. Qed.

Lemma sum_Z_pos (l : list Z) : l <> [] -> Forall (fun q => 0 < q) l -> 0 < sum_Z l.
Proof.
  intros Hne Hall. destruct Hall as [|q l Hq Hl]; [congruence|].
  simpl. pose proof (sum_Z_nonneg l Hl). lia.
Qed.

Lemma sum_Z_filter_split {A} (f : A -> Z) (p : A -> bool) (l : list A) :
  sum_Z (map f l) =
  sum_Z (map f (List.filter p l)) + sum_Z (map f (List.filter (fun x => negb (p x)) l)).
Proof.
  induction l as [|x l IH]; simpl; [reflexivity|].
  destruct (p x); simpl; lia.
Qed.

Lemma filter_filter_and {A} (p q : A -> bool) (l : list A) :
  List.filter p (List.filter q l) = List.filter (fun x => q x && p x) l.
Proof.
  induction l as [|x l IH]; simpl; [reflexivity|].
  destruct (q x); simpl; [destruct (p x); simpl; congruence | assumption].
Qed.

Lemma filter_ext_in' {A} (p q : A -> bool) (l : list A) :
  (forall x, In x l -> p x = q x) -> List.filter p l = List.filter q l.
Proof.
  induction l as [|x l IH]; simpl; intros Hpq; [reflexivity|].
  rewrite (Hpq x) by auto. rewrite IH by auto. reflexivity.
Qed.

Lemma filter_none {A} (p : A -> bool) (l : list A) :
  (forall x, In x l -> p x = false) -> List.filter p l = [].
Proof.
  induction l as [|x l IH]; simpl; intros Hp; [reflexivity|].
  rewrite (Hp x) by auto. auto.
Qed.

Section OrderingFacts.
Context {A : Type} (le : A -> A -> bool).

Lemma insert_by_perm (x : A) (l : list A) : Permutation (insert_by le x l) (x :: l).
Proof.
  induction l as [|y l IH]; simpl; [reflexivity|].
  destruct (le x y); [reflexivity|].
  rewrite IH. apply perm_swap.
Qed.

Lemma order_by_perm (l : list A) : Permutation (order_by le l) l.
Proof.
  induction l as [|x l IH]; simpl; [constructor|].
  unfold order_by in *. simpl. rewrite insert_by_perm. now constructor.
Qed.

Lemma order_by_In (x : A) (l : list A) : In x (order_by le l) <-> In x l.
Proof.
  split; apply Permutation_in; [|symmetry]; apply order_by_perm.
Qed.

Hypothesis le_total : forall a b, le a b = true \/ le b a = true.
Hypothesis le_trans : forall a b c, le a b = true -> le b c = true -> le a c = true.

Lemma insert_by_sorted (x : A) (l : list A) :
  StronglySorted (fun a b => le a b = true) l ->
  StronglySorted (fun a b => le a b = true) (insert_by le x l).
Proof using le_total le_trans.
  induction 1 as [|y l Hs IH Hy]; simpl.
  - repeat constructor.
  - destruct (le x y) eqn:E.
    + constructor; [now constructor|].
      constructor; [assumption|].
      rewrite Forall_forall in *. intros z Hz. eauto.
    + constructor; [assumption|].
      rewrite Forall_forall in *. intros z Hz.
      apply (Permutation_in _ (insert_by_perm x l)) in Hz.
      destruct Hz as [<-|Hz]; [|auto].
      destruct (le_total x y) as [C|C]; congruence.
Qed.

Lemma order_by_sorted (l : list A) :
  StronglySorted (fun a b => le a b = true) (order_by le l).
Proof using le_total le_trans.
  induction l as [|x l IH]; [constructor|].
  apply insert_by_sorted, IH.
Qed.
End OrderingFacts.

Lemma StronglySorted_weaken {A} (R S : A -> A -> Prop) (l : list A) :
  (forall a b, R a b -> S a b) -> StronglySorted R l -> StronglySorted S l.
Proof.
  intros HRS. induction 1 as [|x l Hs IH Hx]; constructor; [assumption|].
  eapply Forall_impl; [|exact Hx]. auto.
Qed.

Lemma oldest_batch_first_sorted (l : list Batch) :
  StronglySorted (fun a b => batch_added_at a <= batch_added_at b) (order_by oldest_batch_first l).
Proof.
  eapply StronglySorted_weaken; [|apply (order_by_sorted oldest_batch_first)];
    unfold oldest_batch_first; intros; lia.
Qed.

Lemma oldest_lot_first_sorted (l : list Lot) :
  StronglySorted (fun a b => lot_added_at a <= lot_added_at b) (order_by oldest_lot_first l).
Proof.
  eapply StronglySorted_weaken; [|apply (order_by_sorted oldest_lot_first)];
    unfold oldest_lot_first; intros; lia.
Qed.

Lemma group_keys_In (k : string) (ks : list string) : In k (group_keys ks) <-> In k ks.
Proof.
  induction ks as [|k0 ks IH]; simpl; [tauto|].
  rewrite filter_In, IH, negb_true_iff, String.eqb_neq.
  destruct (String.eqb_spec k0 k); intuition congruence.
Qed.

Lemma group_keys_NoDup (ks : list string) : NoDup (group_keys ks).
Proof.
  induction ks as [|k0 ks IH]; simpl; constructor.
  - rewrite filter_In, negb_true_iff, String.eqb_neq. tauto.
  - now apply NoDup_filter.
Qed.

(** ** The take loop *)

Lemma fifo_contrib_length (qtys : list Z) (request : Z) :
  length (fifo_contrib qtys request) = length qtys.
Proof. revert request; induction qtys as [|q qs IH]; intros; simpl; auto. Qed.

Lemma fifo_contrib_zero (qtys : list Z) :
  Forall (fun q => 0 < q) qtys -> fifo_contrib qtys 0 = map (fun _ => 0) qtys.
Proof.
  induction 1 as [|q qs Hq Hqs IH]; simpl; [reflexivity|].
  replace (Z.min 0 q) with 0 by lia. replace (0 - 0) with 0 by lia. now rewrite IH.
Qed.

(** The contributions add up to the request, or to the whole stock when
    the stock is smaller. *)
Lemma fifo_contrib_sum (qtys : list Z) (request : Z) :
  0 <= request -> Forall (fun q => 0 < q) qtys ->
  sum_Z (fifo_contrib qtys request) = Z.min request (sum_Z qtys).
Proof.
  intros Hr Hall. revert request Hr.
  induction Hall as [|q qs Hq Hqs IH]; intros request Hr; simpl; [lia|].
  rewrite IH by lia. pose proof (sum_Z_nonneg qs Hqs). lia.
Qed.

Lemma fifo_contrib_app (l1 l2 : list Z) (request : Z) :
  fifo_contrib (l1 ++ l2) request
  = fifo_contrib l1 request ++ fifo_contrib l2 (request - sum_Z (fifo_contrib l1 request)).
Proof.
  revert request; induction l1 as [|q l1 IH]; intros request; simpl.
  - now replace (request - 0) with request by lia.
  - rewrite IH. do 3 f_equal. lia.
Qed.

Lemma fifo_contrib_full (qtys : list Z) (request : Z) :
  Forall (fun q => 0 < q) qtys -> sum_Z qtys <= request -> fifo_contrib qtys request = qtys.
Proof.
  intros Hall. revert request.
  induction Hall as [|q qs Hq Hqs IH]; intros request Hle; simpl in *; [reflexivity|].
  pose proof (sum_Z_nonneg qs Hqs).
  replace (Z.min request q) with q by lia. rewrite IH by lia. reflexivity.
Qed.

(** Oldest first: a row contributes something only after all older rows
    were drained completely. *)
Lemma fifo_contrib_older_drained (older : list Z) (q : Z) (younger : list Z) (request : Z) :
  0 <= request -> Forall (fun q => 0 < q) older -> 0 < q ->
  exists c cs,
    fifo_contrib (older ++ q :: younger) request = fifo_contrib older request ++ c :: cs
    /\ length cs = length younger
    /\ 0 <= c
    /\ (0 < c -> fifo_contrib older request = older).
Proof.
  intros Hr Hall Hq. rewrite fifo_contrib_app. simpl.
  eexists. eexists. split; [reflexivity|]. split; [apply fifo_contrib_length|].
  rewrite fifo_contrib_sum by assumption. split; [lia|].
  intros Hc. apply fifo_contrib_full; [assumption|]. lia.
Qed.

Lemma lookup_id_not_in (i : Z) (plan : list (Z * Z)) :
  ~ In i (map fst plan) -> lookup_id i plan = None.
Proof.
  induction plan as [|[j c] plan IH]; simpl; intros Hn; [reflexivity|].
  destruct (Z.eqb_spec j i); [tauto|]. apply IH. tauto.
Qed.

Lemma lookup_id_in (i : Z) (plan : list (Z * Z)) :
  In i (map fst plan) -> exists c, lookup_id i plan = Some c /\ In (i, c) plan.
Proof.
  induction plan as [|[j c] plan IH]; simpl; intros Hin; [tauto|].
  destruct (Z.eqb_spec j i) as [->|Hne].
  - exists c. auto.
  - destruct Hin as [?|Hin]; [congruence|].
    destruct (IH Hin) as (c' & E & Hc'). exists c'. auto.
Qed.

Lemma lookup_id_middle (ids1 : list Z) (i : Z) (ids2 cs1 : list Z) (c : Z) (cs2 : list Z) :
  length cs1 = length ids1 -> ~ In i ids1 ->
  lookup_id i (combine (ids1 ++ i :: ids2) (cs1 ++ c :: cs2)) = Some c.
Proof.
  revert cs1; induction ids1 as [|j ids1 IH]; intros [|c1 cs1] Hlen Hn; simpl in *; try discriminate.
  - now rewrite Z.eqb_refl.
  - destruct (Z.eqb_spec j i); [tauto|]. apply IH; [lia|tauto].
Qed.

Lemma combine_map_fst {A B} (l1 : list A) (l2 : list B) :
  length l2 = length l1 -> map fst (combine l1 l2) = l1.
Proof.
  revert l2; induction l1 as [|a l1 IH]; intros [|b l2] Hlen; simpl in *; try discriminate; auto.
  f_equal. apply IH. lia.
Qed.

Section TakeLoopFacts.
Context {R : Type} (row_id : R -> Z) (row_qty : R -> Z) (set_qty : Z -> R -> R).
Hypothesis set_qty_id : forall q r, row_id (set_qty q r) = row_id r.
Hypothesis set_qty_qty : forall q r, row_qty (set_qty q r) = q.
Hypothesis set_qty_same : forall r, set_qty (row_qty r) r = r.

#[local] Abbreviation delete := (delete_by_id row_id).
#[local] Abbreviation update := (update_qty_by_id row_id set_qty).
#[local] Abbreviation loop := (take_loop row_id set_qty).
#[local] Abbreviation apply_plan := (apply_contrib row_id row_qty set_qty).

Lemma take_loop_stop (sel : list (Z * Z)) (tr rm : Z) (t : list R) :
  tr <= 0 -> loop sel tr rm t = (tr, rm, t).
Proof.
  intros Htr. destruct sel as [|[i q] rest]; simpl; [reflexivity|].
  destruct (Z.leb_spec tr 0); [reflexivity|lia].
Qed.

Lemma take_loop_step (i q : Z) (rest : list (Z * Z)) (tr rm : Z) (t : list R) :
  0 < tr ->
  loop ((i, q) :: rest) tr rm t
  = loop rest (tr - Z.min q tr) (rm + Z.min q tr)
      (if q - Z.min q tr <=? 0 then delete i t else update (q - Z.min q tr) i t).
Proof.
  intros Htr. simpl. destruct (Z.leb_spec tr 0); [lia|reflexivity].
Qed.

Lemma take_loop_app (s1 s2 : list (Z * Z)) (tr rm : Z) (t : list R) :
  loop (s1 ++ s2) tr rm t
  = loop s2 (fst (fst (loop s1 tr rm t))) (snd (fst (loop s1 tr rm t))) (snd (loop s1 tr rm t)).
Proof.
  revert tr rm t; induction s1 as [|[i q] s1 IH]; intros tr rm t; [reflexivity|].
  destruct (Z.leb_spec tr 0) as [Hle|Hgt].
  - rewrite (take_loop_stop ((i, q) :: s1 ++ s2)), (take_loop_stop ((i, q) :: s1))
      by assumption.
    simpl. now rewrite take_loop_stop.
  - simpl app. rewrite (take_loop_step i q (s1 ++ s2)), (take_loop_step i q s1) by assumption.
    apply IH.
Qed.

(** What was asked for, what was removed: the loop takes the request or
    the whole selection, whichever is smaller. *)
Lemma take_loop_amounts (sel : list (Z * Z)) (tr rm : Z) (t : list R) :
  0 <= tr -> Forall (fun p => 0 < snd p) sel ->
  fst (loop sel tr rm t)
  = (tr - Z.min tr (sum_Z (map snd sel)), rm + Z.min tr (sum_Z (map snd sel))).
Proof.
  intros Htr Hall. revert tr rm t Htr.
  induction Hall as [|[i q] rest Hq Hrest IH]; intros tr rm t Htr.
  - simpl. f_equal; lia.
  - pose proof (sum_Z_nonneg (map snd rest)) as Hnn.
    rewrite Forall_map in Hnn. specialize (Hnn Hrest). simpl in Hq.
    destruct (Z.leb_spec tr 0) as [Hle|Hgt].
    + rewrite take_loop_stop by assumption. simpl. f_equal; lia.
    + rewrite take_loop_step by assumption. rewrite IH by lia. simpl. f_equal; lia.
Qed.

Lemma delete_by_id_ids (i : Z) (t : list R) :
  map row_id (delete i t) = List.filter (fun j => negb (j =? i)) (map row_id t).
Proof.
  induction t as [|r t IH]; simpl; [reflexivity|].
  destruct (row_id r =? i); simpl; congruence.
Qed.

Lemma update_qty_by_id_ids (q i : Z) (t : list R) : map row_id (update q i t) = map row_id t.
Proof using set_qty_id.
  induction t as [|r t IH]; simpl; [reflexivity|].
  rewrite IH. destruct (row_id r =? i); [rewrite set_qty_id|]; reflexivity.
Qed.

(** The ids after the loop are ids of before, in the same order. *)
Lemma take_loop_ids (sel : list (Z * Z)) (tr rm : Z) (t : list R) :
  exists keep : Z -> bool,
    map row_id (snd (loop sel tr rm t)) = List.filter keep (map row_id t).
Proof using set_qty_id.
  revert tr rm t; induction sel as [|[i q] rest IH]; intros tr rm t.
  - exists (fun _ => true). simpl. clear. induction (map row_id t); simpl; congruence.
  - destruct (Z.leb_spec tr 0) as [Hle|Hgt].
    + rewrite take_loop_stop by assumption. exists (fun _ => true). simpl. clear.
      induction (map row_id t); simpl; congruence.
    + rewrite take_loop_step by assumption.
      destruct (q - Z.min q tr <=? 0).
      * destruct (IH (tr - Z.min q tr) (rm + Z.min q tr) (delete i t)) as [keep E].
        rewrite E, delete_by_id_ids, filter_filter_and. eauto.
      * destruct (IH (tr - Z.min q tr) (rm + Z.min q tr) (update (q - Z.min q tr) i t))
          as [keep E].
        rewrite E, update_qty_by_id_ids. eauto.
Qed.

Lemma take_loop_NoDup (sel : list (Z * Z)) (tr rm : Z) (t : list R) :
  NoDup (map row_id t) -> NoDup (map row_id (snd (loop sel tr rm t))).
Proof using set_qty_id.
  intros Hnd. destruct (take_loop_ids sel tr rm t) as [keep ->]. now apply NoDup_filter.
Qed.

Lemma take_loop_id_bound (sel : list (Z * Z)) (tr rm : Z) (t : list R) (bound : Z) :
  Forall (fun r => row_id r <= bound) t ->
  Forall (fun r => row_id r <= bound) (snd (loop sel tr rm t)).
Proof using set_qty_id.
  intros Hall. rewrite <- Forall_map with (f := row_id) (P := fun i => i <= bound) in *.
  destruct (take_loop_ids sel tr rm t) as [keep ->].
  rewrite Forall_forall in *. intros j Hj. apply filter_In in Hj. apply Hall, Hj.
Qed.

(** A quantity that would drop to zero or below is never written. *)
Lemma take_loop_positive (sel : list (Z * Z)) (tr rm : Z) (t : list R) :
  Forall (fun r => 0 < row_qty r) t ->
  Forall (fun r => 0 < row_qty r) (snd (loop sel tr rm t)).
Proof using set_qty_qty.
  revert tr rm t; induction sel as [|[i q] rest IH]; intros tr rm t Hall; [assumption|].
  destruct (Z.leb_spec tr 0) as [Hle|Hgt].
  - now rewrite take_loop_stop.
  - rewrite take_loop_step by assumption. apply IH.
    destruct (Z.leb_spec (q - Z.min q tr) 0) as [Hz|Hp].
    + rewrite Forall_forall in *. intros r Hr. apply filter_In in Hr. apply Hall, Hr.
    + rewrite Forall_forall in *. intros r Hr. apply in_map_iff in Hr.
      destruct Hr as (r0 & <- & Hr0).
      destruct (row_id r0 =? i); [rewrite set_qty_qty; lia | auto].
Qed.

(** Rows that the selection does not name are out of reach of the loop. *)
Lemma take_loop_frame (P : R -> bool) (sel : list (Z * Z)) (tr rm : Z) (t : list R) :
  (forall q r, P (set_qty q r) = P r) ->
  (forall r, In r t -> In (row_id r) (map fst sel) -> P r = false) ->
  List.filter P (snd (loop sel tr rm t)) = List.filter P t.
Proof using set_qty_id.
  intros HP. revert tr rm t; induction sel as [|[i q] rest IH]; intros tr rm t Hsel;
    [reflexivity|].
  destruct (Z.leb_spec tr 0) as [Hle|Hgt].
  - now rewrite take_loop_stop.
  - rewrite take_loop_step by assumption.
    assert (Hi : forall r, In r t -> row_id r = i -> P r = false).
    { intros r Hr E. apply Hsel; [assumption|]. simpl. auto. }
    destruct (q - Z.min q tr <=? 0).
    + rewrite IH.
      * unfold delete_by_id. rewrite filter_filter_and. apply filter_ext_in'.
        intros r Hr. destruct (Z.eqb_spec (row_id r) i); simpl; [|reflexivity].
        symmetry. now apply Hi.
      * intros r Hr Hin. apply filter_In in Hr. apply Hsel; [apply Hr|]. simpl. auto.
    + rewrite IH.
      * clear IH Hsel. induction t as [|r t IHt]; simpl; [reflexivity|].
        destruct (Z.eqb_spec (row_id r) i) as [E|E].
        -- rewrite HP. rewrite (Hi r) by (simpl; auto).
           apply IHt. intros r' Hr'. apply Hi. simpl; auto.
        -- destruct (P r); [f_equal|]; apply IHt; intros r' Hr'; apply Hi; simpl; auto.
      * intros r Hr Hin. apply in_map_iff in Hr. destruct Hr as (r0 & <- & Hr0).
        destruct (Z.eqb_spec (row_id r0) i) as [E|E].
        -- rewrite HP. now apply Hi.
        -- apply Hsel; [assumption|]. simpl. auto.
Qed.

Lemma NoDup_map_inj_in {A B} (f : A -> B) (l : list A) (a b : A) :
  NoDup (map f l) -> In a l -> In b l -> f a = f b -> a = b.
Proof.
  induction l as [|x l IH]; simpl; intros Hnd Ha Hb E; [tauto|].
  inversion Hnd as [|? ? Hx Hl]; subst.
  destruct Ha as [->|Ha], Hb as [->|Hb]; auto.
  - exfalso. apply Hx. rewrite E. now apply in_map.
  - exfalso. apply Hx. rewrite <- E. now apply in_map.
Qed.

Lemma delete_by_id_absent (i : Z) (t : list R) :
  ~ In i (map row_id t) -> delete i t = t.
Proof.
  induction t as [|r t IH]; simpl; intros Hn; [reflexivity|].
  destruct (Z.eqb_spec (row_id r) i); [tauto|]. simpl. f_equal. apply IH. tauto.
Qed.

Lemma update_qty_by_id_absent (q i : Z) (t : list R) :
  ~ In i (map row_id t) -> update q i t = t.
Proof.
  induction t as [|r t IH]; simpl; intros Hn; [reflexivity|].
  destruct (Z.eqb_spec (row_id r) i); [tauto|]. f_equal. apply IH. tauto.
Qed.

Lemma delete_by_id_sum (r : R) (t : list R) :
  NoDup (map row_id t) -> In r t ->
  sum_Z (map row_qty (delete (row_id r) t)) = sum_Z (map row_qty t) - row_qty r.
Proof.
  induction t as [|r0 t IH]; simpl; intros Hnd Hin; [tauto|].
  inversion Hnd as [|? ? Hx Hl]; subst.
  destruct Hin as [->|Hin].
  - rewrite Z.eqb_refl. simpl. rewrite delete_by_id_absent by assumption. lia.
  - destruct (Z.eqb_spec (row_id r0) (row_id r)) as [E|E].
    + exfalso. apply Hx. rewrite E. now apply in_map.
    + simpl. rewrite IH by assumption. lia.
Qed.

Lemma update_qty_by_id_sum (q : Z) (r : R) (t : list R) :
  NoDup (map row_id t) -> In r t ->
  sum_Z (map row_qty (update q (row_id r) t)) = sum_Z (map row_qty t) - row_qty r + q.
Proof using set_qty_qty.
  induction t as [|r0 t IH]; simpl; intros Hnd Hin; [tauto|].
  inversion Hnd as [|? ? Hx Hl]; subst.
  destruct Hin as [->|Hin].
  - rewrite Z.eqb_refl. rewrite set_qty_qty, update_qty_by_id_absent by assumption. lia.
  - destruct (Z.eqb_spec (row_id r0) (row_id r)) as [E|E].
    + exfalso. apply Hx. rewrite E. now apply in_map.
    + rewrite IH by assumption. lia.
Qed.

(** Nothing is lost and nothing is made: the table shrinks by what the
    loop reports as removed. *)
Lemma take_loop_sum (sel : list (Z * Z)) (tr rm : Z) (t : list R) :
  0 <= tr -> NoDup (map row_id t) -> NoDup (map fst sel) ->
  Forall (fun p => 0 < snd p) sel ->
  (forall i q, In (i, q) sel -> exists r, In r t /\ row_id r = i /\ row_qty r = q) ->
  sum_Z (map row_qty (snd (loop sel tr rm t)))
  = sum_Z (map row_qty t) - Z.min tr (sum_Z (map snd sel)).
Proof using set_qty_id set_qty_qty.
  intros Htr Hnd Hsel Hpos. revert tr rm t Htr Hnd Hsel.
  induction Hpos as [|[i q] rest Hq Hrest IH]; intros tr rm t Htr Hnd Hsel Hrows.
  - simpl. lia.
  - pose proof (sum_Z_nonneg (map snd rest)) as Hnn.
    rewrite Forall_map in Hnn. specialize (Hnn Hrest). simpl in Hq.
    inversion Hsel as [|? ? Hi Hnd']; subst.
    destruct (Z.leb_spec tr 0) as [Hle|Hgt].
    { rewrite take_loop_stop by assumption. simpl. lia. }
    rewrite take_loop_step by assumption.
    destruct (Hrows i q) as (r & Hr & <- & <-); [simpl; auto|].
    assert (Hkeep : forall r', In r' t -> row_id r' <> row_id r ->
              In r' (delete (row_id r) t) /\ In r' (update (row_qty r - Z.min (row_qty r) tr) (row_id r) t)).
    { intros r' Hr' Hne. split.
      - apply filter_In. split; [assumption|]. now destruct (Z.eqb_spec (row_id r') (row_id r)).
      - apply in_map_iff. exists r'. split; [|assumption].
        now destruct (Z.eqb_spec (row_id r') (row_id r)). }
    assert (Hrest' : forall i' q', In (i', q') rest ->
              exists r', In r' t /\ row_id r' = i' /\ row_qty r' = q' /\ row_id r' <> row_id r).
    { intros i' q' Hin. destruct (Hrows i' q') as (r' & Hr' & E1 & E2); [simpl; auto|].
      exists r'. repeat split; auto. intros E. apply Hi.
      rewrite <- E, E1. change i' with (fst (i', q')). now apply in_map. }
    destruct (Z.leb_spec (row_qty r - Z.min (row_qty r) tr) 0) as [Hz|Hp].
    + rewrite IH; [| lia | | assumption |].
      * rewrite delete_by_id_sum by assumption. simpl. lia.
      * rewrite delete_by_id_ids. now apply NoDup_filter.
      * intros i' q' Hin. destruct (Hrest' i' q' Hin) as (r' & Hr' & E1 & E2 & Hne).
        exists r'. split; [apply (Hkeep r' Hr' Hne)|auto].
    + rewrite IH; [| lia | | assumption |].
      * rewrite update_qty_by_id_sum by assumption. simpl. lia.
      * now rewrite update_qty_by_id_ids.
      * intros i' q' Hin. destruct (Hrest' i' q' Hin) as (r' & Hr' & E1 & E2 & Hne).
        exists r'. split; [apply (Hkeep r' Hr' Hne)|auto].
Qed.

(** *** The loop carries out the plan of the specification *)

Lemma apply_contrib_nil (t : list R) : apply_plan [] t = t.
Proof. induction t as [|r t IH]; simpl; [reflexivity|]. f_equal. exact IH. Qed.

Lemma apply_contrib_zero (plan : list (Z * Z)) (t : list R) :
  (forall i c, In (i, c) plan -> c = 0) ->
  (forall r, In r t -> In (row_id r) (map fst plan) -> 0 < row_qty r) ->
  apply_plan plan t = t.
Proof using set_qty_same.
  intros Hzero. induction t as [|r t IH]; intros Hpos; [reflexivity|].
  change (apply_plan plan (r :: t))
    with ((match lookup_id (row_id r) plan with
           | None => [r]
           | Some c => if row_qty r - c <=? 0 then [] else [set_qty (row_qty r - c) r]
           end) ++ apply_plan plan t).
  rewrite IH by (intros; apply Hpos; simpl; auto).
  destruct (lookup_id (row_id r) plan) as [c|] eqn:E; [|reflexivity].
  assert (Hin : In (row_id r) (map fst plan)).
  { destruct (in_dec Z.eq_dec (row_id r) (map fst plan)) as [Hin|Hn]; [assumption|].
    rewrite lookup_id_not_in in E by assumption. discriminate. }
  destruct (lookup_id_in _ _ Hin) as (c' & E' & Hc'). rewrite E in E'. injection E' as <-.
  rewrite (Hzero _ _ Hc'). specialize (Hpos r (or_introl eq_refl) Hin).
  replace (row_qty r - 0) with (row_qty r) by lia.
  destruct (Z.leb_spec (row_qty r) 0); [lia|]. now rewrite set_qty_same.
Qed.

Lemma apply_contrib_cons (i c q : Z) (plan : list (Z * Z)) (t : list R) :
  ~ In i (map fst plan) ->
  (forall r, In r t -> row_id r = i -> row_qty r = q) ->
  apply_plan ((i, c) :: plan) t
  = apply_plan plan (if q - c <=? 0 then delete i t else update (q - c) i t).
Proof using set_qty_id.
  intros Hi. induction t as [|r t IH]; intros Hq.
  - destruct (q - c <=? 0); reflexivity.
  - specialize (IH (fun r' Hr' => Hq r' (or_intror Hr'))).
    change (apply_plan ((i, c) :: plan) (r :: t))
      with ((match (if i =? row_id r then Some c else lookup_id (row_id r) plan) with
             | None => [r]
             | Some c => if row_qty r - c <=? 0 then [] else [set_qty (row_qty r - c) r]
             end) ++ apply_plan ((i, c) :: plan) t).
    rewrite IH. rewrite (Z.eqb_sym i).
    destruct (Z.eqb_spec (row_id r) i) as [E|E].
    + rewrite (Hq r (or_introl eq_refl) E).
      destruct (q - c <=? 0) eqn:Hz; simpl.
      * now rewrite (proj2 (Z.eqb_eq _ _) E).
      * rewrite (proj2 (Z.eqb_eq _ _) E). simpl.
        rewrite set_qty_id, E, lookup_id_not_in by assumption. reflexivity.
    + destruct (q - c <=? 0) eqn:Hz; simpl.
      * now rewrite (proj2 (Z.eqb_neq _ _) E).
      * now rewrite (proj2 (Z.eqb_neq _ _) E).
Qed.

Lemma take_loop_plan (sel : list (Z * Z)) (tr rm : Z) (t : list R) :
  0 <= tr -> NoDup (map fst sel) -> Forall (fun p => 0 < snd p) sel ->
  (forall r i q, In r t -> In (i, q) sel -> row_id r = i -> row_qty r = q) ->
  snd (loop sel tr rm t)
  = apply_plan (combine (map fst sel) (fifo_contrib (map snd sel) tr)) t.
Proof using set_qty_id set_qty_same.
  intros Htr Hnd Hpos. revert tr rm t Htr Hnd.
  induction Hpos as [|[i q] rest Hq Hrest IH]; intros tr rm t Htr Hnd Hcons.
  - simpl. now rewrite apply_contrib_nil.
  - inversion Hnd as [|? ? Hi Hnd']; subst. simpl in Hq.
    destruct (Z.leb_spec tr 0) as [Hle|Hgt].
    + rewrite take_loop_stop by assumption. simpl snd.
      assert (tr = 0) as -> by lia.
      rewrite fifo_contrib_zero by (rewrite Forall_map; constructor; assumption).
      symmetry. apply apply_contrib_zero.
      * intros j c Hin. apply in_combine_r in Hin. apply in_map_iff in Hin.
        now destruct Hin as (? & <- & _).
      * intros r Hr Hin. rewrite combine_map_fst in Hin by now rewrite !length_map.
        apply in_map_iff in Hin. destruct Hin as ([j qj] & Ej & Hj). simpl in Ej.
        rewrite (Hcons r j qj Hr Hj (eq_sym Ej)).
        assert (Hall : Forall (fun p => 0 < snd p) ((i, q) :: rest)) by now constructor.
        rewrite Forall_forall in Hall. apply (Hall (j, qj) Hj).
    + rewrite take_loop_step by assumption. rewrite IH; [| lia | assumption |].
      * simpl. rewrite (Z.min_comm tr q).
        rewrite (apply_contrib_cons i (Z.min q tr) q); [reflexivity | |].
        -- rewrite combine_map_fst by now rewrite fifo_contrib_length, !length_map.
           assumption.
        -- intros r Hr E. apply (Hcons r i q Hr); simpl; auto.
      * intros r j qj Hr Hj Ej.
        assert (Hne : j <> i).
        { intros ->. apply Hi. change i with (fst (i, qj)). now apply in_map. }
        destruct (q - Z.min q tr <=? 0).
        -- apply filter_In in Hr. apply (Hcons r j qj); simpl; tauto.
        -- apply in_map_iff in Hr. destruct Hr as (r0 & Er & Hr0).
           destruct (Z.eqb_spec (row_id r0) i) as [E|E].
           ++ subst r. rewrite set_qty_id in Ej. congruence.
           ++ subst r. apply (Hcons r0 j qj); simpl; auto.
Qed.

Lemma NoDup_map_filter {A B} (f : A -> B) (p : A -> bool) (l : list A) :
  NoDup (map f l) -> NoDup (map f (List.filter p l)).
Proof.
  induction l as [|x l IH]; simpl; intros Hnd; [constructor|].
  inversion Hnd as [|? ? Hx Hl]; subst.
  destruct (p x); simpl; [|auto]. constructor; [|auto].
  intros Hin. apply Hx. apply in_map_iff in Hin. destruct Hin as (y & E & Hy).
  apply filter_In in Hy. rewrite <- E. apply in_map, Hy.
Qed.

Lemma in_apply_contrib (plan : list (Z * Z)) (t : list R) (x : R) :
  In x (apply_plan plan t) <->
  exists r, In r t /\
    ((lookup_id (row_id r) plan = None /\ x = r) \/
     (exists c, lookup_id (row_id r) plan = Some c /\ 0 < row_qty r - c
                /\ x = set_qty (row_qty r - c) r)).
Proof.
  unfold apply_contrib. rewrite in_flat_map. split.
  - intros (r & Hr & Hx). exists r. split; [assumption|].
    destruct (lookup_id (row_id r) plan) as [c|].
    + right. exists c. destruct (Z.leb_spec (row_qty r - c) 0); simpl in Hx; [tauto|].
      destruct Hx as [<-|[]]. auto.
    + left. simpl in Hx. destruct Hx as [<-|[]]. auto.
  - intros (r & Hr & [[E ->]|(c & E & Hc & ->)]); exists r; (split; [assumption|]); rewrite E.
    + simpl; auto.
    + destruct (Z.leb_spec (row_qty r - c) 0); [lia|]. simpl; auto.
Qed.

(** The facts about one run of the loop over a selection: the rows that
    satisfy [P], in any order. *)
Lemma take_loop_selection (P : R -> bool) (rows : list R) (tr rm : Z) (t : list R) :
  0 <= tr -> NoDup (map row_id t) -> Permutation rows (List.filter P t) ->
  Forall (fun r => 0 < row_qty r) t ->
  (forall q r, P (set_qty q r) = P r) ->
  fst (loop (id_qty row_id row_qty rows) tr rm t)
  = (tr - Z.min tr (sum_Z (map row_qty (List.filter P t))),
     rm + Z.min tr (sum_Z (map row_qty (List.filter P t))))
  /\ snd (loop (id_qty row_id row_qty rows) tr rm t)
     = apply_plan (combine (map row_id rows) (fifo_contrib (map row_qty rows) tr)) t
  /\ List.filter (fun r => negb (P r)) (snd (loop (id_qty row_id row_qty rows) tr rm t))
     = List.filter (fun r => negb (P r)) t
  /\ sum_Z (map row_qty (List.filter P (snd (loop (id_qty row_id row_qty rows) tr rm t))))
     = sum_Z (map row_qty (List.filter P t))
       - Z.min tr (sum_Z (map row_qty (List.filter P t))).
Proof using set_qty_id set_qty_qty set_qty_same.
  intros Htr Hnd Hperm Hpos HP.
  assert (Hrows : forall r, In r rows -> In r t /\ P r = true).
  { intros r Hr. apply filter_In. now apply (Permutation_in _ Hperm). }
  assert (Hfst : map fst (id_qty row_id row_qty rows) = map row_id rows).
  { unfold id_qty. rewrite map_map. reflexivity. }
  assert (Hsnd : map snd (id_qty row_id row_qty rows) = map row_qty rows).
  { unfold id_qty. rewrite map_map. reflexivity. }
  assert (Hsum : sum_Z (map row_qty rows) = sum_Z (map row_qty (List.filter P t))).
  { apply sum_Z_perm. now apply Permutation_map. }
  assert (Hnd' : NoDup (map fst (id_qty row_id row_qty rows))).
  { rewrite Hfst. eapply Permutation_NoDup.
    - symmetry. apply Permutation_map. exact Hperm.
    - now apply NoDup_map_filter. }
  assert (Hsel : forall i q, In (i, q) (id_qty row_id row_qty rows) ->
            exists r, In r rows /\ row_id r = i /\ row_qty r = q).
  { intros i q Hin. apply in_map_iff in Hin. destruct Hin as (r & E & Hr).
    injection E as <- <-. eauto. }
  assert (Hpos' : Forall (fun p => 0 < snd p) (id_qty row_id row_qty rows)).
  { rewrite Forall_forall in *. intros [i q] Hin.
    destruct (Hsel i q Hin) as (r & Hr & _ & <-). apply Hpos, Hrows, Hr. }
  assert (Hframe : List.filter (fun r => negb (P r))
                     (snd (loop (id_qty row_id row_qty rows) tr rm t))
                   = List.filter (fun r => negb (P r)) t).
  { apply take_loop_frame.
    - intros q r. now rewrite HP.
    - intros r Hr Hin. rewrite Hfst in Hin. apply in_map_iff in Hin.
      destruct Hin as (r0 & E & Hr0). destruct (Hrows r0 Hr0) as [Ht HPr].
      rewrite <- (NoDup_map_inj_in row_id t r0 r Hnd Ht Hr E). now rewrite HPr. }
  split; [|split; [|split]].
  - rewrite take_loop_amounts by assumption. now rewrite Hsnd, Hsum.
  - rewrite take_loop_plan; [now rewrite Hfst, Hsnd | assumption.. |].
    intros r i q Hr Hin E. destruct (Hsel i q Hin) as (r0 & Hr0 & E1 & E2).
    destruct (Hrows r0 Hr0) as [Ht _].
    rewrite (NoDup_map_inj_in row_id t r r0 Hnd Hr Ht); congruence.
  - exact Hframe.
  - pose proof (take_loop_sum (id_qty row_id row_qty rows) tr rm t Htr Hnd Hnd' Hpos') as Hall.
    rewrite Hsnd, Hsum in Hall.
    rewrite (sum_Z_filter_split row_qty P) in Hall.
    rewrite (sum_Z_filter_split row_qty P t) in Hall.
    rewrite Hframe in Hall.
    assert (Hex : forall i q, In (i, q) (id_qty row_id row_qty rows) ->
              exists r, In r t /\ row_id r = i /\ row_qty r = q).
    { intros i q Hin. destruct (Hsel i q Hin) as (r & Hr & E1 & E2).
      exists r. split; [apply Hrows, Hr|auto]. }
    specialize (Hall Hex). lia.
Qed.

(** First in, first out: when a selected row was touched, every row that
    was selected before it is gone. *)
Lemma take_loop_fifo (P : R -> bool) (older : list R) (b : R) (younger : list R)
    (tr rm : Z) (t : list R) :
  0 <= tr -> NoDup (map row_id t) -> Permutation (older ++ b :: younger) (List.filter P t) ->
  Forall (fun r => 0 < row_qty r) t ->
  (forall q r, P (set_qty q r) = P r) ->
  ~ In b (snd (loop (id_qty row_id row_qty (older ++ b :: younger)) tr rm t)) ->
  forall a, In a older ->
    ~ In (row_id a) (map row_id (snd (loop (id_qty row_id row_qty (older ++ b :: younger)) tr rm t))).
Proof using set_qty_id set_qty_qty set_qty_same.
  intros Htr Hnd Hperm Hpos HP Hb a Ha.
  destruct (take_loop_selection P _ tr rm t Htr Hnd Hperm Hpos HP) as (_ & Eplan & _ & _).
  rewrite Eplan in *. clear Eplan.
  assert (Hrows : forall r, In r (older ++ b :: younger) -> In r t).
  { intros r Hr. apply (Permutation_in _ Hperm) in Hr. apply filter_In in Hr. tauto. }
  assert (Hndr : NoDup (map row_id (older ++ b :: younger))).
  { eapply Permutation_NoDup.
    - symmetry. apply Permutation_map. exact Hperm.
    - now apply NoDup_map_filter. }
  rewrite Forall_forall in Hpos.
  assert (Hposo : Forall (fun q => 0 < q) (map row_qty older)).
  { rewrite Forall_map, Forall_forall. intros r Hr. apply Hpos, Hrows, in_or_app. auto. }
  assert (Hbt : In b t) by (apply Hrows, in_or_app; simpl; auto).
  rewrite !map_app in *. simpl map in *.
  destruct (fifo_contrib_older_drained (map row_qty older) (row_qty b) (map row_qty younger) tr)
    as (c & cs & E & Hlen & Hc0 & Hfull); [assumption..|now apply Hpos|].
  rewrite E in *. clear E.
  assert (Hlb : lookup_id (row_id b)
            (combine (map row_id older ++ row_id b :: map row_id younger)
                     (fifo_contrib (map row_qty older) tr ++ c :: cs)) = Some c).
  { apply lookup_id_middle; [now rewrite fifo_contrib_length, !length_map|].
    apply NoDup_remove_2 in Hndr. intros Hin. apply Hndr, in_or_app. auto. }
  assert (Hc : 0 < c).
  { destruct (Z.eq_dec c 0) as [->|]; [|lia]. exfalso. apply Hb.
    apply in_apply_contrib. exists b. split; [assumption|]. right. exists 0.
    replace (row_qty b - 0) with (row_qty b) by lia.
    rewrite set_qty_same. specialize (Hpos b Hbt). auto. }
  rewrite (Hfull Hc) in *.
  apply in_split in Ha. destruct Ha as (o1 & o2 & ->).
  rewrite !map_app in *. simpl map in *. rewrite <- !app_assoc in *. simpl app in *.
  assert (Hla : lookup_id (row_id a)
            (combine (map row_id o1 ++ row_id a :: map row_id o2 ++ row_id b :: map row_id younger)
                     (map row_qty o1 ++ row_qty a :: map row_qty o2 ++ c :: cs))
            = Some (row_qty a)).
  { apply lookup_id_middle; [now rewrite !length_map|].
    apply NoDup_remove_2 in Hndr. intros Hin. apply Hndr, in_or_app. auto. }
  intros Hin. apply in_map_iff in Hin. destruct Hin as (x & Ex & Hx).
  apply in_apply_contrib in Hx. destruct Hx as (r & Hr & Hcase).
  assert (Hat : In a t) by (apply Hrows, in_or_app; simpl; auto).
  assert (r = a) as ->.
  { apply (NoDup_map_inj_in row_id t r a Hnd Hr Hat).
    destruct Hcase as [[_ ->]|(c' & _ & _ & ->)]; [|rewrite set_qty_id in Ex]; exact Ex. }
  rewrite Hla in Hcase. destruct Hcase as [[D _]|(c' & D & Hlt & _)]; [discriminate|].
  injection D as <-. lia.
Qed.
End TakeLoopFacts.

(** ** FBH: adding and taking batches *)

Lemma set_batch_qty_same (b : Batch) : set_batch_qty (batch_qty b) b = b.
Proof. now destruct b. Qed.

Lemma set_lot_qty_same (l : Lot) : set_lot_qty (lot_qty l) l = l.
Proof. now destruct l. Qed.

Lemma positive_rows_empty {A} (f : A -> Z) (l : list A) :
  Forall (fun r => 0 < f r) l -> sum_Z (map f l) <= 0 -> l = [].
Proof.
  intros Hpos Hsum. destruct l as [|x l]; [reflexivity|].
  assert (0 < sum_Z (map f (x :: l))); [|lia].
  apply sum_Z_pos; [discriminate|]. now rewrite Forall_map.
Qed.

Section FbhFacts.
Context `{PyText}.

Lemma fbh_take_eq (storage_id : Z) (item_display : string) (qty : Z) (db : DB) :
  fbh_take storage_id item_display qty db
  = (snd (fst (take_loop batch_id set_batch_qty
                 (id_qty batch_id batch_qty
                    (fbh_select storage_id (norm_key item_display) (fbh_batches db)))
                 qty 0 (fbh_batches db))),
     with_batches
       (snd (take_loop batch_id set_batch_qty
               (id_qty batch_id batch_qty
                  (fbh_select storage_id (norm_key item_display) (fbh_batches db)))
               qty 0 (fbh_batches db))) db).
Proof.
  unfold fbh_take.
  destruct (take_loop _ _ _ _ _ _) as [[tr rm] t]. reflexivity.
Qed.

Lemma fbh_select_perm (storage_id : Z) (k : string) (t : list Batch) :
  Permutation (fbh_select storage_id k t) (List.filter (batch_matches storage_id k) t).
Proof. apply order_by_perm. Qed.

(** The general facts about one take. *)
Lemma fbh_take_facts (storage_id : Z) (item_display : string) (qty : Z) (db : DB) :
  0 <= qty ->
  NoDup (map batch_id (fbh_batches db)) ->
  Forall (fun b => 0 < batch_qty b) (fbh_batches db) ->
  fst (fbh_take storage_id item_display qty db)
  = Z.min qty (fbh_stock storage_id (norm_key item_display) db)
  /\ fbh_batches (snd (fbh_take storage_id item_display qty db))
     = apply_contrib batch_id batch_qty set_batch_qty
         (fbh_plan storage_id (norm_key item_display) qty db) (fbh_batches db)
  /\ List.filter (fun b => negb (batch_matches storage_id (norm_key item_display) b))
       (fbh_batches (snd (fbh_take storage_id item_display qty db)))
     = List.filter (fun b => negb (batch_matches storage_id (norm_key item_display) b))
         (fbh_batches db)
  /\ fbh_stock storage_id (norm_key item_display) (snd (fbh_take storage_id item_display qty db))
     = fbh_stock storage_id (norm_key item_display) db
       - Z.min qty (fbh_stock storage_id (norm_key item_display) db).
Proof.
  intros Hq Hnd Hpos. rewrite fbh_take_eq. simpl fst. simpl snd.
  destruct (take_loop_selection batch_id batch_qty set_batch_qty
              (fun _ _ => eq_refl) (fun _ _ => eq_refl) set_batch_qty_same
              (batch_matches storage_id (norm_key item_display))
              (fbh_select storage_id (norm_key item_display) (fbh_batches db))
              qty 0 (fbh_batches db) Hq Hnd (fbh_select_perm _ _ _) Hpos (fun _ _ => eq_refl))
    as (E1 & E2 & E3 & E4).
  unfold fbh_stock, fbh_plan. simpl fbh_batches.
  rewrite E1, E2 in *. simpl. auto.
Qed.

Lemma fbh_take_positive (storage_id : Z) (item_display : string) (qty : Z) (db : DB) :
  Forall (fun b => 0 < batch_qty b) (fbh_batches db) ->
  Forall (fun b => 0 < batch_qty b) (fbh_batches (snd (fbh_take storage_id item_display qty db))).
Proof.
  intros Hpos. rewrite fbh_take_eq. simpl.
  now apply (take_loop_positive batch_id batch_qty set_batch_qty (fun _ _ => eq_refl)).
Qed.

Lemma fbh_take_other_tables (storage_id : Z) (item_display : string) (qty : Z) (db : DB) :
  guild_settings (snd (fbh_take storage_id item_display qty db)) = guild_settings db
  /\ fbh_batches_seq (snd (fbh_take storage_id item_display qty db)) = fbh_batches_seq db
  /\ kl_herb_lots (snd (fbh_take storage_id item_display qty db)) = kl_herb_lots db
  /\ kl_herb_lots_seq (snd (fbh_take storage_id item_display qty db)) = kl_herb_lots_seq db
  /\ kl_pantry (snd (fbh_take storage_id item_display qty db)) = kl_pantry db.
Proof. rewrite fbh_take_eq. simpl. auto. Qed.

(** The first example of the specification, for any two times and any
    database that has no batch of the key yet. *)
Lemma fbh_take_two_batches (db : DB) (storage_id : Z) (item_display : string)
    (u1 u2 t1 t2 : Z) :
  t1 <= t2 ->
  Forall (fun b => batch_id b <= fbh_batches_seq db) (fbh_batches db) ->
  List.filter (batch_matches storage_id (norm_key item_display)) (fbh_batches db) = [] ->
  fbh_take storage_id item_display 6
    (fbh_add storage_id item_display 5 u2 t2 (fbh_add storage_id item_display 3 u1 t1 db))
  = (6, with_batches
          (fbh_batches db ++
             [ {| batch_id := fbh_batches_seq db + 1 + 1; batch_storage_id := storage_id;
                  batch_item_key := norm_key item_display;
                  batch_item_display := py_strip item_display; batch_qty := 2;
                  batch_added_at := t2; batch_added_by := u2 |} ])
          (fbh_add storage_id item_display 5 u2 t2
             (fbh_add storage_id item_display 3 u1 t1 db))).
Proof.
  intros Ht Hids Hnone.
  assert (Habs : forall i, fbh_batches_seq db < i -> ~ In i (map batch_id (fbh_batches db))).
  { intros i Hi Hin. apply in_map_iff in Hin. destruct Hin as (b & <- & Hb).
    rewrite Forall_forall in Hids. specialize (Hids b Hb). lia. }
  unfold fbh_take, fbh_select. simpl fbh_batches.
  rewrite <- app_assoc. simpl app. rewrite filter_app, Hnone. simpl app.
  unfold batch_matches at 1 2. simpl.
  rewrite !Z.eqb_refl, !String.eqb_refl. simpl.
  unfold oldest_batch_first. simpl.
  destruct (Z.leb_spec t1 t2); [|lia]. simpl.
  unfold delete_by_id, update_qty_by_id.
  rewrite filter_app, map_app. simpl.
  rewrite Z.eqb_refl. simpl.
  destruct (Z.eqb_spec (fbh_batches_seq db + 1 + 1) (fbh_batches_seq db + 1)); [lia|]. simpl.
  rewrite Z.eqb_refl.
  fold (delete_by_id batch_id (fbh_batches_seq db + 1) (fbh_batches db)).
  rewrite delete_by_id_absent by (apply Habs; lia).
  change (5 - Z.min 5 (6 - Z.min 3 6)) with 2.
  change (0 + Z.min 3 6 + Z.min 5 (6 - Z.min 3 6)) with 6.
  fold (update_qty_by_id batch_id set_batch_qty 2 (fbh_batches_seq db + 1 + 1) (fbh_batches db)).
  rewrite update_qty_by_id_absent by (apply Habs; lia).
  reflexivity.
Qed.
End FbhFacts.

(** C2. [fbh_take] is first in, first out and never fails on a shortage.
    For a request [qty > 0] on a table with unique ids and positive
    quantities: the batches of the key are gone through oldest first; the
    table afterwards is the table before with every batch of the key
    lowered by [min(remaining request, batch quantity)], a drained batch
    deleted and any other kept in its place; a batch is touched only when
    all older ones are gone; the returned amount is [min(qty, stock)] and
    the stock shrinks by it.  When the stock does not exceed the request no
    row of the key is left.  After adding 3 at [t1] and 5 at [t2 > t1] to a
    key without batches, taking 6 returns 6 and leaves the second batch
    alone, with quantity 2; taking 10 from a stock of 4 returns 4 and
    leaves no row. *)
Theorem fbh_take_is_fifo `{PyText} (db : DB) (storage_id : Z) (item_display : string) (qty : Z) :
  0 < qty ->
  NoDup (map batch_id (fbh_batches db)) ->
  Forall (fun b => 0 < batch_qty b) (fbh_batches db) ->
  StronglySorted (fun a b => batch_added_at a <= batch_added_at b)
    (fbh_select storage_id (norm_key item_display) (fbh_batches db))
  /\ Permutation (fbh_select storage_id (norm_key item_display) (fbh_batches db))
       (List.filter (batch_matches storage_id (norm_key item_display)) (fbh_batches db))
  /\ fbh_batches (snd (fbh_take storage_id item_display qty db))
     = apply_contrib batch_id batch_qty set_batch_qty
         (fbh_plan storage_id (norm_key item_display) qty db) (fbh_batches db)
  /\ (forall older b younger,
        fbh_select storage_id (norm_key item_display) (fbh_batches db) = older ++ b :: younger ->
        ~ In b (fbh_batches (snd (fbh_take storage_id item_display qty db))) ->
        forall a, In a older ->
          ~ In (batch_id a)
               (map batch_id (fbh_batches (snd (fbh_take storage_id item_display qty db)))))
  /\ fst (fbh_take storage_id item_display qty db)
     = Z.min qty (fbh_stock storage_id (norm_key item_display) db)
  /\ fbh_stock storage_id (norm_key item_display) (snd (fbh_take storage_id item_display qty db))
     = fbh_stock storage_id (norm_key item_display) db
       - fst (fbh_take storage_id item_display qty db)
  /\ (fbh_stock storage_id (norm_key item_display) db <= qty ->
      List.filter (batch_matches storage_id (norm_key item_display))
        (fbh_batches (snd (fbh_take storage_id item_display qty db))) = [])
  /\ (forall u1 u2 t1 t2,
        t1 < t2 ->
        Forall (fun b => batch_id b <= fbh_batches_seq db) (fbh_batches db) ->
        List.filter (batch_matches storage_id (norm_key item_display)) (fbh_batches db) = [] ->
        fst (fbh_take storage_id item_display 6
               (fbh_add storage_id item_display 5 u2 t2
                  (fbh_add storage_id item_display 3 u1 t1 db))) = 6
        /\ List.filter (batch_matches storage_id (norm_key item_display))
             (fbh_batches
                (snd (fbh_take storage_id item_display 6
                        (fbh_add storage_id item_display 5 u2 t2
                           (fbh_add storage_id item_display 3 u1 t1 db)))))
           = [ {| batch_id := fbh_batches_seq db + 1 + 1; batch_storage_id := storage_id;
                  batch_item_key := norm_key item_display;
                  batch_item_display := py_strip item_display; batch_qty := 2;
                  batch_added_at := t2; batch_added_by := u2 |} ]
        /\ fbh_stock storage_id (norm_key item_display)
             (snd (fbh_take storage_id item_display 6
                     (fbh_add storage_id item_display 5 u2 t2
                        (fbh_add storage_id item_display 3 u1 t1 db)))) = 2)
  /\ (fbh_stock storage_id (norm_key item_display) db = 4 ->
      fst (fbh_take storage_id item_display 10 db) = 4
      /\ List.filter (batch_matches storage_id (norm_key item_display))
           (fbh_batches (snd (fbh_take storage_id item_display 10 db))) = []).
Proof.
  intros Hq Hnd Hpos.
  assert (Hempty : forall q, 0 <= q ->
            fbh_stock storage_id (norm_key item_display) db <= q ->
            List.filter (batch_matches storage_id (norm_key item_display))
              (fbh_batches (snd (fbh_take storage_id item_display q db))) = []).
  { intros q Hq0 Hle.
    destruct (fbh_take_facts storage_id item_display q db Hq0 Hnd Hpos) as (_ & _ & _ & E4).
    apply (positive_rows_empty batch_qty).
    - pose proof (fbh_take_positive storage_id item_display q db Hpos) as Hp.
      rewrite Forall_forall in *. intros b Hb. apply filter_In in Hb. apply Hp, Hb.
    - unfold fbh_stock in E4 |- *. unfold fbh_stock in Hle. lia. }
  destruct (fbh_take_facts storage_id item_display qty db (Z.lt_le_incl _ _ Hq) Hnd Hpos)
    as (E1 & E2 & E3 & E4).
  split; [apply oldest_batch_first_sorted|].
  split; [apply fbh_select_perm|].
  split; [exact E2|].
  split.
  { intros older b younger Esel Hb a Ha.
    rewrite fbh_take_eq in Hb |- *. simpl snd in Hb |- *. simpl fbh_batches in Hb |- *.
    rewrite Esel in Hb |- *.
    apply (take_loop_fifo batch_id batch_qty set_batch_qty
             (fun _ _ => eq_refl) (fun _ _ => eq_refl) set_batch_qty_same
             (batch_matches storage_id (norm_key item_display))
             older b younger qty 0 (fbh_batches db)); auto; try lia.
    rewrite <- Esel. apply fbh_select_perm. }
  split; [exact E1|].
  split; [rewrite E4, E1; reflexivity|].
  split; [apply Hempty; lia|].
  split.
  { intros u1 u2 t1 t2 Ht Hids Hnone.
    rewrite (fbh_take_two_batches db storage_id item_display u1 u2 t1 t2) by (auto; lia).
    simpl fst. simpl snd. unfold fbh_stock. simpl fbh_batches.
    rewrite filter_app, Hnone. simpl. unfold batch_matches. simpl.
    rewrite Z.eqb_refl, String.eqb_refl. simpl. auto. }
  intros Hfour.
  destruct (fbh_take_facts storage_id item_display 10 db ltac:(lia) Hnd Hpos) as (F1 & _).
  split; [rewrite F1, Hfour; reflexivity|].
  apply Hempty; lia.
Qed.

Lemma fbh_take_is_fifo_witness :
  0 < 6
  /\ NoDup (map batch_id (fbh_batches example_fifo_db))
  /\ Forall (fun b => 0 < batch_qty b) (fbh_batches example_fifo_db)
  /\ fst (@fbh_take latin1_text 1 "maus  (ALLGEMEIN)" 6 example_fifo_db)
     = Z.min 6 (fbh_stock 1 (@norm_key latin1_text "maus  (ALLGEMEIN)") example_fifo_db)
  /\ 100 < 200
  /\ Forall (fun b => batch_id b <= fbh_batches_seq empty_db) (fbh_batches empty_db)
  /\ List.filter (batch_matches 1 (@norm_key latin1_text "Maus (allgemein)"))
       (fbh_batches empty_db) = []
  /\ map (fun b => (batch_id b, batch_qty b, batch_added_at b))
       (fbh_batches (snd (@fbh_take latin1_text 1 "Maus (allgemein)" 6 example_fifo_db)))
     = [(2, 2, 200)].
Proof.
  assert (H1 : 0 < 6) by lia.
  assert (H2 : NoDup (map batch_id (fbh_batches example_fifo_db))) by concrete_NoDup.
  assert (H3 : Forall (fun b => 0 < batch_qty b) (fbh_batches example_fifo_db)).
  { unfold example_fifo_db. simpl. repeat constructor; simpl; lia. }
  assert (H4 : 100 < 200) by lia.
  assert (H5 : Forall (fun b => batch_id b <= fbh_batches_seq empty_db) (fbh_batches empty_db))
    by apply Forall_nil.
  assert (H6 : List.filter (batch_matches 1 (@norm_key latin1_text "Maus (allgemein)"))
                 (fbh_batches empty_db) = []) by reflexivity.
  assert (H7 : NoDup (map batch_id (fbh_batches empty_db))) by apply NoDup_nil.
  assert (H8 : Forall (fun b => 0 < batch_qty b) (fbh_batches empty_db)) by apply Forall_nil.
  split; [exact H1|]. split; [exact H2|]. split; [exact H3|].
  split.
  { exact (proj1 (proj2 (proj2 (proj2 (proj2
      (@fbh_take_is_fifo latin1_text example_fifo_db 1 "maus  (ALLGEMEIN)" 6 H1 H2 H3)))))). }
  split; [exact H4|]. split; [exact H5|]. split; [exact H6|].
  pose proof (proj1 (proj2 (proj2 (proj2 (proj2 (proj2 (proj2 (proj2
      (@fbh_take_is_fifo latin1_text empty_db 1 "Maus (allgemein)" 6 H1 H7 H8))))))))
      42 42 100 200 H4 H5 H6) as (_ & E & _).
  assert (Hin : forall t : list Batch,
            List.filter (batch_matches 1 (@norm_key latin1_text "Maus (allgemein)")) t
            = [ {| batch_id := 2; batch_storage_id := 1;
                   batch_item_key := @norm_key latin1_text "Maus (allgemein)";
                   batch_item_display := "Maus (allgemein)"; batch_qty := 2;
                   batch_added_at := 200; batch_added_by := 42 |} ] ->
            Forall (fun b => batch_matches 1 (@norm_key latin1_text "Maus (allgemein)") b = true) t ->
            map (fun b => (batch_id b, batch_qty b, batch_added_at b)) t = [(2, 2, 200)]).
  { intros t Et Hall.
    rewrite <- (filter_ext_in' (fun _ => true) _ t) in Et.
    - assert (Eid : List.filter (fun _ : Batch => true) t = t).
      { clear. induction t as [|x t IH]; simpl; congruence. }
      rewrite Eid in Et. rewrite Et. reflexivity.
    - rewrite Forall_forall in Hall. intros x Hx. symmetry. now apply Hall. }
  apply Hin; [exact E|].
  vm_compute. repeat constructor.
Defined.

(** ** Spoilage *)

Lemma spoil_days_unknown (saison : string) :
  saison <> "Blattfrische" -> saison <> "Blattfall" ->
  saison <> "Blattleere" -> saison <> "Blattgrüne" ->
  spoil_days saison true = (DEFAULT_FBH_SMELL_DAYS, DEFAULT_FBH_RUIN_DAYS).
Proof.
  intros H1 H2 H3 H4. unfold spoil_days, SAISON_TIMES.
  rewrite !lookup_insert_ne by congruence. now rewrite lookup_empty.
Qed.

Lemma fbh_status_by_days (age_days : Z) (saison : string) (enabled : bool) :
  (snd (spoil_days saison enabled) <= age_days ->
   fbh_status_for_age_days age_days saison enabled = status_verdorben)
  /\ (age_days < snd (spoil_days saison enabled) ->
      fst (spoil_days saison enabled) <= age_days ->
      fbh_status_for_age_days age_days saison enabled = status_mueffelt)
  /\ (age_days < snd (spoil_days saison enabled) ->
      age_days < fst (spoil_days saison enabled) ->
      fbh_status_for_age_days age_days saison enabled = status_frisch).
Proof.
  unfold fbh_status_for_age_days.
  destruct (spoil_days saison enabled) as [smell ruin]. simpl.
  destruct (Z.leb_spec ruin age_days), (Z.leb_spec smell age_days);
    repeat split; intros; (reflexivity || lia).
Qed.

(** C3. The spoilage class depends on the age in days, the season and the
    seasonal flag only.  With the flag off the limits are (7, 14); with it
    on they are the entry of the season in the table, (2, 5) for the summer
    season Blattgrüne, and (7, 14) for a name that is not in the table.  An
    age at or above the ruin limit is ruined, otherwise an age at or above
    the smell limit is smelly, otherwise the batch is fresh: with the flag
    off 6 days are fresh, 7 smelly and 14 ruined, and under (2, 5) 2 days
    are smelly and 5 ruined. *)
Theorem fbh_status_classification :
  (forall saison, spoil_days saison false = (7, 14))
  /\ spoil_days "Blattfrische" true = (4, 7)
  /\ spoil_days "Blattfall" true = (4, 7)
  /\ spoil_days "Blattleere" true = (7, 10)
  /\ spoil_days "Blattgrüne" true = (2, 5)
  /\ (forall saison,
        saison <> "Blattfrische" -> saison <> "Blattfall" ->
        saison <> "Blattleere" -> saison <> "Blattgrüne" ->
        spoil_days saison true = (7, 14))
  /\ (forall age_days saison enabled,
        (snd (spoil_days saison enabled) <= age_days ->
         fbh_status_for_age_days age_days saison enabled = status_verdorben)
        /\ (age_days < snd (spoil_days saison enabled) ->
            fst (spoil_days saison enabled) <= age_days ->
            fbh_status_for_age_days age_days saison enabled = status_mueffelt)
        /\ (age_days < snd (spoil_days saison enabled) ->
            age_days < fst (spoil_days saison enabled) ->
            fbh_status_for_age_days age_days saison enabled = status_frisch))
  /\ (forall saison,
        fbh_status_for_age_days 6 saison false = status_frisch
        /\ fbh_status_for_age_days 7 saison false = status_mueffelt
        /\ fbh_status_for_age_days 14 saison false = status_verdorben)
  /\ fbh_status_for_age_days 2 "Blattgrüne" true = status_mueffelt
  /\ fbh_status_for_age_days 5 "Blattgrüne" true = status_verdorben.
Proof.
  split; [reflexivity|].
  do 4 (split; [vm_compute; reflexivity|]).
  split; [exact spoil_days_unknown|].
  split; [exact fbh_status_by_days|].
  split; [intros saison; repeat split|].
  split; vm_compute; reflexivity.
Qed.

Lemma fbh_status_classification_witness :
  "Sommer" <> "Blattfrische" /\ "Sommer" <> "Blattfall"
  /\ "Sommer" <> "Blattleere" /\ "Sommer" <> "Blattgrüne"
  /\ spoil_days "Sommer" true = (7, 14)
  /\ snd (spoil_days "Blattleere" true) <= 12
  /\ fbh_status_for_age_days 12 "Blattleere" true = status_verdorben.
Proof.
  assert (H1 : "Sommer" <> "Blattfrische") by discriminate.
  assert (H2 : "Sommer" <> "Blattfall") by discriminate.
  assert (H3 : "Sommer" <> "Blattleere") by discriminate.
  assert (H4 : "Sommer" <> "Blattgrüne") by discriminate.
  assert (H5 : snd (spoil_days "Blattleere" true) <= 12) by (vm_compute; discriminate).
  split; [exact H1|]. split; [exact H2|]. split; [exact H3|]. split; [exact H4|].
  split.
  - exact (proj1 (proj2 (proj2 (proj2 (proj2 (proj2 fbh_status_classification)))))
             "Sommer" H1 H2 H3 H4).
  - split; [exact H5|].
    exact (proj1 (proj1 (proj2 (proj2 (proj2 (proj2 (proj2 (proj2 fbh_status_classification))))))
                   12 "Blattleere" true) H5).
Defined.

(** ** Totals of a storage *)

Lemma fbh_group_rows (storage_id : Z) (k : string) (t : list Batch) :
  List.filter (fun b => String.eqb (batch_item_key b) k) (List.filter (batch_in storage_id) t)
  = List.filter (batch_matches storage_id k) t.
Proof. rewrite filter_filter_and. reflexivity. Qed.

Lemma fbh_total_groups_In (storage_id : Z) (db : DB) (k d : string) (s : Z) :
  In (k, (d, s)) (fbh_total_groups storage_id db) <->
  (exists b, In b (fbh_batches db) /\ batch_storage_id b = storage_id /\ batch_item_key b = k)
  /\ s = fbh_stock storage_id k db
  /\ d = match List.filter (batch_matches storage_id k) (fbh_batches db) with
         | b :: _ => batch_item_display b
         | [] => EmptyString
         end.
Proof.
  unfold fbh_total_groups, fbh_stock. rewrite in_map_iff. split.
  - intros (k' & E & Hk). rewrite fbh_group_rows in E. injection E as -> <- <-.
    apply group_keys_In, in_map_iff in Hk. destruct Hk as (b & Ek & Hb).
    apply filter_In in Hb. destruct Hb as [Hb Hs]. apply Z.eqb_eq in Hs. eauto 10.
  - intros ((b & Hb & Hs & Ek) & -> & ->). exists k. rewrite fbh_group_rows.
    split; [reflexivity|]. apply group_keys_In, in_map_iff. exists b. split; [assumption|].
    apply filter_In. split; [assumption|]. now apply Z.eqb_eq.
Qed.

Lemma fbh_total_In (storage_id : Z) (db : DB) (d : string) (s : Z) :
  In (d, s) (fbh_total storage_id db) <->
  (exists k, In (k, (d, s)) (fbh_total_groups storage_id db)) /\ 0 < s.
Proof.
  unfold fbh_total. rewrite filter_In, order_by_In, in_map_iff. simpl.
  rewrite Z.ltb_lt. split.
  - intros [([k [d' s']] & E & Hin) Hs]. simpl in E. injection E as -> ->. eauto.
  - intros [(k & Hin) Hs]. split; [|assumption]. exists (k, (d, s)). auto.
Qed.

Lemma fbh_stock_positive (storage_id : Z) (db : DB) (b : Batch) :
  Forall (fun b => 0 < batch_qty b) (fbh_batches db) ->
  In b (fbh_batches db) -> batch_storage_id b = storage_id ->
  0 < fbh_stock storage_id (batch_item_key b) db.
Proof.
  intros Hpos Hb Hs. unfold fbh_stock. apply sum_Z_pos.
  - intros E. apply map_eq_nil in E.
    assert (Hin : In b (List.filter (batch_matches storage_id (batch_item_key b)) (fbh_batches db))).
    { apply filter_In. split; [assumption|]. unfold batch_matches.
      now rewrite (proj2 (Z.eqb_eq _ _) Hs), String.eqb_refl. }
    rewrite E in Hin. destruct Hin.
  - rewrite Forall_map, Forall_forall in *. intros x Hx. apply filter_In in Hx. apply Hpos, Hx.
Qed.

(** Every key with a batch is reported, with its stock. *)
Lemma fbh_total_complete (storage_id : Z) (db : DB) (b : Batch) :
  Forall (fun b => 0 < batch_qty b) (fbh_batches db) ->
  In b (fbh_batches db) -> batch_storage_id b = storage_id ->
  exists d, In (d, fbh_stock storage_id (batch_item_key b) db) (fbh_total storage_id db).
Proof.
  intros Hpos Hb Hs. eexists. apply fbh_total_In. split.
  - exists (batch_item_key b). apply fbh_total_groups_In. split; [eauto|]. split; reflexivity.
  - now apply fbh_stock_positive.
Qed.

(** ** The status of a pile *)

Lemma ensure_settings_tables (guild_id : Z) (db : DB) :
  fbh_batches (ensure_settings guild_id db) = fbh_batches db
  /\ fbh_batches_seq (ensure_settings guild_id db) = fbh_batches_seq db
  /\ kl_herb_lots (ensure_settings guild_id db) = kl_herb_lots db
  /\ kl_herb_lots_seq (ensure_settings guild_id db) = kl_herb_lots_seq db
  /\ kl_pantry (ensure_settings guild_id db) = kl_pantry db.
Proof. unfold ensure_settings. destruct (guild_settings db !! guild_id); simpl; auto. Qed.

Lemma fbh_total_ensure_settings (guild_id storage_id : Z) (db : DB) :
  fbh_total storage_id (ensure_settings guild_id db) = fbh_total storage_id db.
Proof.
  unfold fbh_total, fbh_total_groups.
  now rewrite (proj1 (ensure_settings_tables guild_id db)).
Qed.

Lemma status_flags_spec (now : Z) (saison : string) (enabled : bool)
    (batches : list (string * Z * Z)) (r0 s0 : bool) :
  (fst (status_flags now saison enabled batches r0 s0) = true <->
     r0 = true \/ exists x, In x batches /\
       fbh_status_for_age_days (age_days_at now (snd x)) saison enabled = status_verdorben)
  /\ (snd (status_flags now saison enabled batches r0 s0) = true <->
     s0 = true \/ exists x, In x batches /\
       fbh_status_for_age_days (age_days_at now (snd x)) saison enabled = status_mueffelt).
Proof.
  revert r0 s0. induction batches as [|[[d q] a] rest IH]; intros r0 s0.
  - simpl. split; split; intros Hx; try tauto; destruct Hx as [?|(? & [] & _)]; assumption.
  - cbn [status_flags]. simpl snd.
    destruct (fbh_status_for_age_days (age_days_at now a) saison enabled) eqn:E;
      destruct (IH r0 s0) as [I1 I2]; destruct (IH true s0) as [J1 J2];
      destruct (IH r0 true) as [K1 K2]; clear IH.
    + split; [rewrite I1 | rewrite I2]; split;
        (intros [?|(x & Hx & Ex)]; [now left | right]);
        try (exists x; split; [now right | assumption]);
        (destruct Hx as [<-|Hx]; [simpl in Ex; congruence | eauto]).
    + split; [rewrite K1 | rewrite K2]; split.
      * intros [?|(x & Hx & Ex)]; [now left | right].
        exists x; split; [now right | assumption].
      * intros [?|(x & Hx & Ex)]; [now left | right].
        destruct Hx as [<-|Hx]; [simpl in Ex; congruence | eauto].
      * intros _. right. exists (d, q, a). split; [now left | exact E].
      * auto.
    + split; [rewrite J1 | rewrite J2]; split.
      * intros _. right. exists (d, q, a). split; [now left | exact E].
      * auto.
      * intros [?|(x & Hx & Ex)]; [now left | right].
        exists x; split; [now right | assumption].
      * intros [?|(x & Hx & Ex)]; [now left | right].
        destruct Hx as [<-|Hx]; [simpl in Ex; congruence | eauto].
Qed.

Lemma fbh_batches_for_status_In (storage_id : Z) (db : DB) (x : string * Z * Z) :
  In x (fbh_batches_for_status storage_id db) <->
  exists b, In b (fbh_batches db) /\ batch_storage_id b = storage_id
            /\ x = (batch_item_display b, batch_qty b, batch_added_at b).
Proof.
  unfold fbh_batches_for_status. rewrite in_map_iff. split.
  - intros (b & <- & Hb). apply order_by_In, filter_In in Hb. destruct Hb as [Hb Hs].
    apply Z.eqb_eq in Hs. eauto.
  - intros (b & Hb & Hs & ->). exists b. split; [reflexivity|].
    apply order_by_In, filter_In. split; [assumption|]. now apply Z.eqb_eq.
Qed.

Lemma inventar_anzeigen_FBH_eq (guild_id storage_id now : Z) (db : DB) :
  fbh_total storage_id db <> [] ->
  inventar_anzeigen_FBH guild_id storage_id now db
  = (fbh_inventar (saison (fst (get_settings guild_id db)))
       (fbh_saison_verderb (fst (get_settings guild_id db)))
       (if fst (status_flags now (saison (fst (get_settings guild_id db)))
                  (fbh_saison_verderb (fst (get_settings guild_id db)))
                  (fbh_batches_for_status storage_id db) false false)
        then status_verdorben
        else if snd (status_flags now (saison (fst (get_settings guild_id db)))
                       (fbh_saison_verderb (fst (get_settings guild_id db)))
                       (fbh_batches_for_status storage_id db) false false)
             then status_mueffelt else status_frisch)
       (fbh_total storage_id db),
     ensure_settings guild_id db).
Proof.
  intros Hne. unfold inventar_anzeigen_FBH, get_settings. simpl fst.
  rewrite fbh_total_ensure_settings.
  destruct (fbh_total storage_id db) as [|x totals] eqn:Et; [congruence|].
  unfold fbh_batches_for_status. rewrite (proj1 (ensure_settings_tables guild_id db)).
  destruct (status_flags _ _ _ _ _ _) as [r s]. reflexivity.
Qed.

(** C4. The status of a pile is the worst status of its batches.  For a
    storage with at least one batch, all quantities positive, the reply of
    the inventory command carries: ruined exactly when some batch of the
    storage is ruined; smelly exactly when none is ruined and some batch is
    smelly; fresh exactly when every batch is fresh.  The command leaves
    the batches, lots and pantry as they were.  With seasonal spoilage off
    a pile that holds a batch of 20 days is reported ruined, whatever the
    age of the others. *)
Theorem pile_status_is_worst (guild_id storage_id now : Z) (db : DB) :
  Forall (fun b => 0 < batch_qty b) (fbh_batches db) ->
  (exists b, In b (fbh_batches db) /\ batch_storage_id b = storage_id) ->
  exists status,
    fst (inventar_anzeigen_FBH guild_id storage_id now db)
    = fbh_inventar (saison (fst (get_settings guild_id db)))
        (fbh_saison_verderb (fst (get_settings guild_id db))) status
        (fbh_total storage_id db)
    /\ (status = status_verdorben <->
        exists b, In b (fbh_batches db) /\ batch_storage_id b = storage_id /\
          fbh_status_for_age_days (age_days_at now (batch_added_at b))
            (saison (fst (get_settings guild_id db)))
            (fbh_saison_verderb (fst (get_settings guild_id db))) = status_verdorben)
    /\ (status = status_mueffelt <->
        (forall b, In b (fbh_batches db) -> batch_storage_id b = storage_id ->
           fbh_status_for_age_days (age_days_at now (batch_added_at b))
             (saison (fst (get_settings guild_id db)))
             (fbh_saison_verderb (fst (get_settings guild_id db))) <> status_verdorben)
        /\ exists b, In b (fbh_batches db) /\ batch_storage_id b = storage_id /\
             fbh_status_for_age_days (age_days_at now (batch_added_at b))
               (saison (fst (get_settings guild_id db)))
               (fbh_saison_verderb (fst (get_settings guild_id db))) = status_mueffelt)
    /\ (status = status_frisch <->
        forall b, In b (fbh_batches db) -> batch_storage_id b = storage_id ->
          fbh_status_for_age_days (age_days_at now (batch_added_at b))
            (saison (fst (get_settings guild_id db)))
            (fbh_saison_verderb (fst (get_settings guild_id db))) = status_frisch)
    /\ fbh_batches (snd (inventar_anzeigen_FBH guild_id storage_id now db)) = fbh_batches db
    /\ kl_herb_lots (snd (inventar_anzeigen_FBH guild_id storage_id now db)) = kl_herb_lots db
    /\ kl_pantry (snd (inventar_anzeigen_FBH guild_id storage_id now db)) = kl_pantry db
    /\ (fbh_saison_verderb (fst (get_settings guild_id db)) = false ->
        (exists b, In b (fbh_batches db) /\ batch_storage_id b = storage_id /\
           age_days_at now (batch_added_at b) = 20) ->
        status = status_verdorben).
Proof.
  intros Hpos (b0 & Hb0 & Hs0).
  assert (Hne : fbh_total storage_id db <> []).
  { destruct (fbh_total_complete storage_id db b0 Hpos Hb0 Hs0) as (d & Hd).
    intros E. rewrite E in Hd. destruct Hd. }
  rewrite (inventar_anzeigen_FBH_eq guild_id storage_id now db Hne). cbn [fst snd].
  set (sa := saison (fst (get_settings guild_id db))).
  set (en := fbh_saison_verderb (fst (get_settings guild_id db))).
  destruct (status_flags_spec now sa en (fbh_batches_for_status storage_id db) false false)
    as [Hr Hs].
  assert (Hcls : forall st,
            (exists x, In x (fbh_batches_for_status storage_id db) /\
               fbh_status_for_age_days (age_days_at now (snd x)) sa en = st) <->
            (exists b, In b (fbh_batches db) /\ batch_storage_id b = storage_id /\
               fbh_status_for_age_days (age_days_at now (batch_added_at b)) sa en = st)).
  { intros st. split.
    - intros (x & Hx & Ex). apply fbh_batches_for_status_In in Hx.
      destruct Hx as (b & Hb & Hsb & ->). eauto.
    - intros (b & Hb & Hsb & Eb). exists (batch_item_display b, batch_qty b, batch_added_at b).
      split; [|exact Eb]. apply fbh_batches_for_status_In. eauto. }
  rewrite Hcls in Hr, Hs.
  assert (Hruin : (exists b, In b (fbh_batches db) /\ batch_storage_id b = storage_id /\
                     fbh_status_for_age_days (age_days_at now (batch_added_at b)) sa en
                     = status_verdorben)
                  <-> fst (status_flags now sa en (fbh_batches_for_status storage_id db)
                             false false) = true).
  { rewrite Hr. split; [auto|]. intros [?|?]; [discriminate|assumption]. }
  assert (Hsmell : (exists b, In b (fbh_batches db) /\ batch_storage_id b = storage_id /\
                      fbh_status_for_age_days (age_days_at now (batch_added_at b)) sa en
                      = status_mueffelt)
                   <-> snd (status_flags now sa en (fbh_batches_for_status storage_id db)
                              false false) = true).
  { rewrite Hs. split; [auto|]. intros [?|?]; [discriminate|assumption]. }
  clear Hr Hs Hcls.
  destruct (status_flags now sa en (fbh_batches_for_status storage_id db) false false)
    as [r s]. simpl in Hruin, Hsmell.
  eexists. split; [reflexivity|].
  destruct (ensure_settings_tables guild_id db) as (T1 & _ & T3 & _ & T5).
  rewrite T1, T3, T5.
  assert (Hfresh : r = false -> s = false ->
            forall b, In b (fbh_batches db) -> batch_storage_id b = storage_id ->
              fbh_status_for_age_days (age_days_at now (batch_added_at b)) sa en = status_frisch).
  { intros -> -> b Hb Hsb.
    destruct (fbh_status_for_age_days (age_days_at now (batch_added_at b)) sa en) eqn:E;
      [reflexivity | |].
    - assert (false = true); [apply Hsmell; eauto | discriminate].
    - assert (false = true); [apply Hruin; eauto | discriminate]. }
  assert (Hnoruin : r = false ->
            forall b, In b (fbh_batches db) -> batch_storage_id b = storage_id ->
              fbh_status_for_age_days (age_days_at now (batch_added_at b)) sa en
              <> status_verdorben).
  { intros -> b Hb Hsb E. assert (false = true); [apply Hruin; eauto | discriminate]. }
  split; [split|].
  { intros E. apply Hruin. destruct r; [reflexivity|]. destruct s; simpl in E; discriminate E. }
  { intros Hex. apply Hruin in Hex. now rewrite Hex. }
  split; [split|].
  { intros E. destruct r; [simpl in E; discriminate E|]. split; [auto|].
    apply Hsmell. destruct s; [reflexivity|simpl in E; discriminate E]. }
  { intros [Hn Hex]. apply Hsmell in Hex. rewrite Hex.
    destruct r; [|reflexivity]. exfalso.
    destruct (proj2 Hruin eq_refl) as (b & Hb & Hsb & Eb). exact (Hn b Hb Hsb Eb). }
  split; [split|].
  { intros E. destruct r; [simpl in E; discriminate E|].
    destruct s; [simpl in E; discriminate E|]. auto. }
  { intros Hall. destruct r.
    - destruct (proj2 Hruin eq_refl) as (b & Hb & Hsb & Eb).
      rewrite (Hall b Hb Hsb) in Eb. discriminate.
    - destruct s; [|reflexivity].
      destruct (proj2 Hsmell eq_refl) as (b & Hb & Hsb & Eb).
      rewrite (Hall b Hb Hsb) in Eb. discriminate. }
  do 3 (split; [reflexivity|]).
  intros Hoff (b & Hb & Hsb & Hage).
  assert (Hex : r = true).
  { apply Hruin. exists b. split; [assumption|]. split; [assumption|].
    rewrite Hage. subst en. rewrite Hoff. reflexivity. }
  now rewrite Hex.
Qed.

Lemma pile_status_is_worst_witness :
  Forall (fun b => 0 < batch_qty b) (fbh_batches example_pile_db)
  /\ (exists b, In b (fbh_batches example_pile_db) /\ batch_storage_id b = 1)
  /\ exists status,
       fst (inventar_anzeigen_FBH 9 1 example_now example_pile_db)
       = fbh_inventar "Blattfrische" false status (fbh_total 1 example_pile_db)
       /\ status = status_verdorben.
Proof.
  assert (H1 : Forall (fun b => 0 < batch_qty b) (fbh_batches example_pile_db)).
  { unfold example_pile_db. simpl. repeat constructor; simpl; lia. }
  assert (H2 : exists b, In b (fbh_batches example_pile_db) /\ batch_storage_id b = 1).
  { eexists. split; [left; reflexivity | reflexivity]. }
  split; [exact H1|]. split; [exact H2|].
  destruct (pile_status_is_worst 9 1 example_now example_pile_db H1 H2)
    as (status & E & _ & _ & _ & _ & _ & _ & Hex).
  exists status. split; [exact E|].
  apply Hex; [reflexivity|].
  eexists. split; [left; reflexivity|]. split; reflexivity.
Defined.

(** ** KL: taking herbs *)

Lemma lot_state_eqb_eq (a b : LotState) : lot_state_eqb a b = true <-> a = b.
Proof. destruct a, b; simpl; split; (reflexivity || discriminate). Qed.

Lemma kl_selection_perm (storage_id : Z) (k : string) (t : list Lot) :
  Permutation (kl_selection storage_id k t) (List.filter (lot_matches storage_id k) t).
Proof.
  unfold kl_selection, kl_select.
  rewrite !(order_by_perm oldest_lot_first).
  induction t as [|l t IH]; [constructor|].
  cbn [List.filter].
  assert (E : forall st, lot_matches_state storage_id k st l
                         = lot_matches storage_id k l && lot_state_eqb (lot_state l) st)
    by reflexivity.
  rewrite !E.
  destruct (lot_matches storage_id k l); simpl; [|exact IH].
  destruct (lot_state l); simpl.
  - now constructor.
  - rewrite <- Permutation_middle. now constructor.
Qed.

Lemma kl_take_states_eq (storage_id : Z) (k : string) (qty : Z) (t : list Lot) :
  NoDup (map lot_id t) ->
  kl_take_states [frisch; getrocknet] storage_id k qty 0 t
  = (snd (fst (take_loop lot_id set_lot_qty
                 (id_qty lot_id lot_qty (kl_selection storage_id k t)) qty 0 t)),
     snd (take_loop lot_id set_lot_qty
            (id_qty lot_id lot_qty (kl_selection storage_id k t)) qty 0 t)).
Proof.
  intros Hnd. unfold kl_selection.
  replace (id_qty lot_id lot_qty
             (kl_select storage_id k frisch t ++ kl_select storage_id k getrocknet t))
    with (id_qty lot_id lot_qty (kl_select storage_id k frisch t)
          ++ id_qty lot_id lot_qty (kl_select storage_id k getrocknet t))
    by (unfold id_qty; now rewrite map_app).
  rewrite take_loop_app.
  cbn [kl_take_states].
  destruct (Z.leb_spec qty 0) as [Hle|Hgt].
  { rewrite (take_loop_stop lot_id set_lot_qty (id_qty lot_id lot_qty _) qty 0 t Hle).
    cbn [fst snd]. now rewrite take_loop_stop. }
  assert (Hsame : kl_select storage_id k getrocknet
                    (snd (take_loop lot_id set_lot_qty
                            (id_qty lot_id lot_qty (kl_select storage_id k frisch t)) qty 0 t))
                  = kl_select storage_id k getrocknet t).
  { unfold kl_select at 1 3. f_equal.
    apply (take_loop_frame lot_id set_lot_qty (fun _ _ => eq_refl)).
    - reflexivity.
    - intros r Hr Hin. unfold id_qty in Hin. rewrite map_map in Hin. simpl in Hin.
      apply in_map_iff in Hin. destruct Hin as (r0 & E & Hr0).
      apply order_by_In, filter_In in Hr0. destruct Hr0 as [Ht HP].
      rewrite <- (NoDup_map_inj_in lot_id t r0 r Hnd Ht Hr E).
      unfold lot_matches_state in *. apply andb_true_iff in HP. destruct HP as [HP Hst].
      apply lot_state_eqb_eq in Hst. rewrite Hst, HP. reflexivity. }
  destruct (take_loop lot_id set_lot_qty
              (id_qty lot_id lot_qty (kl_select storage_id k frisch t)) qty 0 t)
    as [[tr1 rm1] t1] eqn:E1.
  cbn [fst snd] in *.
  destruct (Z.leb_spec tr1 0) as [Hle1|Hgt1].
  - now rewrite take_loop_stop.
  - rewrite Hsame.
    destruct (take_loop lot_id set_lot_qty
                (id_qty lot_id lot_qty (kl_select storage_id k getrocknet t)) tr1 rm1 t1)
      as [[tr2 rm2] t2].
    reflexivity.
Qed.

Section KlFacts.
Context `{PyText}.

Lemma kl_take_herb_eq (storage_id : Z) (herb_display : string) (qty : Z) (db : DB) :
  NoDup (map lot_id (kl_herb_lots db)) ->
  kl_take_herb storage_id herb_display qty db
  = (snd (fst (take_loop lot_id set_lot_qty
                 (id_qty lot_id lot_qty
                    (kl_selection storage_id (norm_key herb_display) (kl_herb_lots db)))
                 qty 0 (kl_herb_lots db))),
     with_lots
       (snd (take_loop lot_id set_lot_qty
               (id_qty lot_id lot_qty
                  (kl_selection storage_id (norm_key herb_display) (kl_herb_lots db)))
               qty 0 (kl_herb_lots db))) db).
Proof.
  intros Hnd. unfold kl_take_herb. now rewrite kl_take_states_eq.
Qed.

Lemma kl_take_herb_facts (storage_id : Z) (herb_display : string) (qty : Z) (db : DB) :
  0 <= qty ->
  NoDup (map lot_id (kl_herb_lots db)) ->
  Forall (fun l => 0 < lot_qty l) (kl_herb_lots db) ->
  fst (kl_take_herb storage_id herb_display qty db)
  = Z.min qty (kl_total_available storage_id (norm_key herb_display) db)
  /\ kl_herb_lots (snd (kl_take_herb storage_id herb_display qty db))
     = apply_contrib lot_id lot_qty set_lot_qty
         (kl_plan storage_id (norm_key herb_display) qty db) (kl_herb_lots db)
  /\ List.filter (fun l => negb (lot_matches storage_id (norm_key herb_display) l))
       (kl_herb_lots (snd (kl_take_herb storage_id herb_display qty db)))
     = List.filter (fun l => negb (lot_matches storage_id (norm_key herb_display) l))
         (kl_herb_lots db)
  /\ kl_total_available storage_id (norm_key herb_display)
       (snd (kl_take_herb storage_id herb_display qty db))
     = kl_total_available storage_id (norm_key herb_display) db
       - Z.min qty (kl_total_available storage_id (norm_key herb_display) db).
Proof.
  intros Hq Hnd Hpos. rewrite kl_take_herb_eq by assumption. cbn [fst snd].
  destruct (take_loop_selection lot_id lot_qty set_lot_qty
              (fun _ _ => eq_refl) (fun _ _ => eq_refl) set_lot_qty_same
              (lot_matches storage_id (norm_key herb_display))
              (kl_selection storage_id (norm_key herb_display) (kl_herb_lots db))
              qty 0 (kl_herb_lots db) Hq Hnd (kl_selection_perm _ _ _) Hpos (fun _ _ => eq_refl))
    as (E1 & E2 & E3 & E4).
  unfold kl_total_available, kl_plan. simpl kl_herb_lots.
  rewrite E1, E2 in *. simpl. auto.
Qed.

Lemma kl_take_herb_positive (storage_id : Z) (herb_display : string) (qty : Z) (db : DB) :
  NoDup (map lot_id (kl_herb_lots db)) ->
  Forall (fun l => 0 < lot_qty l) (kl_herb_lots db) ->
  Forall (fun l => 0 < lot_qty l) (kl_herb_lots (snd (kl_take_herb storage_id herb_display qty db))).
Proof.
  intros Hnd Hpos. rewrite kl_take_herb_eq by assumption. simpl.
  now apply (take_loop_positive lot_id lot_qty set_lot_qty (fun _ _ => eq_refl)).
Qed.

Lemma kl_take_herb_other_tables (storage_id : Z) (herb_display : string) (qty : Z) (db : DB) :
  guild_settings (snd (kl_take_herb storage_id herb_display qty db)) = guild_settings db
  /\ fbh_batches (snd (kl_take_herb storage_id herb_display qty db)) = fbh_batches db
  /\ fbh_batches_seq (snd (kl_take_herb storage_id herb_display qty db)) = fbh_batches_seq db
  /\ kl_herb_lots_seq (snd (kl_take_herb storage_id herb_display qty db)) = kl_herb_lots_seq db
  /\ kl_pantry (snd (kl_take_herb storage_id herb_display qty db)) = kl_pantry db.
Proof.
  unfold kl_take_herb. destruct (kl_take_states _ _ _ _ _ _) as [rm t]. simpl. auto.
Qed.
End KlFacts.

(** C5. [kl_take_herb] takes fresh lots before dried ones.  For a request
    [qty > 0] on a table with unique ids and positive quantities: the lots
    of the key are gone through in the order fresh oldest first, then dried
    oldest first; the table afterwards is the table before with every such
    lot lowered by [min(remaining request, lot quantity)], a drained lot
    deleted; a lot is touched only when all lots before it in that order
    are gone, so a dried lot is touched only when no fresh lot of the key
    is left.  The returned amount is [min(qty, available)], possibly less
    than the request, and the available total shrinks by it. *)
Theorem kl_take_herb_fresh_first `{PyText} (db : DB) (storage_id : Z) (herb_display : string)
    (qty : Z) :
  0 < qty ->
  NoDup (map lot_id (kl_herb_lots db)) ->
  Forall (fun l => 0 < lot_qty l) (kl_herb_lots db) ->
  StronglySorted (fun a b => lot_added_at a <= lot_added_at b)
    (kl_select storage_id (norm_key herb_display) frisch (kl_herb_lots db))
  /\ StronglySorted (fun a b => lot_added_at a <= lot_added_at b)
       (kl_select storage_id (norm_key herb_display) getrocknet (kl_herb_lots db))
  /\ (forall st,
        Permutation (kl_select storage_id (norm_key herb_display) st (kl_herb_lots db))
          (List.filter (lot_matches_state storage_id (norm_key herb_display) st)
             (kl_herb_lots db)))
  /\ kl_herb_lots (snd (kl_take_herb storage_id herb_display qty db))
     = apply_contrib lot_id lot_qty set_lot_qty
         (kl_plan storage_id (norm_key herb_display) qty db) (kl_herb_lots db)
  /\ (forall older l younger,
        kl_selection storage_id (norm_key herb_display) (kl_herb_lots db)
        = older ++ l :: younger ->
        ~ In l (kl_herb_lots (snd (kl_take_herb storage_id herb_display qty db))) ->
        forall a, In a older ->
          ~ In (lot_id a)
               (map lot_id (kl_herb_lots (snd (kl_take_herb storage_id herb_display qty db)))))
  /\ (forall d,
        In d (kl_herb_lots db) ->
        lot_matches_state storage_id (norm_key herb_display) getrocknet d = true ->
        ~ In d (kl_herb_lots (snd (kl_take_herb storage_id herb_display qty db))) ->
        List.filter (lot_matches_state storage_id (norm_key herb_display) frisch)
          (kl_herb_lots (snd (kl_take_herb storage_id herb_display qty db))) = [])
  /\ fst (kl_take_herb storage_id herb_display qty db)
     = Z.min qty (kl_total_available storage_id (norm_key herb_display) db)
  /\ fst (kl_take_herb storage_id herb_display qty db) <= qty
  /\ kl_total_available storage_id (norm_key herb_display)
       (snd (kl_take_herb storage_id herb_display qty db))
     = kl_total_available storage_id (norm_key herb_display) db
       - fst (kl_take_herb storage_id herb_display qty db).
Proof.
  intros Hq Hnd Hpos.
  destruct (kl_take_herb_facts storage_id herb_display qty db (Z.lt_le_incl _ _ Hq) Hnd Hpos)
    as (E1 & E2 & E3 & E4).
  assert (Hfifo : forall older l younger,
            kl_selection storage_id (norm_key herb_display) (kl_herb_lots db)
            = older ++ l :: younger ->
            ~ In l (kl_herb_lots (snd (kl_take_herb storage_id herb_display qty db))) ->
            forall a, In a older ->
              ~ In (lot_id a)
                   (map lot_id
                      (kl_herb_lots (snd (kl_take_herb storage_id herb_display qty db))))).
  { intros older l younger Esel Hl a Ha.
    rewrite kl_take_herb_eq in Hl |- * by assumption.
    cbn [snd] in Hl |- *. simpl kl_herb_lots in Hl |- *.
    rewrite Esel in Hl |- *.
    apply (take_loop_fifo lot_id lot_qty set_lot_qty
             (fun _ _ => eq_refl) (fun _ _ => eq_refl) set_lot_qty_same
             (lot_matches storage_id (norm_key herb_display))
             older l younger qty 0 (kl_herb_lots db)); auto; try lia.
    rewrite <- Esel. apply kl_selection_perm. }
  split; [apply oldest_lot_first_sorted|].
  split; [apply oldest_lot_first_sorted|].
  split; [intros st; apply order_by_perm|].
  split; [exact E2|].
  split; [exact Hfifo|].
  split.
  { intros d Hd Hdm Hgone. apply filter_none. intros x Hx.
    destruct (lot_matches_state storage_id (norm_key herb_display) frisch x) eqn:Ex;
      [exfalso|reflexivity].
    (* [d] sits in the dried part of the selection *)
    assert (Hdsel : In d (kl_select storage_id (norm_key herb_display) getrocknet
                            (kl_herb_lots db))).
    { apply order_by_In, filter_In. auto. }
    apply in_split in Hdsel. destruct Hdsel as (d1 & d2 & Ed).
    (* [x] stems from a fresh lot [r] of before, with the same id *)
    rewrite E2 in Hx.
    apply (in_apply_contrib lot_id lot_qty set_lot_qty) in Hx.
    destruct Hx as (r & Hr & Hcase).
    assert (Hxr : lot_id x = lot_id r
                  /\ lot_matches_state storage_id (norm_key herb_display) frisch r = true).
    { destruct Hcase as [[_ ->]|(c & _ & _ & ->)]; auto. }
    destruct Hxr as [Eid Hrm].
    assert (Hrsel : In r (kl_select storage_id (norm_key herb_display) frisch
                            (kl_herb_lots db))).
    { apply order_by_In, filter_In. auto. }
    refine (Hfifo (kl_select storage_id (norm_key herb_display) frisch (kl_herb_lots db) ++ d1)
                  d d2 _ Hgone r _ _).
    - unfold kl_selection. rewrite Ed. now rewrite <- app_assoc.
    - apply in_or_app. left. exact Hrsel.
    - rewrite <- Eid. apply in_map. rewrite E2.
      apply (in_apply_contrib lot_id lot_qty set_lot_qty). exists r. auto. }
  split; [exact E1|].
  split; [rewrite E1; lia|].
  rewrite E4, E1. reflexivity.
Qed.

Lemma kl_take_herb_fresh_first_witness :
  0 < 6
  /\ NoDup (map lot_id (kl_herb_lots example_herb_db))
  /\ Forall (fun l => 0 < lot_qty l) (kl_herb_lots example_herb_db)
  /\ fst (@kl_take_herb latin1_text 1 " BASIL" 6 example_herb_db)
     = Z.min 6 (kl_total_available 1 (@norm_key latin1_text " BASIL") example_herb_db).
Proof.
  assert (H1 : 0 < 6) by lia.
  assert (H2 : NoDup (map lot_id (kl_herb_lots example_herb_db))) by concrete_NoDup.
  assert (H3 : Forall (fun l => 0 < lot_qty l) (kl_herb_lots example_herb_db)).
  { unfold example_herb_db. simpl. repeat constructor; simpl; lia. }
  split; [exact H1|]. split; [exact H2|]. split; [exact H3|].
  exact (proj1 (proj2 (proj2 (proj2 (proj2 (proj2 (proj2
    (@kl_take_herb_fresh_first latin1_text example_herb_db 1 " BASIL" 6 H1 H2 H3)))))))).
Defined.

(** ** KL: drying *)

Lemma kl_mark_dried_twice (storage_id c c' : Z) (db : DB) :
  c <= c' ->
  kl_mark_dried_older_than storage_id c' (kl_mark_dried_older_than storage_id c db)
  = kl_mark_dried_older_than storage_id c' db.
Proof.
  intros Hc. unfold kl_mark_dried_older_than, with_lots. simpl. f_equal.
  rewrite map_map. apply map_ext. intros l.
  destruct (lot_storage_id l =? storage_id) eqn:Es; simpl; [|now rewrite Es].
  destruct (lot_state l) eqn:Est; simpl.
  - destruct (Z.leb_spec (lot_added_at l) c) as [Hle|Hgt]; simpl.
    + rewrite Es. simpl. destruct (Z.leb_spec (lot_added_at l) c'); [reflexivity|lia].
    + rewrite Es, Est. reflexivity.
  - rewrite Es, Est. reflexivity.
Qed.

Lemma kl_mark_dried_rows (storage_id cutoff : Z) (db : DB) :
  Forall2
    (fun l l' =>
       lot_id l' = lot_id l /\ lot_storage_id l' = lot_storage_id l
       /\ lot_herb_key l' = lot_herb_key l /\ lot_herb_display l' = lot_herb_display l
       /\ lot_qty l' = lot_qty l /\ lot_added_at l' = lot_added_at l
       /\ lot_added_by l' = lot_added_by l
       /\ (lot_state l' = getrocknet <->
           lot_state l = getrocknet
           \/ (lot_storage_id l = storage_id /\ lot_added_at l <= cutoff)))
    (kl_herb_lots db) (kl_herb_lots (kl_mark_dried_older_than storage_id cutoff db)).
Proof.
  unfold kl_mark_dried_older_than. simpl.
  induction (kl_herb_lots db) as [|l t IH]; simpl; constructor; [|exact IH].
  destruct (Z.eqb_spec (lot_storage_id l) storage_id) as [Es|Es];
    destruct (lot_state l) eqn:Est; simpl;
    try destruct (Z.leb_spec (lot_added_at l) cutoff) as [Hle|Hgt]; simpl;
    rewrite ?Est; repeat split; auto; try tauto;
    try (intros [?|[? ?]]; (discriminate || congruence || lia)); try discriminate.
Qed.

Lemma get_settings_ensured (guild_id g : Z) (db : DB) :
  fst (get_settings g (ensure_settings guild_id db)) = fst (get_settings g db).
Proof.
  unfold get_settings, ensure_settings. cbn [fst].
  destruct (guild_settings db !! guild_id) as [s0|] eqn:E; [reflexivity|].
  cbn [guild_settings with_settings].
  destruct (decide (g = guild_id)) as [->|Hne].
  - rewrite E, lookup_insert_eq. cbn [guild_settings with_settings].
    now rewrite lookup_insert_eq.
  - rewrite lookup_insert_ne by congruence.
    destruct (guild_settings db !! g) as [s1|] eqn:Eg; cbn [guild_settings with_settings].
    + rewrite lookup_insert_ne by congruence. now rewrite Eg.
    + now rewrite !lookup_insert_eq.
Qed.

Lemma kl_apply_drying_eq (guild_id storage_id now : Z) (db : DB) :
  kl_apply_drying_if_enabled guild_id storage_id now db
  = if kl_trocknen (fst (get_settings guild_id db))
    then kl_mark_dried_older_than storage_id (now - 7 * 24 * 60 * 60)
           (ensure_settings guild_id db)
    else ensure_settings guild_id db.
Proof.
  unfold kl_apply_drying_if_enabled, get_settings. simpl.
  destruct (kl_trocknen _); reflexivity.
Qed.

(** C6, as stated, fails in its last part: with the toggle off the wrapper
    still writes.  [get_settings] runs [INSERT OR IGNORE INTO guild_settings],
    so for a tenant without a settings row the database after
    [kl_apply_drying_if_enabled] differs from the one before. *)
Lemma kl_apply_drying_disabled_writes_settings :
  kl_trocknen (fst (get_settings 9 empty_db)) = false
  /\ kl_apply_drying_if_enabled 9 1 0 empty_db <> empty_db
  /\ guild_settings (kl_apply_drying_if_enabled 9 1 0 empty_db) !! 9 = Some default_settings
  /\ guild_settings empty_db !! 9 = None.
Proof.
  split; [reflexivity|]. split; [|split; reflexivity].
  intros E. apply (f_equal (fun d => guild_settings d !! 9)) in E.
  vm_compute in E. discriminate E.
Qed.

(** C6, amended.  [kl_mark_dried_older_than] works in place: every lot keeps
    its place, id, storage, key, display, quantity, timestamp and author,
    and is dried afterwards exactly when it was dried before or is a lot of
    the storage added at or before the cutoff; no other table changes.  A
    second application with the same or a later cutoff equals one
    application, and a lot that is dried already is kept as it is.  With
    the toggle off the wrapper changes no lot, no batch and no pantry row;
    the one write it can make is the default settings row of a tenant that
    has none, after which every tenant's settings read as before.  With the
    toggle on it applies the update with the cutoff seven days back. *)
Theorem kl_drying_in_place_idempotent (db : DB) (guild_id storage_id cutoff cutoff' now : Z) :
  Forall2
    (fun l l' =>
       lot_id l' = lot_id l /\ lot_storage_id l' = lot_storage_id l
       /\ lot_herb_key l' = lot_herb_key l /\ lot_herb_display l' = lot_herb_display l
       /\ lot_qty l' = lot_qty l /\ lot_added_at l' = lot_added_at l
       /\ lot_added_by l' = lot_added_by l
       /\ (lot_state l' = getrocknet <->
           lot_state l = getrocknet
           \/ (lot_storage_id l = storage_id /\ lot_added_at l <= cutoff)))
    (kl_herb_lots db) (kl_herb_lots (kl_mark_dried_older_than storage_id cutoff db))
  /\ (guild_settings (kl_mark_dried_older_than storage_id cutoff db) = guild_settings db
      /\ fbh_batches (kl_mark_dried_older_than storage_id cutoff db) = fbh_batches db
      /\ kl_pantry (kl_mark_dried_older_than storage_id cutoff db) = kl_pantry db)
  /\ (cutoff <= cutoff' ->
      kl_mark_dried_older_than storage_id cutoff' (kl_mark_dried_older_than storage_id cutoff db)
      = kl_mark_dried_older_than storage_id cutoff' db)
  /\ kl_mark_dried_older_than storage_id cutoff (kl_mark_dried_older_than storage_id cutoff db)
     = kl_mark_dried_older_than storage_id cutoff db
  /\ (forall l, In l (kl_herb_lots db) -> lot_state l = getrocknet ->
        In l (kl_herb_lots (kl_mark_dried_older_than storage_id cutoff db)))
  /\ (kl_trocknen (fst (get_settings guild_id db)) = false ->
      kl_apply_drying_if_enabled guild_id storage_id now db = ensure_settings guild_id db
      /\ kl_herb_lots (kl_apply_drying_if_enabled guild_id storage_id now db) = kl_herb_lots db
      /\ fbh_batches (kl_apply_drying_if_enabled guild_id storage_id now db) = fbh_batches db
      /\ kl_pantry (kl_apply_drying_if_enabled guild_id storage_id now db) = kl_pantry db
      /\ forall g, fst (get_settings g (kl_apply_drying_if_enabled guild_id storage_id now db))
                   = fst (get_settings g db))
  /\ (kl_trocknen (fst (get_settings guild_id db)) = true ->
      kl_apply_drying_if_enabled guild_id storage_id now db
      = kl_mark_dried_older_than storage_id (now - 604800) (ensure_settings guild_id db)).
Proof.
  split; [apply kl_mark_dried_rows|].
  split; [repeat split|].
  split; [apply kl_mark_dried_twice|].
  split; [apply kl_mark_dried_twice; lia|].
  split.
  { intros l Hl Hst. unfold kl_mark_dried_older_than. simpl.
    apply in_map_iff. exists l. split; [|assumption].
    rewrite Hst. simpl. now rewrite andb_false_r. }
  rewrite kl_apply_drying_eq.
  split; intros Htoggle; rewrite Htoggle; [|reflexivity].
  destruct (ensure_settings_tables guild_id db) as (T1 & _ & T3 & _ & T5).
  repeat split; auto. intros g. apply get_settings_ensured.
Qed.

Lemma kl_drying_in_place_idempotent_witness :
  100 <= 250
  /\ kl_mark_dried_older_than 1 250 (kl_mark_dried_older_than 1 100 example_herb_db)
     = kl_mark_dried_older_than 1 250 example_herb_db
  /\ kl_trocknen (fst (get_settings 9 example_herb_db)) = false
  /\ kl_herb_lots (kl_apply_drying_if_enabled 9 1 1000000 example_herb_db)
     = kl_herb_lots example_herb_db
  /\ kl_trocknen (fst (get_settings 9 example_drying_db)) = true
  /\ kl_apply_drying_if_enabled 9 1 1000000 example_drying_db
     = kl_mark_dried_older_than 1 (1000000 - 604800) (ensure_settings 9 example_drying_db).
Proof.
  assert (H1 : 100 <= 250) by lia.
  assert (H2 : kl_trocknen (fst (get_settings 9 example_herb_db)) = false) by reflexivity.
  assert (H3 : kl_trocknen (fst (get_settings 9 example_drying_db)) = true) by reflexivity.
  split; [exact H1|].
  split.
  { exact (proj1 (proj2 (proj2
             (kl_drying_in_place_idempotent example_herb_db 9 1 100 250 1000000))) H1). }
  split; [exact H2|].
  split.
  { exact (proj1 (proj2 (proj1 (proj2 (proj2 (proj2 (proj2 (proj2
             (kl_drying_in_place_idempotent example_herb_db 9 1 100 250 1000000))))))
             H2))). }
  split; [exact H3|].
  exact (proj2 (proj2 (proj2 (proj2 (proj2 (proj2
           (kl_drying_in_place_idempotent example_drying_db 9 1 100 250 1000000))))))
           H3).
Defined.

(** ** The invariants are kept by every operation *)

Lemma NoDup_snoc {A} (l : list A) (x : A) : NoDup l -> ~ In x l -> NoDup (l ++ [x]).
Proof.
  intros Hl Hx. apply (Permutation_NoDup (l := x :: l)).
  - apply Permutation_cons_append.
  - now constructor.
Qed.

Lemma Forall_snoc {A} (P : A -> Prop) (l : list A) (x : A) :
  Forall P l -> P x -> Forall P (l ++ [x]).
Proof. intros Hl Hx. apply Forall_app. split; [assumption|]. now constructor. Qed.

Lemma empty_db_invariants : db_positive empty_db /\ db_keys_ok empty_db.
Proof.
  unfold db_positive, db_keys_ok. simpl. repeat split; constructor.
Qed.

Section Invariants.
Context `{PyText}.

Lemma fbh_add_invariants (storage_id : Z) (item_display : string) (qty user_id now : Z) (db : DB) :
  0 < qty -> db_positive db -> db_keys_ok db ->
  db_positive (fbh_add storage_id item_display qty user_id now db)
  /\ db_keys_ok (fbh_add storage_id item_display qty user_id now db).
Proof.
  intros Hq (P1 & P2 & P3) (K1 & K2 & K3 & K4 & K5).
  unfold db_positive, db_keys_ok, fbh_add. simpl.
  repeat split; auto.
  - now apply Forall_snoc.
  - rewrite map_app. simpl. apply NoDup_snoc; [assumption|].
    intros Hin. apply in_map_iff in Hin. destruct Hin as (b & E & Hb).
    rewrite Forall_forall in K2. specialize (K2 b Hb). lia.
  - apply Forall_snoc; [|simpl; lia].
    eapply Forall_impl; [|exact K2]. simpl. intros; lia.
Qed.

Lemma kl_add_herb_invariants (storage_id : Z) (herb_display : string) (qty user_id now : Z)
    (db : DB) :
  0 < qty -> db_positive db -> db_keys_ok db ->
  db_positive (kl_add_herb storage_id herb_display qty user_id now db)
  /\ db_keys_ok (kl_add_herb storage_id herb_display qty user_id now db).
Proof.
  intros Hq (P1 & P2 & P3) (K1 & K2 & K3 & K4 & K5).
  unfold db_positive, db_keys_ok, kl_add_herb. simpl.
  repeat split; auto.
  - now apply Forall_snoc.
  - rewrite map_app. simpl. apply NoDup_snoc; [assumption|].
    intros Hin. apply in_map_iff in Hin. destruct Hin as (b & E & Hb).
    rewrite Forall_forall in K4. specialize (K4 b Hb). lia.
  - apply Forall_snoc; [|simpl; lia].
    eapply Forall_impl; [|exact K4]. simpl. intros; lia.
Qed.

Lemma fbh_take_invariants (storage_id : Z) (item_display : string) (qty : Z) (db : DB) :
  db_positive db -> db_keys_ok db ->
  db_positive (snd (fbh_take storage_id item_display qty db))
  /\ db_keys_ok (snd (fbh_take storage_id item_display qty db)).
Proof.
  intros (P1 & P2 & P3) (K1 & K2 & K3 & K4 & K5).
  pose proof (fbh_take_positive storage_id item_display qty db P1) as Hp.
  destruct (fbh_take_other_tables storage_id item_display qty db) as (_ & T2 & T3 & T4 & T5).
  unfold db_positive, db_keys_ok. rewrite T2, T3, T4, T5.
  repeat split; auto; rewrite fbh_take_eq; simpl.
  - now apply (take_loop_NoDup batch_id set_batch_qty (fun _ _ => eq_refl)).
  - now apply (take_loop_id_bound batch_id set_batch_qty (fun _ _ => eq_refl)).
Qed.

Lemma kl_take_herb_invariants (storage_id : Z) (herb_display : string) (qty : Z) (db : DB) :
  db_positive db -> db_keys_ok db ->
  db_positive (snd (kl_take_herb storage_id herb_display qty db))
  /\ db_keys_ok (snd (kl_take_herb storage_id herb_display qty db)).
Proof.
  intros (P1 & P2 & P3) (K1 & K2 & K3 & K4 & K5).
  pose proof (kl_take_herb_positive storage_id herb_display qty db K3 P2) as Hp.
  destruct (kl_take_herb_other_tables storage_id herb_display qty db) as (_ & T2 & T3 & T4 & T5).
  unfold db_positive, db_keys_ok. rewrite T2, T3, T4, T5.
  repeat split; auto; rewrite kl_take_herb_eq by assumption; simpl.
  - now apply (take_loop_NoDup lot_id set_lot_qty (fun _ _ => eq_refl)).
  - now apply (take_loop_id_bound lot_id set_lot_qty (fun _ _ => eq_refl)).
Qed.

Lemma kl_mark_dried_invariants (storage_id cutoff : Z) (db : DB) :
  db_positive db -> db_keys_ok db ->
  db_positive (kl_mark_dried_older_than storage_id cutoff db)
  /\ db_keys_ok (kl_mark_dried_older_than storage_id cutoff db).
Proof.
  intros (P1 & P2 & P3) (K1 & K2 & K3 & K4 & K5).
  unfold db_positive, db_keys_ok, kl_mark_dried_older_than. simpl.
  assert (Hids : forall t : list Lot,
            map lot_id
              (map (fun l => if (lot_storage_id l =? storage_id)
                                  && lot_state_eqb (lot_state l) frisch
                                  && (lot_added_at l <=? cutoff)
                             then set_lot_state getrocknet l else l) t)
            = map lot_id t).
  { intros t. rewrite map_map. apply map_ext. intros l.
    now destruct (_ && _). }
  repeat split; auto.
  - rewrite Forall_forall in *. intros l Hl. apply in_map_iff in Hl.
    destruct Hl as (l0 & <- & Hl0). specialize (P2 l0 Hl0).
    now destruct (_ && _).
  - now rewrite Hids.
  - rewrite Forall_forall in *. intros l Hl. apply in_map_iff in Hl.
    destruct Hl as (l0 & <- & Hl0). specialize (K4 l0 Hl0).
    now destruct (_ && _).
Qed.

Lemma pantry_add_invariants (storage_id : Z) (item_display : string) (qty user_id now : Z)
    (db : DB) :
  0 < qty -> db_positive db -> db_keys_ok db ->
  db_positive (pantry_add storage_id item_display qty user_id now db)
  /\ db_keys_ok (pantry_add storage_id item_display qty user_id now db).
Proof.
  intros Hq (P1 & P2 & P3) (K1 & K2 & K3 & K4 & K5).
  unfold db_positive, db_keys_ok, pantry_add.
  destruct (List.find _ (kl_pantry db)) as [row|] eqn:Ef; simpl.
  - apply find_some in Ef. destruct Ef as [Hrow _].
    repeat split; auto.
    + rewrite Forall_forall in *. intros r Hr. apply in_map_iff in Hr.
      destruct Hr as (r0 & <- & Hr0).
      destruct (pantry_matches _ _ r0); simpl; [|auto].
      specialize (P3 row Hrow). lia.
    + rewrite map_map.
      erewrite map_ext; [exact K5|]. intros r. simpl.
      now destruct (pantry_matches _ _ r).
  - repeat split; auto.
    + now apply Forall_snoc.
    + rewrite map_app. simpl. apply NoDup_snoc; [assumption|].
      intros Hin. apply in_map_iff in Hin. destruct Hin as (r & E & Hr).
      pose proof (find_none _ _ Ef r Hr) as Hm. unfold pantry_matches in Hm.
      injection E as E1 E2. rewrite E1, E2, Z.eqb_refl, String.eqb_refl in Hm.
      discriminate.
Qed.

Lemma pantry_take_invariants (storage_id : Z) (item_display : string) (qty : Z) (db : DB) :
  db_positive db -> db_keys_ok db ->
  db_positive (snd (pantry_take storage_id item_display qty db))
  /\ db_keys_ok (snd (pantry_take storage_id item_display qty db)).
Proof.
  intros (P1 & P2 & P3) (K1 & K2 & K3 & K4 & K5).
  unfold db_positive, db_keys_ok, pantry_take.
  destruct (List.find _ (kl_pantry db)) as [row|] eqn:Ef; simpl; [|repeat split; auto].
  destruct (Z.leb_spec (pantry_qty row - Z.min (pantry_qty row) qty) 0) as [Hz|Hp]; simpl.
  - repeat split; auto.
    + rewrite Forall_forall in *. intros r Hr. apply filter_In in Hr. apply P3, Hr.
    + now apply NoDup_map_filter.
  - repeat split; auto.
    + rewrite Forall_forall in *. intros r Hr. apply in_map_iff in Hr.
      destruct Hr as (r0 & <- & Hr0).
      destruct (pantry_matches _ _ r0); simpl; [lia|auto].
    + rewrite map_map.
      erewrite map_ext; [exact K5|]. intros r. simpl.
      now destruct (pantry_matches _ _ r).
Qed.

Lemma run_op_invariants (o : LedgerOp) (db : DB) :
  op_qty_ok o -> db_positive db -> db_keys_ok db ->
  db_positive (run_op o db) /\ db_keys_ok (run_op o db).
Proof.
  destruct o; simpl; intros Hq Hp Hk.
  - now apply fbh_add_invariants.
  - now apply fbh_take_invariants.
  - now apply kl_add_herb_invariants.
  - now apply kl_take_herb_invariants.
  - now apply kl_mark_dried_invariants.
  - now apply pantry_add_invariants.
  - now apply pantry_take_invariants.
Qed.

Lemma run_ops_invariants (ops : list LedgerOp) (db : DB) :
  Forall op_qty_ok ops -> db_positive db -> db_keys_ok db ->
  db_positive (run_ops ops db) /\ db_keys_ok (run_ops ops db).
Proof.
  intros Hops. revert db. induction Hops as [|o ops Ho Hops IH]; intros db Hp Hk.
  - simpl. auto.
  - simpl. destruct (run_op_invariants o db Ho Hp Hk) as [Hp' Hk']. now apply IH.
Qed.
End Invariants.

(** ** Facts about the reported totals *)

Lemma key_state_eqb_eq (a b : string * LotState) : key_state_eqb a b = true <-> a = b.
Proof.
  destruct a as [k s], b as [k' s']. unfold key_state_eqb. simpl.
  rewrite andb_true_iff, String.eqb_eq, lot_state_eqb_eq. split.
  - now intros [-> ->].
  - intros E. injection E as -> ->. auto.
Qed.

Lemma distinct_first_In {A} (eqb : A -> A -> bool) (x : A) (l : list A) :
  (forall a b, eqb a b = true <-> a = b) ->
  In x (distinct_first eqb l) <-> In x l.
Proof.
  intros Heq. induction l as [|a l IH]; simpl; [tauto|]. split.
  - intros [E|Hin]; [now left|]. apply filter_In in Hin. right. now apply IH.
  - intros [E|Hin]; [now left|].
    destruct (eqb x a) eqn:Ex.
    + left. symmetry. now apply Heq.
    + right. apply filter_In. split; [now apply IH | now rewrite Ex].
Qed.

Lemma kl_group_rows (storage_id : Z) (k : string) (st : LotState) (t : list Lot) :
  List.filter (fun l => key_state_eqb (lot_herb_key l, lot_state l) (k, st))
    (List.filter (fun l => lot_storage_id l =? storage_id) t)
  = List.filter (lot_matches_state storage_id k st) t.
Proof.
  rewrite filter_filter_and. apply filter_ext_in'. intros l _.
  unfold lot_matches_state, lot_matches, key_state_eqb. simpl. apply andb_assoc.
Qed.

Lemma kl_state_groups_In (storage_id : Z) (db : DB) (k : string) (st : LotState)
    (d : string) (s : Z) :
  In (k, st, (d, s)) (kl_state_groups storage_id db) <->
  (exists l, In l (kl_herb_lots db) /\ lot_storage_id l = storage_id
             /\ lot_herb_key l = k /\ lot_state l = st)
  /\ s = kl_state_total storage_id k st db
  /\ d = match List.filter (lot_matches_state storage_id k st) (kl_herb_lots db) with
         | l :: _ => lot_herb_display l
         | [] => EmptyString
         end.
Proof.
  unfold kl_state_groups, kl_state_total. rewrite in_map_iff. split.
  - intros ([k' st'] & E & Hk). rewrite kl_group_rows in E. injection E as -> -> <- <-.
    apply (distinct_first_In _ _ _ key_state_eqb_eq), in_map_iff in Hk.
    destruct Hk as (l & El & Hl). injection El as Ek Est.
    apply filter_In in Hl. destruct Hl as [Hl Hs]. apply Z.eqb_eq in Hs. eauto 10.
  - intros ((l & Hl & Hs & Ek & Est) & -> & ->). exists (k, st). rewrite kl_group_rows.
    split; [reflexivity|].
    apply (distinct_first_In _ _ _ key_state_eqb_eq), in_map_iff. exists l.
    split; [now rewrite Ek, Est|].
    apply filter_In. split; [assumption|]. now apply Z.eqb_eq.
Qed.

Lemma fresh_and_dried_In (rows : list (string * LotState * Z)) (d : string) (q : Z) :
  (In (d, q) (fst (fresh_and_dried rows)) <-> In (d, frisch, q) rows /\ 0 < q)
  /\ (In (d, q) (snd (fresh_and_dried rows)) <-> In (d, getrocknet, q) rows /\ 0 < q).
Proof.
  induction rows as [|[[d' s'] q'] rest [IH1 IH2]]; [simpl; tauto|].
  cbn [fresh_and_dried]. destruct (fresh_and_dried rest) as [f dr]. cbn [fst snd] in *.
  destruct (Z.leb_spec q' 0) as [Hle|Hgt]; cbn [fst snd].
  - rewrite IH1, IH2. simpl. split; split;
      try (intros [Hin Hq]; split; [now right | assumption]);
      (intros [[E|Hin] Hq]; [injection E as -> -> ->; lia | auto]).
  - destruct s'; cbn [fst snd]; simpl; rewrite ?IH1, ?IH2; split; split;
      try (intros [E|[Hin Hq]]; [injection E as -> ->; split; [now left | assumption]
                                | split; [now right | assumption]]);
      try (intros [[E|Hin] Hq]; [injection E as -> ->; now left | right; auto]);
      try (intros [Hin Hq]; split; [now right | assumption]);
      try (intros [[E|Hin] Hq]; [discriminate E | auto]).
Qed.

Lemma kl_state_total_split (storage_id : Z) (k : string) (db : DB) :
  kl_state_total storage_id k frisch db + kl_state_total storage_id k getrocknet db
  = kl_total_available storage_id k db.
Proof.
  unfold kl_state_total, kl_total_available, lot_matches_state.
  induction (kl_herb_lots db) as [|l t IH]; [reflexivity|]. cbn [List.filter].
  destruct (lot_matches storage_id k l); simpl; [|exact IH].
  destruct (lot_state l); simpl; lia.
Qed.

Lemma pantry_find_filter (storage_id : Z) (k : string) (t : list PantryRow) :
  NoDup (map (fun r => (pantry_storage_id r, pantry_item_key r)) t) ->
  List.filter (pantry_matches storage_id k) t
  = match List.find (pantry_matches storage_id k) t with
    | Some r => [r]
    | None => []
    end.
Proof.
  induction t as [|r t IH]; intros Hnd; [reflexivity|].
  inversion Hnd as [|? ? Hr Hnd']; subst. cbn [List.filter List.find].
  destruct (pantry_matches storage_id k r) eqn:Em; [|now apply IH].
  f_equal. apply filter_none. intros x Hx.
  destruct (pantry_matches storage_id k x) eqn:Ex; [|reflexivity].
  exfalso. apply Hr. unfold pantry_matches in Em, Ex.
  apply andb_true_iff in Em, Ex. destruct Em as [Es Ek], Ex as [Es' Ek'].
  apply Z.eqb_eq in Es, Es'. apply String.eqb_eq in Ek, Ek'.
  apply in_map_iff. exists x. split; [congruence|assumption].
Qed.

Lemma filter_map_update {A} (p : A -> bool) (f : A -> A) (l : list A) :
  (forall x, p (f x) = p x) ->
  List.filter p (map (fun r => if p r then f r else r) l) = map f (List.filter p l)
  /\ List.filter (fun r => negb (p r)) (map (fun r => if p r then f r else r) l)
     = List.filter (fun r => negb (p r)) l.
Proof.
  intros Hp. induction l as [|x l [IH1 IH2]]; [split; reflexivity|].
  cbn [map List.filter]. destruct (p x) eqn:Ex.
  - rewrite Hp, Ex. simpl. rewrite IH1, IH2. auto.
  - rewrite Ex. simpl. rewrite IH1, IH2. auto.
Qed.

Lemma filter_negb_filter {A} (p : A -> bool) (l : list A) :
  List.filter p (List.filter (fun r => negb (p r)) l) = [].
Proof.
  apply filter_none. intros x Hx. apply filter_In in Hx. destruct Hx as [_ Hx].
  now destruct (p x).
Qed.

Lemma filter_negb_idem {A} (p : A -> bool) (l : list A) :
  List.filter (fun r => negb (p r)) (List.filter (fun r => negb (p r)) l)
  = List.filter (fun r => negb (p r)) l.
Proof.
  rewrite filter_filter_and. apply filter_ext_in'. intros x _. now destruct (p x).
Qed.

Lemma filter_all {A} (p : A -> bool) (l : list A) :
  (forall x, In x l -> p x = true) -> List.filter p l = l.
Proof.
  induction l as [|x l IH]; intros Hall; [reflexivity|]. simpl.
  rewrite (Hall x (or_introl eq_refl)). f_equal. apply IH. intros y Hy. apply Hall. now right.
Qed.

Lemma fbh_take_drains `{PyText} (storage_id : Z) (item_display : string) (qty : Z) (db : DB) :
  0 <= qty ->
  NoDup (map batch_id (fbh_batches db)) ->
  Forall (fun b => 0 < batch_qty b) (fbh_batches db) ->
  fbh_stock storage_id (norm_key item_display) db <= qty ->
  List.filter (batch_matches storage_id (norm_key item_display))
    (fbh_batches (snd (fbh_take storage_id item_display qty db))) = [].
Proof.
  intros Hq Hnd Hpos Hle.
  destruct (fbh_take_facts storage_id item_display qty db Hq Hnd Hpos) as (_ & _ & _ & E4).
  apply (positive_rows_empty batch_qty).
  - pose proof (fbh_take_positive storage_id item_display qty db Hpos) as Hp.
    rewrite Forall_forall in *. intros b Hb. apply filter_In in Hb. apply Hp, Hb.
  - unfold fbh_stock in E4, Hle |- *. lia.
Qed.

Lemma pantry_list_In (storage_id : Z) (db : DB) (d : string) (q : Z) :
  Forall (fun r => 0 < pantry_qty r) (kl_pantry db) ->
  (In (d, q) (pantry_list storage_id db) <->
   exists r, In r (kl_pantry db) /\ pantry_storage_id r = storage_id
             /\ pantry_item_display r = d /\ pantry_qty r = q).
Proof.
  intros Hpos. unfold pantry_list. rewrite filter_In, in_map_iff. simpl.
  rewrite Forall_forall in Hpos. split.
  - intros [(r & E & Hr) _]. injection E as <- <-.
    apply order_by_In, filter_In in Hr. destruct Hr as [Hr Hs]. apply Z.eqb_eq in Hs. eauto.
  - intros (r & Hr & Hs & <- & <-). split.
    + exists r. split; [reflexivity|]. apply order_by_In, filter_In.
      split; [assumption|]. now apply Z.eqb_eq.
    + apply Z.ltb_lt. now apply Hpos.
Qed.

(** The keys of a storage, each once. *)
Lemma fbh_keys_In (storage_id : Z) (db : DB) (k : string) :
  In k (group_keys (map batch_item_key
                      (List.filter (batch_in storage_id) (fbh_batches db)))) <->
  exists b, In b (fbh_batches db) /\ batch_storage_id b = storage_id /\ batch_item_key b = k.
Proof.
  rewrite group_keys_In, in_map_iff. split.
  - intros (b & E & Hb). apply filter_In in Hb. destruct Hb as [Hb Hs].
    apply Z.eqb_eq in Hs. eauto.
  - intros (b & Hb & Hs & E). exists b. split; [assumption|].
    apply filter_In. split; [assumption|]. now apply Z.eqb_eq.
Qed.

(** With positive quantities [fbh_total] is one entry per key: the name of
    the key with the sum over its batches. *)
Lemma fbh_total_perm (storage_id : Z) (db : DB) :
  Forall (fun b => 0 < batch_qty b) (fbh_batches db) ->
  Permutation (fbh_total storage_id db)
    (map (fun k => (fbh_display storage_id k db, fbh_stock storage_id k db))
       (group_keys (map batch_item_key
                      (List.filter (batch_in storage_id) (fbh_batches db))))).
Proof.
  intros Hpos.
  assert (Hg : map snd (fbh_total_groups storage_id db)
               = map (fun k => (fbh_display storage_id k db, fbh_stock storage_id k db))
                   (group_keys (map batch_item_key
                                  (List.filter (batch_in storage_id) (fbh_batches db))))).
  { unfold fbh_total_groups. rewrite map_map. apply map_ext. intros k. cbn [snd].
    rewrite fbh_group_rows. reflexivity. }
  unfold fbh_total. rewrite Hg. rewrite filter_all.
  - apply order_by_perm.
  - intros [d q] Hin. apply order_by_In, in_map_iff in Hin.
    destruct Hin as (k & E & Hk). injection E as _ <-.
    apply fbh_keys_In in Hk. destruct Hk as (b & Hb & Hs & <-).
    apply Z.ltb_lt. now apply fbh_stock_positive.
Qed.

Lemma fbh_total_named (storage_id : Z) (db : DB) (d : string) (s : Z) :
  Forall (fun b => 0 < batch_qty b) (fbh_batches db) ->
  (In (d, s) (fbh_total storage_id db) <->
   exists k,
     (exists b, In b (fbh_batches db) /\ batch_storage_id b = storage_id
                /\ batch_item_key b = k)
     /\ d = fbh_display storage_id k db /\ s = fbh_stock storage_id k db /\ 0 < s).
Proof.
  intros Hpos. split.
  - intros Hin. apply (Permutation_in _ (fbh_total_perm storage_id db Hpos)) in Hin.
    apply in_map_iff in Hin. destruct Hin as (k & E & Hk). injection E as <- <-.
    apply fbh_keys_In in Hk. exists k. split; [exact Hk|]. do 2 (split; [reflexivity|]).
    destruct Hk as (b & Hb & Hs & <-). now apply fbh_stock_positive.
  - intros (k & Hk & -> & -> & _).
    apply (Permutation_in _ (Permutation_sym (fbh_total_perm storage_id db Hpos))).
    apply in_map_iff. exists k. split; [reflexivity|]. now apply fbh_keys_In.
Qed.

(** The lists of [kl_totals_by_state], entry by entry. *)
Lemma kl_totals_by_state_In (storage_id : Z) (db : DB) (st : LotState) (d : string) (q : Z) :
  In (d, q) (match st with
             | frisch => fst (kl_totals_by_state storage_id db)
             | getrocknet => snd (kl_totals_by_state storage_id db)
             end) <->
  exists k,
    (exists l, In l (kl_herb_lots db) /\ lot_storage_id l = storage_id
               /\ lot_herb_key l = k /\ lot_state l = st)
    /\ d = kl_display storage_id k st db /\ q = kl_state_total storage_id k st db /\ 0 < q.
Proof.
  assert (Hrows : forall st',
            In (d, st', q)
               (order_by (fun a b : string * LotState * Z =>
                            nocase_le (fst (fst a)) (fst (fst b)))
                  (map (fun g : string * LotState * (string * Z) =>
                          (fst (snd g), snd (fst g), snd (snd g)))
                     (kl_state_groups storage_id db))) <->
            exists k, In (k, st', (d, q)) (kl_state_groups storage_id db)).
  { intros st'. rewrite order_by_In, in_map_iff. split.
    - intros ([[k st''] [d' q']] & E & Hin). simpl in E. injection E as -> -> ->. eauto.
    - intros (k & Hin). exists (k, st', (d, q)). auto. }
  unfold kl_totals_by_state, kl_display.
  destruct st.
  - rewrite (proj1 (fresh_and_dried_In _ d q)), Hrows. split.
    + intros [(k & Hin) Hq]. exists k. apply kl_state_groups_In in Hin. tauto.
    + intros (k & Hl & Ed & Eq & Hq). split; [|assumption]. exists k.
      apply kl_state_groups_In. tauto.
  - rewrite (proj2 (fresh_and_dried_In _ d q)), Hrows. split.
    + intros [(k & Hin) Hq]. exists k. apply kl_state_groups_In in Hin. tauto.
    + intros (k & Hl & Ed & Eq & Hq). split; [|assumption]. exists k.
      apply kl_state_groups_In. tauto.
Qed.

Lemma kl_total_available_positive (storage_id : Z) (k : string) (db : DB) :
  Forall (fun l => 0 < lot_qty l) (kl_herb_lots db) ->
  (0 < kl_total_available storage_id k db <->
   exists l, In l (kl_herb_lots db) /\ lot_storage_id l = storage_id /\ lot_herb_key l = k).
Proof.
  intros Hpos. unfold kl_total_available.
  assert (Hm : forall l, lot_matches storage_id k l = true <->
                         lot_storage_id l = storage_id /\ lot_herb_key l = k).
  { intros l. unfold lot_matches. now rewrite andb_true_iff, Z.eqb_eq, String.eqb_eq. }
  split.
  - destruct (List.filter (lot_matches storage_id k) (kl_herb_lots db)) as [|l t] eqn:Ef;
      [simpl; lia|]. intros _.
    assert (Hl : In l (List.filter (lot_matches storage_id k) (kl_herb_lots db)))
      by (rewrite Ef; now left).
    apply filter_In in Hl. destruct Hl as [Hl Hml]. apply Hm in Hml. exists l. tauto.
  - intros (l & Hl & Hs & Hk). apply sum_Z_pos.
    + intros E. apply map_eq_nil in E.
      assert (Hin : In l (List.filter (lot_matches storage_id k) (kl_herb_lots db))).
      { apply filter_In. split; [assumption|]. now apply Hm. }
      rewrite E in Hin. destruct Hin.
    + rewrite Forall_map, Forall_forall in *. intros x Hx. apply filter_In in Hx.
      apply Hpos, Hx.
Qed.

(** With positive quantities [pantry_list] is one entry per row of the
    storage. *)
Lemma pantry_list_perm (storage_id : Z) (db : DB) :
  Forall (fun r => 0 < pantry_qty r) (kl_pantry db) ->
  Permutation (pantry_list storage_id db)
    (map (fun r => (pantry_item_display r, pantry_qty r))
       (List.filter (fun r => pantry_storage_id r =? storage_id) (kl_pantry db))).
Proof.
  intros Hpos. unfold pantry_list. rewrite filter_all.
  - apply Permutation_map, order_by_perm.
  - intros [d q] Hin. apply in_map_iff in Hin. destruct Hin as (r & E & Hr).
    injection E as _ <-. apply order_by_In, filter_In in Hr. cbn [snd].
    apply Z.ltb_lt. rewrite Forall_forall in Hpos. apply Hpos, Hr.
Qed.

(** A pantry row is the whole stock of its key. *)
Lemma pantry_row_stock (db : DB) (r : PantryRow) :
  NoDup (map (fun r => (pantry_storage_id r, pantry_item_key r)) (kl_pantry db)) ->
  In r (kl_pantry db) ->
  pantry_stock (pantry_storage_id r) (pantry_item_key r) db = pantry_qty r.
Proof.
  intros Hnd Hr. unfold pantry_stock.
  assert (Hin : In r (List.filter (pantry_matches (pantry_storage_id r) (pantry_item_key r))
                        (kl_pantry db))).
  { apply filter_In. split; [assumption|]. unfold pantry_matches.
    now rewrite Z.eqb_refl, String.eqb_refl. }
  rewrite (pantry_find_filter _ _ _ Hnd) in Hin |- *.
  destruct (List.find _ (kl_pantry db)) as [r'|]; [|destruct Hin].
  destruct Hin as [->|[]]. simpl. lia.
Qed.

Lemma kl_take_herb_drains `{PyText} (storage_id : Z) (herb_display : string) (qty : Z)
    (db : DB) :
  0 <= qty ->
  NoDup (map lot_id (kl_herb_lots db)) ->
  Forall (fun l => 0 < lot_qty l) (kl_herb_lots db) ->
  kl_total_available storage_id (norm_key herb_display) db <= qty ->
  List.filter (lot_matches storage_id (norm_key herb_display))
    (kl_herb_lots (snd (kl_take_herb storage_id herb_display qty db))) = [].
Proof.
  intros Hq Hnd Hpos Hle.
  destruct (kl_take_herb_facts storage_id herb_display qty db Hq Hnd Hpos) as (_ & _ & _ & E4).
  apply (positive_rows_empty lot_qty).
  - pose proof (kl_take_herb_positive storage_id herb_display qty db Hnd Hpos) as Hp.
    rewrite Forall_forall in *. intros l Hl. apply filter_In in Hl. apply Hp, Hl.
  - unfold kl_total_available in E4, Hle |- *. lia.
Qed.

(** What [pantry_take] does with a request that is not negative. *)
Lemma pantry_take_facts `{PyText} (storage_id : Z) (item_display : string) (qty : Z)
    (db : DB) :
  0 <= qty ->
  NoDup (map (fun r => (pantry_storage_id r, pantry_item_key r)) (kl_pantry db)) ->
  Forall (fun r => 0 < pantry_qty r) (kl_pantry db) ->
  fst (pantry_take storage_id item_display qty db)
  = Z.min qty (pantry_stock storage_id (norm_key item_display) db)
  /\ pantry_stock storage_id (norm_key item_display)
       (snd (pantry_take storage_id item_display qty db))
     = pantry_stock storage_id (norm_key item_display) db
       - fst (pantry_take storage_id item_display qty db)
  /\ (pantry_stock storage_id (norm_key item_display) db <= qty ->
      List.filter (pantry_matches storage_id (norm_key item_display))
        (kl_pantry (snd (pantry_take storage_id item_display qty db))) = []).
Proof.
  intros Hq Hnd Hpos.
  pose proof (pantry_find_filter storage_id (norm_key item_display) (kl_pantry db) Hnd) as Hf.
  unfold pantry_stock, pantry_take.
  destruct (List.find _ (kl_pantry db)) as [row|] eqn:Ef.
  - assert (Hrow : 0 < pantry_qty row).
    { rewrite Forall_forall in Hpos. apply Hpos. now apply (find_some _ _ Ef). }
    rewrite Hf. cbn [map sum_Z fold_right]. rewrite Z.add_0_r.
    destruct (Z.leb_spec (pantry_qty row - Z.min (pantry_qty row) qty) 0) as [Hz|Hp];
      cbn [fst snd with_pantry kl_pantry].
    + rewrite filter_negb_filter. simpl. split; [lia|]. split; [lia|reflexivity].
    + destruct (filter_map_update (pantry_matches storage_id (norm_key item_display))
                  (fun r => {| pantry_storage_id := pantry_storage_id r;
                               pantry_item_key := pantry_item_key r;
                               pantry_item_display := pantry_item_display r;
                               pantry_qty := pantry_qty row - Z.min (pantry_qty row) qty;
                               pantry_updated_at := pantry_updated_at r;
                               pantry_updated_by := pantry_updated_by r |})
                  (kl_pantry db) (fun _ => eq_refl)) as [U1 _].
      cbv beta in U1. rewrite U1, Hf. simpl. split; [lia|]. split; [lia|intros; lia].
  - rewrite Hf. cbn [fst snd map sum_Z fold_right]. rewrite Hf. simpl.
    split; [lia|]. split; [lia|reflexivity].
Qed.

(** C7. Quantities stay positive.  Start from a database whose rows hold
    positive quantities and whose keys are unique, the empty database for
    one, and run any sequence of add, take, dry, produce and consume
    operations in which every add and every produce has [qty > 0].
    Afterwards every batch, lot and pantry row holds a quantity above
    zero, and the keys are still unique.

    The totals that are reported are the sums over the live rows, key by
    key.  [fbh_total] holds one entry for every key that has a batch in the
    storage and no other entry; the entry of a key carries the display name
    stored with the first batch of that key and the sum over the batches of
    that key.  The fresh and the dried list of [kl_totals_by_state] hold,
    for every key with a lot in that state, the display name of the first
    such lot with the sum over those lots; the two sums of a key add up to
    [kl_total_available], which is above zero exactly when the key has a
    lot.  [pantry_list] holds one entry for every pantry row of the storage,
    with the name and quantity of the row, and a row is the whole stock of
    its key.

    A row that a take would leave with zero or less is deleted: for a
    request [qty >= 0] each of [fbh_take], [kl_take_herb] and [pantry_take]
    returns [min(qty, stock)], lowers the stock of the key by it, and when
    the stock does not exceed the request no row of the key is left. *)
Theorem quantities_stay_positive `{PyText} (ops : list LedgerOp) (db0 : DB) :
  Forall op_qty_ok ops -> db_positive db0 -> db_keys_ok db0 ->
  (Forall (fun b => 0 < batch_qty b) (fbh_batches (run_ops ops db0))
   /\ Forall (fun l => 0 < lot_qty l) (kl_herb_lots (run_ops ops db0))
   /\ Forall (fun r => 0 < pantry_qty r) (kl_pantry (run_ops ops db0)))
  /\ db_keys_ok (run_ops ops db0)
  /\ (forall storage_id,
        Permutation (fbh_total storage_id (run_ops ops db0))
          (map (fun k => (fbh_display storage_id k (run_ops ops db0),
                          fbh_stock storage_id k (run_ops ops db0)))
             (group_keys (map batch_item_key
                            (List.filter (batch_in storage_id)
                               (fbh_batches (run_ops ops db0))))))
        /\ NoDup (group_keys (map batch_item_key
                                (List.filter (batch_in storage_id)
                                   (fbh_batches (run_ops ops db0)))))
        /\ (forall k,
              In k (group_keys (map batch_item_key
                                  (List.filter (batch_in storage_id)
                                     (fbh_batches (run_ops ops db0))))) <->
              exists b, In b (fbh_batches (run_ops ops db0))
                        /\ batch_storage_id b = storage_id /\ batch_item_key b = k))
  /\ (forall storage_id d s,
        In (d, s) (fbh_total storage_id (run_ops ops db0)) <->
        exists k,
          (exists b, In b (fbh_batches (run_ops ops db0))
                     /\ batch_storage_id b = storage_id /\ batch_item_key b = k)
          /\ d = fbh_display storage_id k (run_ops ops db0)
          /\ s = fbh_stock storage_id k (run_ops ops db0) /\ 0 < s)
  /\ (forall storage_id st d q,
        In (d, q) (match st with
                   | frisch => fst (kl_totals_by_state storage_id (run_ops ops db0))
                   | getrocknet => snd (kl_totals_by_state storage_id (run_ops ops db0))
                   end) <->
        exists k,
          (exists l, In l (kl_herb_lots (run_ops ops db0)) /\ lot_storage_id l = storage_id
                     /\ lot_herb_key l = k /\ lot_state l = st)
          /\ d = kl_display storage_id k st (run_ops ops db0)
          /\ q = kl_state_total storage_id k st (run_ops ops db0) /\ 0 < q)
  /\ (forall storage_id k,
        kl_state_total storage_id k frisch (run_ops ops db0)
        + kl_state_total storage_id k getrocknet (run_ops ops db0)
        = kl_total_available storage_id k (run_ops ops db0)
        /\ (0 < kl_total_available storage_id k (run_ops ops db0) <->
            exists l, In l (kl_herb_lots (run_ops ops db0))
                      /\ lot_storage_id l = storage_id /\ lot_herb_key l = k))
  /\ (forall storage_id,
        Permutation (pantry_list storage_id (run_ops ops db0))
          (map (fun r => (pantry_item_display r, pantry_qty r))
             (List.filter (fun r => pantry_storage_id r =? storage_id)
                (kl_pantry (run_ops ops db0)))))
  /\ (forall r, In r (kl_pantry (run_ops ops db0)) ->
        pantry_stock (pantry_storage_id r) (pantry_item_key r) (run_ops ops db0)
        = pantry_qty r)
  /\ (forall storage_id item_display qty,
        0 <= qty ->
        fst (fbh_take storage_id item_display qty (run_ops ops db0))
        = Z.min qty (fbh_stock storage_id (norm_key item_display) (run_ops ops db0))
        /\ fbh_stock storage_id (norm_key item_display)
             (snd (fbh_take storage_id item_display qty (run_ops ops db0)))
           = fbh_stock storage_id (norm_key item_display) (run_ops ops db0)
             - fst (fbh_take storage_id item_display qty (run_ops ops db0))
        /\ (fbh_stock storage_id (norm_key item_display) (run_ops ops db0) <= qty ->
            List.filter (batch_matches storage_id (norm_key item_display))
              (fbh_batches (snd (fbh_take storage_id item_display qty (run_ops ops db0))))
            = []))
  /\ (forall storage_id herb_display qty,
        0 <= qty ->
        fst (kl_take_herb storage_id herb_display qty (run_ops ops db0))
        = Z.min qty (kl_total_available storage_id (norm_key herb_display) (run_ops ops db0))
        /\ kl_total_available storage_id (norm_key herb_display)
             (snd (kl_take_herb storage_id herb_display qty (run_ops ops db0)))
           = kl_total_available storage_id (norm_key herb_display) (run_ops ops db0)
             - fst (kl_take_herb storage_id herb_display qty (run_ops ops db0))
        /\ (kl_total_available storage_id (norm_key herb_display) (run_ops ops db0) <= qty ->
            List.filter (lot_matches storage_id (norm_key herb_display))
              (kl_herb_lots (snd (kl_take_herb storage_id herb_display qty
                                    (run_ops ops db0))))
            = []))
  /\ (forall storage_id item_display qty,
        0 <= qty ->
        fst (pantry_take storage_id item_display qty (run_ops ops db0))
        = Z.min qty (pantry_stock storage_id (norm_key item_display) (run_ops ops db0))
        /\ pantry_stock storage_id (norm_key item_display)
             (snd (pantry_take storage_id item_display qty (run_ops ops db0)))
           = pantry_stock storage_id (norm_key item_display) (run_ops ops db0)
             - fst (pantry_take storage_id item_display qty (run_ops ops db0))
        /\ (pantry_stock storage_id (norm_key item_display) (run_ops ops db0) <= qty ->
            List.filter (pantry_matches storage_id (norm_key item_display))
              (kl_pantry (snd (pantry_take storage_id item_display qty (run_ops ops db0))))
            = []))
  /\ (db_positive empty_db /\ db_keys_ok empty_db).
Proof.
  intros Hops Hp0 Hk0.
  destruct (run_ops_invariants ops db0 Hops Hp0 Hk0) as [Hp Hk].
  pose proof Hp as (P1 & P2 & P3). pose proof Hk as (K1 & _ & K3 & _ & K5).
  split; [exact Hp|]. split; [exact Hk|].
  split.
  { intros storage_id. split; [now apply fbh_total_perm|].
    split; [apply group_keys_NoDup|]. intros k. apply fbh_keys_In. }
  split; [intros storage_id d s; now apply fbh_total_named|].
  split; [intros storage_id st d q; apply kl_totals_by_state_In|].
  split.
  { intros storage_id k. split; [apply kl_state_total_split|].
    now apply kl_total_available_positive. }
  split; [intros storage_id; now apply pantry_list_perm|].
  split; [intros r Hr; now apply pantry_row_stock|].
  split.
  { intros storage_id item_display qty Hq.
    destruct (fbh_take_facts storage_id item_display qty _ Hq K1 P1) as (E1 & _ & _ & E4).
    split; [exact E1|]. split; [now rewrite E1|]. intros Hle. now apply fbh_take_drains. }
  split.
  { intros storage_id herb_display qty Hq.
    destruct (kl_take_herb_facts storage_id herb_display qty _ Hq K3 P2) as (E1 & _ & _ & E4).
    split; [exact E1|]. split; [now rewrite E1|]. intros Hle. now apply kl_take_herb_drains. }
  split; [intros storage_id item_display qty Hq; now apply pantry_take_facts|].
  exact empty_db_invariants.
Qed.

Lemma quantities_stay_positive_witness :
  Forall op_qty_ok example_ops /\ db_positive empty_db /\ db_keys_ok empty_db
  /\ Forall (fun b => 0 < batch_qty b)
       (fbh_batches (@run_ops latin1_text example_ops empty_db))
  /\ Forall (fun l => 0 < lot_qty l)
       (kl_herb_lots (@run_ops latin1_text example_ops empty_db))
  /\ Forall (fun r => 0 < pantry_qty r)
       (kl_pantry (@run_ops latin1_text example_ops empty_db)).
Proof.
  assert (H1 : Forall op_qty_ok example_ops).
  { unfold example_ops. repeat (apply Forall_cons; [simpl; try lia; exact I|]).
    apply Forall_nil. }
  destruct empty_db_invariants as [H2 H3].
  split; [exact H1|]. split; [exact H2|]. split; [exact H3|].
  exact (proj1 (@quantities_stay_positive latin1_text example_ops empty_db H1 H2 H3)).
Defined.

(** ** The frame of a take *)

Lemma take_loop_frame_rows {R : Type} (row_id row_qty : R -> Z) (set_qty : Z -> R -> R)
    (P : R -> bool) (rows : list R) (tr rm : Z) (t : list R) :
  (forall q r, row_id (set_qty q r) = row_id r) ->
  (forall q r, P (set_qty q r) = P r) ->
  NoDup (map row_id t) ->
  (forall r, In r rows -> In r t /\ P r = true) ->
  List.filter (fun r => negb (P r))
    (snd (take_loop row_id set_qty (id_qty row_id row_qty rows) tr rm t))
  = List.filter (fun r => negb (P r)) t.
Proof.
  intros Hid HP Hnd Hrows. apply (take_loop_frame row_id set_qty Hid).
  - intros q r. now rewrite HP.
  - intros r Hr Hin. unfold id_qty in Hin. rewrite map_map in Hin. simpl in Hin.
    apply in_map_iff in Hin. destruct Hin as (r0 & E & Hr0).
    destruct (Hrows r0 Hr0) as [Ht HPr].
    rewrite <- (NoDup_map_inj_in row_id t r0 r Hnd Ht Hr E). now rewrite HPr.
Qed.

Lemma filter_negb_In {A} (P : A -> bool) (l l' : list A) :
  List.filter (fun r => negb (P r)) l' = List.filter (fun r => negb (P r)) l ->
  forall r, P r = false -> (In r l' <-> In r l).
Proof.
  intros E r Hr.
  assert (Hl : forall m, In r (List.filter (fun r => negb (P r)) m) <-> In r m).
  { intros m. rewrite filter_In, Hr. simpl. tauto. }
  rewrite <- (Hl l'), <- (Hl l), E. tauto.
Qed.

Section Frame.
Context `{PyText}.

Lemma fbh_take_frame (storage_id : Z) (item_display : string) (qty : Z) (db : DB) :
  NoDup (map batch_id (fbh_batches db)) ->
  List.filter (fun b => negb (batch_matches storage_id (norm_key item_display) b))
    (fbh_batches (snd (fbh_take storage_id item_display qty db)))
  = List.filter (fun b => negb (batch_matches storage_id (norm_key item_display) b))
      (fbh_batches db).
Proof.
  intros Hnd. rewrite fbh_take_eq. simpl.
  apply (take_loop_frame_rows batch_id batch_qty set_batch_qty
           (batch_matches storage_id (norm_key item_display))); auto.
  intros r Hr. apply order_by_In, filter_In in Hr. exact Hr.
Qed.

Lemma kl_take_herb_frame (storage_id : Z) (herb_display : string) (qty : Z) (db : DB) :
  NoDup (map lot_id (kl_herb_lots db)) ->
  List.filter (fun l => negb (lot_matches storage_id (norm_key herb_display) l))
    (kl_herb_lots (snd (kl_take_herb storage_id herb_display qty db)))
  = List.filter (fun l => negb (lot_matches storage_id (norm_key herb_display) l))
      (kl_herb_lots db).
Proof.
  intros Hnd. rewrite kl_take_herb_eq by assumption. simpl.
  apply (take_loop_frame_rows lot_id lot_qty set_lot_qty
           (lot_matches storage_id (norm_key herb_display))); auto.
  intros r Hr. apply (Permutation_in _ (kl_selection_perm _ _ _)), filter_In in Hr. exact Hr.
Qed.
End Frame.

(** C10. A take stays within its key.  On tables with unique ids, for any
    storage, name and quantity: the batches that are not of the storage and
    key of [fbh_take] are the same rows in the same order before and after,
    so such a row is in the table afterwards exactly when it was before,
    and the lots, the pantry and the settings are not touched; the same
    holds for [kl_take_herb] with lots and batches swapped. *)
Theorem take_changes_only_its_key `{PyText} (db : DB) (storage_id : Z) (name : string) (qty : Z) :
  NoDup (map batch_id (fbh_batches db)) ->
  NoDup (map lot_id (kl_herb_lots db)) ->
  (List.filter (fun b => negb (batch_matches storage_id (norm_key name) b))
     (fbh_batches (snd (fbh_take storage_id name qty db)))
   = List.filter (fun b => negb (batch_matches storage_id (norm_key name) b)) (fbh_batches db)
   /\ (forall b, batch_storage_id b <> storage_id \/ batch_item_key b <> norm_key name ->
         (In b (fbh_batches (snd (fbh_take storage_id name qty db))) <-> In b (fbh_batches db)))
   /\ kl_herb_lots (snd (fbh_take storage_id name qty db)) = kl_herb_lots db
   /\ kl_pantry (snd (fbh_take storage_id name qty db)) = kl_pantry db
   /\ guild_settings (snd (fbh_take storage_id name qty db)) = guild_settings db)
  /\ (List.filter (fun l => negb (lot_matches storage_id (norm_key name) l))
        (kl_herb_lots (snd (kl_take_herb storage_id name qty db)))
      = List.filter (fun l => negb (lot_matches storage_id (norm_key name) l)) (kl_herb_lots db)
      /\ (forall l, lot_storage_id l <> storage_id \/ lot_herb_key l <> norm_key name ->
            (In l (kl_herb_lots (snd (kl_take_herb storage_id name qty db)))
             <-> In l (kl_herb_lots db)))
      /\ fbh_batches (snd (kl_take_herb storage_id name qty db)) = fbh_batches db
      /\ kl_pantry (snd (kl_take_herb storage_id name qty db)) = kl_pantry db
      /\ guild_settings (snd (kl_take_herb storage_id name qty db)) = guild_settings db).
Proof.
  intros Hb Hl. split.
  - pose proof (fbh_take_frame storage_id name qty db Hb) as E.
    destruct (fbh_take_other_tables storage_id name qty db) as (T1 & _ & T3 & _ & T5).
    split; [exact E|]. split; [|auto].
    intros b Hne. apply (filter_negb_In _ _ _ E). unfold batch_matches.
    destruct Hne as [Hne|Hne].
    + now rewrite (proj2 (Z.eqb_neq _ _) Hne).
    + rewrite (proj2 (String.eqb_neq _ _) Hne). apply andb_false_r.
  - pose proof (kl_take_herb_frame storage_id name qty db Hl) as E.
    destruct (kl_take_herb_other_tables storage_id name qty db) as (T1 & T2 & _ & _ & T5).
    split; [exact E|]. split; [|auto].
    intros l Hne. apply (filter_negb_In _ _ _ E). unfold lot_matches.
    destruct Hne as [Hne|Hne].
    + now rewrite (proj2 (Z.eqb_neq _ _) Hne).
    + rewrite (proj2 (String.eqb_neq _ _) Hne). apply andb_false_r.
Qed.

Lemma take_changes_only_its_key_witness :
  NoDup (map batch_id (fbh_batches example_herb_db))
  /\ NoDup (map lot_id (kl_herb_lots example_herb_db))
  /\ List.filter (fun l => negb (lot_matches 1 (@norm_key latin1_text "Basil") l))
       (kl_herb_lots (snd (@kl_take_herb latin1_text 1 "Basil" 7 example_herb_db)))
     = List.filter (fun l => negb (lot_matches 1 (@norm_key latin1_text "Basil") l))
         (kl_herb_lots example_herb_db).
Proof.
  assert (H1 : NoDup (map batch_id (fbh_batches example_herb_db))) by concrete_NoDup.
  assert (H2 : NoDup (map lot_id (kl_herb_lots example_herb_db))) by concrete_NoDup.
  split; [exact H1|]. split; [exact H2|].
  exact (proj1 (proj2 (@take_changes_only_its_key latin1_text example_herb_db 1 "Basil" 7 H1 H2))).
Defined.

(** ** Recipes *)

Lemma filter_filter_sub {A} (p q : A -> bool) (l l' : list A) :
  (forall x, p x = true -> q x = true) ->
  List.filter q l' = List.filter q l -> List.filter p l' = List.filter p l.
Proof.
  intros Hpq E.
  assert (Hf : forall m, List.filter p (List.filter q m) = List.filter p m).
  { intros m. rewrite filter_filter_and. apply filter_ext_in'. intros x _.
    destruct (p x) eqn:Ep; [now rewrite (Hpq x Ep) | apply andb_false_r]. }
  rewrite <- (Hf l'), <- (Hf l), E. reflexivity.
Qed.

Lemma kl_mark_dried_columns (storage_id cutoff : Z) (db : DB) :
  map lot_columns (kl_herb_lots (kl_mark_dried_older_than storage_id cutoff db))
  = map lot_columns (kl_herb_lots db).
Proof.
  unfold kl_mark_dried_older_than. simpl. rewrite map_map. apply map_ext.
  intros l. now destruct (_ && _).
Qed.

Lemma kl_total_available_columns (storage_id : Z) (k : string) (db db' : DB) :
  map lot_columns (kl_herb_lots db') = map lot_columns (kl_herb_lots db) ->
  kl_total_available storage_id k db' = kl_total_available storage_id k db.
Proof.
  unfold kl_total_available. generalize (kl_herb_lots db) (kl_herb_lots db').
  intros t t'. revert t. induction t' as [|l' t' IH]; intros [|l t] E; simpl in E;
    try discriminate; [reflexivity|].
  injection E as E1 E2 E3 E4 E5 E6 E7 Et. cbn [List.filter].
  assert (Em : lot_matches storage_id k l' = lot_matches storage_id k l).
  { unfold lot_matches. now rewrite E2, E3. }
  rewrite Em. specialize (IH t Et).
  destruct (lot_matches storage_id k l); simpl; rewrite ?E5; lia.
Qed.

Section RecipeFacts.
Context `{PyText}.

Lemma kl_apply_drying_columns (guild_id storage_id now : Z) (db : DB) :
  map lot_columns (kl_herb_lots (kl_apply_drying_if_enabled guild_id storage_id now db))
  = map lot_columns (kl_herb_lots db)
  /\ fbh_batches (kl_apply_drying_if_enabled guild_id storage_id now db) = fbh_batches db
  /\ kl_pantry (kl_apply_drying_if_enabled guild_id storage_id now db) = kl_pantry db.
Proof.
  rewrite kl_apply_drying_eq.
  destruct (ensure_settings_tables guild_id db) as (T1 & _ & T3 & _ & T5).
  destruct (kl_trocknen _).
  - rewrite kl_mark_dried_columns. unfold kl_mark_dried_older_than. simpl.
    now rewrite T1, T3, T5.
  - now rewrite T1, T3, T5.
Qed.

Lemma kl_apply_drying_invariants (guild_id storage_id now : Z) (db : DB) :
  db_positive db -> db_keys_ok db ->
  db_positive (kl_apply_drying_if_enabled guild_id storage_id now db)
  /\ db_keys_ok (kl_apply_drying_if_enabled guild_id storage_id now db).
Proof.
  intros Hp Hk. rewrite kl_apply_drying_eq.
  assert (He : db_positive (ensure_settings guild_id db)
               /\ db_keys_ok (ensure_settings guild_id db)).
  { destruct (ensure_settings_tables guild_id db) as (T1 & T2 & T3 & T4 & T5).
    unfold db_positive, db_keys_ok. now rewrite T1, T2, T3, T4, T5. }
  destruct (kl_trocknen _); [|exact He].
  destruct He. now apply kl_mark_dried_invariants.
Qed.

Lemma check_availability_ext (cfg : Config) (storage_id menge : Z) (recipe : list (string * Z))
    (db db' : DB) :
  (forall k, kl_total_available storage_id k db' = kl_total_available storage_id k db) ->
  check_availability cfg storage_id menge recipe db'
  = check_availability cfg storage_id menge recipe db.
Proof.
  intros E. induction recipe as [|[n b] rest IH]; simpl; [reflexivity|].
  rewrite IH, E. reflexivity.
Qed.

(** The list [missing] names exactly the ingredients that fail, each with
    its shortfall. *)
Lemma check_availability_In (cfg : Config) (storage_id menge : Z) (recipe : list (string * Z))
    (db : DB) (m : Missing) :
  In m (check_availability cfg storage_id menge recipe db) <->
  exists n b, In (n, b) recipe /\
    ((is_allowed n (ALLOWED_KL_SET cfg) = false /\ m = nicht_erlaubt n)
     \/ (is_allowed n (ALLOWED_KL_SET cfg) = true
         /\ kl_total_available storage_id (norm_key n) db < b * menge
         /\ m = fehlt n (b * menge - kl_total_available storage_id (norm_key n) db)
                  (b * menge) (kl_total_available storage_id (norm_key n) db))).
Proof.
  induction recipe as [|[n b] rest IH]; simpl.
  - split; [tauto|]. intros (? & ? & [] & _).
  - destruct (is_allowed n (ALLOWED_KL_SET cfg)) eqn:Ea; simpl.
    + destruct (Z.ltb_spec (kl_total_available storage_id (norm_key n) db) (b * menge))
        as [Hlt|Hge]; simpl; rewrite IH; split.
      * intros [<-|(n' & b' & Hin & Hc)]; [exists n, b | exists n', b']; auto.
      * intros (n' & b' & [E|Hin] & Hc).
        -- injection E as <- <-. destruct Hc as [[D _]|(_ & _ & ->)]; [congruence|auto].
        -- right. eauto.
      * intros (n' & b' & Hin & Hc). exists n', b'. auto.
      * intros (n' & b' & [E|Hin] & Hc); [|eauto].
        injection E as <- <-. destruct Hc as [[D _]|(_ & Hlt & _)]; [congruence|lia].
    + rewrite IH. split.
      * intros [<-|(n' & b' & Hin & Hc)]; [exists n, b | exists n', b']; auto.
      * intros (n' & b' & [E|Hin] & Hc).
        -- injection E as <- <-. destruct Hc as [[_ ->]|(D & _)]; [auto|congruence].
        -- right. eauto.
Qed.
End RecipeFacts.

(** C1. A recipe that cannot be made changes no quantity.  For a positive
    multiplier and a known recipe, when some ingredient is not an allowed
    herb or has less in the storage (fresh and dried together) than
    [base_qty * menge], [kl_herstellen] answers with the list [missing].
    The list is not empty; it holds one entry for every ingredient that is
    not allowed and one for every allowed ingredient that is short, with
    the shortfall [need - have], and no other entry.  Afterwards every lot
    is in its place with the id, storage, key, display, quantity and
    timestamp of before, so all totals are the same, and the pantry and the
    batches are as before: the only write is the one of the drying step
    that runs before the check. *)
Theorem kl_herstellen_failure_is_atomic `{PyText} (cfg : Config) (guild_id storage_id : Z)
    (rezept : string) (menge user_id now : Z) (db : DB) (recipe : list (string * Z)) :
  0 < menge ->
  KL_RECIPES cfg !! rezept = Some recipe ->
  (exists n b, In (n, b) recipe /\
     (is_allowed n (ALLOWED_KL_SET cfg) = false
      \/ kl_total_available storage_id (norm_key n) db < b * menge)) ->
  fst (kl_herstellen cfg guild_id storage_id rezept menge user_id now db)
  = nicht_genug_zutaten (check_availability cfg storage_id menge recipe db)
  /\ check_availability cfg storage_id menge recipe db <> []
  /\ (forall m,
        In m (check_availability cfg storage_id menge recipe db) <->
        exists n b, In (n, b) recipe /\
          ((is_allowed n (ALLOWED_KL_SET cfg) = false /\ m = nicht_erlaubt n)
           \/ (is_allowed n (ALLOWED_KL_SET cfg) = true
               /\ kl_total_available storage_id (norm_key n) db < b * menge
               /\ m = fehlt n (b * menge - kl_total_available storage_id (norm_key n) db)
                        (b * menge) (kl_total_available storage_id (norm_key n) db))))
  /\ map lot_columns
       (kl_herb_lots (snd (kl_herstellen cfg guild_id storage_id rezept menge user_id now db)))
     = map lot_columns (kl_herb_lots db)
  /\ map lot_qty
       (kl_herb_lots (snd (kl_herstellen cfg guild_id storage_id rezept menge user_id now db)))
     = map lot_qty (kl_herb_lots db)
  /\ kl_pantry (snd (kl_herstellen cfg guild_id storage_id rezept menge user_id now db))
     = kl_pantry db
  /\ fbh_batches (snd (kl_herstellen cfg guild_id storage_id rezept menge user_id now db))
     = fbh_batches db
  /\ (forall sid k,
        kl_total_available sid k
          (snd (kl_herstellen cfg guild_id storage_id rezept menge user_id now db))
        = kl_total_available sid k db)
  /\ snd (kl_herstellen cfg guild_id storage_id rezept menge user_id now db)
     = kl_apply_drying_if_enabled guild_id storage_id now db.
Proof.
  intros Hm Hrec (n & b & Hin & Hfail).
  destruct (kl_apply_drying_columns guild_id storage_id now db) as (C1 & C2 & C3).
  assert (Htot : forall sid k,
            kl_total_available sid k (kl_apply_drying_if_enabled guild_id storage_id now db)
            = kl_total_available sid k db).
  { intros sid k. now apply kl_total_available_columns. }
  assert (Hne : check_availability cfg storage_id menge recipe db <> []).
  { intros E.
    assert (Hex : exists m, In m (check_availability cfg storage_id menge recipe db)).
    { destruct (is_allowed n (ALLOWED_KL_SET cfg)) eqn:Ea.
      - destruct Hfail as [D|Hlt]; [discriminate|].
        eexists. apply check_availability_In. exists n, b. split; [exact Hin|].
        right. rewrite Ea. repeat split. exact Hlt.
      - exists (nicht_erlaubt n). apply check_availability_In. exists n, b. auto. }
    destruct Hex as (m & Hmm). rewrite E in Hmm. destruct Hmm. }
  assert (Eq : kl_herstellen cfg guild_id storage_id rezept menge user_id now db
               = (nicht_genug_zutaten (check_availability cfg storage_id menge recipe db),
                  kl_apply_drying_if_enabled guild_id storage_id now db)).
  { unfold kl_herstellen. destruct (Z.leb_spec menge 0); [lia|]. rewrite Hrec.
    rewrite (check_availability_ext cfg storage_id menge recipe db _ (Htot storage_id)).
    destruct (check_availability cfg storage_id menge recipe db); [congruence|reflexivity]. }
  rewrite Eq. cbn [fst snd].
  split; [reflexivity|]. split; [exact Hne|].
  split; [intros m; apply check_availability_In|].
  split; [exact C1|].
  split.
  { apply (f_equal (map (fun c => snd (fst (fst c))))) in C1.
    rewrite !map_map in C1. exact C1. }
  split; [exact C3|]. split; [exact C2|]. split; [exact Htot|]. reflexivity.
Qed.

Lemma kl_herstellen_failure_is_atomic_witness :
  0 < 3
  /\ KL_RECIPES example_cfg !! "Mix" = Some [("Basil", 2); ("Thyme", 1)]
  /\ (exists n b, In (n, b) [("Basil", 2); ("Thyme", 1)] /\
        (@is_allowed latin1_text n (@ALLOWED_KL_SET latin1_text example_cfg) = false
         \/ kl_total_available 1 (@norm_key latin1_text n) example_recipe_db < b * 3))
  /\ fst (@kl_herstellen latin1_text example_cfg 9 1 "Mix" 3 42 1000 example_recipe_db)
     = nicht_genug_zutaten [fehlt "Basil" 1 6 5]
  /\ map lot_qty
       (kl_herb_lots
          (snd (@kl_herstellen latin1_text example_cfg 9 1 "Mix" 3 42 1000 example_recipe_db)))
     = [5; 10].
Proof.
  assert (H1 : 0 < 3) by lia.
  assert (H2 : KL_RECIPES example_cfg !! "Mix" = Some [("Basil", 2); ("Thyme", 1)])
    by reflexivity.
  assert (H3 : exists n b, In (n, b) [("Basil", 2); ("Thyme", 1)] /\
            (@is_allowed latin1_text n (@ALLOWED_KL_SET latin1_text example_cfg) = false
             \/ kl_total_available 1 (@norm_key latin1_text n) example_recipe_db < b * 3)).
  { exists "Basil", 2. split; [left; reflexivity|]. right. reflexivity. }
  split; [exact H1|]. split; [exact H2|]. split; [exact H3|].
  pose proof (@kl_herstellen_failure_is_atomic latin1_text example_cfg 9 1 "Mix" 3 42 1000
                example_recipe_db [("Basil", 2); ("Thyme", 1)] H1 H2 H3)
    as (E1 & _ & _ & _ & E5 & _).
  split; [exact E1 | exact E5].
Defined.

Section RecipeSuccess.
Context `{PyText}.

Lemma allowed_map_of_lookup (xs : list string) (k x : string) :
  allowed_map_of xs !! k = Some x -> norm_key x = k.
Proof.
  unfold allowed_map_of.
  assert (Hgen : forall m : gmap string string,
            (forall k x, m !! k = Some x -> norm_key x = k) ->
            forall k x, fold_left (fun m x => <[norm_key x := x]> m) xs m !! k = Some x ->
                        norm_key x = k).
  { induction xs as [|y ys IH]; intros m Hm k0 x0; simpl; [apply Hm|].
    apply IH. intros k1 x1 Hl.
    destruct (decide (norm_key y = k1)) as [E|E].
    - rewrite E, lookup_insert_eq in Hl. injection Hl as <-. exact E.
    - rewrite lookup_insert_ne in Hl by assumption. now apply Hm. }
  apply Hgen. intros k0 x0 Hl. rewrite lookup_empty in Hl. discriminate.
Qed.

Lemma canonical_norm_key (cfg : Config) (n : string) :
  is_allowed n (ALLOWED_KL_SET cfg) = true ->
  norm_key (canonical n (ALLOWED_KL_SET cfg)) = norm_key n.
Proof.
  unfold is_allowed, canonical. intros Ha. apply bool_decide_eq_true in Ha.
  destruct Ha as [x Hx]. rewrite Hx. simpl.
  unfold ALLOWED_KL_SET in Hx. now apply allowed_map_of_lookup in Hx.
Qed.

Lemma kl_take_herb_other_total (storage_id : Z) (herb_display : string) (qty : Z) (db : DB)
    (sid : Z) (k : string) :
  NoDup (map lot_id (kl_herb_lots db)) ->
  sid <> storage_id \/ k <> norm_key herb_display ->
  kl_total_available sid k (snd (kl_take_herb storage_id herb_display qty db))
  = kl_total_available sid k db.
Proof.
  intros Hnd Hne. unfold kl_total_available. f_equal. f_equal.
  apply (filter_filter_sub _ (fun l => negb (lot_matches storage_id (norm_key herb_display) l))).
  - intros l Hl. unfold lot_matches in *. apply andb_true_iff in Hl. destruct Hl as [Hs Hk].
    apply Z.eqb_eq in Hs. apply String.eqb_eq in Hk. apply negb_true_iff.
    destruct Hne as [Hne|Hne].
    + rewrite (proj2 (Z.eqb_neq _ _)); [reflexivity|congruence].
    + rewrite (proj2 (String.eqb_neq _ _)); [apply andb_false_r|congruence].
  - now apply kl_take_herb_frame.
Qed.

(** The second loop on a recipe whose ingredients are all there. *)
Lemma subtract_ingredients_ok (cfg : Config) (storage_id menge : Z)
    (recipe : list (string * Z)) (db : DB) :
  db_positive db -> db_keys_ok db ->
  NoDup (map (fun p => norm_key (fst p)) recipe) ->
  Forall (fun p => is_allowed (fst p) (ALLOWED_KL_SET cfg) = true
                   /\ 0 <= snd p * menge
                   /\ snd p * menge <= kl_total_available storage_id (norm_key (fst p)) db)
         recipe ->
  fst (subtract_ingredients cfg storage_id menge recipe db) = true
  /\ db_positive (snd (subtract_ingredients cfg storage_id menge recipe db))
  /\ db_keys_ok (snd (subtract_ingredients cfg storage_id menge recipe db))
  /\ (forall n b, In (n, b) recipe ->
        kl_total_available storage_id (norm_key n)
          (snd (subtract_ingredients cfg storage_id menge recipe db))
        = kl_total_available storage_id (norm_key n) db - b * menge)
  /\ (forall sid k,
        sid <> storage_id \/ ~ In k (map (fun p => norm_key (fst p)) recipe) ->
        kl_total_available sid k (snd (subtract_ingredients cfg storage_id menge recipe db))
        = kl_total_available sid k db)
  /\ kl_pantry (snd (subtract_ingredients cfg storage_id menge recipe db)) = kl_pantry db
  /\ fbh_batches (snd (subtract_ingredients cfg storage_id menge recipe db)) = fbh_batches db
  /\ guild_settings (snd (subtract_ingredients cfg storage_id menge recipe db))
     = guild_settings db.
Proof.
  revert db. induction recipe as [|[n b] rest IH]; intros db Hp Hk Hnd Hall.
  - simpl. split; [reflexivity|]. do 2 (split; [assumption|]).
    split; [intros n b []|]. repeat split; reflexivity.
  - inversion Hnd as [|? ? Hn Hnd']; subst. inversion Hall as [|? ? Hhead Hrest]; subst.
    simpl in Hhead, Hn. destruct Hhead as (Ha & Hb0 & Hle).
    pose proof Hp as (_ & P2 & _). pose proof Hk as (_ & _ & K3 & _).
    pose proof (canonical_norm_key cfg n Ha) as Ecanon.
    destruct (kl_take_herb_facts storage_id (canonical n (ALLOWED_KL_SET cfg)) (b * menge) db
                Hb0 K3 P2) as (E1 & _ & _ & E4).
    rewrite Ecanon in E1, E4.
    destruct (kl_take_herb_invariants storage_id (canonical n (ALLOWED_KL_SET cfg))
                (b * menge) db Hp Hk) as [Hp' Hk'].
    destruct (kl_take_herb_other_tables storage_id (canonical n (ALLOWED_KL_SET cfg))
                (b * menge) db) as (T1 & T2 & _ & _ & T5).
    assert (Hother : forall sid k, sid <> storage_id \/ k <> norm_key n ->
              kl_total_available sid k
                (snd (kl_take_herb storage_id (canonical n (ALLOWED_KL_SET cfg)) (b * menge) db))
              = kl_total_available sid k db).
    { intros sid k Hne. apply kl_take_herb_other_total; [assumption|]. now rewrite Ecanon. }
    cbn [subtract_ingredients].
    destruct (kl_take_herb storage_id (canonical n (ALLOWED_KL_SET cfg)) (b * menge) db)
      as [removed db'] eqn:Etake.
    cbn [fst snd] in *.
    assert (removed = b * menge) as -> by lia.
    rewrite Z.eqb_refl. cbn [negb].
    assert (Hrest' : Forall (fun p => is_allowed (fst p) (ALLOWED_KL_SET cfg) = true
                       /\ 0 <= snd p * menge
                       /\ snd p * menge <= kl_total_available storage_id (norm_key (fst p)) db')
                       rest).
    { rewrite Forall_forall in *. intros [n' b'] Hin. specialize (Hrest _ Hin). simpl in *.
      rewrite Hother; [exact Hrest|]. right. intros E. apply Hn. rewrite <- E.
      apply in_map_iff. exists (n', b'). auto. }
    destruct (IH db' Hp' Hk' Hnd' Hrest') as (I1 & I2 & I3 & I4 & I5 & I6 & I7 & I8).
    split; [exact I1|]. split; [exact I2|]. split; [exact I3|].
    split.
    { intros n' b' [E|Hin].
      - injection E as <- <-. rewrite I5; [lia|]. right. exact Hn.
      - rewrite (I4 n' b' Hin). rewrite Hother; [reflexivity|].
        right. intros E. apply Hn. rewrite <- E. apply in_map_iff. exists (n', b'). auto. }
    split.
    { intros sid k Hne. rewrite I5.
      - apply Hother. simpl in Hne. destruct Hne as [Hne|Hne]; [now left|right].
        intros E. apply Hne. left. now symmetry.
      - simpl in Hne. destruct Hne as [Hne|Hne]; [now left|right]. tauto. }
    split; [now rewrite I6|]. split; [now rewrite I7|]. now rewrite I8.
Qed.

Lemma pantry_add_pantry (storage_id : Z) (item_display : string) (qty user_id now : Z)
    (db db' : DB) :
  kl_pantry db' = kl_pantry db ->
  kl_pantry (pantry_add storage_id item_display qty user_id now db')
  = kl_pantry (pantry_add storage_id item_display qty user_id now db).
Proof.
  intros E. unfold pantry_add. rewrite E.
  destruct (List.find _ (kl_pantry db)); simpl; now rewrite ?E.
Qed.

Lemma pantry_add_other_tables (storage_id : Z) (item_display : string) (qty user_id now : Z)
    (db : DB) :
  kl_herb_lots (pantry_add storage_id item_display qty user_id now db) = kl_herb_lots db
  /\ fbh_batches (pantry_add storage_id item_display qty user_id now db) = fbh_batches db
  /\ guild_settings (pantry_add storage_id item_display qty user_id now db) = guild_settings db.
Proof. unfold pantry_add. destruct (List.find _ (kl_pantry db)); simpl; auto. Qed.

(** Producing adds [qty] to the entry, and makes the entry when there is
    none. *)
Lemma pantry_add_stock (storage_id : Z) (item_display : string) (qty user_id now : Z) (db : DB) :
  NoDup (map (fun r => (pantry_storage_id r, pantry_item_key r)) (kl_pantry db)) ->
  pantry_stock storage_id (norm_key item_display)
    (pantry_add storage_id item_display qty user_id now db)
  = pantry_stock storage_id (norm_key item_display) db + qty
  /\ (List.find (pantry_matches storage_id (norm_key item_display)) (kl_pantry db) = None ->
      kl_pantry (pantry_add storage_id item_display qty user_id now db)
      = kl_pantry db ++
          [ {| pantry_storage_id := storage_id; pantry_item_key := norm_key item_display;
               pantry_item_display := py_strip item_display; pantry_qty := qty;
               pantry_updated_at := now; pantry_updated_by := user_id |} ])
  /\ (forall r, In r (kl_pantry db) ->
        pantry_matches storage_id (norm_key item_display) r = false ->
        In r (kl_pantry (pantry_add storage_id item_display qty user_id now db))).
Proof.
  intros Hnd. unfold pantry_stock, pantry_add.
  destruct (List.find _ (kl_pantry db)) as [row|] eqn:Ef; simpl.
  - assert (Hupd : forall r d q n u,
              pantry_matches storage_id (norm_key item_display)
                {| pantry_storage_id := pantry_storage_id r;
                   pantry_item_key := pantry_item_key r;
                   pantry_item_display := d; pantry_qty := q;
                   pantry_updated_at := n; pantry_updated_by := u |}
              = pantry_matches storage_id (norm_key item_display) r) by reflexivity.
    split; [|split; [discriminate|]].
    + revert Ef Hnd. induction (kl_pantry db) as [|r t IH]; intros Ef Hnd; [discriminate|].
      simpl in Ef. inversion Hnd as [|? ? Hr Hnd']; subst. cbn [map List.filter].
      destruct (pantry_matches storage_id (norm_key item_display) r) eqn:Em.
      * injection Ef as ->. rewrite Hupd, Em. simpl.
        assert (Hnone : forall x, In x t ->
                  pantry_matches storage_id (norm_key item_display) x = false).
        { intros x Hx. destruct (pantry_matches _ _ x) eqn:Ex; [|reflexivity].
          exfalso. apply Hr. unfold pantry_matches in Em, Ex.
          apply andb_true_iff in Em, Ex. destruct Em as [Es Ek], Ex as [Es' Ek'].
          apply Z.eqb_eq in Es, Es'. apply String.eqb_eq in Ek, Ek'.
          apply in_map_iff. exists x. split; [congruence|assumption]. }
        rewrite (filter_none _ t Hnone).
        rewrite (filter_none _ (map _ t)).
        -- simpl. lia.
        -- intros x Hx. apply in_map_iff in Hx. destruct Hx as (x0 & <- & Hx0).
           rewrite (Hnone x0 Hx0). now apply Hnone.
      * rewrite Em. now apply IH.
    + intros r Hr Hm. apply in_map_iff. exists r. now rewrite Hm.
  - split; [|split; [reflexivity|]].
    + rewrite filter_app, map_app, sum_Z_app. simpl.
      unfold pantry_matches at 2. simpl. rewrite Z.eqb_refl, String.eqb_refl. simpl. lia.
    + intros r Hr _. apply in_or_app. now left.
Qed.
End RecipeSuccess.

(** C8, as stated, fails when two ingredient names of a recipe share a
    key: each of "Basil" x 2 and "basil" x 2 is allowed and covered by the 3
    Basil of the storage, yet the second take comes back short, the command
    answers with the unexpected-error reply, the pantry gets nothing and the
    Basil is gone.  It fails as well for a negative quantity in the recipe,
    where the take of a negative amount returns 0. *)
Lemma kl_herstellen_ingredients_sharing_a_key :
  KL_RECIPES example_cfg !! "Doppel" = Some [("Basil", 2); ("basil", 2)]
  /\ Forall (fun p => @is_allowed latin1_text (fst p) (@ALLOWED_KL_SET latin1_text example_cfg)
                       = true
                      /\ snd p * 1
                         <= kl_total_available 1 (@norm_key latin1_text (fst p))
                              example_short_db)
            [("Basil", 2); ("basil", 2)]
  /\ fst (@kl_herstellen latin1_text example_cfg 9 1 "Doppel" 1 42 1000 example_short_db)
     = unerwarteter_fehler
  /\ fst (@kl_herstellen latin1_text example_cfg 9 1 "Doppel" 1 42 1000 example_short_db)
     <> hergestellt "Doppel" 1
  /\ kl_pantry
       (snd (@kl_herstellen latin1_text example_cfg 9 1 "Doppel" 1 42 1000 example_short_db))
     = []
  /\ kl_total_available 1 "basil"
       (snd (@kl_herstellen latin1_text example_cfg 9 1 "Doppel" 1 42 1000 example_short_db))
     = 0
  /\ KL_RECIPES example_cfg !! "Minus" = Some [("Basil", -1)]
  /\ Forall (fun p => @is_allowed latin1_text (fst p) (@ALLOWED_KL_SET latin1_text example_cfg)
                       = true
                      /\ snd p * 1
                         <= kl_total_available 1 (@norm_key latin1_text (fst p))
                              example_short_db)
            [("Basil", -1)]
  /\ fst (@kl_herstellen latin1_text example_cfg 9 1 "Minus" 1 42 1000 example_short_db)
     = unerwarteter_fehler.
Proof.
  split; [reflexivity|].
  split; [repeat (apply Forall_cons; [split; [reflexivity | vm_compute; discriminate]|]);
          apply Forall_nil|].
  split; [vm_compute; reflexivity|].
  split; [vm_compute; discriminate|].
  split; [vm_compute; reflexivity|].
  split; [vm_compute; reflexivity|].
  split; [reflexivity|].
  split; [repeat (apply Forall_cons; [split; [reflexivity | vm_compute; discriminate]|]);
          apply Forall_nil|].
  vm_compute; reflexivity.
Qed.

(** C8, amended.  For a positive multiplier and a known recipe, on a
    database with positive quantities and unique keys: when every
    ingredient is an allowed herb with a quantity of at least 0, no two
    ingredient names share a normalised key, and for every ingredient the
    storage holds at least [base_qty * menge], fresh and dried together,
    then [kl_herstellen] reports success, the available total of every
    ingredient is lower by exactly [base_qty * menge], no other total
    changes, and the pantry entry named after the recipe is higher by
    exactly [menge]; the entry is made with quantity [menge] when there was
    none, and other pantry rows and the batches are as before. *)
Theorem kl_herstellen_success `{PyText} (cfg : Config) (guild_id storage_id : Z)
    (rezept : string) (menge user_id now : Z) (db : DB) (recipe : list (string * Z)) :
  0 < menge ->
  KL_RECIPES cfg !! rezept = Some recipe ->
  db_positive db -> db_keys_ok db ->
  NoDup (map (fun p => norm_key (fst p)) recipe) ->
  Forall (fun p => is_allowed (fst p) (ALLOWED_KL_SET cfg) = true
                   /\ 0 <= snd p
                   /\ snd p * menge <= kl_total_available storage_id (norm_key (fst p)) db)
         recipe ->
  fst (kl_herstellen cfg guild_id storage_id rezept menge user_id now db)
  = hergestellt rezept menge
  /\ (forall n b, In (n, b) recipe ->
        kl_total_available storage_id (norm_key n)
          (snd (kl_herstellen cfg guild_id storage_id rezept menge user_id now db))
        = kl_total_available storage_id (norm_key n) db - b * menge)
  /\ (forall sid k,
        sid <> storage_id \/ ~ In k (map (fun p => norm_key (fst p)) recipe) ->
        kl_total_available sid k
          (snd (kl_herstellen cfg guild_id storage_id rezept menge user_id now db))
        = kl_total_available sid k db)
  /\ pantry_stock storage_id (norm_key rezept)
       (snd (kl_herstellen cfg guild_id storage_id rezept menge user_id now db))
     = pantry_stock storage_id (norm_key rezept) db + menge
  /\ (List.find (pantry_matches storage_id (norm_key rezept)) (kl_pantry db) = None ->
      kl_pantry (snd (kl_herstellen cfg guild_id storage_id rezept menge user_id now db))
      = kl_pantry db ++
          [ {| pantry_storage_id := storage_id; pantry_item_key := norm_key rezept;
               pantry_item_display := py_strip rezept; pantry_qty := menge;
               pantry_updated_at := now; pantry_updated_by := user_id |} ])
  /\ (forall r, In r (kl_pantry db) ->
        pantry_matches storage_id (norm_key rezept) r = false ->
        In r (kl_pantry
                (snd (kl_herstellen cfg guild_id storage_id rezept menge user_id now db))))
  /\ fbh_batches (snd (kl_herstellen cfg guild_id storage_id rezept menge user_id now db))
     = fbh_batches db.
Proof.
  intros Hm Hrec Hp Hk Hnd Hall.
  destruct (kl_apply_drying_columns guild_id storage_id now db) as (C1 & C2 & C3).
  destruct (kl_apply_drying_invariants guild_id storage_id now db Hp Hk) as [Hp1 Hk1].
  set (db1 := kl_apply_drying_if_enabled guild_id storage_id now db) in *.
  assert (Htot : forall sid k, kl_total_available sid k db1 = kl_total_available sid k db).
  { intros sid k. now apply kl_total_available_columns. }
  assert (Hall1 : Forall (fun p => is_allowed (fst p) (ALLOWED_KL_SET cfg) = true
                     /\ 0 <= snd p * menge
                     /\ snd p * menge <= kl_total_available storage_id (norm_key (fst p)) db1)
                     recipe).
  { eapply Forall_impl; [|exact Hall]. intros [n b]. simpl. intros (Ha & Hb & Hle).
    rewrite Htot. repeat split; auto. nia. }
  assert (Hcheck : check_availability cfg storage_id menge recipe db1 = []).
  { destruct (check_availability cfg storage_id menge recipe db1) as [|m ms] eqn:Ec;
      [reflexivity|exfalso].
    assert (Hin : In m (check_availability cfg storage_id menge recipe db1))
      by (rewrite Ec; now left).
    apply check_availability_In in Hin. destruct Hin as (n & b & Hin & Hcase).
    rewrite Forall_forall in Hall1. specialize (Hall1 _ Hin). simpl in Hall1.
    destruct Hall1 as (Ha & _ & Hle).
    destruct Hcase as [[D _]|(_ & Hlt & _)]; [congruence|lia]. }
  destruct (subtract_ingredients_ok cfg storage_id menge recipe db1 Hp1 Hk1 Hnd Hall1)
    as (S1 & S2 & S3 & S4 & S5 & S6 & S7 & S8).
  assert (Eq : kl_herstellen cfg guild_id storage_id rezept menge user_id now db
               = (hergestellt rezept menge,
                  pantry_add storage_id rezept menge user_id now
                    (snd (subtract_ingredients cfg storage_id menge recipe db1)))).
  { unfold kl_herstellen. destruct (Z.leb_spec menge 0); [lia|]. rewrite Hrec.
    fold db1. rewrite Hcheck.
    destruct (subtract_ingredients cfg storage_id menge recipe db1) as [ok db2].
    cbn [fst snd] in *. now rewrite S1. }
  rewrite Eq. cbn [fst snd].
  set (db2 := snd (subtract_ingredients cfg storage_id menge recipe db1)) in *.
  destruct (pantry_add_other_tables storage_id rezept menge user_id now db2) as (A1 & A2 & A3).
  assert (Elots : forall sid k,
            kl_total_available sid k (pantry_add storage_id rezept menge user_id now db2)
            = kl_total_available sid k db2).
  { intros sid k. unfold kl_total_available. now rewrite A1. }
  assert (Epantry : kl_pantry (pantry_add storage_id rezept menge user_id now db2)
                    = kl_pantry (pantry_add storage_id rezept menge user_id now db)).
  { apply pantry_add_pantry. now rewrite S6, C3. }
  destruct Hk as (_ & _ & _ & _ & K5).
  destruct (pantry_add_stock storage_id rezept menge user_id now db K5) as (B1 & B2 & B3).
  split; [reflexivity|].
  split; [intros n b Hin; now rewrite Elots, (S4 n b Hin), Htot|].
  split; [intros sid k Hne; now rewrite Elots, (S5 sid k Hne), Htot|].
  split; [unfold pantry_stock in *; now rewrite Epantry|].
  split; [intros Hnone; rewrite Epantry; now apply B2|].
  split; [intros r Hr Hmr; rewrite Epantry; now apply B3|].
  now rewrite A2, S7, C2.
Qed.

Lemma kl_herstellen_success_witness :
  0 < 2
  /\ KL_RECIPES example_cfg !! "Mix" = Some [("Basil", 2); ("Thyme", 1)]
  /\ db_positive example_recipe_db /\ db_keys_ok example_recipe_db
  /\ NoDup (map (fun p => @norm_key latin1_text (fst p)) [("Basil", 2); ("Thyme", 1)])
  /\ Forall (fun p => @is_allowed latin1_text (fst p) (@ALLOWED_KL_SET latin1_text example_cfg)
                       = true
                      /\ 0 <= snd p
                      /\ snd p * 2
                         <= kl_total_available 1 (@norm_key latin1_text (fst p))
                              example_recipe_db)
            [("Basil", 2); ("Thyme", 1)]
  /\ fst (@kl_herstellen latin1_text example_cfg 9 1 "Mix" 2 42 1000 example_recipe_db)
     = hergestellt "Mix" 2.
Proof.
  assert (H1 : 0 < 2) by lia.
  assert (H2 : KL_RECIPES example_cfg !! "Mix" = Some [("Basil", 2); ("Thyme", 1)])
    by reflexivity.
  assert (H3 : db_positive example_recipe_db).
  { unfold db_positive, example_recipe_db. simpl. repeat split; repeat constructor; simpl; lia. }
  assert (H4 : db_keys_ok example_recipe_db).
  { unfold db_keys_ok. split; [concrete_NoDup|]. split; [apply Forall_nil|].
    split; [concrete_NoDup|]. split; [|concrete_NoDup].
    unfold example_recipe_db. simpl. repeat constructor; simpl; lia. }
  assert (H5 : NoDup (map (fun p => @norm_key latin1_text (fst p))
                        [("Basil", 2); ("Thyme", 1)])) by concrete_NoDup.
  assert (H6 : Forall (fun p => @is_allowed latin1_text (fst p)
                                  (@ALLOWED_KL_SET latin1_text example_cfg) = true
                                /\ 0 <= snd p
                                /\ snd p * 2
                                   <= kl_total_available 1 (@norm_key latin1_text (fst p))
                                        example_recipe_db)
                 [("Basil", 2); ("Thyme", 1)]).
  { repeat (apply Forall_cons;
            [split; [reflexivity | split; [simpl; lia | vm_compute; discriminate]]|]).
    apply Forall_nil. }
  split; [exact H1|]. split; [exact H2|]. split; [exact H3|]. split; [exact H4|].
  split; [exact H5|]. split; [exact H6|].
  exact (proj1 (@kl_herstellen_success latin1_text example_cfg 9 1 "Mix" 2 42 1000
                  example_recipe_db [("Basil", 2); ("Thyme", 1)] H1 H2 H3 H4 H5 H6)).
Defined.

(** ** Key normalisation *)

(** C9, as stated, fails: [norm_key] lower-cases with [str.lower], which is
    not Unicode case folding.  "Weißdorn" and "WEISSDORN" fold to the same
    text, but get different keys, so what is added under the first spelling
    is not found under the second and the totals show two groups. *)
Lemma norm_key_is_not_case_folding :
  spec_norm_latin1 "Weißdorn" = spec_norm_latin1 "WEISSDORN"
  /\ @norm_key latin1_text "Weißdorn" = "weißdorn"
  /\ @norm_key latin1_text "WEISSDORN" = "weissdorn"
  /\ @norm_key latin1_text "Weißdorn" <> @norm_key latin1_text "WEISSDORN"
  /\ fst (@fbh_take latin1_text 1 "WEISSDORN" 2
            (@fbh_add latin1_text 1 "Weißdorn" 2 42 100 empty_db)) = 0
  /\ map fst (fbh_total_groups 1
                (@fbh_add latin1_text 1 "WEISSDORN" 3 42 200
                   (@fbh_add latin1_text 1 "Weißdorn" 2 42 100 empty_db)))
     = ["weißdorn"; "weissdorn"].
Proof.
  split; [vm_compute; reflexivity|].
  split; [vm_compute; reflexivity|].
  split; [vm_compute; reflexivity|].
  split; [vm_compute; discriminate|].
  split; vm_compute; reflexivity.
Qed.

Section KeyFacts.
Context `{PyText}.

Lemma fbh_add_stock (storage_id : Z) (item_display : string) (qty user_id now : Z) (db : DB)
    (k : string) :
  fbh_stock storage_id k (fbh_add storage_id item_display qty user_id now db)
  = fbh_stock storage_id k db + (if String.eqb (norm_key item_display) k then qty else 0).
Proof.
  unfold fbh_stock, fbh_add. simpl.
  rewrite filter_app, map_app, sum_Z_app. simpl.
  unfold batch_matches at 2. simpl. rewrite Z.eqb_refl. simpl.
  destruct (String.eqb (norm_key item_display) k); simpl; lia.
Qed.

Lemma fbh_take_same_key (storage_id : Z) (s1 s2 : string) (qty : Z) (db : DB) :
  norm_key s1 = norm_key s2 ->
  fbh_take storage_id s1 qty db = fbh_take storage_id s2 qty db.
Proof. intros E. unfold fbh_take. now rewrite E. Qed.
End KeyFacts.

(** C9, amended.  Names with the same [norm_key], that is the same text
    after dropping outer white space, collapsing inner runs to one space and
    lower-casing with [str.lower], are one item for add, take and total:
    [fbh_add] stores the same key for both, a take under either name is the
    same operation, what was added under one name counts in the stock of
    the other, is taken out by a take under the other, and forms one group
    with it in the totals.  The same holds for taking herbs and for the
    pantry. *)
Theorem norm_key_consistent `{PyText} (s1 s2 : string) (db : DB)
    (storage_id qty user_id now : Z) :
  norm_key s1 = norm_key s2 ->
  map batch_item_key (fbh_batches (fbh_add storage_id s1 qty user_id now db))
  = map batch_item_key (fbh_batches (fbh_add storage_id s2 qty user_id now db))
  /\ fbh_take storage_id s1 qty db = fbh_take storage_id s2 qty db
  /\ fbh_stock storage_id (norm_key s2) (fbh_add storage_id s1 qty user_id now db)
     = fbh_stock storage_id (norm_key s2) db + qty
  /\ (0 < qty -> db_positive db -> db_keys_ok db ->
      fst (fbh_take storage_id s2 qty (fbh_add storage_id s1 qty user_id now db)) = qty)
  /\ (forall q2 u2 n2 k d s,
        In (k, (d, s))
           (fbh_total_groups storage_id
              (fbh_add storage_id s2 q2 u2 n2 (fbh_add storage_id s1 qty user_id now db))) ->
        k = norm_key s1 ->
        s = fbh_stock storage_id (norm_key s1) db + qty + q2)
  /\ kl_take_herb storage_id s1 qty db = kl_take_herb storage_id s2 qty db
  /\ kl_total_available storage_id (norm_key s2) (kl_add_herb storage_id s1 qty user_id now db)
     = kl_total_available storage_id (norm_key s2) db + qty
  /\ pantry_take storage_id s1 qty db = pantry_take storage_id s2 qty db
  /\ (db_keys_ok db ->
      pantry_stock storage_id (norm_key s2) (pantry_add storage_id s1 qty user_id now db)
      = pantry_stock storage_id (norm_key s2) db + qty).
Proof.
  intros E.
  split; [unfold fbh_add; simpl; rewrite !map_app; simpl; now rewrite E|].
  split; [now apply fbh_take_same_key|].
  split; [rewrite fbh_add_stock, E, String.eqb_refl; reflexivity|].
  split.
  { intros Hq Hp Hk.
    destruct (fbh_add_invariants storage_id s1 qty user_id now db Hq Hp Hk)
      as [(P1 & _) (K1 & _)].
    destruct (fbh_take_facts storage_id s2 qty (fbh_add storage_id s1 qty user_id now db)
                (Z.lt_le_incl _ _ Hq) K1 P1) as (E1 & _).
    rewrite E1, fbh_add_stock, E, String.eqb_refl.
    destruct Hp as (P0 & _).
    assert (0 <= fbh_stock storage_id (norm_key s2) db); [|lia].
    unfold fbh_stock. apply sum_Z_nonneg. rewrite Forall_map, Forall_forall in *.
    intros b Hb. apply filter_In in Hb. apply P0, Hb. }
  split.
  { intros q2 u2 n2 k d s Hin ->. apply fbh_total_groups_In in Hin.
    destruct Hin as (_ & -> & _).
    rewrite !fbh_add_stock, <- E, String.eqb_refl. reflexivity. }
  split; [unfold kl_take_herb; now rewrite E|].
  split.
  { unfold kl_total_available, kl_add_herb. simpl.
    rewrite filter_app, map_app, sum_Z_app. simpl.
    unfold lot_matches at 2. simpl. rewrite E, Z.eqb_refl, String.eqb_refl. simpl. lia. }
  split; [unfold pantry_take; now rewrite E|].
  intros (_ & _ & _ & _ & K5). rewrite <- E.
  apply (pantry_add_stock storage_id s1 qty user_id now db K5).
Qed.

Lemma norm_key_consistent_witness :
  @norm_key latin1_text "  Maus   (ALLGEMEIN) " = @norm_key latin1_text "maus (allgemein)"
  /\ @fbh_take latin1_text 1 "  Maus   (ALLGEMEIN) " 6 example_fifo_db
     = @fbh_take latin1_text 1 "maus (allgemein)" 6 example_fifo_db
  /\ 0 < 6 /\ db_positive example_fifo_db /\ db_keys_ok example_fifo_db
  /\ fst (@fbh_take latin1_text 1 "maus (allgemein)" 6
            (@fbh_add latin1_text 1 "  Maus   (ALLGEMEIN) " 6 42 300 example_fifo_db)) = 6.
Proof.
  assert (H1 : @norm_key latin1_text "  Maus   (ALLGEMEIN) "
               = @norm_key latin1_text "maus (allgemein)") by (vm_compute; reflexivity).
  assert (H2 : 0 < 6) by lia.
  assert (H3 : db_positive example_fifo_db).
  { unfold db_positive, example_fifo_db. simpl. repeat split; repeat constructor; simpl; lia. }
  assert (H4 : db_keys_ok example_fifo_db).
  { unfold db_keys_ok. split; [concrete_NoDup|]. split; [|split; [concrete_NoDup|]].
    - unfold example_fifo_db. simpl. repeat constructor; simpl; lia.
    - split; [apply Forall_nil|concrete_NoDup]. }
  pose proof (@norm_key_consistent latin1_text "  Maus   (ALLGEMEIN) " "maus (allgemein)"
                example_fifo_db 1 6 42 300 H1) as (_ & E2 & _ & E4 & _).
  split; [exact H1|]. split; [exact E2|]. split; [exact H2|]. split; [exact H3|].
  split; [exact H4|]. exact (E4 H2 H3 H4).
Defined.

(** * Further properties of the code *)

(** ** The settings of a tenant *)

Lemma with_settings_same (db : DB) : with_settings (guild_settings db) db = db.
Proof. now destruct db. Qed.

Lemma with_settings_twice (m m' : gmap Z Settings) (db : DB) :
  with_settings m' (with_settings m db) = with_settings m' db.
Proof. reflexivity. Qed.

Lemma ensure_settings_twice (guild_id : Z) (db : DB) :
  ensure_settings guild_id (ensure_settings guild_id db) = ensure_settings guild_id db.
Proof.
  unfold ensure_settings.
  destruct (guild_settings db !! guild_id) as [s|] eqn:E.
  - now rewrite E.
  - cbn [guild_settings with_settings]. now rewrite lookup_insert_eq.
Qed.

(** A settings row as [get_settings] reads it, present or not. *)
Lemma get_settings_value (guild_id : Z) (db : DB) :
  fst (get_settings guild_id db) = default default_settings (guild_settings db !! guild_id).
Proof.
  unfold get_settings, ensure_settings. cbn [fst].
  destruct (guild_settings db !! guild_id) as [s|] eqn:E.
  - now rewrite E.
  - cbn [guild_settings with_settings]. now rewrite lookup_insert_eq.
Qed.

(** [ensure_settings] followed by the [UPDATE] of one row is an upsert. *)
Lemma settings_upsert (f : Settings -> Settings) (guild_id : Z) (db : DB) :
  with_settings (alter f guild_id (guild_settings (ensure_settings guild_id db)))
    (ensure_settings guild_id db)
  = with_settings (<[guild_id := f (fst (get_settings guild_id db))]> (guild_settings db)) db.
Proof.
  rewrite get_settings_value. unfold ensure_settings.
  destruct (guild_settings db !! guild_id) as [s|] eqn:E; cbn [default].
  - f_equal. apply map_eq. intros g. rewrite lookup_alter.
    destruct (decide (guild_id = g)) as [->|Hne].
    + rewrite lookup_insert_eq, E. reflexivity.
    + rewrite lookup_insert_ne by assumption. reflexivity.
  - cbn [guild_settings with_settings]. rewrite with_settings_twice. f_equal.
    apply map_eq. intros g. rewrite lookup_alter.
    destruct (decide (guild_id = g)) as [->|Hne].
    + rewrite !lookup_insert_eq. reflexivity.
    + rewrite !lookup_insert_ne by assumption. reflexivity.
Qed.

Lemma get_settings_with_row (guild_id g : Z) (s : Settings) (db : DB) :
  fst (get_settings g (with_settings (<[guild_id := s]> (guild_settings db)) db))
  = if decide (guild_id = g) then s else fst (get_settings g db).
Proof.
  rewrite !get_settings_value. cbn [guild_settings with_settings].
  destruct (decide (guild_id = g)) as [->|Hne].
  - now rewrite lookup_insert_eq.
  - now rewrite lookup_insert_ne.
Qed.

(** X1. Settings come into being on the first read.  For a tenant without a
    row, [get_settings] returns the column defaults (season Blattfrische,
    both toggles off) and leaves exactly that row behind, all other rows
    and tables untouched.  For a tenant with a row it returns the row and
    writes nothing.  Either way a second read returns the same settings and
    changes nothing any more. *)
Theorem get_settings_creates_defaults_once (guild_id : Z) (db : DB) :
  (guild_settings db !! guild_id = None ->
   fst (get_settings guild_id db) = default_settings
   /\ guild_settings (snd (get_settings guild_id db))
      = <[guild_id := default_settings]> (guild_settings db))
  /\ (forall s, guild_settings db !! guild_id = Some s -> get_settings guild_id db = (s, db))
  /\ get_settings guild_id (snd (get_settings guild_id db))
     = (fst (get_settings guild_id db), snd (get_settings guild_id db))
  /\ (forall g, g <> guild_id ->
        guild_settings (snd (get_settings guild_id db)) !! g = guild_settings db !! g)
  /\ fbh_batches (snd (get_settings guild_id db)) = fbh_batches db
  /\ kl_herb_lots (snd (get_settings guild_id db)) = kl_herb_lots db
  /\ kl_pantry (snd (get_settings guild_id db)) = kl_pantry db.
Proof.
  split.
  { intros E. rewrite get_settings_value, E. split; [reflexivity|].
    unfold get_settings, ensure_settings. rewrite E. reflexivity. }
  split.
  { intros s E. unfold get_settings, ensure_settings. rewrite E. cbn. now rewrite E. }
  split.
  { apply injective_projections.
    - cbn [fst]. change (snd (get_settings guild_id db)) with (ensure_settings guild_id db).
      apply get_settings_ensured.
    - cbn [snd]. unfold get_settings. cbn [snd]. apply ensure_settings_twice. }
  split.
  { intros g Hne. unfold get_settings, ensure_settings. cbn [snd].
    destruct (guild_settings db !! guild_id); [reflexivity|].
    cbn [guild_settings with_settings]. now rewrite lookup_insert_ne. }
  unfold get_settings. cbn [snd].
  destruct (ensure_settings_tables guild_id db) as (T1 & _ & T3 & _ & T5). auto.
Qed.

Lemma get_settings_creates_defaults_once_witness :
  guild_settings empty_db !! 9 = None
  /\ fst (get_settings 9 empty_db) = default_settings
  /\ guild_settings example_drying_db !! 9
     = Some {| saison := "Blattfrische"; fbh_saison_verderb := false; kl_trocknen := true |}
  /\ get_settings 9 example_drying_db
     = ({| saison := "Blattfrische"; fbh_saison_verderb := false; kl_trocknen := true |},
        example_drying_db).
Proof.
  assert (H1 : guild_settings empty_db !! 9 = None) by reflexivity.
  assert (H2 : guild_settings example_drying_db !! 9
               = Some {| saison := "Blattfrische"; fbh_saison_verderb := false;
                         kl_trocknen := true |}) by reflexivity.
  split; [exact H1|].
  split; [exact (proj1 (proj1 (get_settings_creates_defaults_once 9 empty_db) H1))|].
  split; [exact H2|].
  exact (proj1 (proj2 (get_settings_creates_defaults_once 9 example_drying_db)) _ H2).
Defined.

(** X2. A setter changes one field of one tenant.  After [set_saison],
    [set_fbh_saison_verderb] or [set_kl_trocknen] the tenant reads the new
    value in that field and, in the two other fields, what it read before
    (the defaults if it had no row); every other tenant reads what it read
    before, and batches, lots and pantry are not touched. *)
Theorem settings_setters_change_one_field (guild_id : Z) (s : string) (active : bool) (db : DB) :
  (fst (get_settings guild_id (set_saison guild_id s db))
   = {| saison := s;
        fbh_saison_verderb := fbh_saison_verderb (fst (get_settings guild_id db));
        kl_trocknen := kl_trocknen (fst (get_settings guild_id db)) |}
   /\ fst (get_settings guild_id (set_fbh_saison_verderb guild_id active db))
      = {| saison := saison (fst (get_settings guild_id db));
           fbh_saison_verderb := active;
           kl_trocknen := kl_trocknen (fst (get_settings guild_id db)) |}
   /\ fst (get_settings guild_id (set_kl_trocknen guild_id active db))
      = {| saison := saison (fst (get_settings guild_id db));
           fbh_saison_verderb := fbh_saison_verderb (fst (get_settings guild_id db));
           kl_trocknen := active |})
  /\ (forall g, g <> guild_id ->
        fst (get_settings g (set_saison guild_id s db)) = fst (get_settings g db)
        /\ fst (get_settings g (set_fbh_saison_verderb guild_id active db))
           = fst (get_settings g db)
        /\ fst (get_settings g (set_kl_trocknen guild_id active db))
           = fst (get_settings g db))
  /\ (fbh_batches (set_saison guild_id s db) = fbh_batches db
      /\ kl_herb_lots (set_saison guild_id s db) = kl_herb_lots db
      /\ kl_pantry (set_saison guild_id s db) = kl_pantry db)
  /\ (fbh_batches (set_fbh_saison_verderb guild_id active db) = fbh_batches db
      /\ kl_herb_lots (set_fbh_saison_verderb guild_id active db) = kl_herb_lots db
      /\ kl_pantry (set_fbh_saison_verderb guild_id active db) = kl_pantry db)
  /\ (fbh_batches (set_kl_trocknen guild_id active db) = fbh_batches db
      /\ kl_herb_lots (set_kl_trocknen guild_id active db) = kl_herb_lots db
      /\ kl_pantry (set_kl_trocknen guild_id active db) = kl_pantry db).
Proof.
  unfold set_saison, set_fbh_saison_verderb, set_kl_trocknen.
  rewrite !settings_upsert.
  split.
  { rewrite !get_settings_with_row. destruct (decide (guild_id = guild_id)); [|congruence].
    auto. }
  split.
  { intros g Hne. rewrite !get_settings_with_row.
    destruct (decide (guild_id = g)); [congruence|]. auto. }
  repeat split.
Qed.

(** X3. The setters are upserts: the last value written to a field wins,
    writing a value twice is writing it once, and writes to different
    fields can be swapped. *)
Theorem settings_last_write_wins (guild_id : Z) (s1 s2 : string) (a1 a2 : bool) (db : DB) :
  set_saison guild_id s2 (set_saison guild_id s1 db) = set_saison guild_id s2 db
  /\ set_fbh_saison_verderb guild_id a2 (set_fbh_saison_verderb guild_id a1 db)
     = set_fbh_saison_verderb guild_id a2 db
  /\ set_kl_trocknen guild_id a2 (set_kl_trocknen guild_id a1 db)
     = set_kl_trocknen guild_id a2 db
  /\ set_saison guild_id s1 (set_kl_trocknen guild_id a1 db)
     = set_kl_trocknen guild_id a1 (set_saison guild_id s1 db)
  /\ set_saison guild_id s1 (set_fbh_saison_verderb guild_id a1 db)
     = set_fbh_saison_verderb guild_id a1 (set_saison guild_id s1 db)
  /\ set_fbh_saison_verderb guild_id a1 (set_kl_trocknen guild_id a2 db)
     = set_kl_trocknen guild_id a2 (set_fbh_saison_verderb guild_id a1 db).
Proof.
  unfold set_saison, set_fbh_saison_verderb, set_kl_trocknen.
  rewrite !settings_upsert.
  repeat split;
    rewrite !get_settings_with_row; destruct (decide (guild_id = guild_id)); try congruence;
    cbn [guild_settings with_settings saison fbh_saison_verderb kl_trocknen];
    rewrite ?with_settings_twice, ?insert_insert_eq; reflexivity.
Qed.

Lemma settings_setters_change_one_field_witness :
  8 <> 9
  /\ fst (get_settings 8 (set_kl_trocknen 9 true empty_db)) = fst (get_settings 8 empty_db).
Proof.
  assert (H1 : 8 <> 9) by discriminate.
  split; [exact H1|].
  exact (proj2 (proj2 (proj1 (proj2
           (settings_setters_change_one_field 9 "Blattfall" true empty_db)) 8 H1))).
Defined.

(** ** The storage registry *)

Lemma string_leb_trans (a b c : string) :
  String.leb a b = true -> String.leb b c = true -> String.leb a c = true.
Proof.
  unfold String.leb. revert b c.
  induction a as [|x a IH]; intros [|y b] [|z c]; simpl; try easy.
  unfold Ascii.compare. specialize (IH b c).
  destruct (N.compare_spec (N_of_ascii x) (N_of_ascii y)) as [E1|L1|G1];
    destruct (N.compare_spec (N_of_ascii y) (N_of_ascii z)) as [E2|L2|G2];
    destruct (N.compare_spec (N_of_ascii x) (N_of_ascii z)) as [E3|L3|G3];
    try easy; try lia.
Qed.

Lemma nocase_le_total (a b : string) : nocase_le a b = true \/ nocase_le b a = true.
Proof. apply String.leb_total. Qed.

Lemma nocase_le_trans (a b c : string) :
  nocase_le a b = true -> nocase_le b c = true -> nocase_le a c = true.
Proof. apply string_leb_trans. Qed.

Lemma StronglySorted_map {A B} (f : A -> B) (R : A -> A -> Prop) (S : B -> B -> Prop)
    (l : list A) :
  (forall a b, R a b -> S (f a) (f b)) ->
  StronglySorted R l -> StronglySorted S (map f l).
Proof.
  intros HRS. induction 1 as [|x l Hs IH Hx]; simpl; constructor; [assumption|].
  rewrite Forall_map. eapply Forall_impl; [|exact Hx]. auto.
Qed.

Lemma find_app_none {A} (p : A -> bool) (l l' : list A) :
  List.find p l = None -> List.find p (l ++ l') = List.find p l'.
Proof.
  induction l as [|x l IH]; simpl; [reflexivity|].
  destruct (p x); [discriminate|]. exact IH.
Qed.

Lemma find_app_some {A} (p : A -> bool) (l l' : list A) (x : A) :
  List.find p l = Some x -> List.find p (l ++ l') = Some x.
Proof.
  induction l as [|y l IH]; simpl; [discriminate|].
  destruct (p y); [auto|]. exact IH.
Qed.

Lemma existsb_find_none {A} (p : A -> bool) (l : list A) :
  existsb p l = false <-> List.find p l = None.
Proof.
  induction l as [|x l IH]; simpl; [tauto|].
  destruct (p x); simpl; [split; discriminate|exact IH].
Qed.

Section StorageFacts.
Context `{PyText}.

Lemma storage_get_none (guild_id : Z) (type_ name : string) (t : StorageTable) :
  storage_get guild_id type_ name t = None <->
  existsb (storage_is guild_id type_ (py_strip name)) (storages t) = false.
Proof.
  unfold storage_get. rewrite existsb_find_none.
  destruct (List.find _ (storages t)); split; (discriminate || reflexivity).
Qed.

Lemma storage_is_new (guild_id : Z) (type_ name : string) (i o n : Z) :
  storage_is guild_id type_ name
    {| st_id := i; st_guild_id := guild_id; st_type := type_; st_name := name;
       st_owner_role_id := o; st_created_at := n |} = true.
Proof. unfold storage_is. simpl. now rewrite Z.eqb_refl, !String.eqb_refl. Qed.

Lemma storage_is_true (guild_id : Z) (type_ name : string) (s : Storage) :
  storage_is guild_id type_ name s = true <->
  st_guild_id s = guild_id /\ st_type s = type_ /\ st_name s = name.
Proof.
  unfold storage_is. rewrite !andb_true_iff, Z.eqb_eq, !String.eqb_eq. tauto.
Qed.
End StorageFacts.

(** X4. Creating a storage and looking it up.  On a table that keeps the
    schema's constraints, when no storage of the tenant has the type and the
    stripped name, [storage_create] succeeds with an id above every id in
    the table, and [storage_get] with the same tenant and type and any
    spelling that strips to the same name returns that id with the owner
    role given at creation.  The constraints hold again afterwards. *)
Theorem storage_create_then_get `{PyText} (guild_id : Z) (type_ name : string)
    (owner_role_id now : Z) (t : StorageTable) :
  storages_ok t ->
  storage_get guild_id type_ name t = None ->
  fst (storage_create guild_id type_ name owner_role_id now t) = created (storages_seq t + 1)
  /\ (forall name', py_strip name' = py_strip name ->
        storage_get guild_id type_ name'
          (snd (storage_create guild_id type_ name owner_role_id now t))
        = Some (storages_seq t + 1, owner_role_id))
  /\ (forall s, In s (storages t) -> st_id s < storages_seq t + 1)
  /\ storages_ok (snd (storage_create guild_id type_ name owner_role_id now t)).
Proof.
  intros (K1 & K2 & K3) Hnone.
  pose proof (proj1 (storage_get_none _ _ _ _) Hnone) as Hex.
  unfold storage_create. rewrite Hex. cbn [fst snd].
  split; [reflexivity|].
  split.
  { intros name' E. unfold storage_get. cbn [storages]. rewrite E.
    rewrite find_app_none by now apply existsb_find_none.
    simpl. now rewrite storage_is_new. }
  split.
  { intros s Hs. rewrite Forall_forall in K3. specialize (K3 s Hs). lia. }
  unfold storages_ok. cbn [storages storages_seq].
  split; [|split].
  - rewrite map_app. simpl. apply NoDup_snoc; [assumption|].
    intros Hin. apply in_map_iff in Hin. destruct Hin as (s & E & Hs).
    injection E as E1 E2 E3.
    assert (Ht : existsb (storage_is guild_id type_ (py_strip name)) (storages t) = true).
    { apply existsb_exists. exists s. split; [assumption|]. now apply storage_is_true. }
    congruence.
  - rewrite map_app. simpl. apply NoDup_snoc; [assumption|].
    intros Hin. apply in_map_iff in Hin. destruct Hin as (s & E & Hs).
    rewrite Forall_forall in K3. specialize (K3 s Hs). lia.
  - apply Forall_snoc; [|simpl; lia].
    eapply Forall_impl; [|exact K3]. simpl. intros; lia.
Qed.

Lemma storage_create_then_get_witness :
  storages_ok example_storages
  /\ @storage_get latin1_text 9 "FBH" "Vorrat" example_storages = None
  /\ @storage_get latin1_text 9 "FBH" "  Vorrat "
       (snd (@storage_create latin1_text 9 "FBH" "Vorrat" 66 7 example_storages))
     = Some (storages_seq example_storages + 1, 66).
Proof.
  assert (H1 : storages_ok example_storages).
  { unfold storages_ok. split; [concrete_NoDup|]. split; [concrete_NoDup|].
    vm_compute. repeat constructor; discriminate. }
  assert (H2 : @storage_get latin1_text 9 "FBH" "Vorrat" example_storages = None)
    by (vm_compute; reflexivity).
  assert (H3 : @py_strip latin1_text "  Vorrat " = @py_strip latin1_text "Vorrat")
    by (vm_compute; reflexivity).
  split; [exact H1|]. split; [exact H2|].
  exact (proj1 (proj2 (@storage_create_then_get latin1_text 9 "FBH" "Vorrat" 66 7
                         example_storages H1 H2)) "  Vorrat " H3).
Defined.

(** X5. A second storage with the same tenant, type and stripped name is
    refused.  When [storage_get] finds a storage, [storage_create] with
    that tenant, type and name fails with the integrity error and leaves the
    table as it is; so of two creations in a row for the same triple the
    second always fails, whatever role and time it carries. *)
Theorem storage_create_refuses_duplicates `{PyText} (guild_id : Z) (type_ name name' : string)
    (owner1 now1 owner2 now2 : Z) (t : StorageTable) :
  (storage_get guild_id type_ name t <> None ->
   storage_create guild_id type_ name owner1 now1 t = (integrity_error, t))
  /\ (py_strip name' = py_strip name ->
      storage_create guild_id type_ name' owner2 now2
        (snd (storage_create guild_id type_ name owner1 now1 t))
      = (integrity_error, snd (storage_create guild_id type_ name owner1 now1 t))).
Proof.
  assert (Hdup : forall n o nw t0,
            existsb (storage_is guild_id type_ (py_strip n)) (storages t0) = true ->
            storage_create guild_id type_ n o nw t0 = (integrity_error, t0)).
  { intros n o nw t0 E. unfold storage_create. now rewrite E. }
  split.
  - intros Hsome. apply Hdup.
    destruct (existsb _ (storages t)) eqn:E; [reflexivity|].
    apply storage_get_none in E. congruence.
  - intros E. apply Hdup. rewrite E. unfold storage_create.
    destruct (existsb _ (storages t)) eqn:Ex; cbn [snd storages]; [exact Ex|].
    rewrite existsb_app. simpl. now rewrite storage_is_new, orb_true_r.
Qed.

Lemma storage_create_refuses_duplicates_witness :
  @storage_get latin1_text 9 "FBH" "Frischbeute" example_storages <> None
  /\ @storage_create latin1_text 9 "FBH" "Frischbeute" 1 2 example_storages
     = (integrity_error, example_storages)
  /\ @py_strip latin1_text " Lager" = @py_strip latin1_text "Lager "
  /\ fst (@storage_create latin1_text 9 "KL" " Lager" 3 4
            (snd (@storage_create latin1_text 9 "KL" "Lager " 1 2 empty_storages)))
     = integrity_error.
Proof.
  assert (H1 : @storage_get latin1_text 9 "FBH" "Frischbeute" example_storages <> None)
    by (vm_compute; discriminate).
  assert (H2 : @py_strip latin1_text " Lager" = @py_strip latin1_text "Lager ")
    by (vm_compute; reflexivity).
  split; [exact H1|].
  split.
  { exact (proj1 (@storage_create_refuses_duplicates latin1_text 9 "FBH" "Frischbeute" ""
                    1 2 0 0 example_storages) H1). }
  split; [exact H2|].
  exact (f_equal fst
           (proj2 (@storage_create_refuses_duplicates latin1_text 9 "KL" "Lager " " Lager"
                     1 2 3 4 empty_storages) H2)).
Defined.

(** X6. Creating a storage does not disturb the others.  Whether it
    succeeds or fails, [storage_create] leaves the answer of [storage_get]
    unchanged for every other tenant, type or stripped name; names are
    compared as they are, so a name that differs in case only is another
    storage.  Looking up in the empty table finds nothing. *)
Theorem storage_create_keeps_other_storages `{PyText} (guild_id : Z) (type_ name : string)
    (owner_role_id now : Z) (t : StorageTable) (g : Z) (ty n : string) :
  (g <> guild_id \/ ty <> type_ \/ py_strip n <> py_strip name ->
   storage_get g ty n (snd (storage_create guild_id type_ name owner_role_id now t))
   = storage_get g ty n t)
  /\ storage_get g ty n empty_storages = None.
Proof.
  split; [|reflexivity].
  intros Hne. unfold storage_create.
  destruct (existsb _ (storages t)); cbn [snd]; [reflexivity|].
  unfold storage_get. cbn [storages].
  destruct (List.find (storage_is g ty (py_strip n)) (storages t)) as [s|] eqn:Ef.
  - now rewrite (find_app_some _ _ _ _ Ef).
  - rewrite (find_app_none _ _ _ Ef). simpl.
    destruct (storage_is g ty (py_strip n) _) eqn:Em; [|reflexivity].
    apply storage_is_true in Em. simpl in Em. destruct Em as (E1 & E2 & E3).
    exfalso. destruct Hne as [Hne|[Hne|Hne]]; congruence.
Qed.

Lemma storage_create_keeps_other_storages_witness :
  (9 <> 9 \/ "FBH" <> "FBH"
   \/ @py_strip latin1_text "Frischbeute" <> @py_strip latin1_text "frischbeute")
  /\ @storage_get latin1_text 9 "FBH" "Frischbeute"
       (snd (@storage_create latin1_text 9 "FBH" "frischbeute" 1 2 example_storages))
     = @storage_get latin1_text 9 "FBH" "Frischbeute" example_storages
  /\ fst (@storage_create latin1_text 9 "FBH" "frischbeute" 1 2 example_storages)
     = created 3.
Proof.
  assert (H1 : 9 <> 9 \/ "FBH" <> "FBH"
               \/ @py_strip latin1_text "Frischbeute" <> @py_strip latin1_text "frischbeute").
  { right. right. vm_compute. discriminate. }
  split; [exact H1|].
  split; [|vm_compute; reflexivity].
  exact (proj1 (@storage_create_keeps_other_storages latin1_text 9 "FBH" "frischbeute" 1 2
                  example_storages 9 "FBH" "Frischbeute") H1).
Defined.

Lemma type_then_name_le_total (a b : Storage) :
  type_then_name_le a b = true \/ type_then_name_le b a = true.
Proof.
  unfold type_then_name_le. rewrite (String.eqb_sym (st_type b)).
  destruct (String.eqb (st_type a) (st_type b)); [apply nocase_le_total|apply String.leb_total].
Qed.

Lemma type_then_name_le_trans (a b c : Storage) :
  type_then_name_le a b = true -> type_then_name_le b c = true ->
  type_then_name_le a c = true.
Proof.
  unfold type_then_name_le.
  destruct (String.eqb_spec (st_type a) (st_type b)) as [E1|N1];
    destruct (String.eqb_spec (st_type b) (st_type c)) as [E2|N2];
    destruct (String.eqb_spec (st_type a) (st_type c)) as [E3|N3]; intros H1 H2.
  - eapply nocase_le_trans; eassumption.
  - congruence.
  - congruence.
  - now rewrite E1.
  - congruence.
  - now rewrite <- E2.
  - exfalso. apply N1. apply String.leb_antisym; [assumption|]. now rewrite E3.
  - eapply string_leb_trans; eassumption.
Qed.

(** X7. The listings are sorted and complete.  [storage_names_for_type]
    returns the names of the tenant's storages of the type, each storage
    once, in ascending order without regard to ASCII case;
    [storage_list] returns type and name of every storage of the tenant,
    ordered by type and, within a type, by name without regard to ASCII
    case. *)
Theorem storage_listings_sorted `{PyText} (guild_id : Z) (type_ : string) (t : StorageTable) :
  StronglySorted (fun a b => nocase_le a b = true) (storage_names_for_type guild_id type_ t)
  /\ Permutation (storage_names_for_type guild_id type_ t)
       (map st_name
          (List.filter (fun s => (st_guild_id s =? guild_id) && String.eqb (st_type s) type_)
             (storages t)))
  /\ (forall n, In n (storage_names_for_type guild_id type_ t) <->
        exists s, In s (storages t) /\ st_guild_id s = guild_id /\ st_type s = type_
                  /\ st_name s = n)
  /\ StronglySorted
       (fun a b => if String.eqb (fst a) (fst b) then nocase_le (snd a) (snd b) = true
                   else String.leb (fst a) (fst b) = true)
       (storage_list guild_id t)
  /\ Permutation (storage_list guild_id t)
       (map (fun s => (st_type s, st_name s))
          (List.filter (fun s => st_guild_id s =? guild_id) (storages t))).
Proof.
  split.
  { unfold storage_names_for_type.
    apply (StronglySorted_map st_name
             (fun a b => nocase_le (st_name a) (st_name b) = true)); [auto|].
    apply order_by_sorted.
    - intros a b. apply nocase_le_total.
    - intros a b c. apply nocase_le_trans. }
  split; [apply Permutation_map; etransitivity; apply order_by_perm|].
  split.
  { intros n. unfold storage_names_for_type. rewrite in_map_iff. split.
    - intros (s & <- & Hs). apply order_by_In, order_by_In, filter_In in Hs.
      destruct Hs as [Hs Hm].
      apply andb_true_iff in Hm. destruct Hm as [Hg Ht].
      apply Z.eqb_eq in Hg. apply String.eqb_eq in Ht. eauto.
    - intros (s & Hs & Hg & Ht & <-). exists s. split; [reflexivity|].
      apply order_by_In, order_by_In, filter_In. split; [assumption|].
      now rewrite (proj2 (Z.eqb_eq _ _) Hg), (proj2 (String.eqb_eq _ _) Ht). }
  split.
  { unfold storage_list.
    apply (StronglySorted_map (fun s => (st_type s, st_name s))
             (fun a b => type_then_name_le a b = true)).
    - intros a b. unfold type_then_name_le. simpl.
      now destruct (String.eqb (st_type a) (st_type b)).
    - apply order_by_sorted; [apply type_then_name_le_total|apply type_then_name_le_trans]. }
  apply Permutation_map. etransitivity; apply order_by_perm.
Qed.

(** ** Allowed names *)

Section AllowedFacts.
Context `{PyText}.

Lemma allowed_map_of_spec (xs : list string) (k : string) :
  (forall x, allowed_map_of xs !! k = Some x -> In x xs /\ norm_key x = k)
  /\ ((exists x, In x xs /\ norm_key x = k) -> is_Some (allowed_map_of xs !! k)).
Proof.
  unfold allowed_map_of.
  assert (Hgen : forall (m : gmap string string),
            (forall x, fold_left (fun m x => <[norm_key x := x]> m) xs m !! k = Some x ->
                       (In x xs /\ norm_key x = k) \/ m !! k = Some x)
            /\ ((exists x, In x xs /\ norm_key x = k) \/ is_Some (m !! k) ->
                is_Some (fold_left (fun m x => <[norm_key x := x]> m) xs m !! k))).
  { induction xs as [|y ys IH]; intros m; simpl.
    - split; [auto|]. intros [(x & [] & _)|Hs]; exact Hs.
    - destruct (IH (<[norm_key y := y]> m)) as [I1 I2]. split.
      + intros x Hx. destruct (I1 x Hx) as [[Hin E]|Hl]; [auto|].
        destruct (decide (norm_key y = k)) as [Ey|Ny].
        * rewrite Ey, lookup_insert_eq in Hl. injection Hl as <-. auto.
        * rewrite lookup_insert_ne in Hl by assumption. auto.
      + intros Hor. apply I2.
        destruct (decide (norm_key y = k)) as [Ey|Ny].
        * right. rewrite Ey, lookup_insert_eq. eauto.
        * rewrite lookup_insert_ne by assumption.
          destruct Hor as [(x & [->|Hin] & E)|Hs]; [congruence| |auto].
          left. eauto. }
  destruct (Hgen ∅) as [G1 G2]. split.
  - intros x Hx. destruct (G1 x Hx) as [?|Hl]; [assumption|].
    rewrite lookup_empty in Hl. discriminate.
  - intros Hex. apply G2. now left.
Qed.
End AllowedFacts.

(** X8. What [is_allowed] and [canonical] do with the dictionary built from
    a list of names.  A name is allowed exactly when the list has a name
    with the same [norm_key].  For an allowed name, [canonical] returns a
    name of the list with that key, and this spelling is stable: it is
    allowed and [canonical] maps it to itself.  For a name that is not
    allowed, [canonical] strips the name and nothing more. *)
Theorem allowed_names_and_canonical `{PyText} (xs : list string) (name : string) :
  (is_allowed name (allowed_map_of xs) = true <->
   exists x, In x xs /\ norm_key x = norm_key name)
  /\ (is_allowed name (allowed_map_of xs) = true ->
      In (canonical name (allowed_map_of xs)) xs
      /\ norm_key (canonical name (allowed_map_of xs)) = norm_key name
      /\ is_allowed (canonical name (allowed_map_of xs)) (allowed_map_of xs) = true
      /\ canonical (canonical name (allowed_map_of xs)) (allowed_map_of xs)
         = canonical name (allowed_map_of xs))
  /\ (is_allowed name (allowed_map_of xs) = false ->
      canonical name (allowed_map_of xs) = py_strip name).
Proof.
  destruct (allowed_map_of_spec xs (norm_key name)) as [S1 S2].
  assert (Hiff : is_allowed name (allowed_map_of xs) = true <->
                 exists x, In x xs /\ norm_key x = norm_key name).
  { unfold is_allowed. rewrite bool_decide_eq_true. split.
    - intros [x Hx]. exists x. now apply S1.
    - exact S2. }
  split; [exact Hiff|]. split.
  - intros Ha. unfold is_allowed in Ha. apply bool_decide_eq_true in Ha.
    destruct Ha as [x Hx]. destruct (S1 x Hx) as [Hin E].
    assert (Hc : canonical name (allowed_map_of xs) = x)
      by (unfold canonical; now rewrite Hx).
    rewrite Hc. split; [exact Hin|]. split; [exact E|].
    unfold is_allowed, canonical. rewrite E, Hx. cbn [default].
    split; [|reflexivity]. apply bool_decide_eq_true. eauto.
  - intros Ha. unfold is_allowed in Ha. apply bool_decide_eq_false in Ha.
    unfold canonical. destruct (allowed_map_of xs !! norm_key name) eqn:E; [|reflexivity].
    exfalso. apply Ha. eauto.
Qed.

Lemma allowed_names_and_canonical_witness :
  @is_allowed latin1_text "  THYME " (@allowed_map_of latin1_text ["Basil"; "Thyme"]) = true
  /\ In (@canonical latin1_text "  THYME " (@allowed_map_of latin1_text ["Basil"; "Thyme"]))
        ["Basil"; "Thyme"]
  /\ @is_allowed latin1_text "Minze" (@allowed_map_of latin1_text ["Basil"; "Thyme"]) = false
  /\ @canonical latin1_text " Minze " (@allowed_map_of latin1_text ["Basil"; "Thyme"])
     = @py_strip latin1_text " Minze ".
Proof.
  assert (H1 : @is_allowed latin1_text "  THYME "
                 (@allowed_map_of latin1_text ["Basil"; "Thyme"]) = true)
    by (vm_compute; reflexivity).
  assert (H2 : @is_allowed latin1_text " Minze "
                 (@allowed_map_of latin1_text ["Basil"; "Thyme"]) = false)
    by (vm_compute; reflexivity).
  split; [exact H1|].
  split.
  { exact (proj1 (proj1 (proj2 (@allowed_names_and_canonical latin1_text
                                  ["Basil"; "Thyme"] "  THYME ")) H1)). }
  split; [vm_compute; reflexivity|].
  exact (proj2 (proj2 (@allowed_names_and_canonical latin1_text ["Basil"; "Thyme"] " Minze "))
           H2).
Defined.

(** ** More on batches *)

Lemma with_batches_same (db : DB) : with_batches (fbh_batches db) db = db.
Proof. now destruct db. Qed.

Lemma with_lots_same (db : DB) : with_lots (kl_herb_lots db) db = db.
Proof. now destruct db. Qed.

Lemma with_pantry_same (db : DB) : with_pantry (kl_pantry db) db = db.
Proof. now destruct db. Qed.

Lemma StronglySorted_filter {A} (R : A -> A -> Prop) (p : A -> bool) (l : list A) :
  StronglySorted R l -> StronglySorted R (List.filter p l).
Proof.
  induction 1 as [|x l Hs IH Hx]; simpl; [constructor|].
  destruct (p x); [|assumption]. constructor; [assumption|].
  rewrite Forall_forall in *. intros y Hy. apply filter_In in Hy. apply Hx, Hy.
Qed.

Lemma fbh_add_filter `{PyText} (storage_id : Z) (item_display : string)
    (qty user_id now : Z) (db : DB) (sid : Z) (k : string) :
  List.filter (batch_matches sid k)
    (fbh_batches (fbh_add storage_id item_display qty user_id now db))
  = List.filter (batch_matches sid k) (fbh_batches db)
    ++ (if (storage_id =? sid) && String.eqb (norm_key item_display) k
        then [ {| batch_id := fbh_batches_seq db + 1; batch_storage_id := storage_id;
                  batch_item_key := norm_key item_display;
                  batch_item_display := py_strip item_display; batch_qty := qty;
                  batch_added_at := now; batch_added_by := user_id |} ]
        else []).
Proof.
  unfold fbh_add. cbn [fbh_batches]. rewrite filter_app. cbn [List.filter].
  unfold batch_matches at 2. cbn [batch_storage_id batch_item_key].
  now destruct ((storage_id =? sid) && String.eqb (norm_key item_display) k).
Qed.

(** The name under which the totals show the key after an addition. *)
Lemma fbh_add_display `{PyText} (storage_id : Z) (item_display : string)
    (qty user_id now : Z) (db : DB) (sid : Z) (k : string) :
  fbh_display sid k (fbh_add storage_id item_display qty user_id now db)
  = if (storage_id =? sid) && String.eqb (norm_key item_display) k
    then match List.filter (batch_matches sid k) (fbh_batches db) with
         | b :: _ => batch_item_display b
         | [] => py_strip item_display
         end
    else fbh_display sid k db.
Proof.
  unfold fbh_display. rewrite fbh_add_filter.
  destruct ((storage_id =? sid) && String.eqb (norm_key item_display) k).
  - now destruct (List.filter (batch_matches sid k) (fbh_batches db)).
  - now rewrite app_nil_r.
Qed.

(** X9. Adding never merges.  [fbh_add] puts one new batch at the end of
    the table, whatever batches of the item are there already; the stock of
    the item in the storage grows by [qty], every other stock stays as it is.
    With positive quantities and [qty > 0] the totals of the storage then
    show the item with the new stock, under the display name of its first
    batch (the stripped name given, when the item had no batch), and beside
    it exactly the entries of the other items of the storage, each with the
    name and stock it had before. *)
Theorem fbh_add_never_merges `{PyText} (storage_id : Z) (item_display : string)
    (qty user_id now : Z) (db : DB) :
  length (fbh_batches (fbh_add storage_id item_display qty user_id now db))
  = S (length (fbh_batches db))
  /\ firstn (length (fbh_batches db))
       (fbh_batches (fbh_add storage_id item_display qty user_id now db))
     = fbh_batches db
  /\ fbh_stock storage_id (norm_key item_display)
       (fbh_add storage_id item_display qty user_id now db)
     = fbh_stock storage_id (norm_key item_display) db + qty
  /\ (forall sid k, sid <> storage_id \/ k <> norm_key item_display ->
        fbh_stock sid k (fbh_add storage_id item_display qty user_id now db)
        = fbh_stock sid k db)
  /\ (0 < qty -> Forall (fun b => 0 < batch_qty b) (fbh_batches db) ->
      In (match List.filter (batch_matches storage_id (norm_key item_display))
                  (fbh_batches db) with
          | b :: _ => batch_item_display b
          | [] => py_strip item_display
          end,
          fbh_stock storage_id (norm_key item_display) db + qty)
         (fbh_total storage_id (fbh_add storage_id item_display qty user_id now db)))
  /\ (0 < qty -> Forall (fun b => 0 < batch_qty b) (fbh_batches db) ->
      forall d s,
        In (d, s) (fbh_total storage_id (fbh_add storage_id item_display qty user_id now db))
        <->
        (d = match List.filter (batch_matches storage_id (norm_key item_display))
                     (fbh_batches db) with
             | b :: _ => batch_item_display b
             | [] => py_strip item_display
             end
         /\ s = fbh_stock storage_id (norm_key item_display) db + qty)
        \/ (exists k,
              k <> norm_key item_display
              /\ (exists b, In b (fbh_batches db) /\ batch_storage_id b = storage_id
                            /\ batch_item_key b = k)
              /\ d = fbh_display storage_id k db /\ s = fbh_stock storage_id k db)).
Proof.
  assert (Hstock : fbh_stock storage_id (norm_key item_display)
                     (fbh_add storage_id item_display qty user_id now db)
                   = fbh_stock storage_id (norm_key item_display) db + qty).
  { rewrite fbh_add_stock, String.eqb_refl. reflexivity. }
  assert (Hother : forall sid k, sid <> storage_id \/ k <> norm_key item_display ->
            fbh_stock sid k (fbh_add storage_id item_display qty user_id now db)
            = fbh_stock sid k db).
  { intros sid k Hne. unfold fbh_stock, fbh_add. simpl.
    rewrite filter_app. simpl. unfold batch_matches at 2. simpl.
    destruct Hne as [Hne|Hne].
    - rewrite (proj2 (Z.eqb_neq storage_id sid)) by congruence. simpl. now rewrite app_nil_r.
    - rewrite (proj2 (String.eqb_neq (norm_key item_display) k)) by congruence.
      rewrite andb_false_r. now rewrite app_nil_r. }
  assert (Hiff : 0 < qty -> Forall (fun b => 0 < batch_qty b) (fbh_batches db) ->
            forall d s,
              In (d, s)
                 (fbh_total storage_id (fbh_add storage_id item_display qty user_id now db))
              <->
              (d = match List.filter (batch_matches storage_id (norm_key item_display))
                           (fbh_batches db) with
                   | b :: _ => batch_item_display b
                   | [] => py_strip item_display
                   end
               /\ s = fbh_stock storage_id (norm_key item_display) db + qty)
              \/ (exists k,
                    k <> norm_key item_display
                    /\ (exists b, In b (fbh_batches db) /\ batch_storage_id b = storage_id
                                  /\ batch_item_key b = k)
                    /\ d = fbh_display storage_id k db /\ s = fbh_stock storage_id k db)).
  { intros Hq Hpos d s.
    assert (Hpos' : Forall (fun b => 0 < batch_qty b)
                      (fbh_batches (fbh_add storage_id item_display qty user_id now db))).
    { unfold fbh_add. cbn [fbh_batches]. apply Forall_snoc; assumption. }
    assert (Hnn : 0 <= fbh_stock storage_id (norm_key item_display) db).
    { unfold fbh_stock. apply sum_Z_nonneg. rewrite Forall_map, Forall_forall in *.
      intros b Hb. apply filter_In in Hb. apply Hpos, Hb. }
    assert (Hdisp : fbh_display storage_id (norm_key item_display)
                      (fbh_add storage_id item_display qty user_id now db)
                    = match List.filter (batch_matches storage_id (norm_key item_display))
                              (fbh_batches db) with
                      | b :: _ => batch_item_display b
                      | [] => py_strip item_display
                      end).
    { now rewrite fbh_add_display, Z.eqb_refl, String.eqb_refl. }
    rewrite (fbh_total_named storage_id _ d s Hpos'). split.
    - intros (k & (b & Hb & Hs & Ek) & Ed & Es & Hs0).
      destruct (String.eqb_spec k (norm_key item_display)) as [E|N].
      + left. rewrite E in Ed, Es. rewrite Ed, Es, Hdisp, Hstock. auto.
      + right. exists k. split; [exact N|].
        rewrite fbh_add_display in Ed.
        rewrite (proj2 (String.eqb_neq (norm_key item_display) k)) in Ed by congruence.
        rewrite andb_false_r in Ed. rewrite Hother in Es by (right; exact N).
        split; [|auto].
        unfold fbh_add in Hb. cbn [fbh_batches] in Hb. apply in_app_or in Hb.
        destruct Hb as [Hb|[<-|[]]]; [eauto|]. cbn in Ek. congruence.
    - intros [[-> ->]|(k & N & (b & Hb & Hs & Ek) & -> & ->)].
      + exists (norm_key item_display). split.
        * eexists. split; [unfold fbh_add; cbn [fbh_batches]; apply in_or_app; right;
                            left; reflexivity|]. cbn. auto.
        * rewrite Hdisp, Hstock. split; [reflexivity|]. split; [reflexivity|lia].
      + exists k. split.
        * exists b. split; [|auto]. unfold fbh_add. cbn [fbh_batches].
          apply in_or_app. now left.
        * rewrite fbh_add_display.
          rewrite (proj2 (String.eqb_neq (norm_key item_display) k)) by congruence.
          rewrite andb_false_r. rewrite Hother by (right; exact N).
          split; [reflexivity|]. split; [reflexivity|].
          rewrite <- Ek. now apply fbh_stock_positive. }
  split; [unfold fbh_add; simpl; rewrite length_app; simpl; lia|].
  split; [unfold fbh_add; simpl; rewrite firstn_app, firstn_all, Nat.sub_diag; simpl;
          apply app_nil_r|].
  split; [exact Hstock|].
  split; [exact Hother|].
  split; [|exact Hiff].
  intros Hq Hpos. apply (Hiff Hq Hpos). left. split; reflexivity.
Qed.

Lemma fbh_add_never_merges_witness :
  (2 <> 1 \/ "maus (allgemein)" <> @norm_key latin1_text "Maus (allgemein)")
  /\ fbh_stock 2 "maus (allgemein)"
       (@fbh_add latin1_text 1 "Maus (allgemein)" 4 42 300 example_fifo_db)
     = fbh_stock 2 "maus (allgemein)" example_fifo_db
  /\ 0 < 4
  /\ Forall (fun b => 0 < batch_qty b) (fbh_batches example_fifo_db)
  /\ In (match List.filter (batch_matches 1 (@norm_key latin1_text "Maus (allgemein)"))
                (fbh_batches example_fifo_db) with
         | b :: _ => batch_item_display b
         | [] => @py_strip latin1_text "Maus (allgemein)"
         end,
         fbh_stock 1 (@norm_key latin1_text "Maus (allgemein)") example_fifo_db + 4)
        (fbh_total 1 (@fbh_add latin1_text 1 "Maus (allgemein)" 4 42 300 example_fifo_db))
  /\ fbh_total 1 (@fbh_add latin1_text 1 "Maus (allgemein)" 4 42 300 example_fifo_db)
     = [("Maus (allgemein)", 12)].
Proof.
  assert (H1 : 2 <> 1 \/ "maus (allgemein)" <> @norm_key latin1_text "Maus (allgemein)")
    by (left; discriminate).
  assert (H2 : 0 < 4) by lia.
  assert (H3 : Forall (fun b => 0 < batch_qty b) (fbh_batches example_fifo_db)).
  { unfold example_fifo_db. simpl. repeat constructor; simpl; lia. }
  pose proof (@fbh_add_never_merges latin1_text 1 "Maus (allgemein)" 4 42 300 example_fifo_db)
    as (_ & _ & _ & E4 & E5 & _).
  split; [exact H1|]. split; [exact (E4 2 "maus (allgemein)" H1)|].
  split; [exact H2|]. split; [exact H3|]. split; [exact (E5 H2 H3)|].
  vm_compute. reflexivity.
Defined.

(** X10. Takes that find nothing to do.  [fbh_take] with a quantity of zero
    or less, or for an item without a batch in the storage, returns 0 and
    leaves the database exactly as it was. *)
Theorem fbh_take_nothing_to_do `{PyText} (storage_id : Z) (item_display : string) (qty : Z)
    (db : DB) :
  (qty <= 0 -> fbh_take storage_id item_display qty db = (0, db))
  /\ (List.filter (batch_matches storage_id (norm_key item_display)) (fbh_batches db) = [] ->
      fbh_take storage_id item_display qty db = (0, db)).
Proof.
  split.
  - intros Hq. rewrite fbh_take_eq.
    rewrite (take_loop_stop batch_id set_batch_qty _ qty 0 (fbh_batches db) Hq).
    cbn [fst snd]. now rewrite with_batches_same.
  - intros Hnone. rewrite fbh_take_eq. unfold fbh_select. rewrite Hnone.
    cbn. now rewrite with_batches_same.
Qed.

Lemma fbh_take_nothing_to_do_witness :
  -3 <= 0
  /\ @fbh_take latin1_text 1 "Maus (allgemein)" (-3) example_fifo_db = (0, example_fifo_db)
  /\ List.filter (batch_matches 1 (@norm_key latin1_text "Fisch (allgemein)"))
       (fbh_batches example_fifo_db) = []
  /\ @fbh_take latin1_text 1 "Fisch (allgemein)" 2 example_fifo_db = (0, example_fifo_db).
Proof.
  assert (H1 : -3 <= 0) by lia.
  assert (H2 : List.filter (batch_matches 1 (@norm_key latin1_text "Fisch (allgemein)"))
                 (fbh_batches example_fifo_db) = []) by (vm_compute; reflexivity).
  split; [exact H1|].
  split; [exact (proj1 (@fbh_take_nothing_to_do latin1_text 1 "Maus (allgemein)" (-3)
                          example_fifo_db) H1)|].
  split; [exact H2|].
  exact (proj2 (@fbh_take_nothing_to_do latin1_text 1 "Fisch (allgemein)" 2 example_fifo_db)
           H2).
Defined.

(** X11. Two takes in a row remove what one take of the sum removes.  On a
    table with unique ids and positive quantities, for requests
    [q1, q2 >= 0], the amounts returned by [fbh_take q1] and then
    [fbh_take q2] add up to the amount returned by [fbh_take (q1 + q2)],
    and both ways leave the same stock of the item. *)
Theorem fbh_take_in_two_steps `{PyText} (storage_id : Z) (item_display : string) (q1 q2 : Z)
    (db : DB) :
  0 <= q1 -> 0 <= q2 ->
  NoDup (map batch_id (fbh_batches db)) ->
  Forall (fun b => 0 < batch_qty b) (fbh_batches db) ->
  fst (fbh_take storage_id item_display q1 db)
  + fst (fbh_take storage_id item_display q2 (snd (fbh_take storage_id item_display q1 db)))
  = fst (fbh_take storage_id item_display (q1 + q2) db)
  /\ fbh_stock storage_id (norm_key item_display)
       (snd (fbh_take storage_id item_display q2
               (snd (fbh_take storage_id item_display q1 db))))
     = fbh_stock storage_id (norm_key item_display)
         (snd (fbh_take storage_id item_display (q1 + q2) db)).
Proof.
  intros H1 H2 Hnd Hpos.
  destruct (fbh_take_facts storage_id item_display q1 db H1 Hnd Hpos) as (A1 & _ & _ & A4).
  destruct (fbh_take_facts storage_id item_display (q1 + q2) db ltac:(lia) Hnd Hpos)
    as (B1 & _ & _ & B4).
  assert (Hnd' : NoDup (map batch_id
                          (fbh_batches (snd (fbh_take storage_id item_display q1 db))))).
  { rewrite fbh_take_eq. simpl.
    now apply (take_loop_NoDup batch_id set_batch_qty (fun _ _ => eq_refl)). }
  pose proof (fbh_take_positive storage_id item_display q1 db Hpos) as Hpos'.
  destruct (fbh_take_facts storage_id item_display q2 _ H2 Hnd' Hpos') as (C1 & _ & _ & C4).
  assert (0 <= fbh_stock storage_id (norm_key item_display) db).
  { unfold fbh_stock. apply sum_Z_nonneg. rewrite Forall_map, Forall_forall in *.
    intros b Hb. apply filter_In in Hb. apply Hpos, Hb. }
  rewrite A1, B1, C1, C4, A4, B4. split; lia.
Qed.

Lemma fbh_take_in_two_steps_witness :
  0 <= 2 /\ 0 <= 5
  /\ NoDup (map batch_id (fbh_batches example_fifo_db))
  /\ Forall (fun b => 0 < batch_qty b) (fbh_batches example_fifo_db)
  /\ fst (@fbh_take latin1_text 1 "Maus (allgemein)" 2 example_fifo_db)
     + fst (@fbh_take latin1_text 1 "Maus (allgemein)" 5
              (snd (@fbh_take latin1_text 1 "Maus (allgemein)" 2 example_fifo_db)))
     = fst (@fbh_take latin1_text 1 "Maus (allgemein)" (2 + 5) example_fifo_db).
Proof.
  assert (H1 : 0 <= 2) by lia. assert (H2 : 0 <= 5) by lia.
  assert (H3 : NoDup (map batch_id (fbh_batches example_fifo_db))) by concrete_NoDup.
  assert (H4 : Forall (fun b => 0 < batch_qty b) (fbh_batches example_fifo_db)).
  { unfold example_fifo_db. simpl. repeat constructor; simpl; lia. }
  split; [exact H1|]. split; [exact H2|]. split; [exact H3|]. split; [exact H4|].
  exact (proj1 (@fbh_take_in_two_steps latin1_text 1 "Maus (allgemein)" 2 5 example_fifo_db
                  H1 H2 H3 H4)).
Defined.

(** X12. The listings of quantities are sorted and hold positive numbers
    only.  [fbh_total] and [pantry_list] return their entries in ascending
    order of the display name without regard to ASCII case, and every
    quantity in them is above zero, whatever the table holds. *)
Theorem totals_sorted_and_positive (storage_id : Z) (db : DB) :
  StronglySorted (fun a b => nocase_le (fst a) (fst b) = true) (fbh_total storage_id db)
  /\ Forall (fun e => 0 < snd e) (fbh_total storage_id db)
  /\ StronglySorted (fun a b => nocase_le (fst a) (fst b) = true) (pantry_list storage_id db)
  /\ Forall (fun e => 0 < snd e) (pantry_list storage_id db).
Proof.
  split; [|split; [|split]].
  - unfold fbh_total. apply StronglySorted_filter.
    apply (order_by_sorted (fun a b : string * Z => nocase_le (fst a) (fst b))).
    + intros a b. apply nocase_le_total.
    + intros a b c. apply nocase_le_trans.
  - unfold fbh_total. rewrite Forall_forall. intros e He. apply filter_In in He.
    now apply Z.ltb_lt.
  - unfold pantry_list. apply StronglySorted_filter.
    apply (StronglySorted_map (fun r => (pantry_item_display r, pantry_qty r))
             (fun a b => nocase_le (pantry_item_display a) (pantry_item_display b) = true));
      [auto|].
    apply (order_by_sorted
             (fun a b : PantryRow => nocase_le (pantry_item_display a) (pantry_item_display b))).
    + intros a b. apply nocase_le_total.
    + intros a b c. apply nocase_le_trans.
  - unfold pantry_list. rewrite Forall_forall. intros e He. apply filter_In in He.
    now apply Z.ltb_lt.
Qed.

(** X13. The status snapshot is per batch.  [fbh_batches_for_status]
    returns one entry for every batch of the storage, not one per item, with
    the batch's display name, quantity and time, the oldest first. *)
Theorem fbh_batches_for_status_per_batch (storage_id : Z) (db : DB) :
  Permutation (fbh_batches_for_status storage_id db)
    (map (fun b => (batch_item_display b, batch_qty b, batch_added_at b))
       (List.filter (batch_in storage_id) (fbh_batches db)))
  /\ length (fbh_batches_for_status storage_id db)
     = length (List.filter (batch_in storage_id) (fbh_batches db))
  /\ StronglySorted (fun a b => snd a <= snd b) (fbh_batches_for_status storage_id db).
Proof.
  assert (Hp : Permutation (fbh_batches_for_status storage_id db)
                 (map (fun b => (batch_item_display b, batch_qty b, batch_added_at b))
                    (List.filter (batch_in storage_id) (fbh_batches db)))).
  { unfold fbh_batches_for_status. apply Permutation_map, order_by_perm. }
  split; [exact Hp|]. split.
  - rewrite (Permutation_length Hp). apply length_map.
  - unfold fbh_batches_for_status.
    apply (StronglySorted_map
             (fun b => (batch_item_display b, batch_qty b, batch_added_at b))
             (fun a b => batch_added_at a <= batch_added_at b)); [auto|].
    apply oldest_batch_first_sorted.
Qed.

(** ** More on herbs *)

Lemma kl_state_total_nonneg (storage_id : Z) (k : string) (st : LotState) (t : list Lot) :
  Forall (fun l => 0 < lot_qty l) t ->
  0 <= sum_Z (map lot_qty (List.filter (lot_matches_state storage_id k st) t)).
Proof.
  intros Hpos. apply sum_Z_nonneg. rewrite Forall_map, Forall_forall in *.
  intros l Hl. apply filter_In in Hl. apply Hpos, Hl.
Qed.

Lemma fresh_is_not_dried (storage_id : Z) (k : string) (l : Lot) :
  (lot_matches_state storage_id k getrocknet l = true ->
   negb (lot_matches_state storage_id k frisch l) = true)
  /\ (lot_matches_state storage_id k frisch l = true ->
      negb (lot_matches_state storage_id k getrocknet l) = true).
Proof.
  unfold lot_matches_state. destruct (lot_matches storage_id k l), (lot_state l); simpl; auto.
Qed.

(** The two passes of [kl_take_herb] in terms of the totals per state. *)
Lemma kl_take_states_by_state (storage_id : Z) (k : string) (qty : Z) (t : list Lot) :
  0 <= qty -> NoDup (map lot_id t) -> Forall (fun l => 0 < lot_qty l) t ->
  sum_Z (map lot_qty
           (List.filter (lot_matches_state storage_id k frisch)
              (snd (kl_take_states [frisch; getrocknet] storage_id k qty 0 t))))
  = sum_Z (map lot_qty (List.filter (lot_matches_state storage_id k frisch) t))
    - Z.min qty (sum_Z (map lot_qty (List.filter (lot_matches_state storage_id k frisch) t)))
  /\ sum_Z (map lot_qty
              (List.filter (lot_matches_state storage_id k getrocknet)
                 (snd (kl_take_states [frisch; getrocknet] storage_id k qty 0 t))))
     = sum_Z (map lot_qty (List.filter (lot_matches_state storage_id k getrocknet) t))
       - Z.min (qty - Z.min qty
                        (sum_Z (map lot_qty
                                  (List.filter (lot_matches_state storage_id k frisch) t))))
               (sum_Z (map lot_qty (List.filter (lot_matches_state storage_id k getrocknet) t)))
  /\ (qty <= sum_Z (map lot_qty (List.filter (lot_matches_state storage_id k frisch) t)) ->
      List.filter (lot_matches_state storage_id k getrocknet)
        (snd (kl_take_states [frisch; getrocknet] storage_id k qty 0 t))
      = List.filter (lot_matches_state storage_id k getrocknet) t).
Proof.
  intros Hq Hnd Hpos.
  pose proof (kl_state_total_nonneg storage_id k frisch t Hpos) as HF.
  pose proof (kl_state_total_nonneg storage_id k getrocknet t Hpos) as HD.
  cbn [kl_take_states].
  destruct (Z.leb_spec qty 0) as [Hle|Hgt].
  { cbn [snd]. split; [lia|]. split; [lia|reflexivity]. }
  destruct (take_loop_selection lot_id lot_qty set_lot_qty
              (fun _ _ => eq_refl) (fun _ _ => eq_refl) set_lot_qty_same
              (lot_matches_state storage_id k frisch)
              (kl_select storage_id k frisch t) qty 0 t Hq Hnd
              (order_by_perm _ _) Hpos (fun _ _ => eq_refl))
    as (E1 & _ & E3 & E4).
  pose proof (take_loop_NoDup lot_id set_lot_qty (fun _ _ => eq_refl)
                (id_qty lot_id lot_qty (kl_select storage_id k frisch t)) qty 0 t Hnd) as Hnd1.
  pose proof (take_loop_positive lot_id lot_qty set_lot_qty (fun _ _ => eq_refl)
                (id_qty lot_id lot_qty (kl_select storage_id k frisch t)) qty 0 t Hpos)
    as Hpos1.
  destruct (take_loop lot_id set_lot_qty
              (id_qty lot_id lot_qty (kl_select storage_id k frisch t)) qty 0 t)
    as [[tr1 rm1] t1].
  cbn [fst snd] in *. injection E1 as -> ->.
  assert (Hd1 : List.filter (lot_matches_state storage_id k getrocknet) t1
                = List.filter (lot_matches_state storage_id k getrocknet) t).
  { apply (filter_filter_sub _ (fun l => negb (lot_matches_state storage_id k frisch l)));
      [|exact E3].
    intros l. apply fresh_is_not_dried. }
  destruct (Z.leb_spec (qty - Z.min qty
              (sum_Z (map lot_qty (List.filter (lot_matches_state storage_id k frisch) t)))) 0)
    as [Hle1|Hgt1].
  { cbn [snd]. rewrite Hd1. split; [exact E4|]. split; [lia|reflexivity]. }
  destruct (take_loop_selection lot_id lot_qty set_lot_qty
              (fun _ _ => eq_refl) (fun _ _ => eq_refl) set_lot_qty_same
              (lot_matches_state storage_id k getrocknet)
              (kl_select storage_id k getrocknet t1)
              (qty - Z.min qty
                 (sum_Z (map lot_qty (List.filter (lot_matches_state storage_id k frisch) t))))
              (0 + Z.min qty
                 (sum_Z (map lot_qty (List.filter (lot_matches_state storage_id k frisch) t))))
              t1 ltac:(lia) Hnd1 (order_by_perm _ _) Hpos1 (fun _ _ => eq_refl))
    as (_ & _ & F3 & F4).
  destruct (take_loop lot_id set_lot_qty
              (id_qty lot_id lot_qty (kl_select storage_id k getrocknet t1)) _ _ t1)
    as [[tr2 rm2] t2].
  cbn [fst snd] in *.
  assert (Hf2 : List.filter (lot_matches_state storage_id k frisch) t2
                = List.filter (lot_matches_state storage_id k frisch) t1).
  { apply (filter_filter_sub _ (fun l => negb (lot_matches_state storage_id k getrocknet l)));
      [|exact F3].
    intros l. apply fresh_is_not_dried. }
  rewrite Hf2, F4, Hd1. split; [exact E4|]. split; [reflexivity|]. intros Hqf. lia.
Qed.

(** X14. Fresh first, in numbers.  For a request [qty >= 0] on a table
    with unique ids and positive quantities, [kl_take_herb] lowers the
    fresh total of the herb by [min(qty, fresh)] and the dried total by
    [min(qty - min(qty, fresh), dried)]; when the fresh lots cover the
    request the dried lots of the herb are the same rows as before.  With a
    quantity of zero or less the function returns 0 and leaves the database
    as it was. *)
Theorem kl_take_herb_by_state `{PyText} (storage_id : Z) (herb_display : string) (qty : Z)
    (db : DB) :
  (qty <= 0 -> kl_take_herb storage_id herb_display qty db = (0, db))
  /\ (0 <= qty ->
      NoDup (map lot_id (kl_herb_lots db)) ->
      Forall (fun l => 0 < lot_qty l) (kl_herb_lots db) ->
      kl_state_total storage_id (norm_key herb_display) frisch
        (snd (kl_take_herb storage_id herb_display qty db))
      = kl_state_total storage_id (norm_key herb_display) frisch db
        - Z.min qty (kl_state_total storage_id (norm_key herb_display) frisch db)
      /\ kl_state_total storage_id (norm_key herb_display) getrocknet
           (snd (kl_take_herb storage_id herb_display qty db))
         = kl_state_total storage_id (norm_key herb_display) getrocknet db
           - Z.min (qty - Z.min qty
                            (kl_state_total storage_id (norm_key herb_display) frisch db))
                   (kl_state_total storage_id (norm_key herb_display) getrocknet db)
      /\ (qty <= kl_state_total storage_id (norm_key herb_display) frisch db ->
          List.filter (lot_matches_state storage_id (norm_key herb_display) getrocknet)
            (kl_herb_lots (snd (kl_take_herb storage_id herb_display qty db)))
          = List.filter (lot_matches_state storage_id (norm_key herb_display) getrocknet)
              (kl_herb_lots db))).
Proof.
  split.
  - intros Hq. unfold kl_take_herb. cbn [kl_take_states].
    rewrite (proj2 (Z.leb_le qty 0) Hq). now rewrite with_lots_same.
  - intros Hq Hnd Hpos.
    pose proof (kl_take_states_by_state storage_id (norm_key herb_display) qty
                  (kl_herb_lots db) Hq Hnd Hpos) as Hs.
    unfold kl_state_total, kl_take_herb.
    destruct (kl_take_states [frisch; getrocknet] storage_id (norm_key herb_display) qty 0
                (kl_herb_lots db)) as [removed t'].
    cbn [fst snd with_lots kl_herb_lots] in *. exact Hs.
Qed.

Lemma kl_take_herb_by_state_witness :
  0 <= 6
  /\ NoDup (map lot_id (kl_herb_lots example_herb_db))
  /\ Forall (fun l => 0 < lot_qty l) (kl_herb_lots example_herb_db)
  /\ kl_state_total 1 (@norm_key latin1_text "Basil") frisch
       (snd (@kl_take_herb latin1_text 1 "Basil" 6 example_herb_db))
     = kl_state_total 1 (@norm_key latin1_text "Basil") frisch example_herb_db
       - Z.min 6 (kl_state_total 1 (@norm_key latin1_text "Basil") frisch example_herb_db)
  /\ -1 <= 0
  /\ @kl_take_herb latin1_text 1 "Basil" (-1) example_herb_db = (0, example_herb_db).
Proof.
  assert (H1 : 0 <= 6) by lia.
  assert (H2 : NoDup (map lot_id (kl_herb_lots example_herb_db))) by concrete_NoDup.
  assert (H3 : Forall (fun l => 0 < lot_qty l) (kl_herb_lots example_herb_db)).
  { unfold example_herb_db. simpl. repeat constructor; simpl; lia. }
  assert (H4 : -1 <= 0) by lia.
  split; [exact H1|]. split; [exact H2|]. split; [exact H3|].
  split; [exact (proj1 (proj2 (@kl_take_herb_by_state latin1_text 1 "Basil" 6 example_herb_db)
                          H1 H2 H3))|].
  split; [exact H4|].
  exact (proj1 (@kl_take_herb_by_state latin1_text 1 "Basil" (-1) example_herb_db) H4).
Defined.

(** ** The herb totals per state *)

Lemma fresh_and_dried_sorted (rows : list (string * LotState * Z)) :
  StronglySorted (fun a b => nocase_le (fst (fst a)) (fst (fst b)) = true) rows ->
  StronglySorted (fun a b => nocase_le (fst a) (fst b) = true) (fst (fresh_and_dried rows))
  /\ StronglySorted (fun a b => nocase_le (fst a) (fst b) = true) (snd (fresh_and_dried rows)).
Proof.
  induction 1 as [|[[d s] q] rest Hs [IH1 IH2] Hx]; [simpl; split; constructor|].
  pose proof (fresh_and_dried_In rest) as Hin.
  cbn [fresh_and_dried]. destruct (fresh_and_dried rest) as [f dr]. cbn [fst snd] in *.
  rewrite Forall_forall in Hx.
  destruct (Z.leb_spec q 0); cbn [fst snd]; [auto|].
  destruct s; cbn [fst snd].
  - split; [|assumption]. constructor; [assumption|].
    rewrite Forall_forall. intros [d' q'] Hd.
    apply (Hx (d', frisch, q')). now apply (proj1 (Hin d' q')).
  - split; [assumption|]. constructor; [assumption|].
    rewrite Forall_forall. intros [d' q'] Hd.
    apply (Hx (d', getrocknet, q')). now apply (proj2 (Hin d' q')).
Qed.

(** X15. What the herb overview shows.  [kl_totals_by_state] returns a list
    for fresh and a list for dried herbs.  An entry [(d, q)] is in the
    fresh list exactly when some herb key of the storage has a fresh lot,
    [q] is the sum over its fresh lots and is above zero, and [d] is the
    display name of the first of them; likewise for the dried list.  The
    two sums of a key add up to [kl_total_available], and both lists are in
    ascending order of the display name without regard to ASCII case. *)
Theorem kl_totals_by_state_spec (storage_id : Z) (db : DB) :
  (forall d q,
     In (d, q) (fst (kl_totals_by_state storage_id db)) <->
     exists k,
       (exists l, In l (kl_herb_lots db) /\ lot_storage_id l = storage_id
                  /\ lot_herb_key l = k /\ lot_state l = frisch)
       /\ q = kl_state_total storage_id k frisch db /\ 0 < q
       /\ d = match List.filter (lot_matches_state storage_id k frisch) (kl_herb_lots db) with
              | l :: _ => lot_herb_display l
              | [] => EmptyString
              end)
  /\ (forall d q,
        In (d, q) (snd (kl_totals_by_state storage_id db)) <->
        exists k,
          (exists l, In l (kl_herb_lots db) /\ lot_storage_id l = storage_id
                     /\ lot_herb_key l = k /\ lot_state l = getrocknet)
          /\ q = kl_state_total storage_id k getrocknet db /\ 0 < q
          /\ d = match List.filter (lot_matches_state storage_id k getrocknet)
                         (kl_herb_lots db) with
                 | l :: _ => lot_herb_display l
                 | [] => EmptyString
                 end)
  /\ (forall k,
        kl_state_total storage_id k frisch db + kl_state_total storage_id k getrocknet db
        = kl_total_available storage_id k db)
  /\ StronglySorted (fun a b => nocase_le (fst a) (fst b) = true)
       (fst (kl_totals_by_state storage_id db))
  /\ StronglySorted (fun a b => nocase_le (fst a) (fst b) = true)
       (snd (kl_totals_by_state storage_id db)).
Proof.
  assert (Hrows : forall d st q,
            In (d, st, q)
               (order_by (fun a b : string * LotState * Z =>
                            nocase_le (fst (fst a)) (fst (fst b)))
                  (map (fun g : string * LotState * (string * Z) =>
                          (fst (snd g), snd (fst g), snd (snd g)))
                     (kl_state_groups storage_id db))) <->
            exists k, In (k, st, (d, q)) (kl_state_groups storage_id db)).
  { intros d st q. rewrite order_by_In, in_map_iff. split.
    - intros ([[k st'] [d' q']] & E & Hin). simpl in E. injection E as -> -> ->. eauto.
    - intros (k & Hin). exists (k, st, (d, q)). auto. }
  assert (Hsorted :
            StronglySorted (fun a b : string * LotState * Z =>
                              nocase_le (fst (fst a)) (fst (fst b)) = true)
              (order_by (fun a b : string * LotState * Z =>
                           nocase_le (fst (fst a)) (fst (fst b)))
                 (map (fun g : string * LotState * (string * Z) =>
                         (fst (snd g), snd (fst g), snd (snd g)))
                    (kl_state_groups storage_id db)))).
  { apply (order_by_sorted
             (fun a b : string * LotState * Z => nocase_le (fst (fst a)) (fst (fst b)))).
    - intros a b. apply nocase_le_total.
    - intros a b c. apply nocase_le_trans. }
  unfold kl_totals_by_state.
  split; [|split; [|split; [|apply fresh_and_dried_sorted, Hsorted]]].
  - intros d q. rewrite (proj1 (fresh_and_dried_In _ d q)), Hrows. split.
    + intros [(k & Hin) Hq]. exists k. apply kl_state_groups_In in Hin. tauto.
    + intros (k & Hl & Eq & Hq & Ed). split; [|assumption]. exists k.
      apply kl_state_groups_In. tauto.
  - intros d q. rewrite (proj2 (fresh_and_dried_In _ d q)), Hrows. split.
    + intros [(k & Hin) Hq]. exists k. apply kl_state_groups_In in Hin. tauto.
    + intros (k & Hl & Eq & Hq & Ed). split; [|assumption]. exists k.
      apply kl_state_groups_In. tauto.
  - intros k. apply kl_state_total_split.
Qed.

(** ** More on the pantry *)

(** X16. What [pantry_take] removes.  On a pantry with one row per key and
    positive quantities: a request [qty >= 0] returns [min(qty, stock)],
    lowers the stock by it and deletes the row when nothing is left; a key
    without a row returns 0 and leaves the database as it was; the rows of
    other keys are kept, and no other table changes.  The function does not
    check the sign of the request: for [qty < 0] on an entry it returns
    [qty] and the stock grows by [- qty]. *)
Theorem pantry_take_amounts `{PyText} (storage_id : Z) (item_display : string) (qty : Z)
    (db : DB) :
  NoDup (map (fun r => (pantry_storage_id r, pantry_item_key r)) (kl_pantry db)) ->
  Forall (fun r => 0 < pantry_qty r) (kl_pantry db) ->
  (List.find (pantry_matches storage_id (norm_key item_display)) (kl_pantry db) = None ->
   pantry_take storage_id item_display qty db = (0, db))
  /\ (0 <= qty ->
      fst (pantry_take storage_id item_display qty db)
      = Z.min qty (pantry_stock storage_id (norm_key item_display) db)
      /\ pantry_stock storage_id (norm_key item_display)
           (snd (pantry_take storage_id item_display qty db))
         = pantry_stock storage_id (norm_key item_display) db
           - fst (pantry_take storage_id item_display qty db)
      /\ (pantry_stock storage_id (norm_key item_display) db <= qty ->
          List.filter (pantry_matches storage_id (norm_key item_display))
            (kl_pantry (snd (pantry_take storage_id item_display qty db))) = []))
  /\ (qty < 0 -> 0 < pantry_stock storage_id (norm_key item_display) db ->
      fst (pantry_take storage_id item_display qty db) = qty
      /\ pantry_stock storage_id (norm_key item_display)
           (snd (pantry_take storage_id item_display qty db))
         = pantry_stock storage_id (norm_key item_display) db - qty)
  /\ List.filter (fun r => negb (pantry_matches storage_id (norm_key item_display) r))
       (kl_pantry (snd (pantry_take storage_id item_display qty db)))
     = List.filter (fun r => negb (pantry_matches storage_id (norm_key item_display) r))
         (kl_pantry db)
  /\ fbh_batches (snd (pantry_take storage_id item_display qty db)) = fbh_batches db
  /\ kl_herb_lots (snd (pantry_take storage_id item_display qty db)) = kl_herb_lots db
  /\ guild_settings (snd (pantry_take storage_id item_display qty db)) = guild_settings db.
Proof.
  intros Hnd Hpos.
  pose proof (pantry_find_filter storage_id (norm_key item_display) (kl_pantry db) Hnd) as Hf.
  unfold pantry_stock, pantry_take.
  destruct (List.find _ (kl_pantry db)) as [row|] eqn:Ef.
  - assert (Hrow : 0 < pantry_qty row).
    { rewrite Forall_forall in Hpos. apply Hpos. now apply (find_some _ _ Ef). }
    rewrite Hf. cbn [map sum_Z fold_right]. rewrite Z.add_0_r.
    split; [discriminate|].
    destruct (Z.leb_spec (pantry_qty row - Z.min (pantry_qty row) qty) 0) as [Hz|Hp];
      cbn [fst snd with_pantry kl_pantry fbh_batches kl_herb_lots guild_settings].
    + rewrite filter_negb_filter, filter_negb_idem. simpl.
      split; [intros; split; [lia|split; [lia|reflexivity]]|].
      split; [intros; lia|]. auto.
    + destruct (filter_map_update (pantry_matches storage_id (norm_key item_display))
                  (fun r => {| pantry_storage_id := pantry_storage_id r;
                               pantry_item_key := pantry_item_key r;
                               pantry_item_display := pantry_item_display r;
                               pantry_qty := pantry_qty row - Z.min (pantry_qty row) qty;
                               pantry_updated_at := pantry_updated_at r;
                               pantry_updated_by := pantry_updated_by r |})
                  (kl_pantry db) (fun _ => eq_refl)) as [U1 U2].
      cbv beta in U1, U2. rewrite U1, U2, Hf. simpl.
      split; [intros; split; [lia|split; [lia|intros; lia]]|].
      split; [intros; lia|]. auto.
  - rewrite Hf. cbn [fst snd map sum_Z fold_right].
    split; [reflexivity|]. rewrite Hf. simpl.
    split; [intros; split; [lia|split; [lia|reflexivity]]|].
    split; [intros; lia|]. auto.
Qed.

Lemma pantry_take_amounts_witness :
  NoDup (map (fun r => (pantry_storage_id r, pantry_item_key r))
           (kl_pantry (@pantry_add latin1_text 2 "Mix" 5 42 60 empty_db)))
  /\ Forall (fun r => 0 < pantry_qty r)
       (kl_pantry (@pantry_add latin1_text 2 "Mix" 5 42 60 empty_db))
  /\ 0 <= 3
  /\ fst (@pantry_take latin1_text 2 "mix" 3 (@pantry_add latin1_text 2 "Mix" 5 42 60 empty_db))
     = Z.min 3 (pantry_stock 2 (@norm_key latin1_text "mix")
                  (@pantry_add latin1_text 2 "Mix" 5 42 60 empty_db))
  /\ -2 < 0
  /\ 0 < pantry_stock 2 (@norm_key latin1_text "mix")
           (@pantry_add latin1_text 2 "Mix" 5 42 60 empty_db)
  /\ fst (@pantry_take latin1_text 2 "mix" (-2)
            (@pantry_add latin1_text 2 "Mix" 5 42 60 empty_db)) = -2.
Proof.
  assert (H1 : NoDup (map (fun r => (pantry_storage_id r, pantry_item_key r))
                        (kl_pantry (@pantry_add latin1_text 2 "Mix" 5 42 60 empty_db))))
    by (vm_compute; repeat constructor; intros []).
  assert (H2 : Forall (fun r => 0 < pantry_qty r)
                 (kl_pantry (@pantry_add latin1_text 2 "Mix" 5 42 60 empty_db)))
    by (vm_compute; repeat constructor).
  assert (H3 : 0 <= 3) by lia.
  assert (H4 : -2 < 0) by lia.
  assert (H5 : 0 < pantry_stock 2 (@norm_key latin1_text "mix")
                     (@pantry_add latin1_text 2 "Mix" 5 42 60 empty_db))
    by (vm_compute; reflexivity).
  split; [exact H1|]. split; [exact H2|]. split; [exact H3|].
  split.
  { exact (proj1 (proj1 (proj2 (@pantry_take_amounts latin1_text 2 "mix" 3 _ H1 H2)) H3)). }
  split; [exact H4|]. split; [exact H5|].
  exact (proj1 (proj1 (proj2 (proj2 (@pantry_take_amounts latin1_text 2 "mix" (-2) _ H1 H2)))
                  H4 H5)).
Defined.

(** X17. Producing and using up.  When the pantry has no row for the key,
    [pantry_add] of a quantity followed by [pantry_take] of the same
    quantity, under any spelling with the same key, returns that quantity
    and gives back the database exactly as it was. *)
Theorem pantry_add_then_take `{PyText} (storage_id : Z) (s1 s2 : string) (qty user_id now : Z)
    (db : DB) :
  norm_key s2 = norm_key s1 ->
  List.find (pantry_matches storage_id (norm_key s1)) (kl_pantry db) = None ->
  pantry_take storage_id s2 qty (pantry_add storage_id s1 qty user_id now db) = (qty, db).
Proof.
  intros Ek Ef. unfold pantry_add. rewrite Ef. unfold pantry_take. rewrite Ek.
  cbn [with_pantry kl_pantry].
  rewrite (find_app_none _ _ _ Ef). cbn [List.find].
  unfold pantry_matches at 1. cbn [pantry_storage_id pantry_item_key].
  rewrite Z.eqb_refl, String.eqb_refl. cbn [andb pantry_qty].
  rewrite Z.min_id, Z.sub_diag. cbn [Z.leb Z.compare].
  rewrite filter_app. cbn [List.filter].
  unfold pantry_matches at 2. cbn [pantry_storage_id pantry_item_key].
  rewrite Z.eqb_refl, String.eqb_refl. cbn [andb negb]. rewrite app_nil_r.
  rewrite filter_all.
  - now destruct db.
  - intros x Hx. now rewrite (find_none _ _ Ef x Hx).
Qed.

Lemma pantry_add_then_take_witness :
  @norm_key latin1_text " mix " = @norm_key latin1_text "Mix"
  /\ List.find (pantry_matches 2 (@norm_key latin1_text "Mix")) (kl_pantry example_herb_db)
     = None
  /\ @pantry_take latin1_text 2 " mix " 4 (@pantry_add latin1_text 2 "Mix" 4 42 60 example_herb_db)
     = (4, example_herb_db).
Proof.
  assert (H1 : @norm_key latin1_text " mix " = @norm_key latin1_text "Mix")
    by (vm_compute; reflexivity).
  assert (H2 : List.find (pantry_matches 2 (@norm_key latin1_text "Mix"))
                 (kl_pantry example_herb_db) = None) by (vm_compute; reflexivity).
  split; [exact H1|]. split; [exact H2|].
  exact (@pantry_add_then_take latin1_text 2 "Mix" " mix " 4 42 60 example_herb_db H1 H2).
Defined.

(** ** Spoilage over time *)

Lemma status_rank_bounds (s : FbhStatus) : 0 <= status_rank s <= 2.
Proof. destruct s; simpl; lia. Qed.

Lemma status_rank_inj (s s' : FbhStatus) : status_rank s = status_rank s' -> s = s'.
Proof. destruct s, s'; simpl; intros E; (reflexivity || lia). Qed.

Lemma spoil_days_bounds (saison : string) (enabled : bool) :
  0 < fst (spoil_days saison enabled)
  /\ fst (spoil_days saison enabled) < snd (spoil_days saison enabled)
  /\ fst (spoil_days saison enabled) <= DEFAULT_FBH_SMELL_DAYS
  /\ snd (spoil_days saison enabled) <= DEFAULT_FBH_RUIN_DAYS.
Proof.
  unfold spoil_days, DEFAULT_FBH_SMELL_DAYS, DEFAULT_FBH_RUIN_DAYS.
  destruct enabled; [|simpl; lia]. unfold SAISON_TIMES.
  destruct (decide (saison = "Blattgrüne")) as [->|N1];
    [rewrite lookup_insert_eq; simpl; lia | rewrite lookup_insert_ne by congruence].
  destruct (decide (saison = "Blattleere")) as [->|N2];
    [rewrite lookup_insert_eq; simpl; lia | rewrite lookup_insert_ne by congruence].
  destruct (decide (saison = "Blattfall")) as [->|N3];
    [rewrite lookup_insert_eq; simpl; lia | rewrite lookup_insert_ne by congruence].
  destruct (decide (saison = "Blattfrische")) as [->|N4];
    [rewrite lookup_insert_eq; simpl; lia | rewrite lookup_insert_ne by congruence].
  rewrite lookup_empty. simpl. lia.
Qed.

Lemma status_rank_by_days (age_days : Z) (saison : string) (enabled : bool) :
  status_rank (fbh_status_for_age_days age_days saison enabled)
  = if snd (spoil_days saison enabled) <=? age_days then 2
    else if fst (spoil_days saison enabled) <=? age_days then 1 else 0.
Proof.
  unfold fbh_status_for_age_days. destruct (spoil_days saison enabled) as [smell ruin].
  cbn [fst snd]. destruct (ruin <=? age_days); [reflexivity|].
  now destruct (smell <=? age_days).
Qed.

Lemma status_rank_age_mono (age1 age2 : Z) (saison : string) (enabled : bool) :
  age1 <= age2 ->
  status_rank (fbh_status_for_age_days age1 saison enabled)
  <= status_rank (fbh_status_for_age_days age2 saison enabled).
Proof.
  intros Hle. rewrite !status_rank_by_days.
  destruct (Z.leb_spec (snd (spoil_days saison enabled)) age1),
           (Z.leb_spec (snd (spoil_days saison enabled)) age2),
           (Z.leb_spec (fst (spoil_days saison enabled)) age1),
           (Z.leb_spec (fst (spoil_days saison enabled)) age2); lia.
Qed.

Lemma age_days_at_mono (now1 now2 added_at : Z) :
  now1 <= now2 -> age_days_at now1 added_at <= age_days_at now2 added_at.
Proof. intros Hle. unfold age_days_at. apply Z.div_le_mono; lia. Qed.

(** The status of a pile is the worst status among its batches. *)
Lemma pile_status_worst (now : Z) (saison : string) (enabled : bool)
    (batches : list (string * Z * Z)) :
  (forall x, In x batches ->
     status_rank (fbh_status_for_age_days (age_days_at now (snd x)) saison enabled)
     <= status_rank (pile_status now saison enabled batches))
  /\ (status_rank (pile_status now saison enabled batches) = 0
      \/ exists x, In x batches /\
           fbh_status_for_age_days (age_days_at now (snd x)) saison enabled
           = pile_status now saison enabled batches).
Proof.
  unfold pile_status.
  destruct (status_flags_spec now saison enabled batches false false) as [S1 S2].
  destruct (status_flags now saison enabled batches false false) as [r sm].
  cbn [fst snd] in *. destruct r.
  - split.
    + intros x _. apply status_rank_bounds.
    + right. destruct (proj1 S1 eq_refl) as [E|Hx]; [discriminate|exact Hx].
  - assert (Hnr : forall x, In x batches ->
              fbh_status_for_age_days (age_days_at now (snd x)) saison enabled
              <> status_verdorben).
    { intros x Hx E. assert (Hf : false = true) by (apply S1; eauto). discriminate. }
    destruct sm.
    + split.
      * intros x Hx. specialize (Hnr x Hx).
        destruct (fbh_status_for_age_days _ _ _); simpl; (lia || congruence).
      * right. destruct (proj1 S2 eq_refl) as [E|Hx]; [discriminate|exact Hx].
    + split; [|now left].
      intros x Hx. specialize (Hnr x Hx).
      destruct (fbh_status_for_age_days _ _ _) eqn:E; simpl; [lia| |congruence].
      assert (Hf : false = true) by (apply S2; eauto). discriminate.
Qed.

Lemma pile_status_rank_le (now1 : Z) (s1 : string) (e1 : bool) (bs1 : list (string * Z * Z))
    (now2 : Z) (s2 : string) (e2 : bool) (bs2 : list (string * Z * Z)) :
  (forall x, In x bs1 ->
     status_rank (fbh_status_for_age_days (age_days_at now1 (snd x)) s1 e1) = 0
     \/ exists y, In y bs2 /\
          status_rank (fbh_status_for_age_days (age_days_at now1 (snd x)) s1 e1)
          <= status_rank (fbh_status_for_age_days (age_days_at now2 (snd y)) s2 e2)) ->
  status_rank (pile_status now1 s1 e1 bs1) <= status_rank (pile_status now2 s2 e2 bs2).
Proof.
  intros Hall.
  destruct (pile_status_worst now1 s1 e1 bs1) as [_ [E0|(x & Hx & Ex)]].
  - rewrite E0. apply status_rank_bounds.
  - rewrite <- Ex. destruct (Hall x Hx) as [E0|(y & Hy & Hle)].
    + rewrite E0. apply status_rank_bounds.
    + etransitivity; [exact Hle|]. now apply (proj1 (pile_status_worst now2 s2 e2 bs2)).
Qed.

Lemma inventar_anzeigen_FBH_pile (guild_id storage_id now : Z) (db : DB) :
  fbh_total storage_id db <> [] ->
  fst (inventar_anzeigen_FBH guild_id storage_id now db)
  = fbh_inventar (saison (fst (get_settings guild_id db)))
      (fbh_saison_verderb (fst (get_settings guild_id db)))
      (pile_status now (saison (fst (get_settings guild_id db)))
         (fbh_saison_verderb (fst (get_settings guild_id db)))
         (fbh_batches_for_status storage_id db))
      (fbh_total storage_id db).
Proof.
  intros Hne. rewrite inventar_anzeigen_FBH_eq by assumption. cbn [fst].
  unfold pile_status. now destruct (status_flags _ _ _ _ _ _) as [r sm].
Qed.

(** X18. Spoilage only gets worse.  Order the classes fresh < smelly <
    ruined.  The class of a batch never drops when its age grows; with
    seasonal spoilage switched on it is never below the class without it,
    for any season name; and the status that the inventory command reports
    for a non-empty pile, the worst class among its batches, never drops
    when the command is run at a later time. *)
Theorem spoilage_only_gets_worse :
  (forall guild_id storage_id now db,
     fbh_total storage_id db <> [] ->
     fst (inventar_anzeigen_FBH guild_id storage_id now db)
     = fbh_inventar (saison (fst (get_settings guild_id db)))
         (fbh_saison_verderb (fst (get_settings guild_id db)))
         (pile_status now (saison (fst (get_settings guild_id db)))
            (fbh_saison_verderb (fst (get_settings guild_id db)))
            (fbh_batches_for_status storage_id db))
         (fbh_total storage_id db))
  /\ (forall age1 age2 saison enabled,
        age1 <= age2 ->
        status_rank (fbh_status_for_age_days age1 saison enabled)
        <= status_rank (fbh_status_for_age_days age2 saison enabled))
  /\ (forall age saison,
        status_rank (fbh_status_for_age_days age saison false)
        <= status_rank (fbh_status_for_age_days age saison true))
  /\ (forall now1 now2 saison enabled batches,
        now1 <= now2 ->
        status_rank (pile_status now1 saison enabled batches)
        <= status_rank (pile_status now2 saison enabled batches)).
Proof.
  split; [exact inventar_anzeigen_FBH_pile|].
  split; [exact status_rank_age_mono|].
  split.
  - intros age saison. rewrite !status_rank_by_days.
    pose proof (spoil_days_bounds saison true) as (_ & _ & B1 & B2).
    change (spoil_days saison false) with (DEFAULT_FBH_SMELL_DAYS, DEFAULT_FBH_RUIN_DAYS).
    cbn [fst snd].
    destruct (Z.leb_spec DEFAULT_FBH_RUIN_DAYS age),
             (Z.leb_spec DEFAULT_FBH_SMELL_DAYS age),
             (Z.leb_spec (snd (spoil_days saison true)) age),
             (Z.leb_spec (fst (spoil_days saison true)) age); lia.
  - intros now1 now2 saison enabled batches Hle. apply pile_status_rank_le.
    intros x Hx. right. exists x. split; [assumption|].
    apply status_rank_age_mono. now apply age_days_at_mono.
Qed.

Lemma spoilage_only_gets_worse_witness :
  fbh_total 1 example_pile_db <> []
  /\ fst (inventar_anzeigen_FBH 9 1 example_now example_pile_db)
     = fbh_inventar (saison (fst (get_settings 9 example_pile_db)))
         (fbh_saison_verderb (fst (get_settings 9 example_pile_db)))
         (pile_status example_now (saison (fst (get_settings 9 example_pile_db)))
            (fbh_saison_verderb (fst (get_settings 9 example_pile_db)))
            (fbh_batches_for_status 1 example_pile_db))
         (fbh_total 1 example_pile_db)
  /\ 3 <= 8
  /\ status_rank (fbh_status_for_age_days 3 "Blattfall" true)
     <= status_rank (fbh_status_for_age_days 8 "Blattfall" true)
  /\ 100 <= example_now
  /\ status_rank (pile_status 100 "Blattfall" true (fbh_batches_for_status 1 example_pile_db))
     <= status_rank (pile_status example_now "Blattfall" true
                       (fbh_batches_for_status 1 example_pile_db)).
Proof.
  assert (H1 : fbh_total 1 example_pile_db <> []) by (vm_compute; discriminate).
  assert (H2 : 3 <= 8) by lia.
  assert (H3 : 100 <= example_now) by (vm_compute; discriminate).
  pose proof spoilage_only_gets_worse as (T1 & T2 & _ & T4).
  split; [exact H1|]. split; [exact (T1 9 1 example_now example_pile_db H1)|].
  split; [exact H2|]. split; [exact (T2 3 8 "Blattfall" true H2)|].
  split; [exact H3|]. exact (T4 100 example_now "Blattfall" true _ H3).
Defined.

Lemma take_loop_rows_from {R B : Type} (row_id : R -> Z) (set_qty : Z -> R -> R)
    (f : R -> B) (sel : list (Z * Z)) (tr rm : Z) (t : list R) :
  (forall q r, f (set_qty q r) = f r) ->
  forall x, In x (snd (take_loop row_id set_qty sel tr rm t)) ->
            exists r, In r t /\ f r = f x.
Proof.
  intros Hf. revert tr rm t. induction sel as [|[i q] rest IH]; intros tr rm t x Hx.
  - simpl in Hx. eauto.
  - simpl in Hx. destruct (tr <=? 0); [simpl in Hx; eauto|].
    apply IH in Hx. destruct Hx as (r & Hr & E).
    destruct (q - Z.min q tr <=? 0).
    + apply filter_In in Hr. exists r. tauto.
    + apply in_map_iff in Hr. destruct Hr as (r0 & E0 & Hr0). exists r0.
      split; [assumption|]. rewrite <- E, <- E0.
      destruct (row_id r0 =? i); [now rewrite Hf | reflexivity].
Qed.

(** X19. Takes and additions against the status of a pile.  Taking prey
    never makes the status of a pile worse, whatever storage, item and
    amount the take has.  A batch that is added less than a day before the
    inventory is shown leaves the status as it was: new prey does not make a
    smelly or ruined pile fresh, and does not spoil a fresh one. *)
Theorem pile_status_after_take_and_add `{PyText} (now : Z) (saison : string) (enabled : bool)
    (storage_id storage_id' : Z) (name : string) (qty : Z) (db : DB) :
  status_rank (pile_status now saison enabled
                 (fbh_batches_for_status storage_id
                    (snd (fbh_take storage_id' name qty db))))
  <= status_rank (pile_status now saison enabled (fbh_batches_for_status storage_id db))
  /\ (forall user_id t,
        now - t < 24 * 60 * 60 ->
        pile_status now saison enabled
          (fbh_batches_for_status storage_id (fbh_add storage_id' name qty user_id t db))
        = pile_status now saison enabled (fbh_batches_for_status storage_id db)).
Proof.
  split.
  - apply pile_status_rank_le. intros x Hx. right.
    apply fbh_batches_for_status_In in Hx. destruct Hx as (b & Hb & Hs & ->).
    rewrite fbh_take_eq in Hb. cbn [snd with_batches fbh_batches] in Hb.
    apply (take_loop_rows_from batch_id set_batch_qty
             (fun b => (batch_storage_id b, batch_added_at b))) in Hb; [|reflexivity].
    destruct Hb as (b0 & Hb0 & E). injection E as Es Ea.
    exists (batch_item_display b0, batch_qty b0, batch_added_at b0). split.
    + apply fbh_batches_for_status_In. exists b0. split; [assumption|].
      split; [congruence|reflexivity].
    + cbn [snd]. rewrite Ea. lia.
  - intros user_id t Ht.
    assert (Hnew : status_rank (fbh_status_for_age_days (age_days_at now t) saison enabled)
                   = 0).
    { rewrite status_rank_by_days.
      pose proof (spoil_days_bounds saison enabled) as (B1 & B2 & _).
      assert (Hage : age_days_at now t <= 0).
      { unfold age_days_at.
        destruct (Z.le_gt_cases 0 (now - t)) as [Hp|Hn].
        - rewrite Z.div_small by lia. lia.
        - assert (now - t <= -1) by lia.
          pose proof (Z.div_le_mono (now - t) (-1) (24 * 60 * 60) ltac:(lia) ltac:(lia)).
          change (-1 / (24 * 60 * 60)) with (-1) in *. lia. }
      destruct (Z.leb_spec (snd (spoil_days saison enabled)) (age_days_at now t)); [lia|].
      destruct (Z.leb_spec (fst (spoil_days saison enabled)) (age_days_at now t)); lia. }
    apply status_rank_inj. apply Z.le_antisymm; apply pile_status_rank_le; intros x Hx.
    + apply fbh_batches_for_status_In in Hx. destruct Hx as (b & Hb & Hs & ->).
      unfold fbh_add in Hb. cbn [fbh_batches] in Hb. apply in_app_or in Hb.
      destruct Hb as [Hb|[<-|[]]].
      * right. exists (batch_item_display b, batch_qty b, batch_added_at b). split; [|lia].
        apply fbh_batches_for_status_In. eauto.
      * left. exact Hnew.
    + right. exists x. split; [|lia].
      apply fbh_batches_for_status_In in Hx. destruct Hx as (b & Hb & Hs & ->).
      apply fbh_batches_for_status_In. exists b. split; [|auto].
      unfold fbh_add. cbn [fbh_batches]. apply in_or_app. now left.
Qed.

Lemma pile_status_after_take_and_add_witness :
  example_now - (example_now - 3600) < 24 * 60 * 60
  /\ pile_status example_now "Blattfall" true
       (fbh_batches_for_status 1
          (@fbh_add latin1_text 1 "Maus (allgemein)" 2 42 (example_now - 3600) example_pile_db))
     = pile_status example_now "Blattfall" true (fbh_batches_for_status 1 example_pile_db).
Proof.
  assert (H1 : example_now - (example_now - 3600) < 24 * 60 * 60) by (vm_compute; reflexivity).
  split; [exact H1|].
  exact (proj2 (@pile_status_after_take_and_add latin1_text example_now "Blattfall" true
                  1 1 "Maus (allgemein)" 2 example_pile_db) 42 (example_now - 3600) H1).
Defined.

(** ** Sessions of commands *)

Lemma take_loop_Forall {R : Type} (row_id : R -> Z) (set_qty : Z -> R -> R) (P : R -> Prop)
    (sel : list (Z * Z)) (tr rm : Z) (t : list R) :
  (forall q r, P r -> P (set_qty q r)) ->
  Forall P t -> Forall P (snd (take_loop row_id set_qty sel tr rm t)).
Proof.
  intros HP. revert tr rm t. induction sel as [|[i q] rest IH]; intros tr rm t Hall.
  - exact Hall.
  - simpl. destruct (tr <=? 0); [exact Hall|]. apply IH.
    destruct (q - Z.min q tr <=? 0).
    + rewrite Forall_forall in *. intros r Hr. apply filter_In in Hr. apply Hall, Hr.
    + rewrite Forall_forall in *. intros r Hr. apply in_map_iff in Hr.
      destruct Hr as (r0 & <- & Hr0). destruct (row_id r0 =? i); auto.
Qed.

Lemma kl_take_states_Forall (P : Lot -> Prop) (states : list LotState) (storage_id : Z)
    (k : string) (tr rm : Z) (t : list Lot) :
  (forall q l, P l -> P (set_lot_qty q l)) ->
  Forall P t -> Forall P (snd (kl_take_states states storage_id k tr rm t)).
Proof.
  intros HP. revert tr rm t. induction states as [|st rest IH]; intros tr rm t Hall.
  - exact Hall.
  - cbn [kl_take_states]. destruct (tr <=? 0); [exact Hall|].
    pose proof (take_loop_Forall lot_id set_lot_qty P
                  (id_qty lot_id lot_qty (kl_select storage_id k st t)) tr rm t HP Hall) as Ht.
    destruct (take_loop lot_id set_lot_qty _ tr rm t) as [[tr' rm'] t']. now apply IH.
Qed.

Section SessionFacts.
Context `{PyText}.
Variable py_upper : string -> string.
Variable cfg : Config.

Lemma fbh_take_Forall (P : Batch -> Prop) (storage_id : Z) (name : string) (qty : Z) (db : DB) :
  (forall q b, P b -> P (set_batch_qty q b)) ->
  Forall P (fbh_batches db) -> Forall P (fbh_batches (snd (fbh_take storage_id name qty db))).
Proof.
  intros HP Hall. rewrite fbh_take_eq. cbn [snd with_batches fbh_batches].
  now apply take_loop_Forall.
Qed.

Lemma kl_take_herb_Forall (P : Lot -> Prop) (storage_id : Z) (name : string) (qty : Z)
    (db : DB) :
  (forall q l, P l -> P (set_lot_qty q l)) ->
  Forall P (kl_herb_lots db) ->
  Forall P (kl_herb_lots (snd (kl_take_herb storage_id name qty db))).
Proof.
  intros HP Hall. unfold kl_take_herb.
  pose proof (kl_take_states_Forall P [frisch; getrocknet] storage_id (norm_key name) qty 0
                (kl_herb_lots db) HP Hall) as Ht.
  destruct (kl_take_states _ _ _ _ _ _) as [rm t]. exact Ht.
Qed.

Lemma settings_ok_ensure (guild_id : Z) (db : DB) :
  settings_ok db -> settings_ok (ensure_settings guild_id db).
Proof.
  intros Hs. unfold ensure_settings.
  destruct (guild_settings db !! guild_id) eqn:E; [exact Hs|].
  intros g s. cbn [guild_settings with_settings].
  destruct (decide (guild_id = g)) as [->|Hne].
  - rewrite lookup_insert_eq. intros Es. injection Es as <-. vm_compute. eauto.
  - rewrite lookup_insert_ne by assumption. apply Hs.
Qed.

Lemma settings_ok_value (guild_id : Z) (db : DB) :
  settings_ok db -> is_Some (SAISON_TIMES !! saison (fst (get_settings guild_id db))).
Proof.
  intros Hs. rewrite get_settings_value.
  destruct (guild_settings db !! guild_id) as [s|] eqn:E; cbn [default].
  - exact (Hs _ _ E).
  - vm_compute. eauto.
Qed.

Lemma settings_ok_upsert (v : Settings) (guild_id : Z) (db : DB) :
  settings_ok db ->
  is_Some (SAISON_TIMES !! saison v) ->
  settings_ok (with_settings (<[guild_id := v]> (guild_settings db)) db).
Proof.
  intros Hs Hf g s. cbn [guild_settings with_settings].
  destruct (decide (guild_id = g)) as [->|Hne].
  - rewrite lookup_insert_eq. intros Es. injection Es as <-. exact Hf.
  - rewrite lookup_insert_ne by assumption. apply Hs.
Qed.

(** What [db_ok] reads of a database. *)
Lemma db_ok_tables (st : StorageTable) (db db' : DB) :
  fbh_batches db' = fbh_batches db -> fbh_batches_seq db' = fbh_batches_seq db ->
  kl_herb_lots db' = kl_herb_lots db -> kl_herb_lots_seq db' = kl_herb_lots_seq db ->
  kl_pantry db' = kl_pantry db -> settings_ok db' ->
  db_ok cfg st db -> db_ok cfg st db'.
Proof.
  intros E1 E2 E3 E4 E5 Hs (Hp & Hk & _ & Hb & Hl & Hr).
  unfold db_ok, db_positive, db_keys_ok in *. rewrite E1, E2, E3, E4, E5. tauto.
Qed.

Lemma db_ok_with_settings (st : StorageTable) (m : gmap Z Settings) (db : DB) :
  settings_ok (with_settings m db) -> db_ok cfg st db -> db_ok cfg st (with_settings m db).
Proof. intros Hs Hok. now apply (db_ok_tables st db). Qed.

Lemma db_ok_ensure (st : StorageTable) (guild_id : Z) (db : DB) :
  db_ok cfg st db -> db_ok cfg st (ensure_settings guild_id db).
Proof.
  intros Hok. destruct (ensure_settings_tables guild_id db) as (T1 & T2 & T3 & T4 & T5).
  apply (db_ok_tables st db); auto. apply settings_ok_ensure. apply Hok.
Qed.

Lemma db_ok_mono (st st' : StorageTable) (db : DB) :
  (forall s, In s (storages st) -> In s (storages st')) ->
  db_ok cfg st db -> db_ok cfg st' db.
Proof.
  intros Hsub (Hp & Hk & Hs & Hb & Hl & Hr). unfold db_ok.
  do 3 (split; [assumption|]).
  split; [|split]; (eapply Forall_impl; [|eassumption]); simpl.
  - intros b [Hn (s & Hin & E)]. split; [assumption|]. exists s. auto.
  - intros l [Hn (s & Hin & E)]. split; [assumption|]. exists s. auto.
  - intros r [Hn (s & Hin & E)]. split; [assumption|]. exists s. auto.
Qed.

Lemma db_ok_set_saison (st : StorageTable) (guild_id : Z) (s : string) (db : DB) :
  is_Some (SAISON_TIMES !! s) -> db_ok cfg st db -> db_ok cfg st (set_saison guild_id s db).
Proof.
  intros Hs Hok. unfold set_saison. cbv zeta. rewrite settings_upsert.
  apply db_ok_with_settings; [|assumption].
  apply settings_ok_upsert; [apply Hok | exact Hs].
Qed.

Lemma db_ok_set_fbh_saison_verderb (st : StorageTable) (guild_id : Z) (a : bool) (db : DB) :
  db_ok cfg st db -> db_ok cfg st (set_fbh_saison_verderb guild_id a db).
Proof.
  intros Hok. unfold set_fbh_saison_verderb. cbv zeta. rewrite settings_upsert.
  apply db_ok_with_settings; [|assumption].
  apply settings_ok_upsert; [apply Hok|]. cbn [saison]. apply settings_ok_value, Hok.
Qed.

Lemma db_ok_set_kl_trocknen (st : StorageTable) (guild_id : Z) (a : bool) (db : DB) :
  db_ok cfg st db -> db_ok cfg st (set_kl_trocknen guild_id a db).
Proof.
  intros Hok. unfold set_kl_trocknen. cbv zeta. rewrite settings_upsert.
  apply db_ok_with_settings; [|assumption].
  apply settings_ok_upsert; [apply Hok|]. cbn [saison]. apply settings_ok_value, Hok.
Qed.

Lemma db_ok_fbh_add (st : StorageTable) (storage_id : Z) (c : string) (qty user_id now : Z)
    (db : DB) :
  0 < qty -> In c (ALLOWED_FBH_PREY cfg) ->
  (exists s, In s (storages st) /\ st_id s = storage_id /\ st_type s = TYPE_FBH) ->
  db_ok cfg st db -> db_ok cfg st (fbh_add storage_id c qty user_id now db).
Proof.
  intros Hq Hc Hst (Hp & Hk & Hs & Hb & Hl & Hr).
  destruct (fbh_add_invariants storage_id c qty user_id now db Hq Hp Hk) as [Hp' Hk'].
  unfold db_ok. do 2 (split; [assumption|]).
  unfold fbh_add. cbn [fbh_batches kl_herb_lots kl_pantry].
  split; [exact Hs|]. split; [|auto].
  apply Forall_snoc; [assumption|]. split; cbn; eauto.
Qed.

Lemma db_ok_fbh_take (st : StorageTable) (storage_id : Z) (name : string) (qty : Z) (db : DB) :
  db_ok cfg st db -> db_ok cfg st (snd (fbh_take storage_id name qty db)).
Proof.
  intros (Hp & Hk & Hs & Hb & Hl & Hr).
  destruct (fbh_take_invariants storage_id name qty db Hp Hk) as [Hp' Hk'].
  destruct (fbh_take_other_tables storage_id name qty db) as (T1 & _ & T3 & _ & T5).
  unfold db_ok. do 2 (split; [assumption|]). rewrite T3, T5.
  split; [unfold settings_ok; now rewrite T1|]. split; [|auto].
  apply fbh_take_Forall; [|assumption]. intros q b Hbok. exact Hbok.
Qed.

Lemma db_ok_kl_add_herb (st : StorageTable) (storage_id : Z) (c : string)
    (qty user_id now : Z) (db : DB) :
  0 < qty -> In c (ALLOWED_KL_HERBS cfg) ->
  (exists s, In s (storages st) /\ st_id s = storage_id /\ st_type s = TYPE_KL) ->
  db_ok cfg st db -> db_ok cfg st (kl_add_herb storage_id c qty user_id now db).
Proof.
  intros Hq Hc Hst (Hp & Hk & Hs & Hb & Hl & Hr).
  destruct (kl_add_herb_invariants storage_id c qty user_id now db Hq Hp Hk) as [Hp' Hk'].
  unfold db_ok. do 2 (split; [assumption|]).
  unfold kl_add_herb. cbn [fbh_batches kl_herb_lots kl_pantry].
  split; [exact Hs|]. split; [assumption|]. split; [|assumption].
  apply Forall_snoc; [assumption|]. split; cbn; eauto.
Qed.

Lemma db_ok_kl_take_herb (st : StorageTable) (storage_id : Z) (name : string) (qty : Z)
    (db : DB) :
  db_ok cfg st db -> db_ok cfg st (snd (kl_take_herb storage_id name qty db)).
Proof.
  intros (Hp & Hk & Hs & Hb & Hl & Hr).
  destruct (kl_take_herb_invariants storage_id name qty db Hp Hk) as [Hp' Hk'].
  destruct (kl_take_herb_other_tables storage_id name qty db) as (T1 & T2 & _ & _ & T5).
  unfold db_ok. do 2 (split; [assumption|]). rewrite T2, T5.
  split; [unfold settings_ok; now rewrite T1|]. split; [assumption|]. split; [|assumption].
  apply kl_take_herb_Forall; [|assumption]. intros q l Hlok. exact Hlok.
Qed.

Lemma db_ok_kl_mark_dried (st : StorageTable) (storage_id cutoff : Z) (db : DB) :
  db_ok cfg st db -> db_ok cfg st (kl_mark_dried_older_than storage_id cutoff db).
Proof.
  intros (Hp & Hk & Hs & Hb & Hl & Hr).
  destruct (kl_mark_dried_invariants storage_id cutoff db Hp Hk) as [Hp' Hk'].
  unfold db_ok. do 2 (split; [assumption|]).
  unfold kl_mark_dried_older_than. cbn [with_lots fbh_batches kl_herb_lots kl_pantry].
  split; [exact Hs|]. split; [assumption|]. split; [|assumption].
  rewrite Forall_forall in *. intros l Hin. apply in_map_iff in Hin.
  destruct Hin as (l0 & <- & Hl0). specialize (Hl l0 Hl0).
  destruct (_ && _); exact Hl.
Qed.

Lemma db_ok_kl_apply_drying (st : StorageTable) (guild_id storage_id now : Z) (db : DB) :
  db_ok cfg st db -> db_ok cfg st (kl_apply_drying_if_enabled guild_id storage_id now db).
Proof.
  intros Hok. rewrite kl_apply_drying_eq.
  destruct (kl_trocknen _); [apply db_ok_kl_mark_dried|]; now apply db_ok_ensure.
Qed.

Lemma inventar_anzeigen_FBH_db (guild_id storage_id now : Z) (db : DB) :
  snd (inventar_anzeigen_FBH guild_id storage_id now db) = ensure_settings guild_id db.
Proof using Type.
  unfold inventar_anzeigen_FBH, get_settings.
  destruct (fbh_total storage_id (ensure_settings guild_id db)); [reflexivity|].
  now destruct (status_flags _ _ _ _ _ _).
Qed.

Lemma db_ok_inventar_FBH (st : StorageTable) (guild_id storage_id now : Z) (db : DB) :
  db_ok cfg st db -> db_ok cfg st (snd (inventar_anzeigen_FBH guild_id storage_id now db)).
Proof. intros Hok. rewrite inventar_anzeigen_FBH_db. now apply db_ok_ensure. Qed.

Lemma db_ok_subtract_ingredients (st : StorageTable) (storage_id menge : Z)
    (recipe : list (string * Z)) (db : DB) :
  db_ok cfg st db -> db_ok cfg st (snd (subtract_ingredients cfg storage_id menge recipe db)).
Proof.
  revert db. induction recipe as [|[n b] rest IH]; intros db Hok; [exact Hok|].
  cbn [subtract_ingredients].
  pose proof (db_ok_kl_take_herb st storage_id (canonical n (ALLOWED_KL_SET cfg)) (b * menge)
                db Hok) as Hok'.
  destruct (kl_take_herb storage_id (canonical n (ALLOWED_KL_SET cfg)) (b * menge) db)
    as [removed db']. cbn [snd] in Hok'.
  destruct (negb (removed =? b * menge)); [exact Hok'|]. now apply IH.
Qed.

Lemma db_ok_pantry_add (st : StorageTable) (storage_id : Z) (rezept : string)
    (qty user_id now : Z) (db : DB) :
  0 < qty -> is_Some (KL_RECIPES cfg !! rezept) ->
  (exists s, In s (storages st) /\ st_id s = storage_id /\ st_type s = TYPE_KL) ->
  db_ok cfg st db -> db_ok cfg st (pantry_add storage_id rezept qty user_id now db).
Proof.
  intros Hq Hrez Hst (Hp & Hk & Hs & Hb & Hl & Hr).
  destruct (pantry_add_invariants storage_id rezept qty user_id now db Hq Hp Hk) as [Hp' Hk'].
  destruct (pantry_add_other_tables storage_id rezept qty user_id now db) as (T1 & T2 & T3).
  unfold db_ok. do 2 (split; [assumption|]). rewrite T1, T2.
  split; [unfold settings_ok; now rewrite T3|]. do 2 (split; [assumption|]).
  unfold pantry_add. destruct (List.find _ (kl_pantry db)); cbn [with_pantry kl_pantry].
  - rewrite Forall_forall in *. intros r Hin. apply in_map_iff in Hin.
    destruct Hin as (r0 & <- & Hr0). specialize (Hr r0 Hr0).
    destruct (pantry_matches _ _ r0); exact Hr.
  - apply Forall_snoc; [assumption|]. split; cbn; eauto.
Qed.

Lemma db_ok_kl_herstellen (st : StorageTable) (guild_id storage_id : Z) (rezept : string)
    (menge user_id now : Z) (db : DB) :
  (exists s, In s (storages st) /\ st_id s = storage_id /\ st_type s = TYPE_KL) ->
  db_ok cfg st db ->
  db_ok cfg st (snd (kl_herstellen cfg guild_id storage_id rezept menge user_id now db)).
Proof.
  intros Hst Hok. unfold kl_herstellen.
  destruct (Z.leb_spec menge 0) as [Hle|Hgt]; [exact Hok|].
  destruct (KL_RECIPES cfg !! rezept) as [recipe|] eqn:Er; [|exact Hok].
  pose proof (db_ok_kl_apply_drying st guild_id storage_id now db Hok) as Hok1.
  destruct (check_availability cfg storage_id menge recipe _); [|exact Hok1].
  pose proof (db_ok_subtract_ingredients st storage_id menge recipe _ Hok1) as Hok2.
  destruct (subtract_ingredients cfg storage_id menge recipe _) as [ok db2].
  cbn [snd] in Hok2. destruct ok; [|exact Hok2].
  cbn [snd]. apply db_ok_pantry_add; eauto.
Qed.

Lemma storage_get_found (guild_id : Z) (type_ name : string) (st : StorageTable)
    (storage_id owner : Z) :
  storage_get guild_id type_ name st = Some (storage_id, owner) ->
  exists s, In s (storages st) /\ st_id s = storage_id /\ st_type s = type_
            /\ st_guild_id s = guild_id /\ st_owner_role_id s = owner.
Proof using Type.
  unfold storage_get.
  destruct (List.find _ (storages st)) as [s|] eqn:Ef; [|discriminate].
  intros E. injection E as <- <-. apply find_some in Ef. destruct Ef as [Hin Hm].
  apply storage_is_true in Hm. destruct Hm as (A & B & C). exists s. auto.
Qed.

Lemma canonical_in_list (xs : list string) (name : string) :
  is_allowed name (allowed_map_of xs) = true -> In (canonical name (allowed_map_of xs)) xs.
Proof.
  unfold is_allowed, canonical. intros Ha. apply bool_decide_eq_true in Ha.
  destruct Ha as [x Hx]. rewrite Hx. cbn [default].
  now apply (proj1 (allowed_map_of_spec xs (norm_key name)) x).
Qed.

Lemma storage_create_ok (guild_id : Z) (type_ name : string) (owner now : Z)
    (t : StorageTable) :
  storages_ok t ->
  storages_ok (snd (storage_create guild_id type_ name owner now t))
  /\ (forall s, In s (storages t) ->
                In s (storages (snd (storage_create guild_id type_ name owner now t))))
  /\ (forall s, In s (storages (snd (storage_create guild_id type_ name owner now t))) ->
                In s (storages t) \/ st_type s = type_).
Proof.
  intros (K1 & K2 & K3). unfold storage_create.
  destruct (existsb _ (storages t)) eqn:Ex; cbn [snd storages].
  - split; [now repeat split|]. auto.
  - split; [|split].
    + unfold storages_ok. cbn [storages storages_seq]. split; [|split].
      * rewrite map_app. simpl. apply NoDup_snoc; [assumption|].
        intros Hin. apply in_map_iff in Hin. destruct Hin as (s & E & Hs).
        injection E as E1 E2 E3.
        assert (Ht : existsb (storage_is guild_id type_ (py_strip name)) (storages t) = true).
        { apply existsb_exists. exists s. split; [assumption|]. now apply storage_is_true. }
        congruence.
      * rewrite map_app. simpl. apply NoDup_snoc; [assumption|].
        intros Hin. apply in_map_iff in Hin. destruct Hin as (s & E & Hs).
        rewrite Forall_forall in K3. specialize (K3 s Hs). lia.
      * apply Forall_snoc; [|simpl; lia].
        eapply Forall_impl; [|exact K3]. simpl. intros; lia.
    + intros s Hs. apply in_or_app. now left.
    + intros s Hs. apply in_app_or in Hs. destruct Hs as [Hs|[<-|[]]]; auto.
Qed.

Lemma run_command_ok (rq : Request) (s : StorageTable * DB) :
  state_ok cfg s -> state_ok cfg (snd (run_command py_upper cfg rq s)).
Proof.
  destruct s as [st db]. intros (Hst & Hty & Hok). cbn [fst snd] in *.
  unfold run_command, on_ledger, on_storages. cbn [fst snd].
  destruct rq as [[guild member] now c]. cbn [req_interaction req_now req_command].
  assert (Hsame : state_ok cfg (st, db)) by (split; [exact Hst|split; [exact Hty|exact Hok]]).
  destruct c.
  - (* lager_erstellen *)
    unfold lager_erstellen. cbn [interaction_guild interaction_member].
    destruct guild as [g|], member as [m|]; try exact Hsame.
    destruct (negb (is_mod_or_admin m)); [exact Hsame|].
    destruct (negb (_ || _)) eqn:Et; [exact Hsame|].
    destruct (storage_create_ok g (py_upper (py_strip typ)) name rolle now st Hst)
      as (Hst' & Hsub & Hnew).
    destruct (storage_create g (py_upper (py_strip typ)) name rolle now st) as [[id|] st'];
      cbn [fst snd] in *; (split; [exact Hst'|]); (split; [|now apply (db_ok_mono st)]);
      rewrite Forall_forall in *; intros x Hx; (destruct (Hnew x Hx) as [Hold| ->]; [auto|]);
      apply negb_false_iff, orb_true_iff in Et;
      destruct Et as [Et|Et]; apply String.eqb_eq in Et; auto.
  - (* saison_setzen *)
    unfold saison_setzen. cbn [interaction_guild interaction_member].
    destruct guild as [g|], member as [m|]; try exact Hsame.
    destruct (negb (is_mod_or_admin m)); [exact Hsame|].
    destruct (SAISON_TIMES !! py_strip s) eqn:Es; [|exact Hsame].
    cbn [fst snd]. do 2 (split; [assumption|]). apply db_ok_set_saison; [|assumption].
    rewrite Es. eauto.
  - (* fbh_saison_verderb *)
    unfold fbh_saison_verderb_command. cbn [interaction_guild interaction_member].
    destruct guild as [g|], member as [m|]; try exact Hsame.
    destruct (negb (is_mod_or_admin m)); [exact Hsame|].
    cbn [fst snd]. do 2 (split; [assumption|]). now apply db_ok_set_fbh_saison_verderb.
  - (* kl_trocknen *)
    unfold kl_trocknen_command. cbn [interaction_guild interaction_member].
    destruct guild as [g|], member as [m|]; try exact Hsame.
    destruct (negb (is_mod_or_admin m)); [exact Hsame|].
    cbn [fst snd]. do 2 (split; [assumption|]). now apply db_ok_set_kl_trocknen.
  - (* inventar_anzeigen *)
    unfold inventar_anzeigen. cbn [interaction_guild interaction_member].
    destruct guild as [g|], member as [m|]; try exact Hsame.
    destruct (negb (_ || _)); [exact Hsame|].
    destruct (storage_get g _ lager st) as [[sid owner]|]; [|exact Hsame].
    destruct (negb (assert_storage_access m owner)); [exact Hsame|].
    destruct (String.eqb _ TYPE_FBH).
    + pose proof (db_ok_inventar_FBH st g sid now db Hok) as Hok'.
      destruct (inventar_anzeigen_FBH g sid now db) as [r db']. cbn [fst snd] in *.
      split; [exact Hst|split; [exact Hty|exact Hok']].
    + pose proof (db_ok_kl_apply_drying st g sid now db Hok) as Hok'.
      destruct (kl_totals_by_state sid _) as [fresh dried]. cbn [fst snd].
      split; [exact Hst|split; [exact Hty|exact Hok']].
  - (* fbh_hinzufuegen *)
    unfold fbh_hinzufuegen. cbn [interaction_guild interaction_member].
    destruct guild as [g|], member as [m|]; try exact Hsame.
    destruct (Z.leb_spec menge 0) as [Hle|Hgt]; [exact Hsame|].
    destruct (storage_get g TYPE_FBH lager st) as [[sid owner]|] eqn:Eg; [|exact Hsame].
    destruct (negb (assert_storage_access m owner)); [exact Hsame|].
    destruct (is_allowed (apply_aliases_fbh beute) (ALLOWED_FBH_SET cfg)) eqn:Ea;
      [|exact Hsame].
    cbn [negb fst snd]. do 2 (split; [assumption|]).
    apply storage_get_found in Eg. destruct Eg as (x & Hx & E1 & E2 & _).
    apply db_ok_fbh_add; eauto. now apply canonical_in_list.
  - (* fbh_entnehmen *)
    unfold fbh_entnehmen. cbn [interaction_guild interaction_member].
    destruct guild as [g|], member as [m|]; try exact Hsame.
    destruct (Z.leb_spec menge 0) as [Hle|Hgt]; [exact Hsame|].
    destruct (storage_get g TYPE_FBH lager st) as [[sid owner]|] eqn:Eg; [|exact Hsame].
    destruct (negb (assert_storage_access m owner)); [exact Hsame|].
    destruct (is_allowed (apply_aliases_fbh beute) (ALLOWED_FBH_SET cfg)) eqn:Ea;
      [|exact Hsame].
    cbn [negb].
    pose proof (db_ok_fbh_take st sid
                  (canonical (apply_aliases_fbh beute) (ALLOWED_FBH_SET cfg)) menge db Hok)
      as Hok'.
    destruct (fbh_take sid _ menge db) as [removed db']. cbn [fst snd] in *.
    split; [exact Hst|split; [exact Hty|exact Hok']].
  - (* kl_hinzufuegen *)
    unfold kl_hinzufuegen. cbn [interaction_guild interaction_member].
    destruct guild as [g|], member as [m|]; try exact Hsame.
    destruct (Z.leb_spec menge 0) as [Hle|Hgt]; [exact Hsame|].
    destruct (storage_get g TYPE_KL lager st) as [[sid owner]|] eqn:Eg; [|exact Hsame].
    destruct (negb (assert_storage_access m owner)); [exact Hsame|].
    destruct (is_allowed kraut (ALLOWED_KL_SET cfg)) eqn:Ea; [|exact Hsame].
    cbn [negb fst snd]. do 2 (split; [assumption|]).
    apply storage_get_found in Eg. destruct Eg as (x & Hx & E1 & E2 & _).
    apply db_ok_kl_add_herb; eauto.
    + now apply canonical_in_list.
    + now apply db_ok_kl_apply_drying.
  - (* kl_entnehmen *)
    unfold kl_entnehmen. cbn [interaction_guild interaction_member].
    destruct guild as [g|], member as [m|]; try exact Hsame.
    destruct (Z.leb_spec menge 0) as [Hle|Hgt]; [exact Hsame|].
    destruct (storage_get g TYPE_KL lager st) as [[sid owner]|] eqn:Eg; [|exact Hsame].
    destruct (negb (assert_storage_access m owner)); [exact Hsame|].
    destruct (is_allowed kraut (ALLOWED_KL_SET cfg)) eqn:Ea; [|exact Hsame].
    cbn [negb].
    pose proof (db_ok_kl_take_herb st sid (canonical kraut (ALLOWED_KL_SET cfg)) menge _
                  (db_ok_kl_apply_drying st g sid now db Hok)) as Hok'.
    destruct (kl_take_herb sid _ menge _) as [removed db']. cbn [fst snd] in *.
    split; [exact Hst|split; [exact Hty|exact Hok']].
  - (* kl_herstellen *)
    unfold kl_herstellen_command. cbn [interaction_guild interaction_member].
    destruct guild as [g|], member as [m|]; try exact Hsame.
    destruct (Z.leb_spec menge 0) as [Hle|Hgt]; [exact Hsame|].
    destruct (storage_get g TYPE_KL lager st) as [[sid owner]|] eqn:Eg; [|exact Hsame].
    destruct (negb (assert_storage_access m owner)); [exact Hsame|].
    apply storage_get_found in Eg. destruct Eg as (x & Hx & E1 & E2 & _).
    pose proof (db_ok_kl_herstellen st g sid rezept menge (member_id m) now db
                  ltac:(eauto) Hok) as Hok'.
    destruct (kl_herstellen cfg g sid rezept menge (member_id m) now db) as [r db'].
    cbn [fst snd] in *. split; [exact Hst|split; [exact Hty|exact Hok']].
Qed.

Lemma run_session_ok (rqs : list Request) (s : StorageTable * DB) :
  state_ok cfg s -> state_ok cfg (run_session py_upper cfg rqs s).
Proof.
  revert s. induction rqs as [|rq rqs IH]; intros s Hs; [exact Hs|].
  cbn [run_session fold_left]. apply IH. now apply run_command_ok.
Qed.

Lemma empty_state_ok : state_ok cfg (empty_storages, empty_db).
Proof.
  unfold state_ok, db_ok, storages_ok, settings_ok. cbn.
  destruct empty_db_invariants as [Hp Hk].
  repeat split; try constructor; try assumption.
  intros g s Hl. rewrite lookup_empty in Hl. discriminate.
Qed.
End SessionFacts.

(** X20. The commands keep the two stores well-formed.  Start from the
    empty stores, or from any stores that satisfy the following, and run
    any sequence of requests: any users, times, commands and arguments,
    accepted or refused.  Afterwards the storages still have unique ids and
    unique (tenant, type, name) triples and each is of type FBH or KL; every
    quantity in the ledger is above zero and the keys are unique; every
    stored season is one of the table; every batch names an allowed prey in
    the spelling of the configuration and lies in a storage of type FBH;
    every lot names an allowed herb and lies in a storage of type KL; every
    pantry row names a recipe and lies in a storage of type KL. *)
Theorem sessions_keep_the_stores_well_formed `{PyText} (py_upper : string -> string)
    (cfg : Config) (rqs : list Request) :
  state_ok cfg (run_session py_upper cfg rqs (empty_storages, empty_db))
  /\ (forall s, state_ok cfg s -> state_ok cfg (run_session py_upper cfg rqs s)).
Proof.
  split.
  - apply run_session_ok, empty_state_ok.
  - intros s. apply run_session_ok.
Qed.

Lemma sessions_keep_the_stores_well_formed_witness :
  @state_ok latin1_text example_cfg (empty_storages, empty_db)
  /\ @state_ok latin1_text example_cfg
       (@run_session latin1_text ascii_upper example_cfg example_session
          (empty_storages, empty_db))
  /\ map (fun x => (st_id x, st_type x, st_name x))
       (storages
          (fst (@run_session latin1_text ascii_upper example_cfg example_session
                  (empty_storages, empty_db))))
     = [(1, "FBH", "Frischbeute"); (2, "KL", "Kräuter")]
  /\ map (fun b => (batch_storage_id b, batch_item_display b, batch_qty b))
       (fbh_batches
          (snd (@run_session latin1_text ascii_upper example_cfg example_session
                  (empty_storages, empty_db))))
     = [(1, "Maus (allgemein)", 1)]
  /\ map (fun l => (lot_storage_id l, lot_herb_display l, lot_qty l))
       (kl_herb_lots
          (snd (@run_session latin1_text ascii_upper example_cfg example_session
                  (empty_storages, empty_db))))
     = []
  /\ map (fun r => (pantry_storage_id r, pantry_item_display r, pantry_qty r))
       (kl_pantry
          (snd (@run_session latin1_text ascii_upper example_cfg example_session
                  (empty_storages, empty_db))))
     = [(2, "Mix", 2)].
Proof.
  assert (H1 : @state_ok latin1_text example_cfg (empty_storages, empty_db)).
  { unfold state_ok, db_ok, storages_ok, db_positive, db_keys_ok, settings_ok. cbn.
    repeat split; try constructor.
    intros g s Hl. rewrite lookup_empty in Hl. discriminate. }
  split; [exact H1|].
  split.
  { exact (proj2 (@sessions_keep_the_stores_well_formed latin1_text ascii_upper example_cfg
                    example_session) _ H1). }
  repeat split; vm_compute; reflexivity.
Defined.

Section RefusalFacts.
Context `{PyText}.
Variable py_upper : string -> string.
Variable cfg : Config.

Lemma storage_create_error (guild_id : Z) (type_ name : string) (owner now : Z)
    (t t' : StorageTable) :
  storage_create guild_id type_ name owner now t = (integrity_error, t') -> t' = t.
Proof.
  unfold storage_create. destruct (existsb _ (storages t)); intros E; now inversion E.
Qed.

Lemma stranger_no_access (m : Member) (st : StorageTable) (guild_id : Z) (type_ name : string)
    (storage_id owner : Z) :
  is_mod_or_admin m = false ->
  (forall x, In x (storages st) -> member_has_role_id m (st_owner_role_id x) = false) ->
  storage_get guild_id type_ name st = Some (storage_id, owner) ->
  assert_storage_access m owner = false.
Proof.
  intros Hmod Hrole Eg. apply storage_get_found in Eg.
  destruct Eg as (x & Hx & _ & _ & _ & <-).
  unfold assert_storage_access. now rewrite (Hrole x Hx), Hmod.
Qed.

Lemma refused_changes_nothing (rq : Request) (s : StorageTable * DB) :
  refused (fst (run_command py_upper cfg rq s)) = true ->
  snd (run_command py_upper cfg rq s) = s.
Proof.
  destruct s as [st db]. destruct rq as [[guild member] now c].
  unfold run_command, on_ledger, on_storages.
  cbn [fst snd req_interaction req_now req_command].
  destruct c.
  - unfold lager_erstellen. cbn [interaction_guild interaction_member].
    split_cases; cbn [fst snd refused]; intros Hr; try discriminate Hr; try reflexivity.
    f_equal. eapply storage_create_error. eassumption.
  - unfold saison_setzen. cbn [interaction_guild interaction_member].
    split_cases; cbn [fst snd refused]; intros Hr; try discriminate Hr; reflexivity.
  - unfold fbh_saison_verderb_command. cbn [interaction_guild interaction_member].
    split_cases; cbn [fst snd refused]; intros Hr; try discriminate Hr; reflexivity.
  - unfold kl_trocknen_command. cbn [interaction_guild interaction_member].
    split_cases; cbn [fst snd refused]; intros Hr; try discriminate Hr; reflexivity.
  - unfold inventar_anzeigen. cbn [interaction_guild interaction_member].
    split_cases; cbn [fst snd refused]; intros Hr; try discriminate Hr; reflexivity.
  - unfold fbh_hinzufuegen. cbn [interaction_guild interaction_member].
    split_cases; cbn [fst snd refused]; intros Hr; try discriminate Hr; reflexivity.
  - unfold fbh_entnehmen. cbn [interaction_guild interaction_member].
    split_cases; cbn [fst snd refused]; intros Hr; try discriminate Hr; reflexivity.
  - unfold kl_hinzufuegen. cbn [interaction_guild interaction_member].
    split_cases; cbn [fst snd refused]; intros Hr; try discriminate Hr; reflexivity.
  - unfold kl_entnehmen. cbn [interaction_guild interaction_member].
    split_cases; cbn [fst snd refused]; intros Hr; try discriminate Hr; reflexivity.
  - unfold kl_herstellen_command. cbn [interaction_guild interaction_member].
    split_cases; cbn [fst snd refused]; intros Hr; try discriminate Hr; reflexivity.
Qed.

Lemma outside_a_server (rq : Request) (s : StorageTable * DB) :
  interaction_guild (req_interaction rq) = None
  \/ interaction_member (req_interaction rq) = None ->
  run_command py_upper cfg rq s = (nur_auf_server, s).
Proof.
  destruct s as [st db]. destruct rq as [[guild member] now c].
  cbn [req_interaction interaction_guild interaction_member].
  intros Hnone.
  assert (Hcase : guild = None \/ (exists g, guild = Some g /\ member = None)).
  { destruct guild as [g|]; [right|now left]. destruct Hnone; [discriminate|eauto]. }
  unfold run_command, on_ledger, on_storages.
  cbn [fst snd req_interaction req_now req_command].
  destruct Hcase as [->|(g & -> & ->)]; destruct c; try reflexivity; now destruct member.
Qed.

Lemma stranger_changes_nothing (rq : Request) (s : StorageTable * DB) (m : Member) :
  interaction_member (req_interaction rq) = Some m ->
  is_mod_or_admin m = false ->
  (forall x, In x (storages (fst s)) -> member_has_role_id m (st_owner_role_id x) = false) ->
  refused (fst (run_command py_upper cfg rq s)) = true
  /\ snd (run_command py_upper cfg rq s) = s.
Proof.
  destruct s as [st db]. destruct rq as [[guild member] now c].
  cbn [fst req_interaction interaction_member]. intros -> Hmod Hrole.
  pose proof (stranger_no_access m st) as Hno.
  unfold run_command, on_ledger, on_storages.
  cbn [fst snd req_interaction req_now req_command].
  destruct c.
  - unfold lager_erstellen. cbn [interaction_guild interaction_member]. rewrite Hmod.
    now destruct guild.
  - unfold saison_setzen. cbn [interaction_guild interaction_member]. rewrite Hmod.
    now destruct guild.
  - unfold fbh_saison_verderb_command. cbn [interaction_guild interaction_member].
    rewrite Hmod. now destruct guild.
  - unfold kl_trocknen_command. cbn [interaction_guild interaction_member]. rewrite Hmod.
    now destruct guild.
  - unfold inventar_anzeigen. cbn [interaction_guild interaction_member].
    destruct guild as [g|]; [|now split]. destruct (negb (_ || _)); [now split|].
    destruct (storage_get g _ lager st) as [[sid owner]|] eqn:Eg; [|now split].
    now rewrite (Hno _ _ _ _ _ Hmod Hrole Eg).
  - unfold fbh_hinzufuegen. cbn [interaction_guild interaction_member].
    destruct guild as [g|]; [|now split]. destruct (menge <=? 0); [now split|].
    destruct (storage_get g TYPE_FBH lager st) as [[sid owner]|] eqn:Eg; [|now split].
    now rewrite (Hno _ _ _ _ _ Hmod Hrole Eg).
  - unfold fbh_entnehmen. cbn [interaction_guild interaction_member].
    destruct guild as [g|]; [|now split]. destruct (menge <=? 0); [now split|].
    destruct (storage_get g TYPE_FBH lager st) as [[sid owner]|] eqn:Eg; [|now split].
    now rewrite (Hno _ _ _ _ _ Hmod Hrole Eg).
  - unfold kl_hinzufuegen. cbn [interaction_guild interaction_member].
    destruct guild as [g|]; [|now split]. destruct (menge <=? 0); [now split|].
    destruct (storage_get g TYPE_KL lager st) as [[sid owner]|] eqn:Eg; [|now split].
    now rewrite (Hno _ _ _ _ _ Hmod Hrole Eg).
  - unfold kl_entnehmen. cbn [interaction_guild interaction_member].
    destruct guild as [g|]; [|now split]. destruct (menge <=? 0); [now split|].
    destruct (storage_get g TYPE_KL lager st) as [[sid owner]|] eqn:Eg; [|now split].
    now rewrite (Hno _ _ _ _ _ Hmod Hrole Eg).
  - unfold kl_herstellen_command. cbn [interaction_guild interaction_member].
    destruct guild as [g|]; [|now split]. destruct (menge <=? 0); [now split|].
    destruct (storage_get g TYPE_KL lager st) as [[sid owner]|] eqn:Eg; [|now split].
    now rewrite (Hno _ _ _ _ _ Hmod Hrole Eg).
Qed.
End RefusalFacts.

(** X21. A refused request writes nothing.  The commands meant here are
    the ten of [Command]: lager_erstellen, saison_setzen,
    fbh_saison_verderb, kl_trocknen, inventar_anzeigen, fbh_hinzufuegen,
    fbh_entnehmen, kl_hinzufuegen, kl_entnehmen and kl_herstellen.  The
    three commands that only read, lager_auflisten, rezepte_anzeigen and
    kl_vorraete, are not among them.  When one of the ten answers with a
    refusal (not on a server, quantity not positive, storage not found, no
    permission, mod or admin only, name not allowed, type not valid,
    storage exists already, season not valid) both stores are exactly as
    before.  Each of the ten refuses a request that comes from outside a
    server or from a user that is not a member.  Each of the ten refuses a
    member who is neither mod nor admin and holds the owner role of no
    storage, and leaves both stores as they are. *)
Theorem refused_requests_change_nothing `{PyText} (py_upper : string -> string) (cfg : Config)
    (rq : Request) (s : StorageTable * DB) :
  (refused (fst (run_command py_upper cfg rq s)) = true ->
   snd (run_command py_upper cfg rq s) = s)
  /\ (interaction_guild (req_interaction rq) = None
      \/ interaction_member (req_interaction rq) = None ->
      run_command py_upper cfg rq s = (nur_auf_server, s))
  /\ (forall m,
        interaction_member (req_interaction rq) = Some m ->
        is_mod_or_admin m = false ->
        (forall x, In x (storages (fst s)) ->
                   member_has_role_id m (st_owner_role_id x) = false) ->
        refused (fst (run_command py_upper cfg rq s)) = true
        /\ snd (run_command py_upper cfg rq s) = s).
Proof.
  split; [apply refused_changes_nothing|].
  split; [apply outside_a_server|].
  intros m. apply stranger_changes_nothing.
Qed.

Lemma refused_requests_change_nothing_witness :
  let s := @run_session latin1_text ascii_upper example_cfg (firstn 5 example_session)
             (empty_storages, empty_db) in
  let rq := {| req_interaction := {| interaction_guild := Some 9;
                                     interaction_member := Some example_stranger |};
               req_now := 21;
               req_command := cmd_fbh_entnehmen "Frischbeute" "Maus (allgemein)" 1 |} in
  interaction_member (req_interaction rq) = Some example_stranger
  /\ @is_mod_or_admin latin1_text example_stranger = false
  /\ (forall x, In x (storages (fst s)) ->
                member_has_role_id example_stranger (st_owner_role_id x) = false)
  /\ fst (@run_command latin1_text ascii_upper example_cfg rq s) = keine_berechtigung
  /\ snd (@run_command latin1_text ascii_upper example_cfg rq s) = s.
Proof.
  intros s rq.
  assert (H1 : interaction_member (req_interaction rq) = Some example_stranger)
    by reflexivity.
  assert (H2 : @is_mod_or_admin latin1_text example_stranger = false)
    by (vm_compute; reflexivity).
  assert (H3 : forall x, In x (storages (fst s)) ->
                         member_has_role_id example_stranger (st_owner_role_id x) = false)
    by (intros x _; reflexivity).
  split; [exact H1|]. split; [exact H2|]. split; [exact H3|].
  split; [vm_compute; reflexivity|].
  exact (proj2 (proj2 (proj2 (@refused_requests_change_nothing latin1_text ascii_upper
                                example_cfg rq s)) example_stranger H1 H2 H3)).
Defined.

(** ** Autocomplete *)

Lemma prefix_spec (a b : string) :
  String.prefix a b = true <-> exists s, b = String.append a s.
Proof.
  revert b. induction a as [|c a IH]; intros b.
  - destruct b; simpl; split; eauto.
  - destruct b as [|d b]; simpl; [split; [discriminate|intros (s & E); discriminate]|].
    destruct (Ascii.ascii_dec c d) as [->|Hne].
    + rewrite IH. split; intros (s & E); exists s.
      * simpl. now rewrite E.
      * simpl in E. now injection E.
    + split; [discriminate|]. intros (s & E). simpl in E. injection E as E1 E2.
      now destruct Hne.
Qed.

Lemma is_substring_spec (a b : string) :
  is_substring a b = true <->
  exists p s, b = String.append p (String.append a s).
Proof.
  induction b as [|d b IH].
  - cbn [is_substring]. rewrite orb_false_r, prefix_spec. split.
    + intros (s & E). exists EmptyString, s. exact E.
    + intros ([|c p] & s & E); [eauto|discriminate].
  - cbn [is_substring]. rewrite orb_true_iff, prefix_spec, IH. split.
    + intros [(s & E)|(p & s & E)].
      * exists EmptyString, s. exact E.
      * exists (String d p), s. simpl. now rewrite E.
    + intros ([|c p] & s & E).
      * left. eauto.
      * right. simpl in E. injection E as _ E. eauto.
Qed.

Lemma ac_hits_In `{PyText} (names : list string) (current h : string) :
  In h (ac_hits names current) ->
  In h names /\ is_substring (py_lower current) (py_lower h) = true.
Proof.
  unfold ac_hits. intros Hh.
  apply (proj1 (filter_In (fun n => is_substring (py_lower current) (py_lower n)) h names)).
  rewrite <- (firstn_skipn 25 (List.filter _ _)). apply in_or_app. now left.
Qed.

Lemma storage_names_for_type_In `{PyText} (guild_id : Z) (type_ : string) (st : StorageTable)
    (h : string) :
  In h (storage_names_for_type guild_id type_ st) <->
  exists x, In x (storages st) /\ st_guild_id x = guild_id /\ st_type x = type_
            /\ st_name x = h.
Proof.
  unfold storage_names_for_type. rewrite in_map_iff. split.
  - intros (x & <- & Hx). apply order_by_In, order_by_In, filter_In in Hx.
    destruct Hx as [Hx Hm]. apply andb_true_iff in Hm. destruct Hm as [Hg Ht].
    apply Z.eqb_eq in Hg. apply String.eqb_eq in Ht. eauto.
  - intros (x & Hx & Hg & Ht & <-). exists x. split; [reflexivity|].
    apply order_by_In, order_by_In, filter_In. split; [assumption|].
    apply andb_true_iff. split; [now apply Z.eqb_eq | now apply String.eqb_eq].
Qed.

(** X22. What autocomplete offers.  The helpers return at most 25 names.
    Each is one of the candidates and contains the typed text, both taken
    in lower case; the names come in the order of the candidates, and when
    no more than 25 candidates contain the text all of them are offered.
    For a storage name the candidates are the storages of the server of the
    request with the type of the command, so a storage of another server or
    of the other type is never offered; outside a server nothing is. *)
Theorem autocomplete_choices `{PyText} (names : list string) (current : string) :
  (length (ac_hits names current) <= 25)%nat
  /\ (forall h, In h (ac_hits names current) ->
        In h names
        /\ exists p s, py_lower h = String.append p (String.append (py_lower current) s))
  /\ (exists rest,
        List.filter (fun n => is_substring (py_lower current) (py_lower n)) names
        = ac_hits names current ++ rest)
  /\ ((length (List.filter (fun n => is_substring (py_lower current) (py_lower n)) names)
       <= 25)%nat ->
      forall n, In n names ->
        (exists p s, py_lower n = String.append p (String.append (py_lower current) s)) ->
        In n (ac_hits names current))
  /\ (forall st i h,
        In h (ac_lager_fbh st i current) ->
        exists g x, interaction_guild i = Some g /\ In x (storages st)
                    /\ st_guild_id x = g /\ st_type x = TYPE_FBH /\ st_name x = h)
  /\ (forall st i h,
        In h (ac_lager_kl st i current) ->
        exists g x, interaction_guild i = Some g /\ In x (storages st)
                    /\ st_guild_id x = g /\ st_type x = TYPE_KL /\ st_name x = h).
Proof.
  split; [|split; [|split; [|split; [|split]]]].
  - unfold ac_hits. rewrite length_firstn. lia.
  - intros h Hh. apply ac_hits_In in Hh. destruct Hh as [Hin Hs]. split; [assumption|].
    now apply is_substring_spec.
  - unfold ac_hits. eexists. symmetry. apply firstn_skipn.
  - unfold ac_hits. intros Hlen n Hn Hsub. rewrite firstn_all2 by assumption.
    apply filter_In. split; [assumption|]. now apply is_substring_spec.
  - intros st i h Hh. unfold ac_lager_fbh in Hh.
    destruct (interaction_guild i) as [g|]; [|destruct Hh].
    apply ac_hits_In in Hh. destruct Hh as [Hh _].
    apply storage_names_for_type_In in Hh. destruct Hh as (x & Hx & Hg & Ht & Hn).
    exists g, x. auto.
  - intros st i h Hh. unfold ac_lager_kl in Hh.
    destruct (interaction_guild i) as [g|]; [|destruct Hh].
    apply ac_hits_In in Hh. destruct Hh as [Hh _].
    apply storage_names_for_type_In in Hh. destruct Hh as (x & Hx & Hg & Ht & Hn).
    exists g, x. auto.
Qed.

Lemma autocomplete_choices_witness :
  In "Thyme" (@ac_hits latin1_text ["Basil"; "Thyme"; "Minze"] "HY")
  /\ (In "Thyme" ["Basil"; "Thyme"; "Minze"]
      /\ exists p s, @py_lower latin1_text "Thyme"
                     = String.append p (String.append (@py_lower latin1_text "HY") s))
  /\ In "Frischbeute" (@ac_lager_fbh latin1_text example_storages
                         {| interaction_guild := Some 9; interaction_member := None |} "fri")
  /\ exists g x, Some 9 = Some g /\ In x (storages example_storages)
                 /\ st_guild_id x = g /\ st_type x = TYPE_FBH /\ st_name x = "Frischbeute".
Proof.
  assert (H1 : In "Thyme" (@ac_hits latin1_text ["Basil"; "Thyme"; "Minze"] "HY"))
    by (vm_compute; auto).
  assert (H2 : In "Frischbeute"
                 (@ac_lager_fbh latin1_text example_storages
                    {| interaction_guild := Some 9; interaction_member := None |} "fri"))
    by (vm_compute; auto).
  pose proof (@autocomplete_choices latin1_text ["Basil"; "Thyme"; "Minze"] "HY")
    as (_ & T2 & _).
  pose proof (@autocomplete_choices latin1_text [] "fri") as (_ & _ & _ & _ & T5 & _).
  split; [exact H1|]. split; [exact (T2 "Thyme" H1)|]. split; [exact H2|].
  exact (T5 example_storages {| interaction_guild := Some 9; interaction_member := None |}
           "Frischbeute" H2).
Defined.

(** ** Tenants *)

Section TenantFacts.
Context `{PyText}.
Variable py_upper : string -> string.
Variable cfg : Config.
Variable keep : Z -> bool.
Variable guild_id : Z.

Lemma untouched_refl (db : DB) : untouched_outside keep guild_id db db.
Proof using Type. unfold untouched_outside. auto. Qed.

Lemma untouched_trans (db1 db2 db3 : DB) :
  untouched_outside keep guild_id db1 db2 -> untouched_outside keep guild_id db2 db3 ->
  untouched_outside keep guild_id db1 db3.
Proof using Type.
  intros (A1 & A2 & A3 & A4) (B1 & B2 & B3 & B4). unfold untouched_outside.
  rewrite B1, B2, B3. do 3 (split; [assumption|]).
  intros g Hg. now rewrite B4, A4.
Qed.

Lemma untouched_with_settings (v : Settings) (db : DB) :
  untouched_outside keep guild_id db
    (with_settings (<[guild_id := v]> (guild_settings db)) db).
Proof using Type.
  unfold untouched_outside. cbn [with_settings fbh_batches kl_herb_lots kl_pantry
                                   guild_settings].
  do 3 (split; [reflexivity|]). intros g Hg. now rewrite lookup_insert_ne.
Qed.

Lemma untouched_ensure (db : DB) :
  untouched_outside keep guild_id db (ensure_settings guild_id db).
Proof using Type.
  unfold ensure_settings. destruct (guild_settings db !! guild_id).
  - apply untouched_refl.
  - apply untouched_with_settings.
Qed.

Lemma untouched_set_saison (s : string) (db : DB) :
  untouched_outside keep guild_id db (set_saison guild_id s db).
Proof using Type.
  unfold set_saison. cbv zeta. rewrite settings_upsert. apply untouched_with_settings.
Qed.

Lemma untouched_set_fbh_saison_verderb (a : bool) (db : DB) :
  untouched_outside keep guild_id db (set_fbh_saison_verderb guild_id a db).
Proof using Type.
  unfold set_fbh_saison_verderb. cbv zeta. rewrite settings_upsert.
  apply untouched_with_settings.
Qed.

Lemma untouched_set_kl_trocknen (a : bool) (db : DB) :
  untouched_outside keep guild_id db (set_kl_trocknen guild_id a db).
Proof using Type.
  unfold set_kl_trocknen. cbv zeta. rewrite settings_upsert. apply untouched_with_settings.
Qed.

Lemma untouched_fbh_add (storage_id : Z) (name : string) (qty user_id now : Z) (db : DB) :
  keep storage_id = false ->
  untouched_outside keep guild_id db (fbh_add storage_id name qty user_id now db).
Proof using Type.
  intros Hk. unfold untouched_outside, fbh_add.
  cbn [fbh_batches kl_herb_lots kl_pantry guild_settings].
  rewrite filter_app. cbn [List.filter batch_storage_id]. rewrite Hk, app_nil_r. auto.
Qed.

Lemma untouched_kl_add_herb (storage_id : Z) (name : string) (qty user_id now : Z) (db : DB) :
  keep storage_id = false ->
  untouched_outside keep guild_id db (kl_add_herb storage_id name qty user_id now db).
Proof using Type.
  intros Hk. unfold untouched_outside, kl_add_herb.
  cbn [fbh_batches kl_herb_lots kl_pantry guild_settings].
  rewrite filter_app. cbn [List.filter lot_storage_id]. rewrite Hk, app_nil_r. auto.
Qed.

Lemma untouched_fbh_take (storage_id : Z) (name : string) (qty : Z) (db : DB) :
  NoDup (map batch_id (fbh_batches db)) -> keep storage_id = false ->
  untouched_outside keep guild_id db (snd (fbh_take storage_id name qty db)).
Proof using Type.
  intros Hnd Hk. unfold untouched_outside.
  destruct (fbh_take_other_tables storage_id name qty db) as (T1 & _ & T3 & _ & T5).
  rewrite T1, T3, T5. split; [|auto].
  apply (filter_filter_sub _ (fun b => negb (batch_matches storage_id (norm_key name) b)));
    [|now apply fbh_take_frame].
  intros b Hb. unfold batch_matches.
  destruct (Z.eqb_spec (batch_storage_id b) storage_id) as [E|N]; [|reflexivity].
  rewrite E in Hb. congruence.
Qed.

Lemma untouched_kl_take_herb (storage_id : Z) (name : string) (qty : Z) (db : DB) :
  NoDup (map lot_id (kl_herb_lots db)) -> keep storage_id = false ->
  untouched_outside keep guild_id db (snd (kl_take_herb storage_id name qty db)).
Proof using Type.
  intros Hnd Hk. unfold untouched_outside.
  destruct (kl_take_herb_other_tables storage_id name qty db) as (T1 & T2 & _ & _ & T5).
  rewrite T1, T2, T5. split; [reflexivity|]. split; [|auto].
  apply (filter_filter_sub _ (fun l => negb (lot_matches storage_id (norm_key name) l)));
    [|now apply kl_take_herb_frame].
  intros l Hl. unfold lot_matches.
  destruct (Z.eqb_spec (lot_storage_id l) storage_id) as [E|N]; [|reflexivity].
  rewrite E in Hl. congruence.
Qed.

Lemma untouched_kl_mark_dried (storage_id cutoff : Z) (db : DB) :
  keep storage_id = false ->
  untouched_outside keep guild_id db (kl_mark_dried_older_than storage_id cutoff db).
Proof using Type.
  intros Hk. unfold untouched_outside, kl_mark_dried_older_than.
  cbn [with_lots fbh_batches kl_herb_lots kl_pantry guild_settings].
  split; [reflexivity|]. split; [|auto].
  induction (kl_herb_lots db) as [|l t IH]; [reflexivity|]. cbn [map List.filter].
  destruct (Z.eqb_spec (lot_storage_id l) storage_id) as [E|N]; cbn [andb].
  - destruct (_ && _); cbn [set_lot_state lot_storage_id]; rewrite E, Hk; exact IH.
  - now rewrite IH.
Qed.

Lemma untouched_kl_apply_drying (storage_id now : Z) (db : DB) :
  keep storage_id = false ->
  untouched_outside keep guild_id db (kl_apply_drying_if_enabled guild_id storage_id now db).
Proof using Type.
  intros Hk. rewrite kl_apply_drying_eq. destruct (kl_trocknen _).
  - eapply untouched_trans; [apply untouched_ensure|]. now apply untouched_kl_mark_dried.
  - apply untouched_ensure.
Qed.

Lemma untouched_subtract_ingredients (storage_id menge : Z) (recipe : list (string * Z))
    (db : DB) :
  db_positive db -> db_keys_ok db -> keep storage_id = false ->
  untouched_outside keep guild_id db
    (snd (subtract_ingredients cfg storage_id menge recipe db)).
Proof using Type.
  intros Hp Hkeys Hk. revert db Hp Hkeys.
  induction recipe as [|[n b] rest IH]; intros db Hp Hkeys; [apply untouched_refl|].
  cbn [subtract_ingredients].
  pose proof (untouched_kl_take_herb storage_id (canonical n (ALLOWED_KL_SET cfg))
                (b * menge) db (proj1 (proj2 (proj2 Hkeys))) Hk) as Hu.
  destruct (kl_take_herb_invariants storage_id (canonical n (ALLOWED_KL_SET cfg))
              (b * menge) db Hp Hkeys) as [Hp' Hk'].
  destruct (kl_take_herb storage_id (canonical n (ALLOWED_KL_SET cfg)) (b * menge) db)
    as [removed db']. cbn [snd] in *.
  destruct (negb (removed =? b * menge)); [exact Hu|].
  eapply untouched_trans; [exact Hu|]. now apply IH.
Qed.

Lemma untouched_pantry_add (storage_id : Z) (name : string) (qty user_id now : Z) (db : DB) :
  keep storage_id = false ->
  untouched_outside keep guild_id db (pantry_add storage_id name qty user_id now db).
Proof using Type.
  intros Hk. unfold untouched_outside.
  destruct (pantry_add_other_tables storage_id name qty user_id now db) as (T1 & T2 & T3).
  rewrite T1, T2, T3. do 2 (split; [reflexivity|]). split; [|auto].
  unfold pantry_add. destruct (List.find _ (kl_pantry db)); cbn [with_pantry kl_pantry].
  - induction (kl_pantry db) as [|r t IH]; [reflexivity|]. cbn [map List.filter].
    unfold pantry_matches at 1 2.
    destruct (Z.eqb_spec (pantry_storage_id r) storage_id) as [E|N]; cbn [andb].
    + destruct (String.eqb _ _); cbn [pantry_storage_id]; rewrite E, Hk; exact IH.
    + now rewrite IH.
  - rewrite filter_app. cbn [List.filter pantry_storage_id]. now rewrite Hk, app_nil_r.
Qed.

Lemma untouched_kl_herstellen (storage_id : Z) (rezept : string) (menge user_id now : Z)
    (db : DB) :
  db_positive db -> db_keys_ok db -> keep storage_id = false ->
  untouched_outside keep guild_id db
    (snd (kl_herstellen cfg guild_id storage_id rezept menge user_id now db)).
Proof using Type.
  intros Hp Hkeys Hk. unfold kl_herstellen.
  destruct (menge <=? 0); [apply untouched_refl|].
  destruct (KL_RECIPES cfg !! rezept) as [recipe|]; [|apply untouched_refl].
  pose proof (untouched_kl_apply_drying storage_id now db Hk) as Hu1.
  destruct (kl_apply_drying_invariants guild_id storage_id now db Hp Hkeys) as [Hp1 Hk1].
  destruct (check_availability cfg storage_id menge recipe _); [|exact Hu1].
  pose proof (untouched_subtract_ingredients storage_id menge recipe _ Hp1 Hk1 Hk) as Hu2.
  destruct (subtract_ingredients cfg storage_id menge recipe _) as [ok db2].
  cbn [snd] in Hu2. destruct ok; cbn [snd].
  - eapply untouched_trans; [exact Hu1|]. eapply untouched_trans; [exact Hu2|].
    now apply untouched_pantry_add.
  - eapply untouched_trans; [exact Hu1|exact Hu2].
Qed.
End TenantFacts.

Section TenantCommands.
Context `{PyText}.
Variable py_upper : string -> string.
Variable cfg : Config.

Lemma storage_get_owned (guild_id : Z) (type_ name : string) (st : StorageTable)
    (storage_id owner : Z) :
  storage_get guild_id type_ name st = Some (storage_id, owner) ->
  negb (storage_of guild_id st storage_id) = false.
Proof using Type.
  intros Eg. apply storage_get_found in Eg. destruct Eg as (x & Hx & E1 & _ & E2 & _).
  apply negb_false_iff. unfold storage_of. apply existsb_exists. exists x.
  split; [assumption|]. apply andb_true_iff. split; now apply Z.eqb_eq.
Qed.

Lemma storage_create_frame (guild_id : Z) (type_ name : string) (owner now : Z)
    (t : StorageTable) (g : Z) (ty n : string) :
  g <> guild_id ->
  storage_get g ty n (snd (storage_create guild_id type_ name owner now t))
  = storage_get g ty n t.
Proof using Type.
  intros Hne. unfold storage_create.
  destruct (existsb _ (storages t)); cbn [snd]; [reflexivity|].
  unfold storage_get. cbn [storages].
  destruct (List.find (storage_is g ty (py_strip n)) (storages t)) as [s|] eqn:Ef.
  - now rewrite (find_app_some _ _ _ _ Ef).
  - rewrite (find_app_none _ _ _ Ef). cbn [List.find].
    destruct (storage_is g ty (py_strip n) _) eqn:Em; [|reflexivity].
    apply storage_is_true in Em. cbn in Em. destruct Em as (E1 & _). congruence.
Qed.

Lemma storage_create_guild (guild_id : Z) (type_ name : string) (owner now : Z)
    (t : StorageTable) (x : Storage) :
  In x (storages (snd (storage_create guild_id type_ name owner now t))) ->
  In x (storages t) \/ st_guild_id x = guild_id.
Proof using Type.
  unfold storage_create. destruct (existsb _ (storages t)); cbn [snd storages]; [auto|].
  intros Hx. apply in_app_or in Hx. destruct Hx as [Hx|[<-|[]]]; auto.
Qed.

Lemma storage_create_keeps (guild_id : Z) (type_ name : string) (owner now : Z)
    (t : StorageTable) (x : Storage) :
  In x (storages t) ->
  In x (storages (snd (storage_create guild_id type_ name owner now t))).
Proof using Type.
  unfold storage_create. destruct (existsb _ (storages t)); cbn [snd storages]; [auto|].
  intros Hx. apply in_or_app. now left.
Qed.

Lemma run_command_ledger_untouched (rq : Request) (st : StorageTable) (db : DB) (g : Z) :
  interaction_guild (req_interaction rq) = Some g ->
  db_positive db -> db_keys_ok db ->
  untouched_outside (fun sid => negb (storage_of g st sid)) g db
    (snd (snd (run_command py_upper cfg rq (st, db)))).
Proof using Type.
  destruct rq as [[guild member] now c]. cbn [req_interaction interaction_guild].
  intros -> Hp Hk.
  pose proof Hk as (K1 & _ & K3 & _).
  unfold run_command, on_ledger, on_storages.
  cbn [fst snd req_interaction req_now req_command].
  destruct c.
  - apply untouched_refl.
  - unfold saison_setzen. cbn [interaction_guild interaction_member].
    destruct member as [m|]; [|apply untouched_refl].
    destruct (negb (is_mod_or_admin m)); [apply untouched_refl|].
    destruct (SAISON_TIMES !! py_strip s); [|apply untouched_refl].
    apply untouched_set_saison.
  - unfold fbh_saison_verderb_command. cbn [interaction_guild interaction_member].
    destruct member as [m|]; [|apply untouched_refl].
    destruct (negb (is_mod_or_admin m)); [apply untouched_refl|].
    apply untouched_set_fbh_saison_verderb.
  - unfold kl_trocknen_command. cbn [interaction_guild interaction_member].
    destruct member as [m|]; [|apply untouched_refl].
    destruct (negb (is_mod_or_admin m)); [apply untouched_refl|].
    apply untouched_set_kl_trocknen.
  - unfold inventar_anzeigen. cbn [interaction_guild interaction_member].
    destruct member as [m|]; [|apply untouched_refl].
    destruct (negb (_ || _)); [apply untouched_refl|].
    destruct (storage_get g _ lager st) as [[sid owner]|] eqn:Eg; [|apply untouched_refl].
    destruct (negb (assert_storage_access m owner)); [apply untouched_refl|].
    destruct (String.eqb _ TYPE_FBH).
    + pose proof (inventar_anzeigen_FBH_db g sid now db) as Ed.
      destruct (inventar_anzeigen_FBH g sid now db) as [r db']. cbn [fst snd] in *.
      rewrite Ed. apply untouched_ensure.
    + destruct (kl_totals_by_state sid _) as [fresh dried]. cbn [fst snd].
      apply untouched_kl_apply_drying. exact (storage_get_owned _ _ _ _ _ _ Eg).
  - unfold fbh_hinzufuegen. cbn [interaction_guild interaction_member].
    destruct member as [m|]; [|apply untouched_refl].
    destruct (menge <=? 0); [apply untouched_refl|].
    destruct (storage_get g TYPE_FBH lager st) as [[sid owner]|] eqn:Eg;
      [|apply untouched_refl].
    destruct (negb (assert_storage_access m owner)); [apply untouched_refl|].
    destruct (negb (is_allowed _ _)); [apply untouched_refl|].
    apply untouched_fbh_add. exact (storage_get_owned _ _ _ _ _ _ Eg).
  - unfold fbh_entnehmen. cbn [interaction_guild interaction_member].
    destruct member as [m|]; [|apply untouched_refl].
    destruct (menge <=? 0); [apply untouched_refl|].
    destruct (storage_get g TYPE_FBH lager st) as [[sid owner]|] eqn:Eg;
      [|apply untouched_refl].
    destruct (negb (assert_storage_access m owner)); [apply untouched_refl|].
    destruct (negb (is_allowed _ _)); [apply untouched_refl|].
    pose proof (untouched_fbh_take (fun sid => negb (storage_of g st sid)) g sid
                  (canonical (apply_aliases_fbh beute) (ALLOWED_FBH_SET cfg)) menge db K1
                  (storage_get_owned _ _ _ _ _ _ Eg)) as Hu.
    destruct (fbh_take sid _ menge db) as [removed db']. exact Hu.
  - unfold kl_hinzufuegen. cbn [interaction_guild interaction_member].
    destruct member as [m|]; [|apply untouched_refl].
    destruct (menge <=? 0); [apply untouched_refl|].
    destruct (storage_get g TYPE_KL lager st) as [[sid owner]|] eqn:Eg;
      [|apply untouched_refl].
    destruct (negb (assert_storage_access m owner)); [apply untouched_refl|].
    destruct (negb (is_allowed _ _)); [apply untouched_refl|].
    pose proof (storage_get_owned _ _ _ _ _ _ Eg) as Hown.
    cbn [fst snd].
    apply (untouched_trans _ _ _ (kl_apply_drying_if_enabled g sid now db));
      [now apply untouched_kl_apply_drying | now apply untouched_kl_add_herb].
  - unfold kl_entnehmen. cbn [interaction_guild interaction_member].
    destruct member as [m|]; [|apply untouched_refl].
    destruct (menge <=? 0); [apply untouched_refl|].
    destruct (storage_get g TYPE_KL lager st) as [[sid owner]|] eqn:Eg;
      [|apply untouched_refl].
    destruct (negb (assert_storage_access m owner)); [apply untouched_refl|].
    destruct (negb (is_allowed _ _)); [apply untouched_refl|].
    pose proof (storage_get_owned _ _ _ _ _ _ Eg) as Hown.
    destruct (kl_apply_drying_invariants g sid now db Hp Hk) as [Hp1 Hk1].
    pose proof (untouched_kl_take_herb (fun sid => negb (storage_of g st sid)) g sid
                  (canonical kraut (ALLOWED_KL_SET cfg)) menge _
                  (proj1 (proj2 (proj2 Hk1))) Hown) as Hu.
    destruct (kl_take_herb sid _ menge _) as [removed db']. cbn [snd] in *.
    apply (untouched_trans _ _ _ (kl_apply_drying_if_enabled g sid now db));
      [now apply untouched_kl_apply_drying | exact Hu].
  - unfold kl_herstellen_command. cbn [interaction_guild interaction_member].
    destruct member as [m|]; [|apply untouched_refl].
    destruct (menge <=? 0); [apply untouched_refl|].
    destruct (storage_get g TYPE_KL lager st) as [[sid owner]|] eqn:Eg;
      [|apply untouched_refl].
    destruct (negb (assert_storage_access m owner)); [apply untouched_refl|].
    pose proof (untouched_kl_herstellen cfg (fun sid => negb (storage_of g st sid)) g sid
                  rezept menge (member_id m) now db Hp Hk
                  (storage_get_owned _ _ _ _ _ _ Eg)) as Hu.
    destruct (kl_herstellen cfg g sid rezept menge (member_id m) now db) as [r db'].
    exact Hu.
Qed.

Lemma run_command_storages (rq : Request) (st : StorageTable) (db : DB) (g : Z) :
  interaction_guild (req_interaction rq) = Some g ->
  (forall x, In x (storages st) ->
             In x (storages (fst (snd (run_command py_upper cfg rq (st, db))))))
  /\ (forall x, In x (storages (fst (snd (run_command py_upper cfg rq (st, db))))) ->
                In x (storages st) \/ st_guild_id x = g)
  /\ (forall g' ty n, g' <> g ->
        storage_get g' ty n (fst (snd (run_command py_upper cfg rq (st, db))))
        = storage_get g' ty n st).
Proof using Type.
  destruct rq as [[guild member] now c]. cbn [req_interaction interaction_guild].
  intros ->.
  unfold run_command, on_ledger, on_storages.
  cbn [fst snd req_interaction req_now req_command].
  destruct c; try (split; [auto|split; [auto|reflexivity]]).
  unfold lager_erstellen. cbn [interaction_guild interaction_member].
  destruct member as [m|]; [|split; [auto|split; [auto|reflexivity]]].
  destruct (negb (is_mod_or_admin m)); [split; [auto|split; [auto|reflexivity]]|].
  destruct (negb (_ || _)); [split; [auto|split; [auto|reflexivity]]|].
  pose proof (storage_create_keeps g (py_upper (py_strip typ)) name rolle now st) as S1.
  pose proof (storage_create_guild g (py_upper (py_strip typ)) name rolle now st) as S2.
  pose proof (fun g' ty n => storage_create_frame g (py_upper (py_strip typ)) name rolle now
                               st g' ty n) as S3.
  destruct (storage_create g (py_upper (py_strip typ)) name rolle now st) as [[id|] st'];
    cbn [fst snd] in *; auto.
Qed.
End TenantCommands.

(** X23. Servers are kept apart.  A request that comes from server [g]
    changes nothing that belongs to another server.  On a ledger with
    positive quantities and unique keys, whatever the command, its
    arguments and its outcome: the batches, lots and pantry rows of every
    storage that is not a storage of [g] are the same rows in the same
    order afterwards, the settings of every other server are the same, no
    storage is removed, a storage that is new belongs to [g], and looking
    up a storage of another server gives the same answer as before. *)
Theorem servers_are_kept_apart `{PyText} (py_upper : string -> string) (cfg : Config)
    (rq : Request) (s : StorageTable * DB) (g : Z) :
  interaction_guild (req_interaction rq) = Some g ->
  db_positive (snd s) -> db_keys_ok (snd s) ->
  untouched_outside (fun sid => negb (storage_of g (fst s) sid)) g (snd s)
    (snd (snd (run_command py_upper cfg rq s)))
  /\ (forall x, In x (storages (fst s)) ->
                In x (storages (fst (snd (run_command py_upper cfg rq s)))))
  /\ (forall x, In x (storages (fst (snd (run_command py_upper cfg rq s)))) ->
                In x (storages (fst s)) \/ st_guild_id x = g)
  /\ (forall g' ty n, g' <> g ->
        storage_get g' ty n (fst (snd (run_command py_upper cfg rq s)))
        = storage_get g' ty n (fst s)).
Proof.
  destruct s as [st db]. cbn [fst snd]. intros Hg Hp Hk.
  split; [now apply run_command_ledger_untouched|].
  now apply run_command_storages.
Qed.

Lemma servers_are_kept_apart_witness :
  let s := @run_session latin1_text ascii_upper example_cfg (firstn 5 example_session)
             (empty_storages, empty_db) in
  let rq := {| req_interaction := {| interaction_guild := Some 8;
                                     interaction_member := Some example_mod |};
               req_now := 60;
               req_command := cmd_lager_erstellen "FBH" "Frischbeute" 55 |} in
  interaction_guild (req_interaction rq) = Some 8
  /\ db_positive (snd s) /\ db_keys_ok (snd s)
  /\ fst (@run_command latin1_text ascii_upper example_cfg rq s)
     = lager_erstellt "FBH" "Frischbeute"
  /\ (9 <> 8 ->
      @storage_get latin1_text 9 "FBH" "Frischbeute"
        (fst (snd (@run_command latin1_text ascii_upper example_cfg rq s)))
      = @storage_get latin1_text 9 "FBH" "Frischbeute" (fst s)).
Proof.
  intros s rq.
  assert (H1 : interaction_guild (req_interaction rq) = Some 8) by reflexivity.
  pose proof (@run_session_ok latin1_text ascii_upper example_cfg (firstn 5 example_session)
                (empty_storages, empty_db) (@empty_state_ok latin1_text example_cfg))
    as (_ & _ & H2 & H3 & _).
  split; [exact H1|]. split; [exact H2|]. split; [exact H3|].
  split; [vm_compute; reflexivity|].
  exact (proj2 (proj2 (proj2 (@servers_are_kept_apart latin1_text ascii_upper example_cfg
                                rq s 8 H1 H2 H3))) 9 "FBH" "Frischbeute").
Defined.

(** ** Showing an inventory *)

Lemma kl_apply_drying_fresh_is_young `{PyText} (guild_id storage_id now : Z) (db : DB)
    (l : Lot) :
  kl_trocknen (fst (get_settings guild_id db)) = true ->
  In l (kl_herb_lots (kl_apply_drying_if_enabled guild_id storage_id now db)) ->
  lot_storage_id l = storage_id -> lot_state l = frisch ->
  now - 7 * 24 * 60 * 60 < lot_added_at l.
Proof.
  intros Hon Hin Hs Hf. rewrite kl_apply_drying_eq, Hon in Hin.
  unfold kl_mark_dried_older_than in Hin. cbn [with_lots kl_herb_lots] in Hin.
  apply in_map_iff in Hin. destruct Hin as (l0 & E & _).
  destruct ((lot_storage_id l0 =? storage_id) && lot_state_eqb (lot_state l0) frisch
            && (lot_added_at l0 <=? now - 7 * 24 * 60 * 60)) eqn:Ec.
  - subst l. cbn in Hf. discriminate.
  - subst l0. rewrite (proj2 (Z.eqb_eq _ _) Hs), Hf in Ec. cbn in Ec.
    now apply Z.leb_gt in Ec.
Qed.

(** X24. Showing an inventory changes no quantity.  Whatever the request
    and its outcome, after [inventar_anzeigen] the batches and the pantry
    are as before, every lot is in its place with its id, storage, key,
    display, quantity and time, and all available totals are the same.  The
    reply for a KL storage is computed after the drying step: its text is
    built from the fresh and dried totals and the pantry of the database
    the command leaves behind; it is that text in full when it has at most
    1800 characters, and otherwise its first 1800 characters followed by a
    line that says so.  With drying switched on every lot of the storage
    that is still fresh afterwards is younger than seven days. *)
Theorem showing_an_inventory `{PyText} (py_upper : string -> string) (st : StorageTable)
    (i : Interaction) (typ lager : string) (now : Z) (db : DB) :
  fbh_batches (snd (inventar_anzeigen st py_upper i typ lager now db)) = fbh_batches db
  /\ kl_pantry (snd (inventar_anzeigen st py_upper i typ lager now db)) = kl_pantry db
  /\ map lot_columns (kl_herb_lots (snd (inventar_anzeigen st py_upper i typ lager now db)))
     = map lot_columns (kl_herb_lots db)
  /\ (forall sid k,
        kl_total_available sid k (snd (inventar_anzeigen st py_upper i typ lager now db))
        = kl_total_available sid k db)
  /\ (forall text,
        fst (inventar_anzeigen st py_upper i typ lager now db) = inventar_kl text ->
        exists g sid owner,
          interaction_guild i = Some g
          /\ storage_get g TYPE_KL lager st = Some (sid, owner)
          /\ snd (inventar_anzeigen st py_upper i typ lager now db)
             = kl_apply_drying_if_enabled g sid now db
          /\ text
             = cut_1800
                 (kl_inventar_text lager
                    (fst (kl_totals_by_state sid
                            (snd (inventar_anzeigen st py_upper i typ lager now db))))
                    (snd (kl_totals_by_state sid
                            (snd (inventar_anzeigen st py_upper i typ lager now db))))
                    (pantry_list sid
                       (snd (inventar_anzeigen st py_upper i typ lager now db))))
          /\ (py_len
                (kl_inventar_text lager
                   (fst (kl_totals_by_state sid
                           (snd (inventar_anzeigen st py_upper i typ lager now db))))
                   (snd (kl_totals_by_state sid
                           (snd (inventar_anzeigen st py_upper i typ lager now db))))
                   (pantry_list sid
                      (snd (inventar_anzeigen st py_upper i typ lager now db))))
              <= 1800 ->
              text
              = kl_inventar_text lager
                  (fst (kl_totals_by_state sid
                          (snd (inventar_anzeigen st py_upper i typ lager now db))))
                  (snd (kl_totals_by_state sid
                          (snd (inventar_anzeigen st py_upper i typ lager now db))))
                  (pantry_list sid
                     (snd (inventar_anzeigen st py_upper i typ lager now db))))
          /\ (kl_trocknen (fst (get_settings g db)) = true ->
              forall l,
                In l (kl_herb_lots (snd (inventar_anzeigen st py_upper i typ lager now db))) ->
                lot_storage_id l = sid -> lot_state l = frisch ->
                now - 7 * 24 * 60 * 60 < lot_added_at l)).
Proof.
  assert (Hcols : map lot_columns
                    (kl_herb_lots (snd (inventar_anzeigen st py_upper i typ lager now db)))
                  = map lot_columns (kl_herb_lots db)
                  /\ fbh_batches (snd (inventar_anzeigen st py_upper i typ lager now db))
                     = fbh_batches db
                  /\ kl_pantry (snd (inventar_anzeigen st py_upper i typ lager now db))
                     = kl_pantry db).
  { unfold inventar_anzeigen.
    destruct (interaction_guild i) as [g|], (interaction_member i) as [m|]; auto.
    destruct (negb (_ || _)); [auto|].
    destruct (storage_get g _ lager st) as [[sid owner]|]; [|auto].
    destruct (negb (assert_storage_access m owner)); [auto|].
    destruct (String.eqb _ TYPE_FBH).
    - pose proof (inventar_anzeigen_FBH_db g sid now db) as Ed.
      destruct (inventar_anzeigen_FBH g sid now db) as [r db']. cbn [fst snd] in *.
      rewrite Ed. destruct (ensure_settings_tables g db) as (T1 & _ & T3 & _ & T5).
      now rewrite T1, T3, T5.
    - destruct (kl_totals_by_state sid _) as [fresh dried]. cbn [fst snd].
      apply kl_apply_drying_columns. }
  destruct Hcols as (C1 & C2 & C3).
  split; [exact C2|]. split; [exact C3|]. split; [exact C1|].
  split; [intros sid k; now apply kl_total_available_columns|].
  intros text. unfold inventar_anzeigen.
  destruct (interaction_guild i) as [g|], (interaction_member i) as [m|];
    try (cbn; discriminate).
  destruct (negb (_ || _)) eqn:Et; [cbn; discriminate|].
  destruct (String.eqb (py_upper (py_strip typ)) TYPE_FBH) eqn:Ef.
  { destruct (storage_get g _ lager st) as [[sid owner]|]; [|cbn; discriminate].
    destruct (negb (assert_storage_access m owner)); [cbn; discriminate|].
    destruct (inventar_anzeigen_FBH g sid now db) as [r db']. cbn. discriminate. }
  apply negb_false_iff in Et. cbn [orb] in Et. apply String.eqb_eq in Et. rewrite Et.
  destruct (storage_get g TYPE_KL lager st) as [[sid owner]|] eqn:Eg; [|cbn; discriminate].
  destruct (negb (assert_storage_access m owner)); [cbn; discriminate|].
  destruct (kl_totals_by_state sid (kl_apply_drying_if_enabled g sid now db))
    as [fr dr] eqn:Ek.
  cbn [fst snd]. intros E. injection E as <-.
  exists g, sid, owner. rewrite Ek. cbn [fst snd].
  split; [reflexivity|]. split; [exact Eg|]. do 2 (split; [reflexivity|]).
  split.
  - intros Hlen. unfold cut_1800. now rewrite (proj2 (Z.ltb_ge _ _) Hlen).
  - intros Hon l Hl Hs Hst. now apply (kl_apply_drying_fresh_is_young g sid now db l).
Qed.

Lemma showing_an_inventory_witness :
  let i := {| interaction_guild := Some 9; interaction_member := Some example_mod |} in
  let db := kl_mark_dried_older_than 2 0
              (@kl_add_herb latin1_text 2 "Basil" 4 42 900000
                 (@kl_add_herb latin1_text 2 "Basil" 5 42 100
                    (set_kl_trocknen 9 true empty_db))) in
  fst (@inventar_anzeigen latin1_text example_storages ascii_upper i " kl" "Kräuterlager"
         1000000 db)
  = inventar_kl (kl_inventar_text "Kräuterlager" [("Basil", 4)] [("Basil", 5)] [])
  /\ py_len (kl_inventar_text "Kräuterlager" [("Basil", 4)] [("Basil", 5)] []) = 117
  /\ exists g sid owner,
       interaction_guild i = Some g
       /\ @storage_get latin1_text g TYPE_KL "Kräuterlager" example_storages = Some (sid, owner)
       /\ snd (@inventar_anzeigen latin1_text example_storages ascii_upper i " kl"
                 "Kräuterlager" 1000000 db)
          = kl_apply_drying_if_enabled g sid 1000000 db.
Proof.
  intros i db.
  assert (H1 : fst (@inventar_anzeigen latin1_text example_storages ascii_upper i " kl"
                      "Kräuterlager" 1000000 db)
               = inventar_kl (kl_inventar_text "Kräuterlager" [("Basil", 4)] [("Basil", 5)] []))
    by (vm_compute; reflexivity).
  split; [exact H1|]. split; [vm_compute; reflexivity|].
  destruct (proj2 (proj2 (proj2 (proj2
              (@showing_an_inventory latin1_text ascii_upper example_storages i " kl"
                 "Kräuterlager" 1000000 db)))) _ H1)
    as (g & sid & owner & E1 & E2 & E3 & _).
  exists g, sid, owner. auto.
Defined.

(** ** Adding and taking through the commands *)

Section RoundTrips.
Context `{PyText}.
Variable cfg : Config.
Variable st : StorageTable.

Lemma kl_add_herb_total (storage_id : Z) (name : string) (qty user_id now : Z) (db : DB) :
  kl_total_available storage_id (norm_key name)
    (kl_add_herb storage_id name qty user_id now db)
  = kl_total_available storage_id (norm_key name) db + qty.
Proof using Type.
  unfold kl_total_available, kl_add_herb. cbn [kl_herb_lots].
  rewrite filter_app, map_app, sum_Z_app. cbn [List.filter].
  unfold lot_matches at 2. cbn [lot_storage_id lot_herb_key].
  rewrite Z.eqb_refl, String.eqb_refl. cbn. lia.
Qed.

Lemma fbh_hinzufuegen_accepted (i : Interaction) (lager beute : string) (menge now : Z)
    (db : DB) (c : string) (m : Z) (l : string) :
  fst (fbh_hinzufuegen cfg st i lager beute menge now db) = hinzugefuegt c m l ->
  exists g member sid owner,
    interaction_guild i = Some g /\ interaction_member i = Some member
    /\ 0 < menge
    /\ storage_get g TYPE_FBH lager st = Some (sid, owner)
    /\ assert_storage_access member owner = true
    /\ is_allowed (apply_aliases_fbh beute) (ALLOWED_FBH_SET cfg) = true
    /\ c = canonical (apply_aliases_fbh beute) (ALLOWED_FBH_SET cfg)
    /\ snd (fbh_hinzufuegen cfg st i lager beute menge now db)
       = fbh_add sid c menge (member_id member) now db.
Proof using Type.
  unfold fbh_hinzufuegen.
  destruct (interaction_guild i) as [g|], (interaction_member i) as [member|];
    try (cbn; discriminate).
  destruct (Z.leb_spec menge 0) as [Hle|Hgt]; [cbn; discriminate|].
  destruct (storage_get g TYPE_FBH lager st) as [[sid owner]|] eqn:Es; [|cbn; discriminate].
  destruct (assert_storage_access member owner) eqn:Ea; [|cbn; discriminate].
  destruct (is_allowed _ _) eqn:El; [|cbn; discriminate].
  cbn. intros E. injection E as <- _ _. exists g, member, sid, owner.
  repeat split; auto.
Qed.

Lemma kl_hinzufuegen_accepted (i : Interaction) (lager kraut : string) (menge now : Z)
    (db : DB) (c : string) (m : Z) (l : string) :
  fst (kl_hinzufuegen cfg st i lager kraut menge now db) = hinzugefuegt c m l ->
  exists g member sid owner,
    interaction_guild i = Some g /\ interaction_member i = Some member
    /\ 0 < menge
    /\ storage_get g TYPE_KL lager st = Some (sid, owner)
    /\ assert_storage_access member owner = true
    /\ is_allowed kraut (ALLOWED_KL_SET cfg) = true
    /\ c = canonical kraut (ALLOWED_KL_SET cfg)
    /\ snd (kl_hinzufuegen cfg st i lager kraut menge now db)
       = kl_add_herb sid c menge (member_id member) now
           (kl_apply_drying_if_enabled g sid now db).
Proof using Type.
  unfold kl_hinzufuegen.
  destruct (interaction_guild i) as [g|], (interaction_member i) as [member|];
    try (cbn; discriminate).
  destruct (Z.leb_spec menge 0) as [Hle|Hgt]; [cbn; discriminate|].
  destruct (storage_get g TYPE_KL lager st) as [[sid owner]|] eqn:Es; [|cbn; discriminate].
  destruct (assert_storage_access member owner) eqn:Ea; [|cbn; discriminate].
  destruct (is_allowed _ _) eqn:El; [|cbn; discriminate].
  cbn. intros E. injection E as <- _ _. exists g, member, sid, owner.
  repeat split; auto.
Qed.
End RoundTrips.

(** X25. What is added can be taken out.  After [fbh_hinzufuegen] has
    accepted an amount, [fbh_entnehmen] by the same member with the same
    storage and prey (the same text, so the same alias and spelling) and
    any amount [menge' > 0] is accepted too and reports the canonical name
    and [min(menge', stock before + amount added)]; asking for the amount
    just added returns all of it.  The same holds for [kl_hinzufuegen]
    followed by [kl_entnehmen], with the total of fresh and dried lots,
    whatever the drying step does in between.  The ledger is assumed to
    hold positive quantities and unique keys. *)
Theorem added_can_be_taken_out `{PyText} (cfg : Config) (st : StorageTable) (i : Interaction)
    (lager name : string) (menge menge' now now' : Z) (db : DB) (c : string) :
  db_positive db -> db_keys_ok db -> 0 < menge' ->
  (fst (fbh_hinzufuegen cfg st i lager name menge now db) = hinzugefuegt c menge lager ->
   exists g sid owner,
     interaction_guild i = Some g /\ storage_get g TYPE_FBH lager st = Some (sid, owner)
     /\ In c (ALLOWED_FBH_PREY cfg)
     /\ fst (fbh_entnehmen cfg st i lager name menge'
               (snd (fbh_hinzufuegen cfg st i lager name menge now db)))
        = entnommen c (Z.min menge' (fbh_stock sid (norm_key c) db + menge)) lager
     /\ menge <= fbh_stock sid (norm_key c) db + menge)
  /\ (fst (kl_hinzufuegen cfg st i lager name menge now db) = hinzugefuegt c menge lager ->
      exists g sid owner,
        interaction_guild i = Some g /\ storage_get g TYPE_KL lager st = Some (sid, owner)
        /\ In c (ALLOWED_KL_HERBS cfg)
        /\ fst (kl_entnehmen cfg st i lager name menge' now'
                  (snd (kl_hinzufuegen cfg st i lager name menge now db)))
           = entnommen c (Z.min menge' (kl_total_available sid (norm_key c) db + menge)) lager
        /\ menge <= kl_total_available sid (norm_key c) db + menge).
Proof.
  intros Hp Hk Hq'. split.
  - intros Hacc.
    destruct (fbh_hinzufuegen_accepted cfg st i lager name menge now db c menge lager Hacc)
      as (g & member & sid & owner & Eg & Em & Hq & Es & Ea & El & Ec & Edb).
    exists g, sid, owner. split; [exact Eg|]. split; [exact Es|].
    split; [rewrite Ec; now apply canonical_in_list|].
    destruct (fbh_add_invariants sid c menge (member_id member) now db Hq Hp Hk)
      as [Hp1 Hk1].
    destruct (fbh_take_facts sid c menge' (fbh_add sid c menge (member_id member) now db)
                ltac:(lia) (proj1 Hk1) (proj1 Hp1)) as (F1 & _).
    rewrite fbh_add_stock, String.eqb_refl in F1.
    split.
    + rewrite Edb. unfold fbh_entnehmen. rewrite Eg, Em, Es, Ea, El.
      rewrite (proj2 (Z.leb_gt menge' 0) Hq'). cbn [negb]. rewrite <- Ec.
      destruct (fbh_take sid c menge' _) as [removed db']. cbn [fst] in *. now rewrite F1.
    + assert (0 <= fbh_stock sid (norm_key c) db); [|lia].
      unfold fbh_stock. apply sum_Z_nonneg. destruct Hp as (P1 & _).
      rewrite Forall_map, Forall_forall in *. intros b Hb. apply filter_In in Hb.
      apply P1, Hb.
  - intros Hacc.
    destruct (kl_hinzufuegen_accepted cfg st i lager name menge now db c menge lager Hacc)
      as (g & member & sid & owner & Eg & Em & Hq & Es & Ea & El & Ec & Edb).
    exists g, sid, owner. split; [exact Eg|]. split; [exact Es|].
    split; [rewrite Ec; now apply canonical_in_list|].
    destruct (kl_apply_drying_invariants g sid now db Hp Hk) as [Hp0 Hk0].
    destruct (kl_add_herb_invariants sid c menge (member_id member) now _ Hq Hp0 Hk0)
      as [Hp1 Hk1].
    destruct (kl_apply_drying_invariants g sid now'
                (kl_add_herb sid c menge (member_id member) now
                   (kl_apply_drying_if_enabled g sid now db)) Hp1 Hk1) as [Hp2 Hk2].
    destruct (kl_take_herb_facts sid c menge' _ ltac:(lia)
                (proj1 (proj2 (proj2 Hk2))) (proj1 (proj2 Hp2))) as (F1 & _).
    rewrite (kl_total_available_columns sid (norm_key c) _ _
               (proj1 (kl_apply_drying_columns g sid now' _))) in F1.
    rewrite kl_add_herb_total in F1.
    rewrite (kl_total_available_columns sid (norm_key c) _ _
               (proj1 (kl_apply_drying_columns g sid now db))) in F1.
    split.
    + rewrite Edb. unfold kl_entnehmen. rewrite Eg, Em, Es, Ea, El.
      rewrite (proj2 (Z.leb_gt menge' 0) Hq'). cbn [negb]. rewrite <- Ec.
      destruct (kl_take_herb sid c menge' _) as [removed db']. cbn [fst] in *.
      now rewrite F1.
    + assert (0 <= kl_total_available sid (norm_key c) db); [|lia].
      unfold kl_total_available. apply sum_Z_nonneg. destruct Hp as (_ & P2 & _).
      rewrite Forall_map, Forall_forall in *. intros l Hl. apply filter_In in Hl.
      apply P2, Hl.
Qed.

Lemma added_can_be_taken_out_witness :
  let i := {| interaction_guild := Some 9; interaction_member := Some example_hunter |} in
  db_positive example_fifo_db /\ db_keys_ok example_fifo_db /\ 0 < 20
  /\ fst (@fbh_hinzufuegen latin1_text example_cfg example_storages i "Frischbeute" "MAUS"
            4 300 example_fifo_db)
     = hinzugefuegt "Maus (allgemein)" 4 "Frischbeute"
  /\ exists g sid owner,
       interaction_guild i = Some g
       /\ @storage_get latin1_text g TYPE_FBH "Frischbeute" example_storages = Some (sid, owner)
       /\ In "Maus (allgemein)" (@ALLOWED_FBH_PREY latin1_text example_cfg)
       /\ fst (@fbh_entnehmen latin1_text example_cfg example_storages i "Frischbeute" "MAUS" 20
                 (snd (@fbh_hinzufuegen latin1_text example_cfg example_storages i
                         "Frischbeute" "MAUS" 4 300 example_fifo_db)))
          = entnommen "Maus (allgemein)"
              (Z.min 20 (fbh_stock sid (@norm_key latin1_text "Maus (allgemein)")
                           example_fifo_db + 4))
              "Frischbeute"
       /\ 4 <= fbh_stock sid (@norm_key latin1_text "Maus (allgemein)") example_fifo_db + 4.
Proof.
  intros i.
  assert (H1 : db_positive example_fifo_db).
  { unfold db_positive, example_fifo_db. simpl. repeat split; repeat constructor; simpl; lia. }
  assert (H2 : db_keys_ok example_fifo_db).
  { unfold db_keys_ok. split; [concrete_NoDup|]. split; [|split; [concrete_NoDup|]].
    - unfold example_fifo_db. simpl. repeat constructor; simpl; lia.
    - split; [apply Forall_nil|concrete_NoDup]. }
  assert (H3 : 0 < 20) by lia.
  assert (H4 : fst (@fbh_hinzufuegen latin1_text example_cfg example_storages i "Frischbeute"
                      "MAUS" 4 300 example_fifo_db)
               = hinzugefuegt "Maus (allgemein)" 4 "Frischbeute") by (vm_compute; reflexivity).
  split; [exact H1|]. split; [exact H2|]. split; [exact H3|]. split; [exact H4|].
  exact (proj1 (@added_can_be_taken_out latin1_text example_cfg example_storages i
                  "Frischbeute" "MAUS" 4 20 300 0 example_fifo_db "Maus (allgemein)"
                  H1 H2 H3) H4).
Defined.
